(** * nvidia-driver-manager: the probe, version-resolution, backup and
      request-dispatch logic of [nvidia_driver_manager.py], embedded in Rocq.

    Python values are modelled as follows.
    - [str] is [string]; texts are taken over the ASCII range, ordered by
      character code ([String.compare]), as Python orders code points.
    - [int] is [Z]; a return code is a [Z].
    - An exception is a value of [exn]; a computation that may raise and
      that reads or changes the program's objects is an [M A]: a function
      from the [World] to a result ([Val] or [Raise]) and the next [World].
      Only subclasses of Python's [Exception] are modelled.
    - The host (what a child process answers) is the section variable
      [os_exec]; every child process started is recorded in the world's
      [trace]. *)

From Stdlib Require Import List String Ascii ZArith Lia Bool Arith.
From Stdlib Require Import Sorting.Sorted Sorting.Permutation.
From Stdlib Require DecimalString.
Import ListNotations.
Open Scope string_scope.
Open Scope list_scope.
Open Scope nat_scope.

Set Implicit Arguments.

(** Concatenation of texts, written apart from the concatenation of lists. *)
Infix "+:+" := String.append (at level 60, right associativity).

(* ====================================================================== *)
(** ** Python strings *)
(* ====================================================================== *)

Module PyStr.

(** [c in s] for a one-character [c]. *)
Fixpoint contains_char (c : ascii) (s : string) : bool :=
  match s with
  | EmptyString => false
  | String a s' => if Ascii.eqb a c then true else contains_char c s'
  end.

(** [s.startswith(p)]. *)
Definition startswith (s p : string) : bool := String.prefix p s.

(** [p in s] for texts. *)
Fixpoint contains (p s : string) : bool :=
  if String.prefix p s then true
  else match s with
       | EmptyString => false
       | String _ s' => contains p s'
       end.

(** [s.split(c)] for a one-character separator: the pieces between the
    separators, always at least one piece. *)
Fixpoint split_by (f : ascii -> bool) (s : string) : list string :=
  match s with
  | EmptyString => [EmptyString]
  | String a s' =>
      if f a then EmptyString :: split_by f s'
      else match split_by f s' with
           | [] => [String a EmptyString]
           | p :: ps => String a p :: ps
           end
  end.

Definition split (c : ascii) (s : string) : list string := split_by (Ascii.eqb c) s.

(** [str.isspace] on the ASCII range: tab, LF, VT, FF, CR, FS, GS, RS, US
    and the blank. *)
Definition isspace (a : ascii) : bool :=
  let n := nat_of_ascii a in
  ((9 <=? n) && (n <=? 13)) || ((28 <=? n) && (n <=? 32)).

Fixpoint lstrip_by (f : ascii -> bool) (s : string) : string :=
  match s with
  | EmptyString => EmptyString
  | String a s' => if f a then lstrip_by f s' else s
  end.

Fixpoint rstrip_by (f : ascii -> bool) (s : string) : string :=
  match s with
  | EmptyString => EmptyString
  | String a s' =>
      match rstrip_by f s' with
      | EmptyString => if f a then EmptyString else String a EmptyString
      | r => String a r
      end
  end.

(** Truthiness of a text: [if s]. *)
Definition truthy (s : string) : bool :=
  match s with EmptyString => false | _ => true end.

(** [s.split()]: the words between runs of blanks. *)
Definition split_ws (s : string) : list string := filter truthy (split_by isspace s).

(** [s.strip()], [s.strip(c)] and [s.rstrip(c)]. *)
Definition strip (s : string) : string := rstrip_by isspace (lstrip_by isspace s).
Definition strip_char (c : ascii) (s : string) : string :=
  rstrip_by (Ascii.eqb c) (lstrip_by (Ascii.eqb c) s).
Definition rstrip_char (c : ascii) (s : string) : string := rstrip_by (Ascii.eqb c) s.

(** [s.lower()] on the ASCII range. *)
Definition lower_char (a : ascii) : ascii :=
  let n := nat_of_ascii a in
  if (65 <=? n) && (n <=? 90) then ascii_of_nat (n + 32) else a.

Fixpoint lower (s : string) : string :=
  match s with
  | EmptyString => EmptyString
  | String a s' => String (lower_char a) (lower s')
  end.

(** [sep.join(l)]. *)
Definition join (sep : string) (l : list string) : string := String.concat sep l.

Definition is_digit (a : ascii) : bool :=
  let n := nat_of_ascii a in (48 <=? n) && (n <=? 57).

Fixpoint all_digits (s : string) : bool :=
  match s with
  | EmptyString => true
  | String a s' => is_digit a && all_digits s'
  end.

Fixpoint digits_value (acc : Z) (s : string) : Z :=
  match s with
  | EmptyString => acc
  | String a s' => digits_value (10 * acc + (Z.of_nat (nat_of_ascii a) - 48))%Z s'
  end.

(** [int(s)] for a text of code points below 256: the blanks [int] passes
    over around the number (tab, LF, VT, FF, CR, the blank, and of the
    code points above 127 the next-line and the no-break blank) are
    dropped, one sign may lead, and the digits may be grouped by single
    underscores between them. [int_digits] gives the sign and the digits
    of such a text; [None] stands for a text [int] rejects as no
    literal. *)
Definition int_space (a : ascii) : bool :=
  let n := nat_of_ascii a in
  ((9 <=? n) && (n <=? 13)) || (n =? 32) || (n =? 133) || (n =? 160).

Fixpoint grouped_digits (after_digit : bool) (s : string) : option string :=
  match s with
  | EmptyString => if after_digit then Some EmptyString else None
  | String a s' =>
      if is_digit a then
        match grouped_digits true s' with
        | Some d => Some (String a d)
        | None => None
        end
      else if Ascii.eqb a "_" && after_digit then grouped_digits false s'
      else None
  end.

Definition int_digits (s : string) : option (bool * string) :=
  let t := rstrip_by int_space (lstrip_by int_space s) in
  let signed :=
    match t with
    | String a r =>
        if Ascii.eqb a "-" then (true, r)
        else if Ascii.eqb a "+" then (false, r)
        else (false, t)
    | EmptyString => (false, t)
    end in
  match grouped_digits false (snd signed) with
  | Some d => Some (fst signed, d)
  | None => None
  end.

(** The limit [sys.get_int_max_str_digits()] starts with: [int] refuses a
    literal of more digits. *)
Definition INT_MAX_STR_DIGITS : nat := 4300.

(** [int(s)]; [None] stands for the [ValueError] Python raises on a text
    that is no literal and on a literal of more than [INT_MAX_STR_DIGITS]
    digits. *)
Definition int (s : string) : option Z :=
  match int_digits s with
  | Some (negative, d) =>
      if INT_MAX_STR_DIGITS <? String.length d then None
      else Some (if negative then (- digits_value 0%Z d)%Z else digits_value 0%Z d)
  | None => None
  end.

(** [str(n)] for a natural number and for an integer. *)
Definition str_of_nat (n : nat) : string :=
  DecimalString.NilZero.string_of_uint (Nat.to_uint n).

Definition str_of_Z (z : Z) : string :=
  DecimalString.NilZero.string_of_int (Z.to_int z).

End PyStr.

(* ====================================================================== *)
(** ** Exceptions, the world and the monad of effects *)
(* ====================================================================== *)

Inductive exn : Type :=
| TimeoutExpired
| ValueError (msg : string)
| TypeError (msg : string)
| IndexError (msg : string)
| AttributeError (msg : string)
| OSError (msg : string)
| RecursionError (msg : string).

(** [str(e)]. *)
Definition str_of_exn (e : exn) : string :=
  match e with
  | TimeoutExpired => "Command timed out"
  | ValueError m | TypeError m | IndexError m | AttributeError m | OSError m
  | RecursionError m => m
  end.

Inductive Exc (A : Type) : Type :=
| Val (a : A)
| Raise (e : exn).
Arguments Raise {A} e.

(** What [subprocess.run] is asked for: the argument vector, the text fed
    to standard input and the time limit (the other keyword arguments are
    the constants [capture_output=True, text=True, check=False]). *)
Record Invocation : Type := mkInvocation {
  argv : list string;
  input : option string;
  timeout : option Z
}.

(** What the host does with a child process: it exits, it exceeds the time
    limit, or it cannot be started at all. [None] for a stream stands for
    Python's [None]. *)
Inductive ProcOutcome : Type :=
| Exited (returncode : Z) (stdout stderr : option string)
| TimedOut
| NotStarted (e : exn).

Record CompletedProcess : Type := mkCompleted {
  returncode : Z;
  stdout : option string;
  stderr : option string
}.

(** The tuple [run_command] returns. *)
Definition CommandResult : Type := (Z * string * string)%type.
Definition rc_of (r : CommandResult) : Z := fst (fst r).
Definition out_of (r : CommandResult) : string := snd (fst r).
Definition err_of (r : CommandResult) : string := snd r.

(** JSON values, as [json.dump] writes and [json.load] reads them. *)
#[warnings="-register-all"]
Inductive json : Type :=
| JNull
| JBool (b : bool)
| JNum (z : Z)
| JStr (s : string)
| JList (l : list json)
| JObj (fields : list (string * json)).

(** What a file of [BACKUP_DIR] holds: a JSON document, or a text that is
    none, as a write that failed half-way leaves it (an empty or cut-off
    file, on which [json.load] raises). *)
Inductive Content : Type :=
| Document (data : json)
| Broken.

(** A reading of the wall clock ([datetime.now()]). *)
Record DateTime : Type := mkDateTime {
  year : Z; month : Z; day : Z;
  hour : Z; minute : Z; second : Z; microsecond : Z
}.

(** The fields of [SystemManager] set by [__init__] and by the probes. *)
Record SystemManager : Type := mkSystemManager {
  demo_mode : bool;
  distro_name : string;
  distro_family : string;
  nvidia_arch : string;
  gpu_present : bool;
  gpu_model : string;
  current_driver : string;
  _fedora_repo_version_cache : option string;
  _dnf_cmd : option string
}.

(** The slot a window method connects to [thread.finished], with the
    values its closure holds. *)
Inductive FinishedSlot : Type :=
| OnNvkFinished
| OnRepoFinished (ver : string)
| OnRepoLatestFinished (ver : string)
| OnRunFinished (version : string)
| OnFinished.

(** An [InstallationThread]: its constructor arguments, [restart_needed],
    whether it is running ([isRunning()]: started and [run] not yet left)
    and the slot connected to its [finished] signal. *)
Record InstallationThread : Type := mkThread {
  install_type : string;
  params : list (string * json);
  restart_needed : bool;
  is_running : bool;
  finished_slot : FinishedSlot
}.

(** Things the program does to its surroundings, in the order it does
    them. *)
Inductive Event : Type :=
| EvProc (inv : Invocation)            (* a child process is run *)
| EvWrite (path : string)              (* a file is written *)
| EvUnlink (path : string)             (* a file is deleted *)
| EvBackupWrite (name : string)        (* a record is written into [BACKUP_DIR] *)
| EvBackupUnlink (name : string)       (* a record of [BACKUP_DIR] is deleted *)
| EvThreadStart (tid : nat)            (* [thread.start()] *)
| EvProgress (percent : nat)           (* [progress.emit(n)] *)
| EvAskRestart                         (* [ask_restart.emit()] *)
| EvFinished (tid : nat) (code : Z).   (* [finished.emit(code)] *)

(** The objects the modelled code reads and changes. [backup_dir] is the
    content of [BACKUP_DIR]: file names with what each file holds.
    [threads] are the [InstallationThread] objects created so far;
    [_install_thread] refers to one of them by position. *)
Record World : Type := mkWorld {
  system : SystemManager;
  trace : list Event;
  backup_dir : list (string * Content);
  now : DateTime;
  log_text : list (string * string);
  current_log_file : option string;
  _sudo_password : option string;
  _install_thread : option nat;
  threads : list InstallationThread;
  history : list json
}.

Definition M (A : Type) : Type := World -> Exc A * World.

Definition ret {A} (a : A) : M A := fun w => (Val a, w).

Definition bind {A B} (m : M A) (k : A -> M B) : M B :=
  fun w => match m w with
           | (Val a, w') => k a w'
           | (Raise e, w') => (Raise e, w')
           end.

Definition raise {A} (e : exn) : M A := fun w => (Raise e, w).

(** [try: m  except Exception as e: h e]. *)
Definition try_except {A} (m : M A) (h : exn -> M A) : M A :=
  fun w => match m w with
           | (Val a, w') => (Val a, w')
           | (Raise e, w') => h e w'
           end.

Definition get_world : M World := fun w => (Val w, w).
Definition put_world (w : World) : M unit := fun _ => (Val tt, w).
Definition modify (f : World -> World) : M unit := fun w => (Val tt, f w).

Declare Scope py_scope.
Delimit Scope py_scope with py.
Notation "x <- m ;; k" := (bind m (fun x => k))
  (at level 61, m at next level, right associativity) : py_scope.
Notation "m ;;; k" := (bind m (fun _ => k))
  (at level 61, right associativity) : py_scope.
Open Scope py_scope.

(** [for x in l: body x], for a body that returns nothing. *)
Fixpoint for_each {A} (l : list A) (body : A -> M unit) : M unit :=
  match l with
  | [] => ret tt
  | x :: l' => body x ;;; for_each l' body
  end.

(** The value of a computation that did not raise. *)
Definition returns {A} (m : M A) (w : World) (a : A) : Prop :=
  fst (m w) = Val a.

Definition set_system (s : SystemManager) (w : World) : World :=
  mkWorld s (trace w) (backup_dir w) (now w) (log_text w) (current_log_file w)
          (_sudo_password w) (_install_thread w) (threads w) (history w).

Definition add_event (e : Event) (w : World) : World :=
  mkWorld (system w) (trace w ++ [e]) (backup_dir w) (now w) (log_text w)
          (current_log_file w) (_sudo_password w) (_install_thread w) (threads w)
          (history w).

Definition set_backup_dir (d : list (string * Content)) (w : World) : World :=
  mkWorld (system w) (trace w) d (now w) (log_text w) (current_log_file w)
          (_sudo_password w) (_install_thread w) (threads w) (history w).

Definition set_now (t : DateTime) (w : World) : World :=
  mkWorld (system w) (trace w) (backup_dir w) t (log_text w) (current_log_file w)
          (_sudo_password w) (_install_thread w) (threads w) (history w).

Definition add_log (msg level : string) (w : World) : World :=
  mkWorld (system w) (trace w) (backup_dir w) (now w) (log_text w ++ [(msg, level)])
          (current_log_file w) (_sudo_password w) (_install_thread w) (threads w)
          (history w).

Definition set_current_log_file (f : option string) (w : World) : World :=
  mkWorld (system w) (trace w) (backup_dir w) (now w) (log_text w) f
          (_sudo_password w) (_install_thread w) (threads w) (history w).

Definition set_sudo_password (p : option string) (w : World) : World :=
  mkWorld (system w) (trace w) (backup_dir w) (now w) (log_text w)
          (current_log_file w) p (_install_thread w) (threads w) (history w).

Definition set_install_thread (t : option nat) (w : World) : World :=
  mkWorld (system w) (trace w) (backup_dir w) (now w) (log_text w)
          (current_log_file w) (_sudo_password w) t (threads w) (history w).

Definition set_threads (ts : list InstallationThread) (w : World) : World :=
  mkWorld (system w) (trace w) (backup_dir w) (now w) (log_text w)
          (current_log_file w) (_sudo_password w) (_install_thread w) ts (history w).

Definition set_history (h : list json) (w : World) : World :=
  mkWorld (system w) (trace w) (backup_dir w) (now w) (log_text w)
          (current_log_file w) (_sudo_password w) (_install_thread w) (threads w) h.

(** The child processes in a trace, as argument vectors. *)
Fixpoint procs (t : list Event) : list (list string) :=
  match t with
  | [] => []
  | EvProc i :: t' => argv i :: procs t'
  | _ :: t' => procs t'
  end.

(** Module-level constants of the program. *)
Definition PRODUCTION_VERSION : string := "580.126.09".
Definition NEW_FEATURE_VERSION : string := "590.48.01".
Definition BETA_VERSION : string := "575.54.14".
Definition LEGACY_VERSION : string := "470.256.02".
Definition MAX_BACKUPS : nat := 10.

(* ====================================================================== *)
(** ** Regular expressions ([re.findall]) and [sorted] *)
(* ====================================================================== *)

Module Regex.

(** The fragment of Python's pattern language the program uses: literal
    characters, ranges [[a-b]], concatenation, alternation [(?:r|s)] and
    the greedy repetitions [x+] and [x{n,}] of one character or range. *)
Inductive atom : Type :=
| Lit (c : ascii)
| Range (lo hi : ascii).

Inductive regex : Type :=
| Eps
| Atom (a : atom)
| Cat (r1 r2 : regex)
| Alt (r1 r2 : regex)
| Rep (min : nat) (a : atom).

Definition atom_matches (a : atom) (c : ascii) : bool :=
  match a with
  | Lit x => Ascii.eqb x c
  | Range lo hi =>
      (nat_of_ascii lo <=? nat_of_ascii c) && (nat_of_ascii c <=? nat_of_ascii hi)
  end.

(** Greedy repetition: the longest run first, then shorter ones down to
    [min] characters. Each result is (text consumed, text left). *)
Fixpoint rep_matches (a : atom) (min : nat) (s : string) : list (string * string) :=
  let stop := if min =? 0 then [(EmptyString, s)] else [] in
  match s with
  | EmptyString => stop
  | String c s' =>
      if atom_matches a c
      then map (fun mr => (String c (fst mr), snd mr)) (rep_matches a (pred min) s') ++ stop
      else stop
  end.

(** All the ways the pattern matches a prefix of [s], in the order the
    backtracking matcher tries them; the first one is the match found. *)
Fixpoint matches (r : regex) (s : string) : list (string * string) :=
  match r with
  | Eps => [(EmptyString, s)]
  | Atom a =>
      match s with
      | String c s' => if atom_matches a c then [(String c EmptyString, s')] else []
      | EmptyString => []
      end
  | Cat r1 r2 =>
      flat_map (fun mr1 =>
                  map (fun mr2 => (fst mr1 +:+ fst mr2, snd mr2))
                      (matches r2 (snd mr1)))
               (matches r1 s)
  | Alt r1 r2 => matches r1 s ++ matches r2 s
  | Rep min a => rep_matches a min s
  end.

(** [re.findall(r, s)] for a pattern without groups: the matches found
    scanning left to right, each search resuming where the last match
    ended. [skip] counts the characters of the last match still to pass. *)
Fixpoint findall_from (r : regex) (skip : nat) (s : string) : list string :=
  match skip with
  | S k =>
      match s with
      | EmptyString => []
      | String _ s' => findall_from r k s'
      end
  | 0 =>
      match matches r s with
      | (m, _) :: _ =>
          m :: match s with
               | EmptyString => []
               | String _ s' => findall_from r (String.length m - 1) s'
               end
      | [] =>
          match s with
          | EmptyString => []
          | String _ s' => findall_from r 0 s'
          end
      end
  end.

Definition findall (r : regex) (s : string) : list string := findall_from r 0 s.

(** A literal text as a pattern. *)
Fixpoint lit (s : string) : regex :=
  match s with
  | EmptyString => Eps
  | String c s' => Cat (Atom (Lit c)) (lit s')
  end.

Definition digit : atom := Range "0" "9".
Definition range (lo hi : ascii) : regex := Atom (Range lo hi).
Definition plus (a : atom) : regex := Rep 1 a.

End Regex.

(** Python's order on lists of integers: lexicographic, a proper prefix
    first. *)
Fixpoint list_lt (a b : list Z) : bool :=
  match a, b with
  | [], [] => false
  | [], _ :: _ => true
  | _ :: _, [] => false
  | x :: a', y :: b' =>
      if (x <? y)%Z then true
      else if (y <? x)%Z then false
      else list_lt a' b'
  end.


Section Sorted.
Variables (K V : Type) (lt : K -> K -> bool).

(** Stable insertion: [x] goes before the first element that is not
    strictly below it. *)
Fixpoint insert_by_key (x : K * V) (l : list (K * V)) : list (K * V) :=
  match l with
  | [] => [x]
  | y :: l' => if lt (fst y) (fst x) then y :: insert_by_key x l' else x :: y :: l'
  end.

(** [sorted] on items decorated with their keys: ascending, and stable
    (items with equal keys keep their order). *)
Fixpoint sort_by_key (l : list (K * V)) : list (K * V) :=
  match l with
  | [] => []
  | x :: l' => insert_by_key x (sort_by_key l')
  end.

(** Ascending: no item is strictly below an earlier one. *)
Fixpoint ascending (l : list (K * V)) : Prop :=
  match l with
  | [] => True
  | x :: l' => (forall y, In y l' -> lt (fst y) (fst x) = false) /\ ascending l'
  end.
End Sorted.

(** [sorted(l)] on texts. *)
Definition sorted_strings (l : list string) : list string :=
  map snd (sort_by_key String.ltb (map (fun s => (s, s)) l)).

(** [l[i]]: an [IndexError] outside the list. *)
Definition py_nth {A} (l : list A) (i : nat) : Exc A :=
  match nth_error l i with
  | Some a => Val a
  | None => Raise (IndexError "list index out of range")
  end.

(** [l[-1]]. *)
Definition py_last {A} (l : list A) : Exc A :=
  match l with
  | [] => Raise (IndexError "list index out of range")
  | x :: l' => Val (last l' x)
  end.

(** A pure computation that may raise, run inside [M]. *)
Definition lift {A} (x : Exc A) : M A := fun w => (x, w).

Definition exc_bind {A B} (x : Exc A) (k : A -> Exc B) : Exc B :=
  match x with
  | Val a => k a
  | Raise e => Raise e
  end.

Fixpoint exc_map {A B} (f : A -> Exc B) (l : list A) : Exc (list B) :=
  match l with
  | [] => Val []
  | x :: l' =>
      exc_bind (f x) (fun y => exc_bind (exc_map f l') (fun ys => Val (y :: ys)))
  end.

(** The text of the [ValueError] of a literal of [n] digits, more than
    [int] takes. *)
Definition int_limit_message (n : nat) : string :=
  "Exceeds the limit (4300 digits) for integer string conversion: value has "
  +:+ PyStr.str_of_nat n
  +:+ " digits; use sys.set_int_max_str_digits() to increase the limit".

(** The [ValueError] of a number beyond the limit of [int]. *)
Definition over_limit (e : exn) : Prop :=
  exists n, PyStr.INT_MAX_STR_DIGITS < n /\ e = ValueError (int_limit_message n).

(** [int(s)] with its [ValueError]; the text of the error names a text
    that is no literal as it stands, between quotes. *)
Definition py_int (s : string) : Exc Z :=
  match PyStr.int s with
  | Some z => Val z
  | None =>
      Raise (ValueError
               (match PyStr.int_digits s with
                | Some (_, d) => int_limit_message (String.length d)
                | None => "invalid literal for int() with base 10: '" +:+ s +:+ "'"
                end))
  end.

(** Dictionaries with text keys, in insertion order. *)
Definition dict (V : Type) : Type := list (string * V).

Fixpoint dict_get {V} (d : dict V) (k : string) : option V :=
  match d with
  | [] => None
  | (k', v) :: d' => if String.eqb k' k then Some v else dict_get d' k
  end.

Fixpoint dict_set {V} (d : dict V) (k : string) (v : V) : dict V :=
  match d with
  | [] => [(k, v)]
  | (k', v') :: d' => if String.eqb k' k then (k', v) :: d' else (k', v') :: dict_set d' k v
  end.

Definition dict_remove {V} (d : dict V) (k : string) : dict V :=
  filter (fun kv => negb (String.eqb (fst kv) k)) d.

(* ====================================================================== *)
(** ** SystemManager *)
(* ====================================================================== *)

(** The surroundings of the program.
    - The host: what each child process does ([os_exec]), the text of
      [/etc/os-release] and of [/proc/modules] ([None] when it cannot be
      read), the kernel release [os.uname().release] ([None] when the call
      fails), whether [/etc/initramfs-tools/modules] exists, the platform
      flag [IS_LINUX], the directory [SCRIPT_DIR] the program keeps its
      files under, which paths can be written ([can_write]: the file is
      opened and the data reach it) and which deleted, whether a write that
      fails has opened the file all the same, leaving it empty or cut off
      ([write_truncates]), which directories [mkdir] finds or makes, the
      JSON files outside [BACKUP_DIR], and how many calls of [log] nested
      in each other fit under the interpreter's recursion limit
      ([recursion_room]).
    - The person at the screen: the password dialogues of [check_sudo]
      (any computation), the answer to a yes/no question and the answer to
      the offer to install dnf5.
    - The bodies of the three strategies no property below looks into (the
      thread's [install_nvk], [install_repo] and [install_nvidia_run]), and
      the window's [versions] as filled at start-up. *)
Module Env.
Record Host : Type := mkHost {
  os_exec : Invocation -> ProcOutcome;
  etc_os_release : option string;
  proc_modules : option string;
  uname_release : option string;
  initramfs_modules_exists : bool;
  IS_LINUX : bool;
  SCRIPT_DIR : string;
  can_write : string -> bool;
  write_truncates : string -> bool;
  can_unlink : string -> bool;
  can_mkdir : string -> bool;
  other_files : string -> option json;
  recursion_room : nat;
  interactive_sudo : M bool;
  user_confirms : string -> bool;
  user_accepts_dnf5 : bool;
  thread_install_nvk : nat -> M unit;
  thread_install_repo : nat -> M unit;
  thread_install_nvidia_run : nat -> M unit;
  window_versions : list (string * string)
}.
End Env.

Section Host.

Variable host : Env.Host.

Local Abbreviation os_exec := (Env.os_exec host).
Local Abbreviation etc_os_release := (Env.etc_os_release host).
Local Abbreviation proc_modules := (Env.proc_modules host).
Local Abbreviation uname_release := (Env.uname_release host).
Local Abbreviation initramfs_modules_exists := (Env.initramfs_modules_exists host).
Local Abbreviation IS_LINUX := (Env.IS_LINUX host).
Local Abbreviation SCRIPT_DIR := (Env.SCRIPT_DIR host).
Local Abbreviation can_write := (Env.can_write host).
Local Abbreviation write_truncates := (Env.write_truncates host).
Local Abbreviation can_unlink := (Env.can_unlink host).
Local Abbreviation can_mkdir := (Env.can_mkdir host).
Local Abbreviation other_files := (Env.other_files host).
Local Abbreviation recursion_room := (Env.recursion_room host).
Local Abbreviation interactive_sudo := (Env.interactive_sudo host).
Local Abbreviation user_confirms := (Env.user_confirms host).
Local Abbreviation user_accepts_dnf5 := (Env.user_accepts_dnf5 host).
Local Abbreviation thread_install_nvk := (Env.thread_install_nvk host).
Local Abbreviation thread_install_repo := (Env.thread_install_repo host).
Local Abbreviation thread_install_nvidia_run := (Env.thread_install_nvidia_run host).
Local Abbreviation window_versions := (Env.window_versions host).

(** [subprocess.run(cmd, capture_output=True, text=True, timeout=t,
    check=False, input=i)]. *)
Definition subprocess_run (cmd : list string) (inp : option string)
           (t : option Z) : M CompletedProcess :=
  let inv := mkInvocation cmd inp t in
  modify (add_event (EvProc inv)) ;;;
  match os_exec inv with
  | Exited rc out err => ret (mkCompleted rc out err)
  | TimedOut => raise TimeoutExpired
  | NotStarted e => raise e
  end.

(** [x or ""] for an optional text. *)
Definition or_empty (x : option string) : string :=
  match x with
  | Some s => s
  | None => ""
  end.

(** [SystemManager.run_command]. *)
Definition run_command (cmd : list string) (sudo : bool) (t : Z)
           (sudo_password : option string) : M CommandResult :=
  w <- get_world ;;
  if demo_mode (system w) then
    ret (0%Z, "Komenda: " +:+ PyStr.join " " cmd, "")
  else
    let cmd :=
      if sudo then
        match sudo_password with
        | Some _ => ["sudo"; "-S"] ++ cmd
        | None => ["sudo"] ++ cmd
        end
      else cmd in
    try_except
      (let inp :=
         match sudo, sudo_password with
         | true, Some p => Some (p +:+ String "010"%char "")
         | _, _ => None
         end in
       process <- subprocess_run cmd inp (Some t) ;;
       ret (returncode process, or_empty (stdout process), or_empty (stderr process)))
      (fun e =>
         match e with
         | TimeoutExpired => ret (124%Z, "", "Timeout")
         | _ => ret (1%Z, "", str_of_exn e)
         end).

(** The child process [run_command] starts outside demo mode. *)
Definition invocation_of (cmd : list string) (sudo : bool) (t : Z)
           (sudo_password : option string) : Invocation :=
  mkInvocation
    (if sudo then
       match sudo_password with
       | Some _ => ["sudo"; "-S"] ++ cmd
       | None => ["sudo"] ++ cmd
       end
     else cmd)
    (match sudo, sudo_password with
     | true, Some p => Some (p +:+ String "010"%char "")
     | _, _ => None
     end)
    (Some t).

(** The pure reading of [run_command]: the tuple it returns, as a function
    of the host's answer. *)
Definition command_result (demo : bool) (cmd : list string) (sudo : bool) (t : Z)
           (sudo_password : option string) : CommandResult :=
  if demo then (0%Z, "Komenda: " +:+ PyStr.join " " cmd, "")
  else
    match os_exec (invocation_of cmd sudo t sudo_password) with
    | Exited rc out err => (rc, or_empty out, or_empty err)
    | TimedOut => (124%Z, "", "Timeout")
    | NotStarted e =>
        match e with
        | TimeoutExpired => (124%Z, "", "Timeout")
        | _ => (1%Z, "", str_of_exn e)
        end
    end.

Definition LF : ascii := "010"%char.
Definition DQUOTE : ascii := "034"%char.

Definition with_family (f : string) (s : SystemManager) : SystemManager :=
  mkSystemManager (demo_mode s) (distro_name s) f (nvidia_arch s) (gpu_present s)
                  (gpu_model s) (current_driver s) (_fedora_repo_version_cache s)
                  (_dnf_cmd s).

Definition with_name (n : string) (s : SystemManager) : SystemManager :=
  mkSystemManager (demo_mode s) n (distro_family s) (nvidia_arch s) (gpu_present s)
                  (gpu_model s) (current_driver s) (_fedora_repo_version_cache s)
                  (_dnf_cmd s).

Definition with_repo_cache (c : option string) (s : SystemManager) : SystemManager :=
  mkSystemManager (demo_mode s) (distro_name s) (distro_family s) (nvidia_arch s)
                  (gpu_present s) (gpu_model s) (current_driver s) c (_dnf_cmd s).

Definition with_dnf_cmd (c : option string) (s : SystemManager) : SystemManager :=
  mkSystemManager (demo_mode s) (distro_name s) (distro_family s) (nvidia_arch s)
                  (gpu_present s) (gpu_model s) (current_driver s)
                  (_fedora_repo_version_cache s) c.

Definition update_system (f : SystemManager -> SystemManager) : M unit :=
  modify (fun w => set_system (f (system w)) w).

(** [SystemManager.get_dnf_cmd]. *)
Definition get_dnf_cmd : M string :=
  w <- get_world ;;
  if negb (String.eqb (distro_family (system w)) "fedora") then ret "dnf"
  else match _dnf_cmd (system w) with
       | Some d => ret d
       | None =>
           if demo_mode (system w) then
             update_system (with_dnf_cmd (Some "dnf")) ;;; ret "dnf"
           else
             r <- run_command ["which"; "dnf5"] false 2 None ;;
             let d := if (rc_of r =? 0)%Z then "dnf5" else "dnf" in
             update_system (with_dnf_cmd (Some d)) ;;; ret d
       end.

(** The family a distribution identifier maps to. *)
Definition family_of_id (distro_id : string) : string :=
  if existsb (String.eqb distro_id)
             ["ubuntu"; "kubuntu"; "lubuntu"; "xubuntu"; "pop"; "linuxmint"; "zorin";
              "elementary"; "neon"]
  then "ubuntu"
  else if String.eqb distro_id "debian" then "debian"
  else if existsb (String.eqb distro_id) ["fedora"; "rhel"; "centos"; "rocky"; "alma"]
  then "fedora"
  else "other".

(** [line.split("=")[1].strip()], then stripped of double-quote characters. *)
Definition os_release_value (line : string) : Exc string :=
  exc_bind (py_nth (PyStr.split "=" line) 1)
           (fun v => Val (PyStr.strip_char DQUOTE (PyStr.strip v))).

(** The body of the loop over the lines of [/etc/os-release]. *)
Definition detect_line (line : string) : M unit :=
  if PyStr.startswith line "ID=" then
    distro_id <- lift (os_release_value line) ;;
    update_system (with_family (family_of_id distro_id))
  else if PyStr.startswith line "NAME=" then
    name <- lift (os_release_value line) ;;
    update_system (with_name name)
  else ret tt.

(** [SystemManager.detect_distro]. *)
Definition detect_distro : M unit :=
  w <- get_world ;;
  if demo_mode (system w) then
    update_system (with_name "Windows") ;;;
    update_system (with_family "windows")
  else
    try_except
      (match etc_os_release with
       | None => raise (OSError "/etc/os-release")
       | Some content => for_each (PyStr.split LF content) detect_line
       end)
      (fun _ =>
         update_system (with_family "unknown") ;;;
         update_system (with_name "Unknown")).

(** [SystemManager.get_current_driver]. *)
Definition get_current_driver : M string :=
  w <- get_world ;;
  if demo_mode (system w) then ret "550.90.07"
  else
    result <- run_command ["nvidia-smi"; "--query-gpu=driver_version";
                           "--format=csv,noheader"] false 300 None ;;
    let out := PyStr.strip (out_of result) in
    if (rc_of result =? 0)%Z && PyStr.truthy out && negb (String.eqb out "N/A") then
      lift (py_nth (PyStr.split LF out) 0)
    else
      match proc_modules with
      | Some content => if PyStr.contains "nouveau" content then ret "nouveau" else ret "brak"
      | None => ret "brak"
      end.

(** The four patterns of [fetch_versions]. *)
Definition seq (l : list Regex.regex) : Regex.regex := fold_right Regex.Cat Regex.Eps l.

(** [58[0-9]\.[0-9]+\.[0-9]+/] *)
Definition prod_re : Regex.regex :=
  seq [Regex.lit "58"; Regex.range "0" "9"; Regex.lit "."; Regex.plus Regex.digit;
       Regex.lit "."; Regex.plus Regex.digit; Regex.lit "/"].

(** [590\.(?:4[5-9]|[5-9][0-9]|[0-9]{3,})\.[0-9]+/] *)
Definition newf_re : Regex.regex :=
  seq [Regex.lit "590.";
       Regex.Alt (Regex.Cat (Regex.lit "4") (Regex.range "5" "9"))
         (Regex.Alt (Regex.Cat (Regex.range "5" "9") (Regex.range "0" "9"))
                    (Regex.Rep 3 Regex.digit));
       Regex.lit "."; Regex.plus Regex.digit; Regex.lit "/"].

(** [590\.(?:[0-3][0-9]|4[0-4])\.[0-9]+/] *)
Definition beta_re : Regex.regex :=
  seq [Regex.lit "590.";
       Regex.Alt (Regex.Cat (Regex.range "0" "3") (Regex.range "0" "9"))
                 (Regex.Cat (Regex.lit "4") (Regex.range "0" "4"));
       Regex.lit "."; Regex.plus Regex.digit; Regex.lit "/"].

(** [470\.[0-9]+\.[0-9]+/] *)
Definition legacy_re : Regex.regex :=
  seq [Regex.lit "470."; Regex.plus Regex.digit; Regex.lit "."; Regex.plus Regex.digit;
       Regex.lit "/"].

(** The sort key [lambda x: [int(i) for i in x.rstrip("/").split(".")]]. *)
Definition version_key (x : string) : Exc (list Z) :=
  exc_map py_int (PyStr.split "." (PyStr.rstrip_char "/" x)).

(** [sorted(ms, key=version_key)[-1].rstrip("/")]. *)
Definition highest_version (ms : list string) : Exc string :=
  exc_bind (exc_map (fun x => exc_bind (version_key x) (fun k => Val (k, x))) ms)
    (fun decorated =>
       exc_bind (py_last (map snd (sort_by_key list_lt decorated)))
                (fun x => Val (PyStr.rstrip_char "/" x))).

(** One series of [fetch_versions]: [findall], then, if anything matched,
    the entry of the series is replaced. *)
Definition update_series (key : string) (r : Regex.regex) (content : string)
           (versions : dict string) : Exc (dict string) :=
  match Regex.findall r content with
  | [] => Val versions
  | ms => exc_bind (highest_version ms) (fun v => Val (dict_set versions key v))
  end.

Definition parse_versions (content : string) (versions : dict string)
  : Exc (dict string) :=
  exc_bind (update_series "production" prod_re content versions) (fun v1 =>
  exc_bind (update_series "new_feature" newf_re content v1) (fun v2 =>
  exc_bind (update_series "beta" beta_re content v2) (fun v3 =>
  update_series "legacy" legacy_re content v3))).

(** The loop [for tool in ["curl", "wget"]] of [fetch_versions], left at
    the first tool whose answer is usable. *)
Fixpoint fetch_with (tools : list string) (url : string) (versions : dict string)
  : M (dict string) :=
  match tools with
  | [] => ret versions
  | tool :: rest =>
      result <- run_command [tool; "-s"; url] false 10 None ;;
      if (rc_of result =? 0)%Z && PyStr.truthy (out_of result) then
        lift (parse_versions (out_of result) versions)
      else fetch_with rest url versions
  end.

Definition fallback_versions : dict string :=
  [("production", PRODUCTION_VERSION); ("new_feature", NEW_FEATURE_VERSION);
   ("beta", BETA_VERSION); ("legacy", LEGACY_VERSION)].

(** [SystemManager.fetch_versions]. *)
Definition fetch_versions : M (dict string) :=
  let versions := fallback_versions in
  w <- get_world ;;
  if demo_mode (system w) then ret versions
  else
    let url := "https://download.nvidia.com/XFree86/" +:+ nvidia_arch (system w) +:+ "/" in
    fetch_with ["curl"; "wget"] url versions.

(** The candidate series, newest first. *)
Definition REPO_SERIES : list nat := [610; 600; 590; 580; 550; 535; 525; 515].

Definition apt_cache_show (v : nat) : list string :=
  ["apt-cache"; "show"; "nvidia-driver-" +:+ PyStr.str_of_nat v +:+ "-open"].

(** [line.split(":")[1].strip().split("-")[0]]. *)
Definition version_of_line (line : string) : Exc string :=
  exc_bind (py_nth (PyStr.split ":" line) 1)
           (fun f => py_nth (PyStr.split "-" (PyStr.strip f)) 0).

(** The inner loop [for line in ...: if line.startswith("Version:"): ...;
    break] acts on the first such line only. *)
Definition version_line (out : string) : option string :=
  find (fun line => PyStr.startswith line "Version:") (PyStr.split LF out).

(** [version if "." in version else str(v)]. *)
Definition version_or_series (entry : nat * string) : string :=
  if PyStr.contains_char "." (snd entry) then snd entry else PyStr.str_of_nat (fst entry).

(** The loop of [highest_repo_driver] that fills [available]. *)
Fixpoint scan_available (series : list nat) (available : list (nat * string))
  : M (list (nat * string)) :=
  match series with
  | [] => ret available
  | v :: rest =>
      result <- run_command (apt_cache_show v) false 300 None ;;
      available' <-
        (if (rc_of result =? 0)%Z then
           match version_line (out_of result) with
           | Some line =>
               version <- lift (version_of_line line) ;;
               ret (available ++ [(v, version)])
           | None => ret available
           end
         else ret available) ;;
      scan_available rest available'
  end.

(** The loop of [highest_repo_driver_latest], left at the first series
    found. *)
Fixpoint scan_latest (series : list nat) : M string :=
  match series with
  | [] => ret "580"
  | v :: rest =>
      result <- run_command (apt_cache_show v) false 300 None ;;
      if (rc_of result =? 0)%Z then
        match version_line (out_of result) with
        | Some line =>
            version <- lift (version_of_line line) ;;
            ret (version_or_series (v, version))
        | None => scan_latest rest
        end
      else scan_latest rest
  end.

(** [SystemManager._fedora_repo_driver_version]. *)
Definition _fedora_repo_driver_version : M string :=
  w <- get_world ;;
  match _fedora_repo_version_cache (system w) with
  | Some cached => ret cached
  | None =>
      dnf <- get_dnf_cmd ;;
      result <- run_command ["env"; "DNF_FRONTEND=noninteractive"; dnf; "list";
                             "available"; "akmod-nvidia"; "-q"] false 60 None ;;
      ver <-
        (if (rc_of result =? 0)%Z && PyStr.truthy (out_of result) then
           match find (fun line => PyStr.contains "akmod-nvidia" line
                                   && PyStr.contains ".x86_64" line)
                      (PyStr.split LF (out_of result)) with
           | Some line =>
               let parts := PyStr.split_ws line in
               if 2 <=? List.length parts then
                 p <- lift (py_nth parts 1) ;;
                 ver <- lift (py_nth (PyStr.split "-" p) 0) ;;
                 ret (if PyStr.contains_char "." ver then ver else "")
               else ret ""
           | None => ret ""
           end
         else ret "") ;;
      update_system (with_repo_cache (Some ver)) ;;;
      ret ver
  end.

(** [SystemManager.highest_repo_driver]. *)
Definition highest_repo_driver : M string :=
  w <- get_world ;;
  if demo_mode (system w) then ret "580.126.09"
  else if String.eqb (distro_family (system w)) "fedora" then
    ver <- _fedora_repo_driver_version ;;
    ret (if PyStr.truthy ver then ver else "580")
  else
    available <- scan_available REPO_SERIES [] ;;
    if 2 <=? List.length available then
      e <- lift (py_nth available 1) ;; ret (version_or_series e)
    else if List.length available =? 1 then
      e <- lift (py_nth available 0) ;; ret (version_or_series e)
    else ret "580".

(** [SystemManager.highest_repo_driver_latest]. *)
Definition highest_repo_driver_latest : M string :=
  w <- get_world ;;
  if demo_mode (system w) then ret "590.48.01"
  else if String.eqb (distro_family (system w)) "fedora" then
    ver <- _fedora_repo_driver_version ;;
    ret (if PyStr.truthy ver then ver else "580")
  else scan_latest REPO_SERIES.

(** One dependency probe: the package is missing when the query fails. *)
Definition probe_missing (query : list string) (pkg : string) (missing : list string)
  : M (list string) :=
  result <- run_command query false 300 None ;;
  ret (if negb (rc_of result =? 0)%Z then missing ++ [pkg] else missing).

Definition kernel_release : string :=
  match uname_release with
  | Some k => k
  | None => "unknown"
  end.

(** [SystemManager.get_missing_dependency_packages]. *)
Definition get_missing_dependency_packages (install_type : string) : M (list string) :=
  w <- get_world ;;
  if demo_mode (system w)
     || negb (existsb (String.eqb install_type) ["repo"; "run"]) then ret []
  else
    let missing := [] in
    if String.eqb (distro_family (system w)) "fedora" then
      missing <- probe_missing ["rpm"; "-q"; "kernel-devel"] "kernel-devel" missing ;;
      missing <- probe_missing ["rpm"; "-q"; "gcc"] "gcc" missing ;;
      ret missing
    else
      let kernel := kernel_release in
      missing <- probe_missing ["dpkg"; "-l"; "linux-headers-" +:+ kernel]
                               ("linux-headers-" +:+ kernel) missing ;;
      missing <- probe_missing ["dpkg"; "-l"; "dkms"] "dkms" missing ;;
      missing <- probe_missing ["dpkg"; "-l"; "build-essential"] "build-essential" missing ;;
      ret missing.

(** The loop of [get_installed_nvidia_packages] over the lines of
    [dpkg -l]; [line.split()[1]] raises on a line of one word. *)
Fixpoint dpkg_nvidia_packages (lines : list string) (packages : list string)
  : Exc (list string) :=
  match lines with
  | [] => Val packages
  | line :: rest =>
      let low := PyStr.lower line in
      if PyStr.startswith line "ii"
         && (PyStr.contains "nvidia" low || PyStr.contains "libnvidia" low
             || PyStr.contains "linux-modules-nvidia" low)
      then exc_bind (py_nth (PyStr.split_ws line) 1)
                    (fun pkg => dpkg_nvidia_packages rest (packages ++ [pkg]))
      else dpkg_nvidia_packages rest packages
  end.

(** The same loop over the lines of [rpm -qa]. *)
Fixpoint rpm_nvidia_packages (lines : list string) (packages : list string)
  : list string :=
  match lines with
  | [] => packages
  | line :: rest =>
      if PyStr.truthy line
         && (PyStr.contains "nvidia" (PyStr.lower line) || PyStr.contains "akmod-nvidia" line)
      then
        let pkg := PyStr.strip line in
        if PyStr.contains "nvidia-gpu-firmware" pkg then rpm_nvidia_packages rest packages
        else rpm_nvidia_packages rest (packages ++ [pkg])
      else rpm_nvidia_packages rest packages
  end.

(** [SystemManager.get_installed_nvidia_packages]. *)
Definition get_installed_nvidia_packages : M (list string) :=
  w <- get_world ;;
  if demo_mode (system w) then ret []
  else if String.eqb (distro_family (system w)) "fedora" then
    result <- run_command ["rpm"; "-qa"] false 300 None ;;
    if negb (rc_of result =? 0)%Z then ret []
    else ret (rpm_nvidia_packages (PyStr.split LF (out_of result)) [])
  else
    result <- run_command ["dpkg"; "-l"] false 300 None ;;
    if negb (rc_of result =? 0)%Z then ret []
    else lift (dpkg_nvidia_packages (PyStr.split LF (out_of result)) []).

(** [SystemManager.get_installed_nvidia_driver_package]. *)
Definition get_installed_nvidia_driver_package : M (option string) :=
  w <- get_world ;;
  if demo_mode (system w) then ret None
  else if String.eqb (distro_family (system w)) "fedora" then
    result <- run_command ["rpm"; "-q"; "akmod-nvidia"] false 300 None ;;
    if (rc_of result =? 0)%Z && PyStr.truthy (PyStr.strip (out_of result))
    then ret (Some "akmod-nvidia") else ret None
  else
    result <- run_command ["dpkg"; "-l"] false 300 None ;;
    if negb (rc_of result =? 0)%Z then ret None
    else
      match find (fun line => PyStr.startswith line "ii"
                              && PyStr.contains "nvidia-driver-" line
                              && PyStr.contains "-open" line)
                 (PyStr.split LF (out_of result)) with
      | Some line => pkg <- lift (py_nth (PyStr.split_ws line) 1) ;; ret (Some pkg)
      | None => ret None
      end.

(* ====================================================================== *)
(** ** DriverManagerWindow: log, backups, restore *)
(* ====================================================================== *)

Definition path_join (d n : string) : string := d +:+ "/" +:+ n.
Definition LOG_DIR : string := path_join SCRIPT_DIR "logs".
Definition CACHE_DIR : string := path_join SCRIPT_DIR "cache".
Definition ERROR_LOG_DIR : string := path_join LOG_DIR "errors".
Definition BACKUP_DIR : string := path_join CACHE_DIR "backups".

(** A translated message: its key in [TRANSLATIONS], followed by the
    arguments [format] puts into it. *)
Definition _tr (key : string) (args : list string) : string :=
  PyStr.join " " (key :: args).

(** [s.zfill(width)] for a text of digits. *)
Fixpoint zeros (k : nat) : string :=
  match k with
  | 0 => ""
  | S k' => String "0" (zeros k')
  end.

Definition zfill (width : nat) (s : string) : string :=
  zeros (width - String.length s) +:+ s.

Definition pad2 (n : Z) : string := zfill 2 (PyStr.str_of_Z n).
Definition pad4 (n : Z) : string := zfill 4 (PyStr.str_of_Z n).
Definition pad6 (n : Z) : string := zfill 6 (PyStr.str_of_Z n).

(** [t.strftime("%Y%m%d-%H%M%S")]; the C library prints [%Y] without
    padding. *)
Definition strftime_stamp (t : DateTime) : string :=
  PyStr.str_of_Z (year t) +:+ pad2 (month t) +:+ pad2 (day t) +:+ "-"
  +:+ pad2 (hour t) +:+ pad2 (minute t) +:+ pad2 (second t).

(** [t.isoformat()]. *)
Definition isoformat (t : DateTime) : string :=
  pad4 (year t) +:+ "-" +:+ pad2 (month t) +:+ "-" +:+ pad2 (day t) +:+ "T"
  +:+ pad2 (hour t) +:+ ":" +:+ pad2 (minute t) +:+ ":" +:+ pad2 (second t)
  +:+ (if (microsecond t =? 0)%Z then "" else "." +:+ pad6 (microsecond t)).

(** The part of [log] before the error report: the line goes to the log
    view and, when a log file is open, to that file; a line that cannot be
    written to the file is dropped. *)
Definition log_line (message level : string) : M unit :=
  modify (add_log message level) ;;;
  w <- get_world ;;
  match current_log_file w with
  | Some f => if can_write f then modify (add_event (EvWrite f)) else ret tt
  | None => ret tt
  end.

(** [collect_error_report], as far as it acts on the surroundings: outside
    demo mode the kernel release is read, and off Fedora two probes are
    run. *)
Definition collect_error_report : M unit :=
  w <- get_world ;;
  (if demo_mode (system w) then ret tt
   else match uname_release with
        | Some _ => ret tt
        | None => raise (OSError "uname")
        end) ;;;
  if negb (demo_mode (system w))
     && negb (String.eqb (distro_family (system w)) "fedora") then
    run_command ["dkms"; "status"] false 300 None ;;;
    run_command ["lsmod"] false 300 None ;;;
    ret tt
  else ret tt.

Section Logging.

(** [self.log] as [save_error_report] and [log] call it from inside. *)
Variable nested_log : string -> string -> M unit.

(** [save_error_report]: the path of the report, or [None] when it could
    not be written, which is logged as an error. *)
Definition save_error_report_with : M (option string) :=
  (if can_mkdir ERROR_LOG_DIR then ret tt else raise (OSError ERROR_LOG_DIR)) ;;;
  w <- get_world ;;
  let error_file :=
    path_join ERROR_LOG_DIR ("error-report-" +:+ strftime_stamp (now w) +:+ ".json") in
  try_except
    ((if can_write error_file then modify (add_event (EvWrite error_file))
      else raise (OSError error_file)) ;;;
     nested_log (_tr "log_error_report_saved" [error_file]) "INFO" ;;;
     ret (Some error_file))
    (fun e =>
       nested_log (_tr "log_error_report_failed" [str_of_exn e]) "ERROR" ;;;
       ret None).

(** The body of [log]: the line, then, at level ERROR, the error report,
    with whatever is raised on the way passed over. *)
Definition log_with (message level : string) : M unit :=
  log_line message level ;;;
  if String.eqb level "ERROR" then
    try_except (collect_error_report ;;; save_error_report_with ;;; ret tt)
               (fun _ => ret tt)
  else ret tt.

End Logging.

(** [log] called from inside [log]: a report that cannot be written is
    logged as an error, which asks for a report again, until the
    interpreter's recursion limit is reached and the call raises. The
    limit is met at the entry of a nested call; what is raised there is
    passed over by the [except] clauses of [save_error_report] and
    [log]. *)
Fixpoint log_nested (room : nat) (message level : string) : M unit :=
  match room with
  | 0 => raise (RecursionError "maximum recursion depth exceeded")
  | S room' => log_with (log_nested room') message level
  end.

(** [DriverManagerWindow.log] and [DriverManagerWindow.save_error_report]. *)
Definition log (message level : string) : M unit :=
  log_with (log_nested recursion_room) message level.

Definition save_error_report : M (option string) := save_error_report_with log.

(** [s.endswith(suffix)]. *)
Definition endswith (s suffix : string) : bool :=
  let n := String.length s in
  let k := String.length suffix in
  (k <=? n) && String.eqb (String.substring (n - k) k s) suffix.

(** The names [BACKUP_DIR.glob("backup-*.json")] yields. *)
Definition glob_backup (name : string) : bool :=
  PyStr.startswith name "backup-" && endswith name ".json"
  && (12 <=? String.length name).

Definition glob_backups (d : list (string * Content)) : list string :=
  filter glob_backup (map fst d).

(** [open(path, "w")] with [json.dump] into a file of [BACKUP_DIR]. A
    write that fails may have opened the file already: the file is then
    left empty or cut off, whatever it held before. *)
Definition write_backup (name : string) (data : json) : M unit :=
  let path := path_join BACKUP_DIR name in
  if can_write path then
    modify (fun w => set_backup_dir (dict_set (backup_dir w) name (Document data)) w) ;;;
    modify (add_event (EvBackupWrite name))
  else
    (if write_truncates path
     then modify (fun w => set_backup_dir (dict_set (backup_dir w) name Broken) w)
     else ret tt) ;;;
    raise (OSError path).

(** [old_path.unlink()] on a file of [BACKUP_DIR]. *)
Definition unlink_backup (name : string) : M unit :=
  let path := path_join BACKUP_DIR name in
  w <- get_world ;;
  match dict_get (backup_dir w) name with
  | Some _ =>
      if can_unlink path then
        modify (fun w => set_backup_dir (dict_remove (backup_dir w) name) w) ;;;
        modify (add_event (EvBackupUnlink name))
      else raise (OSError path)
  | None => raise (OSError path)
  end.

(** The name of the record a snapshot taken at [t] is written to. *)
Definition backup_name (t : DateTime) : string :=
  "backup-" +:+ strftime_stamp t +:+ ".json".

(** One turn of the retention loop of [create_backup]: the record is
    deleted and the deletion logged; an [OSError] is passed over. *)
Definition remove_old_backup (old_name : string) : M unit :=
  try_except
    (unlink_backup old_name ;;;
     log (_tr "log_backup_removed_old" [old_name]) "INFO")
    (fun e =>
       match e with
       | OSError _ => ret tt
       | _ => raise e
       end).

(** The retention step of [create_backup]: of the records in name order,
    all but the last [MAX_BACKUPS] are deleted. *)
Definition enforce_retention : M unit :=
  w <- get_world ;;
  let all_backups := sorted_strings (glob_backups (backup_dir w)) in
  if MAX_BACKUPS <? List.length all_backups then
    for_each (firstn (List.length all_backups - MAX_BACKUPS) all_backups) remove_old_backup
  else ret tt.

(** The record [create_backup] writes. *)
Definition backup_record (t : DateTime) (current_driver : string) (packages : list string)
           (install_type target_version : string) : json :=
  JObj [("date", JStr (isoformat t));
        ("backup_id", JStr ("backup-" +:+ strftime_stamp t));
        ("previous_driver", JStr current_driver);
        ("packages", JList (map JStr packages));
        ("install_about_to", JStr install_type);
        ("target_version", JStr target_version)].

(** [DriverManagerWindow.create_backup]. The module constant [DEMO_MODE]
    is the value [SystemManager.__init__] copies into [demo_mode]. *)
Definition create_backup (install_type target_version : string) : M (option string) :=
  w <- get_world ;;
  if demo_mode (system w) then ret None
  else
    try_except
      (current_driver <- get_current_driver ;;
       packages <- get_installed_nvidia_packages ;;
       w <- get_world ;;
       let data := backup_record (now w) current_driver packages install_type
                                 target_version in
       let name := backup_name (now w) in
       write_backup name data ;;;
       log (_tr "log_backup_created" [name]) "INFO" ;;;
       enforce_retention ;;;
       ret (Some (path_join BACKUP_DIR name)))
      (fun e =>
         log (_tr "log_backup_create_failed" [str_of_exn e]) "WARN" ;;;
         ret None).

(** [DriverManagerWindow.check_sudo]: the silent probe [sudo -n true];
    what follows when it fails is the dialogue [interactive_sudo]. *)
Definition check_sudo : M bool :=
  if negb IS_LINUX then ret true
  else
    result <- subprocess_run ["sudo"; "-n"; "true"] None None ;;
    if (returncode result =? 0)%Z then
      log (_tr "log_sudo_ok" []) "INFO" ;;; ret true
    else interactive_sudo.

(** Truthiness of a JSON value read into Python. *)
Definition json_truthy (v : json) : bool :=
  match v with
  | JNull => false
  | JBool b => b
  | JNum z => negb (z =? 0)%Z
  | JStr s => PyStr.truthy s
  | JList l => match l with [] => false | _ => true end
  | JObj f => match f with [] => false | _ => true end
  end.

(** [data.get(key, default)]: only a JSON object has [get]. *)
Definition json_get (data : json) (key : string) (default : json) : Exc json :=
  match data with
  | JObj fields =>
      match dict_get fields key with
      | Some v => Val v
      | None => Val default
      end
  | _ => Raise (AttributeError "object has no attribute 'get'")
  end.

(** [open(path)] with [json.load]: a file of [BACKUP_DIR] or one of the
    other files. *)
Definition read_json (path : string) : M json :=
  w <- get_world ;;
  let prefix := BACKUP_DIR +:+ "/" in
  let found :=
    if PyStr.startswith path prefix
    then dict_get (backup_dir w)
                  (String.substring (String.length prefix)
                                    (String.length path - String.length prefix) path)
    else option_map Document (other_files path) in
  match found with
  | Some (Document v) => ret v
  | Some Broken => raise (ValueError "Expecting value: line 1 column 1 (char 0)")
  | None => raise (OSError path)
  end.

(** The texts of a JSON list, when all its items are texts. *)
Fixpoint json_strings (l : list json) : option (list string) :=
  match l with
  | [] => Some []
  | JStr s :: l' =>
      match json_strings l' with
      | Some ss => Some (s :: ss)
      | None => None
      end
  | _ :: _ => None
  end.

(** [DriverManagerWindow._run_install_restore]. A value that is not a
    list cannot be appended to the command line ([TypeError]); a list with
    an item that is not a text makes [run_command] fail inside its [try]. *)
Definition _run_install_restore (packages : json) : M (Z * string) :=
  if negb (json_truthy packages) then ret (0%Z, "")
  else
    match packages with
    | JList items =>
        match json_strings items with
        | Some pkgs =>
            w <- get_world ;;
            result <- run_command (["apt-get"; "install"; "-y"] ++ pkgs) true 300
                                  (_sudo_password w) ;;
            ret (rc_of result, out_of result)
        | None =>
            w <- get_world ;;
            if demo_mode (system w)
            then raise (TypeError "sequence item: expected str instance")
            else ret (1%Z, "")
        end
    | _ => raise (TypeError "can only concatenate list to list")
    end.

(** [DriverManagerWindow.restore_backup]. *)
Definition restore_backup (backup_path : string) : M bool :=
  ok <- check_sudo ;;
  if negb ok then ret false
  else
    try_except
      (data <- read_json backup_path ;;
       packages <- lift (json_get data "packages" (JList [])) ;;
       if negb (json_truthy packages) then
         log (_tr "log_backup_no_pkgs" []) "WARN" ;;; ret false
       else
         log (_tr "log_restoring_backup" []) "INFO" ;;;
         r <- _run_install_restore packages ;;
         if (fst r =? 0)%Z then
           log (_tr "log_restored" []) "SUCCESS" ;;; ret true
         else ret false)
      (fun e =>
         log (_tr "log_restore_error" [str_of_exn e]) "ERROR" ;;; ret false).

(* ====================================================================== *)
(** ** InstallationThread: the cleanup steps and the uninstall strategy *)
(* ====================================================================== *)

Definition get_thread (tid : nat) : M InstallationThread :=
  w <- get_world ;;
  match nth_error (threads w) tid with
  | Some t => ret t
  | None => raise (IndexError "no such thread")
  end.

Fixpoint replace_nth {A} (n : nat) (x : A) (l : list A) : list A :=
  match l, n with
  | [], _ => []
  | _ :: l', 0 => x :: l'
  | y :: l', S n' => y :: replace_nth n' x l'
  end.

Definition update_thread (tid : nat) (f : InstallationThread -> InstallationThread)
  : M unit :=
  t <- get_thread tid ;;
  modify (fun w => set_threads (replace_nth tid (f t) (threads w)) w).

Definition with_restart_needed (b : bool) (t : InstallationThread) : InstallationThread :=
  mkThread (install_type t) (params t) b (is_running t) (finished_slot t).

Definition with_running (b : bool) (t : InstallationThread) : InstallationThread :=
  mkThread (install_type t) (params t) (restart_needed t) b (finished_slot t).

(** [self.params.get("sudo_password")]. *)
Definition param_sudo_password (t : InstallationThread) : option string :=
  match dict_get (params t) "sudo_password" with
  | Some (JStr p) => Some p
  | _ => None
  end.

Definition HISTORY_FILE : string := path_join (path_join CACHE_DIR "state") "install_history.json".

(** [DriverManagerWindow.append_install_history]; a failed write is
    swallowed. *)
Definition append_install_history (install_type version : string) (success : bool)
  : M unit :=
  w <- get_world ;;
  if can_write HISTORY_FILE then
    modify (set_history (history w ++
                         [JObj [("date", JStr (isoformat (now w)));
                                ("type", JStr install_type);
                                ("version", JStr version);
                                ("success", JBool success)]])) ;;;
    modify (add_event (EvWrite HISTORY_FILE))
  else ret tt.

(** The closures connected to [finished]. *)
Definition run_finished_slot (slot : FinishedSlot) (code : Z) : M unit :=
  (match slot with
   | OnNvkFinished =>
       (if (code =? 0)%Z then append_install_history "nvk" "NVK" true else ret tt) ;;;
       log (_tr "log_nvk_done" []) "SUCCESS"
   | OnRepoFinished ver | OnRepoLatestFinished ver =>
       (if (code =? 0)%Z then append_install_history "repo" ver true else ret tt) ;;;
       log (_tr "log_install_done_restart" []) "SUCCESS"
   | OnRunFinished version =>
       (if (code =? 0)%Z then append_install_history "run" version true else ret tt) ;;;
       log (_tr "log_prepare_done" []) "SUCCESS"
   | OnFinished => ret tt
   end) ;;;
  modify (set_install_thread None) ;;;
  modify (set_sudo_password None).

(** [self.finished.emit(code)]. *)
Definition emit_finished (tid : nat) (code : Z) : M unit :=
  t <- get_thread tid ;;
  modify (add_event (EvFinished tid code)) ;;;
  run_finished_slot (finished_slot t) code.

Definition emit_progress (n : nat) : M unit := modify (add_event (EvProgress n)).
Definition emit_ask_restart : M unit := modify (add_event EvAskRestart).

(** [InstallationThread.run_cmd]. *)
Definition run_cmd (self : InstallationThread) (cmd : list string) (sudo : bool)
           (t : Z) (ignore_missing_unit : bool) (ignore_stderr_contains : option string)
  : M (Z * string) :=
  let sudo_password := param_sudo_password self in
  result <- run_command cmd sudo t sudo_password ;;
  let rc := rc_of result in
  let stdout := out_of result in
  let stderr := err_of result in
  if (rc =? 0)%Z then ret (rc, stdout)
  else if ignore_missing_unit
          && (PyStr.contains "not loaded" stderr || PyStr.contains "does not exist" stderr)
  then ret (0%Z, stdout)
  else if match ignore_stderr_contains with
          | Some p => PyStr.truthy p && PyStr.contains p stderr
          | None => false
          end
  then ret (0%Z, stdout)
  else
    log (_tr "log_error_code" [PyStr.str_of_Z rc]) "ERROR" ;;;
    (if PyStr.truthy stderr then
       for_each (PyStr.split LF stderr)
                (fun line =>
                   if PyStr.truthy (PyStr.strip line) then log ("  " +:+ line) "ERROR"
                   else ret tt)
     else ret tt) ;;;
    ret (rc, stdout).

(** [run_cmd(cmd, sudo=True, silent=True)]. *)
Definition sudo_cmd (self : InstallationThread) (cmd : list string) : M unit :=
  run_cmd self cmd true 300 false None ;;; ret tt.

Definition NVIDIA_CONFIGS_CLEAN : list string :=
  ["/etc/modprobe.d/blacklist-nouveau.conf"; "/etc/modprobe.d/nvidia*.conf";
   "/etc/modprobe.d/disable-nvidia.conf"; "/etc/X11/xorg.conf";
   "/etc/X11/xorg.conf.nvidia-xconfig-original"].

Definition NVIDIA_SERVICES : list string :=
  ["nvidia-persistenced"; "nvidia-powerd"; "nvidia-suspend"; "nvidia-resume";
   "nvidia-hibernate"; "nvidia-driver-install"; "nvidia-run-install"; "nvk-install"].

(** [InstallationThread.clean_nvidia_artifacts]. *)
Definition clean_nvidia_artifacts (self : InstallationThread) : M unit :=
  for_each NVIDIA_CONFIGS_CLEAN (fun cfg => sudo_cmd self ["rm"; "-f"; cfg]) ;;;
  sudo_cmd self ["sh"; "-c"; "rm -f /etc/ld.so.conf.d/*nvidia*"] ;;;
  sudo_cmd self ["sh"; "-c"; "rm -f /etc/X11/xorg.conf.d/*nvidia*"] ;;;
  sudo_cmd self ["sh"; "-c"; "rm -f /usr/share/X11/xorg.conf.d/*nvidia*"] ;;;
  for_each NVIDIA_SERVICES
    (fun svc =>
       run_cmd self ["systemctl"; "stop"; svc +:+ ".service"] true 300 true None ;;;
       run_cmd self ["systemctl"; "disable"; svc +:+ ".service"] true 300 true None ;;;
       sudo_cmd self ["rm"; "-f"; "/etc/systemd/system/" +:+ svc +:+ ".service"]) ;;;
  sudo_cmd self ["systemctl"; "daemon-reload"] ;;;
  sudo_cmd self ["ldconfig"].

(** [InstallationThread.purge_nvidia_packages]. *)
Definition purge_nvidia_packages (self : InstallationThread) : M unit :=
  w <- get_world ;;
  if String.eqb (distro_family (system w)) "fedora" then
    packages <- get_installed_nvidia_packages ;;
    match packages with
    | [] => ret tt
    | _ =>
        dnf <- get_dnf_cmd ;;
        sudo_cmd self ([dnf; "remove"; "-y"] ++ packages)
    end
  else
    r <- run_cmd self ["dpkg"; "-l"] false 300 false None ;;
    if (fst r =? 0)%Z then
      packages <- lift (dpkg_nvidia_packages (PyStr.split LF (snd r)) []) ;;
      match packages with
      | [] => ret tt
      | _ =>
          sudo_cmd self (["apt-get"; "remove"; "--purge"; "-y"] ++ packages) ;;;
          sudo_cmd self ["apt-get"; "autoremove"; "--purge"; "-y"]
      end
    else ret tt.

(** [InstallationThread.remove_dkms_modules]. *)
Definition remove_dkms_modules (self : InstallationThread) : M unit :=
  let kernel := kernel_release in
  w <- get_world ;;
  if String.eqb (distro_family (system w)) "fedora" then
    sudo_cmd self ["find"; "/lib/modules/" +:+ kernel; "-name"; "nvidia*.ko*"; "-delete"] ;;;
    sudo_cmd self ["depmod"; "-a"]
  else
    r <- run_cmd self ["dkms"; "status"] false 300 false None ;;
    (if (fst r =? 0)%Z then
       for_each (PyStr.split LF (snd r))
         (fun line =>
            if PyStr.contains "nvidia" (PyStr.lower line) then
              entry <- lift (py_nth (PyStr.split "," line) 0) ;;
              let entry := PyStr.strip entry in
              if PyStr.truthy entry then
                run_cmd self ["dkms"; "remove"; entry; "--all"] true 300 false
                        (Some "not located in the DKMS tree") ;;; ret tt
              else ret tt
            else ret tt)
     else ret tt) ;;;
    sudo_cmd self ["rm"; "-rf"; "/var/lib/dkms/nvidia*"; "/usr/src/nvidia*"; "/usr/src/NVIDIA*"] ;;;
    sudo_cmd self ["find"; "/lib/modules/" +:+ kernel; "-name"; "nvidia*.ko*"; "!";
                   "-path"; "*/updates/dkms/*"; "-delete"] ;;;
    sudo_cmd self ["depmod"; "-a"].

Definition NVIDIA_CONFIGS_REMOVE : list string :=
  ["/etc/modprobe.d/nvidia*.conf"; "/etc/modprobe.d/blacklist-nouveau.conf";
   "/etc/modprobe.d/disable-nvidia.conf"; "/etc/X11/xorg.conf";
   "/etc/X11/xorg.conf.nvidia-xconfig-original"].

(** [InstallationThread.remove_nvidia_configs]. *)
Definition remove_nvidia_configs (self : InstallationThread) : M unit :=
  for_each NVIDIA_CONFIGS_REMOVE (fun cfg => sudo_cmd self ["rm"; "-f"; cfg]) ;;;
  sudo_cmd self ["sh"; "-c"; "rm -f /etc/ld.so.conf.d/*nvidia*"] ;;;
  sudo_cmd self ["sh"; "-c"; "rm -f /etc/X11/xorg.conf.d/*nvidia*"] ;;;
  sudo_cmd self ["sh"; "-c"; "rm -f /usr/share/X11/xorg.conf.d/*nvidia*"].

Definition LIBRARY_PATHS_RF : list string :=
  ["/usr/lib/x86_64-linux-gnu/libnvidia*"; "/usr/lib/i386-linux-gnu/libnvidia*";
   "/usr/lib32/libnvidia*"; "/usr/lib/nvidia*"; "/usr/lib32/nvidia*";
   "/lib/x86_64-linux-gnu/libnvidia*"; "/lib/i386-linux-gnu/libnvidia*"].

Definition LIBRARY_PATHS_F : list string :=
  ["/lib/x86_64-linux-gnu/*nvidia*.so*"; "/lib/i386-linux-gnu/*nvidia*.so*";
   "/usr/lib/x86_64-linux-gnu/*nvidia*.so*"; "/usr/lib/i386-linux-gnu/*nvidia*.so*";
   "/lib/x86_64-linux-gnu/libvdpau_nvidia*"; "/lib/i386-linux-gnu/libvdpau_nvidia*";
   "/usr/lib/x86_64-linux-gnu/vdpau/libvdpau_nvidia*";
   "/usr/lib/i386-linux-gnu/vdpau/libvdpau_nvidia*";
   "/lib/libGL.so*"; "/lib/libEGL.so*"; "/lib/libGLX.so*"; "/lib/libGLES*.so*";
   "/usr/bin/nvidia*"; "/usr/sbin/nvidia*"].

(** [InstallationThread.remove_nvidia_libraries]. *)
Definition remove_nvidia_libraries (self : InstallationThread) : M unit :=
  w <- get_world ;;
  let fedora := String.eqb (distro_family (system w)) "fedora" in
  let paths_rf :=
    LIBRARY_PATHS_RF
    ++ (if fedora then ["/usr/lib64/libnvidia*"; "/usr/lib64/nvidia*"] else []) in
  for_each paths_rf (fun path => sudo_cmd self ["rm"; "-rf"; path]) ;;;
  let paths_f :=
    LIBRARY_PATHS_F
    ++ (if fedora then ["/usr/lib64/*nvidia*.so*"; "/usr/lib64/libvdpau_nvidia*"] else []) in
  for_each paths_f (fun path => sudo_cmd self ["sh"; "-c"; "rm -f " +:+ path]) ;;;
  sudo_cmd self ["ldconfig"].

(** [InstallationThread.verify_nvidia_removal]. *)
Definition verify_nvidia_removal (self : InstallationThread) : M bool :=
  sudo_cmd self ["ldconfig"] ;;;
  r <- run_cmd self ["ldconfig"; "-p"] false 300 false None ;;
  if (fst r =? 0)%Z && PyStr.contains "nvidia" (PyStr.lower (snd r)) then
    log (_tr "log_ldconfig_warning" []) "WARN" ;;; ret false
  else ret true.

(** [InstallationThread.rebuild_initramfs]. *)
Definition rebuild_initramfs (self : InstallationThread) : M unit :=
  log (_tr "log_updating_initramfs" []) "INFO" ;;;
  w <- get_world ;;
  if String.eqb (distro_family (system w)) "fedora" then
    sudo_cmd self ["dracut"; "--force"]
  else sudo_cmd self ["update-initramfs"; "-u"; "-k"; "all"].

(** A file the program writes or deletes outside its own directories. *)
Definition write_file (path : string) : M unit :=
  if can_write path then modify (add_event (EvWrite path)) else raise (OSError path).

Definition unlink_file (path : string) : M unit :=
  if can_unlink path then modify (add_event (EvUnlink path)) else raise (OSError path).

(** [InstallationThread.configure_nouveau_for_nvk]. *)
Definition configure_nouveau_for_nvk (self : InstallationThread) : M unit :=
  sudo_cmd self ["rm"; "-f"; "/etc/modprobe.d/blacklist-nouveau.conf"] ;;;
  let nouveau_conf := "/etc/modprobe.d/nouveau.conf" in
  let tmp_file := "/tmp/nouveau_conf.txt" in
  write_file tmp_file ;;;
  sudo_cmd self ["cp"; tmp_file; nouveau_conf] ;;;
  unlink_file tmp_file ;;;
  let modules_file := "/etc/initramfs-tools/modules" in
  (if initramfs_modules_exists then
     r <- run_command ["grep"; "-q"; "^nouveau$"; modules_file] false 300 None ;;
     if negb (rc_of r =? 0)%Z then
       sudo_cmd self ["sh"; "-c"; "echo nouveau >> " +:+ modules_file]
     else ret tt
   else ret tt) ;;;
  w <- get_world ;;
  if negb (String.eqb (distro_family (system w)) "fedora") then rebuild_initramfs self
  else ret tt.

(** [InstallationThread.install_uninstall]. *)
Definition install_uninstall (tid : nat) : M unit :=
  self <- get_thread tid ;;
  w <- get_world ;;
  if demo_mode (system w) then
    log (_tr "log_linux_only_short" []) "WARN" ;;;
    emit_finished tid 0
  else
    log (_tr "log_remove_nvidia_header" []) "INFO" ;;;
    emit_progress 15 ;;;
    log (_tr "log_cleaning_nvidia" []) "INFO" ;;;
    clean_nvidia_artifacts self ;;;
    purge_nvidia_packages self ;;;
    remove_dkms_modules self ;;;
    remove_nvidia_configs self ;;;
    remove_nvidia_libraries self ;;;
    emit_progress 50 ;;;
    ok <- verify_nvidia_removal self ;;
    (if negb ok then log (_tr "log_nvidia_libs_visible" []) "WARN" else ret tt) ;;;
    log (_tr "log_config_nouveau" []) "INFO" ;;;
    configure_nouveau_for_nvk self ;;;
    rebuild_initramfs self ;;;
    emit_progress 100 ;;;
    log (_tr "log_nvidia_removed" []) "SUCCESS" ;;;
    update_thread tid (with_restart_needed true) ;;;
    emit_ask_restart ;;;
    emit_finished tid 0.

(** [InstallationThread._ensure_network]. *)
Definition _ensure_network (self : InstallationThread) : M unit :=
  r <- run_cmd self ["ping"; "-c"; "1"; "-W"; "2"; "8.8.8.8"] false 5 false None ;;
  if negb (fst r =? 0)%Z then log (_tr "log_no_network" []) "WARN" else ret tt.

(** [InstallationThread._ensure_dependencies]. *)
Definition _ensure_dependencies (self : InstallationThread) : M bool :=
  missing <- get_missing_dependency_packages (install_type self) ;;
  match missing with
  | [] => ret true
  | _ =>
      log (_tr "log_installing_deps" [PyStr.join ", " missing]) "INFO" ;;;
      w <- get_world ;;
      r <- (if String.eqb (distro_family (system w)) "fedora" then
              dnf <- get_dnf_cmd ;;
              run_cmd self ([dnf; "install"; "-y"] ++ missing) true 300 false None
            else
              r <- run_cmd self ["apt-get"; "update"; "-y"] true 300 false None ;;
              (if negb (fst r =? 0)%Z
               then log (_tr "log_update_repo_failed" []) "WARN" else ret tt) ;;;
              run_cmd self (["apt-get"; "install"; "-y"] ++ missing) true 300 false None) ;;
      if negb (fst r =? 0)%Z then
        log (_tr "log_install_deps_failed" []) "ERROR" ;;; ret false
      else
        log (_tr "log_deps_installed" []) "SUCCESS" ;;; ret true
  end.

(** [InstallationThread.install_upgrade_repo]. *)
Definition install_upgrade_repo (tid : nat) : M unit :=
  self <- get_thread tid ;;
  w <- get_world ;;
  if demo_mode (system w) then
    log (_tr "log_linux_only_short" []) "WARN" ;;; emit_finished tid 0
  else
    pkg <- get_installed_nvidia_driver_package ;;
    match pkg with
    | None => log (_tr "log_no_driver_repo" []) "WARN" ;;; emit_finished tid 0
    | Some pkg =>
        if negb (PyStr.truthy pkg) then
          log (_tr "log_no_driver_repo" []) "WARN" ;;; emit_finished tid 0
        else
          log (_tr "log_updating_repo_pkg" [pkg]) "INFO" ;;;
          emit_progress 20 ;;;
          _ensure_network self ;;;
          w <- get_world ;;
          let upgraded (r : Z * string) : M unit :=
            if (fst r =? 0)%Z then
              emit_progress 100 ;;;
              log (_tr "log_driver_updated" [pkg]) "SUCCESS" ;;;
              update_thread tid (with_restart_needed true) ;;;
              emit_ask_restart ;;;
              emit_finished tid 0
            else
              log (_tr "log_update_failed" []) "ERROR" ;;; emit_finished tid 1 in
          if String.eqb (distro_family (system w)) "fedora" then
            dnf <- get_dnf_cmd ;;
            r <- run_cmd self [dnf; "upgrade"; "-y"; pkg] true 300 false None ;;
            upgraded r
          else
            r <- run_cmd self ["apt-get"; "update"; "-y"] true 300 false None ;;
            if negb (fst r =? 0)%Z then
              log (_tr "log_update_repo_failed" []) "ERROR" ;;; emit_finished tid 1
            else
              r <- run_cmd self ["apt-get"; "install"; "--only-upgrade"; "-y"; pkg]
                           true 300 false None ;;
              upgraded r
    end.

(** [InstallationThread.run]. *)
Definition thread_run (tid : nat) : M unit :=
  self <- get_thread tid ;;
  try_except
    (if String.eqb (install_type self) "nvk" then thread_install_nvk tid
     else if String.eqb (install_type self) "uninstall" then install_uninstall tid
     else if String.eqb (install_type self) "repo" then
       ok <- _ensure_dependencies self ;;
       if negb ok then emit_finished tid 1 else thread_install_repo tid
     else if String.eqb (install_type self) "run" then
       ok <- _ensure_dependencies self ;;
       if negb ok then emit_finished tid 1 else thread_install_nvidia_run tid
     else if String.eqb (install_type self) "upgrade_repo" then install_upgrade_repo tid
     else
       log (_tr "log_unknown_install" []) "ERROR" ;;; emit_finished tid 1)
    (fun e =>
       log (_tr "log_error_exception" [str_of_exn e]) "ERROR" ;;;
       try_except
         (collect_error_report ;;;
          saved <- save_error_report ;;
          match saved with
          | Some error_file => log (_tr "log_error_report_saved" [error_file]) "INFO"
          | None => ret tt
          end)
         (fun _ => ret tt) ;;;
       emit_finished tid 1).

(** The worker: [run] from start to end, after which the thread is no
    longer running. *)
Definition thread_body (tid : nat) : M unit :=
  thread_run tid ;;;
  update_thread tid (with_running false).

(* ====================================================================== *)
(** ** DriverManagerWindow: the entry points of the install menu *)
(* ====================================================================== *)

(** [int(release.split(".")[0])] of the running kernel. *)
Definition kernel_major : Exc Z :=
  match uname_release with
  | None => Raise (OSError "uname")
  | Some release => exc_bind (py_nth (PyStr.split "." release) 0) py_int
  end.

Definition add_issue (query : list string) (issue : string) (issues : list string)
  : M (list string) :=
  result <- run_command query false 300 None ;;
  ret (if negb (rc_of result =? 0)%Z then issues ++ [issue] else issues).

(** [DriverManagerWindow.check_requirements]. *)
Definition check_requirements (install_type : string) : M (bool * list string) :=
  issues <-
    (if String.eqb install_type "nvk" then
       let issues :=
         match kernel_major with
         | Val major =>
             if (major <? 6)%Z
             then ["Kernel " +:+ kernel_release +:+ " - wymagany 6.0+ dla NVK"] else []
         | Raise _ => ["Nie mozna sprawdzic wersji kernela"]
         end in
       add_issue ["modinfo"; "nouveau"] "Modul nouveau nie jest dostepny" issues
     else if existsb (String.eqb install_type) ["repo"; "run"] then
       w <- get_world ;;
       if String.eqb (distro_family (system w)) "fedora" then ret []
       else
         let kernel := kernel_release in
         issues <- add_issue ["dpkg"; "-l"; "linux-headers-" +:+ kernel]
                             ("Brak linux-headers-" +:+ kernel) [] ;;
         issues <- add_issue ["which"; "dkms"] "DKMS nie jest zainstalowany" issues ;;
         add_issue ["dpkg"; "-l"; "build-essential"]
                   "build-essential nie jest zainstalowany" issues
     else ret []) ;;
  ret (match issues with [] => true | _ => false end, issues).

(** [DriverManagerWindow._offer_install_dnf5]. *)
Definition _offer_install_dnf5 : M bool :=
  w <- get_world ;;
  if negb (String.eqb (distro_family (system w)) "fedora") || demo_mode (system w)
  then ret true
  else
    dnf <- get_dnf_cmd ;;
    if negb (String.eqb dnf "dnf") then ret true
    else if negb user_accepts_dnf5 then ret true
    else
      log (_tr "log_installing_pkg" ["dnf5"]) "INFO" ;;;
      w <- get_world ;;
      r <- run_command ["dnf"; "install"; "-y"; "dnf5"] true 120 (_sudo_password w) ;;
      (if (rc_of r =? 0)%Z then
         update_system (with_dnf_cmd (Some "dnf5")) ;;;
         log (_tr "log_dnf5_installed" []) "SUCCESS"
       else log (_tr "log_dnf5_failed" []) "WARN") ;;;
      ret true.

(** [DriverManagerWindow.start_log]; a failed [touch] is swallowed. *)
Definition start_log (name : string) : M unit :=
  w <- get_world ;;
  let f := path_join LOG_DIR (name +:+ "-" +:+ strftime_stamp (now w) +:+ ".log") in
  modify (set_current_log_file (Some f)) ;;;
  if can_write f then modify (add_event (EvWrite f)) else ret tt.

Definition json_of_password (p : option string) : json :=
  match p with
  | Some s => JStr s
  | None => JNull
  end.

(** The lines every entry point ends with: the thread object is built and
    stored in [_install_thread], its signals are connected, and it is
    started. *)
Definition start_thread (install_type : string) (params : list (string * json))
           (slot : FinishedSlot) : M unit :=
  w <- get_world ;;
  let tid := List.length (threads w) in
  modify (set_threads (threads w ++ [mkThread install_type params false false slot])) ;;;
  modify (set_install_thread (Some tid)) ;;;
  update_thread tid (with_running true) ;;;
  modify (add_event (EvThreadStart tid)).

(** [ver.split(".")[0] if "." in ver else ver]. *)
Definition series_of (ver : string) : Exc string :=
  if PyStr.contains_char "." ver then py_nth (PyStr.split "." ver) 0 else Val ver.

(** [DriverManagerWindow.install_nvk]. *)
Definition install_nvk : M unit :=
  w <- get_world ;;
  if demo_mode (system w) then log (_tr "log_linux_only" []) "WARN"
  else
    ok <- check_sudo ;;
    if negb ok then ret tt
    else
      let old_kernel_refused :=
        match kernel_major with
        | Val major =>
            (major <? 6)%Z && negb (user_confirms (_tr "msg_nvk_kernel" [kernel_release]))
        | Raise _ => false
        end in
      if old_kernel_refused then ret tt
      else
        log (_tr "log_checking_requirements" []) "INFO" ;;;
        req <- check_requirements "nvk" ;;
        refused <-
          (if negb (fst req) then
             log (_tr "log_requirements_issues" []) "WARN" ;;;
             for_each (snd req)
                      (fun issue => log (_tr "log_requirement_item" [issue]) "WARN") ;;;
             ret (negb (user_confirms (_tr "msg_requirements_continue" (snd req))))
           else ret false) ;;
        if refused then ret tt
        else
          _offer_install_dnf5 ;;;
          log (_tr "log_starting_nvk" []) "INFO" ;;;
          create_backup "nvk" "NVK" ;;;
          start_log "nvk" ;;;
          w <- get_world ;;
          start_thread "nvk" [("sudo_password", json_of_password (_sudo_password w))]
                       OnNvkFinished.

(** [DriverManagerWindow.install_repo]. *)
Definition install_repo : M unit :=
  w <- get_world ;;
  if demo_mode (system w) then log (_tr "log_linux_only" []) "WARN"
  else
    ok <- check_sudo ;;
    if negb ok then ret tt
    else
      log (_tr "log_checking_requirements" []) "INFO" ;;;
      req <- check_requirements "repo" ;;
      (if negb (fst req) then log (_tr "log_deps_auto_install" []) "INFO" else ret tt) ;;;
      _offer_install_dnf5 ;;;
      ver <- highest_repo_driver ;;
      ver_series <- lift (series_of ver) ;;
      let pkg := "nvidia-driver-" +:+ ver_series +:+ "-open" in
      log (_tr "log_starting_repo" [ver]) "INFO" ;;;
      create_backup "repo" ver ;;;
      start_log "repo" ;;;
      w <- get_world ;;
      start_thread "repo"
                   [("version", JStr ver); ("package", JStr pkg); ("latest", JBool false);
                    ("sudo_password", json_of_password (_sudo_password w))]
                   (OnRepoFinished ver).

(** [DriverManagerWindow.install_repo_latest]. *)
Definition install_repo_latest : M unit :=
  w <- get_world ;;
  if demo_mode (system w) then log (_tr "log_linux_only" []) "WARN"
  else
    ok <- check_sudo ;;
    if negb ok then ret tt
    else
      log (_tr "log_checking_requirements" []) "INFO" ;;;
      req <- check_requirements "repo" ;;
      (if negb (fst req) then log (_tr "log_deps_auto_install" []) "INFO" else ret tt) ;;;
      _offer_install_dnf5 ;;;
      ver <- highest_repo_driver_latest ;;
      ver_series <- lift (series_of ver) ;;
      let pkg := "nvidia-driver-" +:+ ver_series +:+ "-open" in
      log (_tr "log_starting_repo" [ver]) "INFO" ;;;
      create_backup "repo" ver ;;;
      start_log "repo-latest" ;;;
      w <- get_world ;;
      start_thread "repo"
                   [("version", JStr ver); ("package", JStr pkg); ("latest", JBool true);
                    ("sudo_password", json_of_password (_sudo_password w))]
                   (OnRepoLatestFinished ver).

Definition VERSION_LABELS : list (string * string) :=
  [("production", "Production"); ("new_feature", "New Feature"); ("beta", "Beta");
   ("legacy", "Legacy")].

Definition get_or {V} (d : list (string * V)) (k : string) (default : V) : V :=
  match dict_get d k with
  | Some v => v
  | None => default
  end.

(** [DriverManagerWindow.install_nvidia_run]. *)
Definition install_nvidia_run (version_type : string) : M unit :=
  w <- get_world ;;
  if demo_mode (system w) then log (_tr "log_linux_only" []) "WARN"
  else
    ok <- check_sudo ;;
    if negb ok then ret tt
    else
      log (_tr "log_checking_requirements" []) "INFO" ;;;
      req <- check_requirements "run" ;;
      (if negb (fst req) then log (_tr "log_deps_auto_install" []) "INFO" else ret tt) ;;;
      let version := get_or window_versions version_type PRODUCTION_VERSION in
      let label := get_or VERSION_LABELS version_type "Production" in
      log (_tr "log_starting_run" [label; version]) "INFO" ;;;
      create_backup "run" version ;;;
      start_log ("run-v2-" +:+ version) ;;;
      w <- get_world ;;
      start_thread "run"
                   [("version", JStr version); ("label", JStr label);
                    ("version_type", JStr version_type);
                    ("sudo_password", json_of_password (_sudo_password w))]
                   (OnRunFinished version).

(** [DriverManagerWindow.uninstall_nvidia_only]. *)
Definition uninstall_nvidia_only : M unit :=
  w <- get_world ;;
  if demo_mode (system w) then log (_tr "log_linux_only_short" []) "WARN"
  else
    ok <- check_sudo ;;
    if negb ok then ret tt
    else if negb (user_confirms (_tr "msg_uninstall_confirm" [])) then ret tt
    else
      log (_tr "log_removing_nvidia" []) "INFO" ;;;
      start_log "uninstall-nvidia" ;;;
      w <- get_world ;;
      start_thread "uninstall" [("sudo_password", json_of_password (_sudo_password w))]
                   OnFinished.

(** [DriverManagerWindow.upgrade_repo_driver]. *)
Definition upgrade_repo_driver : M unit :=
  w <- get_world ;;
  if demo_mode (system w) then log (_tr "log_linux_only_short" []) "WARN"
  else
    pkg <- get_installed_nvidia_driver_package ;;
    match pkg with
    | None => log (_tr "log_no_driver_repo_short" []) "WARN"
    | Some pkg =>
        if negb (PyStr.truthy pkg) then log (_tr "log_no_driver_repo_short" []) "WARN"
        else
          ok <- check_sudo ;;
          if negb ok then ret tt
          else
            _offer_install_dnf5 ;;;
            log (_tr "log_updating_pkg" [pkg]) "INFO" ;;;
            start_log "upgrade-repo" ;;;
            w <- get_world ;;
            start_thread "upgrade_repo"
                         [("sudo_password", json_of_password (_sudo_password w))]
                         OnFinished
    end.

(** An install request is in flight: [_install_thread] holds a thread that
    is running, its [finished] slot not yet run. *)
Definition in_flight (w : World) : bool :=
  match _install_thread w with
  | Some tid =>
      match nth_error (threads w) tid with
      | Some t => is_running t
      | None => false
      end
  | None => false
  end.

(** ** Reference readings used to state the properties *)

(** The four series with their patterns. *)
Definition SERIES_PATTERNS : list (string * Regex.regex) :=
  [("production", prod_re); ("new_feature", newf_re); ("beta", beta_re);
   ("legacy", legacy_re)].

(** The series whose pattern finds the candidate in the listing. *)
Definition series_matching (content candidate : string) : list string :=
  map fst (filter (fun kr => existsb (String.eqb candidate)
                                     (Regex.findall (snd kr) content))
                  SERIES_PATTERNS).

(** The texts a pattern denotes. *)
Fixpoint lang (r : Regex.regex) (m : string) : Prop :=
  match r with
  | Regex.Eps => m = ""
  | Regex.Atom a => exists c, m = String c "" /\ Regex.atom_matches a c = true
  | Regex.Cat r1 r2 => exists m1 m2, m = m1 +:+ m2 /\ lang r1 m1 /\ lang r2 m2
  | Regex.Alt r1 r2 => lang r1 m \/ lang r2 m
  | Regex.Rep min a =>
      min <= String.length m
      /\ forall c, In c (list_ascii_of_string m) -> Regex.atom_matches a c = true
  end.

(** What a scan learns about one series: the version text of the first
    [Version:] line of [apt-cache show], when the query succeeds and has
    such a line. *)
Definition series_version (v : nat) : option string :=
  let r := command_result false (apt_cache_show v) false 300 None in
  if (rc_of r =? 0)%Z then
    match version_line (out_of r) with
    | Some line =>
        match version_of_line line with
        | Val ver => Some ver
        | Raise _ => None
        end
    | None => None
    end
  else None.

(** The series that resolve, with their versions, in scan order. *)
Fixpoint found (series : list nat) : list (nat * string) :=
  match series with
  | [] => []
  | v :: rest =>
      match series_version v with
      | Some ver => (v, ver) :: found rest
      | None => found rest
      end
  end.

(** The address of the directory listing. *)
Definition listing_url (w : World) : string :=
  "https://download.nvidia.com/XFree86/" +:+ nvidia_arch (system w) +:+ "/".

(** The listing [fetch_versions] works on: the answer of the first
    downloader that exits with 0 and prints something, if any. *)
Fixpoint first_usable (tools : list string) (url : string) : option string :=
  match tools with
  | [] => None
  | tool :: rest =>
      let r := command_result false [tool; "-s"; url] false 10 None in
      if (rc_of r =? 0)%Z && PyStr.truthy (out_of r) then Some (out_of r)
      else first_usable rest url
  end.

(** A non-empty text of decimal digits, and a version entry of a listing:
    three such texts joined by dots, followed by a slash. *)
Definition digits (s : string) : Prop := s <> "" /\ PyStr.all_digits s = true.

Definition version_entry (m : string) : Prop :=
  exists d1 d2 d3,
    digits d1 /\ digits d2 /\ digits d3
    /\ m = d1 +:+ "." +:+ d2 +:+ "." +:+ d3 +:+ "/".

(** The integer triplet of a version entry, read off its text: the
    decimal values of its three numbers. *)
Definition entry_triplet (m : string) (k : list Z) : Prop :=
  exists d1 d2 d3,
    digits d1 /\ digits d2 /\ digits d3
    /\ m = d1 +:+ "." +:+ d2 +:+ "." +:+ d3 +:+ "/"
    /\ k = [PyStr.digits_value 0 d1; PyStr.digits_value 0 d2; PyStr.digits_value 0 d3].

(** A version entry none of whose numbers has more digits than [int]
    takes. *)
Definition short_entry (m : string) : Prop :=
  exists d1 d2 d3,
    digits d1 /\ digits d2 /\ digits d3
    /\ String.length d1 <= PyStr.INT_MAX_STR_DIGITS
    /\ String.length d2 <= PyStr.INT_MAX_STR_DIGITS
    /\ String.length d3 <= PyStr.INT_MAX_STR_DIGITS
    /\ m = d1 +:+ "." +:+ d2 +:+ "." +:+ d3 +:+ "/".

(** Whether two lists of texts hold the same texts. *)
Definition same_entries (l l' : list string) : bool :=
  forallb (fun m => existsb (String.eqb m) l') l
  && forallb (fun m => existsb (String.eqb m) l) l'.

(** The orders a list can be given in. *)
Fixpoint inserts {A} (x : A) (l : list A) : list (list A) :=
  match l with
  | [] => [[x]]
  | y :: l' => (x :: l) :: map (cons y) (inserts x l')
  end.

Fixpoint permutations {A} (l : list A) : list (list A) :=
  match l with
  | [] => [[]]
  | x :: l' => flat_map (inserts x) (permutations l')
  end.

(** How a dictionary may differ from an earlier one after the listing
    [content] was parsed: an entry is untouched, or it belongs to a series
    whose pattern matched and holds a non-empty name found by that
    pattern. *)
Definition refreshed (content : string) (d d' : dict string) : Prop :=
  forall key,
    dict_get d' key = dict_get d key
    \/ exists re x,
        In (key, re) SERIES_PATTERNS
        /\ In x (Regex.findall re content)
        /\ PyStr.rstrip_char "/" x <> ""
        /\ dict_get d' key = Some (PyStr.rstrip_char "/" x).

(** The identifiers of the static mapping of [detect_distro]. *)
Definition MAPPED_IDS : list string :=
  ["ubuntu"; "kubuntu"; "lubuntu"; "xubuntu"; "pop"; "linuxmint"; "zorin"; "elementary";
   "neon"; "debian"; "fedora"; "rhel"; "centos"; "rocky"; "alma"].

(** The distribution identifier of an [os-release] text: the value of its
    last [ID=] line. *)
Definition release_id_step (acc : option string) (line : string) : option string :=
  if PyStr.startswith line "ID=" then
    match os_release_value line with
    | Val distro_id => Some distro_id
    | Raise _ => acc
    end
  else acc.

Definition release_id (content : string) : option string :=
  fold_left release_id_step (PyStr.split LF content) None.

(** The packages [get_missing_dependency_packages] looks for off Fedora,
    each with its query. *)
Definition DEBIAN_DEPENDENCIES : list (list string * string) :=
  [(["dpkg"; "-l"; "linux-headers-" +:+ kernel_release], "linux-headers-" +:+ kernel_release);
   (["dpkg"; "-l"; "dkms"], "dkms");
   (["dpkg"; "-l"; "build-essential"], "build-essential")].

(** Whether a query fails on the host. *)
Definition query_fails (query : list string) : bool :=
  negb (rc_of (command_result false query false 300 None) =? 0)%Z.

(** The records retention deletes from a directory, oldest first, and what
    is left of the directory once they are gone. *)
Definition expired (d : list (string * Content)) : list string :=
  let all_backups := sorted_strings (glob_backups d) in
  if MAX_BACKUPS <? List.length all_backups
  then firstn (List.length all_backups - MAX_BACKUPS) all_backups
  else [].

Definition retained (d : list (string * Content)) : list (string * Content) :=
  fold_left (fun d n => dict_remove d n) (expired d) d.

(** The last [n] items of a list. *)
Definition lastn {A} (n : nat) (l : list A) : list A := skipn (List.length l - n) l.

(** Clock readings compared to the second, as [datetime] compares them
    field by field. *)
Definition dt_fields (t : DateTime) : list Z :=
  [year t; month t; day t; hour t; minute t; second t].

Definition before (t1 t2 : DateTime) : Prop := list_lt (dt_fields t1) (dt_fields t2) = true.


(** Names in strictly ascending order. *)
Definition ascending_names (l : list string) : Prop :=
  StronglySorted (fun a b => String.ltb a b = true) l.

(** A run of snapshots: each request is made at its clock reading, for an
    install type and a target version. *)
Fixpoint take_snapshots (requests : list (DateTime * (string * string)))
  : M (list (option string)) :=
  match requests with
  | [] => ret []
  | (t, (install_type, target_version)) :: rest =>
      modify (set_now t) ;;;
      r <- create_backup install_type target_version ;;
      rs <- take_snapshots rest ;;
      ret (r :: rs)
  end.

End Host.

(* ====================================================================== *)
(** ** What a computation leaves alone *)
(* ====================================================================== *)

(** What two worlds agree on during one session of the window: the
    identity of the system, the clock, the password, the install thread
    and the threads, and the history. *)
Definition same_session (w w' : World) : Prop :=
  demo_mode (system w') = demo_mode (system w)
  /\ distro_family (system w') = distro_family (system w)
  /\ now w' = now w
  /\ _sudo_password w' = _sudo_password w
  /\ _install_thread w' = _install_thread w
  /\ threads w' = threads w
  /\ history w' = history w.

(** [w'] is [w] after some more events, all of kind [P]; the session and
    the backup directory are as they were. *)
Definition extends (P : Event -> Prop) (w w' : World) : Prop :=
  same_session w w'
  /\ backup_dir w' = backup_dir w
  /\ exists added, trace w' = trace w ++ added /\ Forall P added.

(** A relation between the world before and the world after that holds
    when nothing happens and composes. *)
Class Frame (R : World -> World -> Prop) : Prop := {
  frame_refl : forall w, R w w;
  frame_trans : forall w1 w2 w3, R w1 w2 -> R w2 w3 -> R w1 w3
}.

(** A computation that always returns, and one that may raise; both
    change the world within [R]. *)
Definition runs (R : World -> World -> Prop) {A} (m : M A) : Prop :=
  forall w, exists a w', m w = (Val a, w') /\ R w w'.

Definition framed (R : World -> World -> Prop) {A} (m : M A) : Prop :=
  forall w, R w (snd (m w)).

(** Kinds of events: child processes and plain files; plain files only. *)
Definition probe_event (e : Event) : Prop :=
  match e with
  | EvProc _ | EvWrite _ | EvUnlink _ => True
  | _ => False
  end.

Definition file_event (e : Event) : Prop :=
  match e with
  | EvWrite _ => True
  | _ => False
  end.

(** The backup records deleted, in order. *)
Fixpoint unlinked (t : list Event) : list string :=
  match t with
  | [] => []
  | EvBackupUnlink n :: t' => n :: unlinked t'
  | _ :: t' => unlinked t'
  end.

(** The backup records written, by name, in order. *)
Fixpoint backups_written (t : list Event) : list string :=
  match t with
  | [] => []
  | EvBackupWrite n :: t' => n :: backups_written t'
  | _ :: t' => backups_written t'
  end.

(** The events other than child processes and plain files. *)
Definition milestones (t : list Event) : list Event :=
  filter (fun e => match e with
                   | EvProc _ | EvWrite _ | EvUnlink _ => false
                   | _ => true
                   end) t.

(** Nothing is written into [BACKUP_DIR] and its content stays as it is. *)
Definition keeps_backups (w w' : World) : Prop :=
  backup_dir w' = backup_dir w
  /\ backups_written (trace w') = backups_written (trace w).

(* ====================================================================== *)
(** ** Sample surroundings, used to run the program on concrete inputs *)
(* ====================================================================== *)

(** A Linux host on which every file operation succeeds, nobody answers
    the password dialogue, every question is answered yes, and child
    processes behave as [exec] says; [release] is its [/etc/os-release]. *)
Definition sample_host_release (release : string) (exec : Invocation -> ProcOutcome)
  : Env.Host :=
  Env.mkHost exec (Some release) None (Some "6.8.0-45-generic") false true
    "/opt/nvidia-driver-manager"
    (fun _ => true) (fun _ => false) (fun _ => true) (fun _ => true) (fun _ => None) 480
    (ret false) (fun _ => true) false
    (fun _ => ret tt) (fun _ => ret tt) (fun _ => ret tt) fallback_versions.

Definition sample_host (exec : Invocation -> ProcOutcome) : Env.Host :=
  sample_host_release "NAME=Ubuntu
ID=ubuntu
" exec.

Definition sample_system (family : string) : SystemManager :=
  mkSystemManager false "Sample" family "Linux-x86_64" true "NVIDIA GeForce RTX 3060"
                  "brak" None None.

Definition sample_time : DateTime := mkDateTime 2025 3 14 9 26 53 0.

(** A freshly started program on a distribution of the given family: no
    backups, no thread, an empty log. *)
Definition sample_world (family : string) : World :=
  mkWorld (sample_system family) [] [] sample_time [] None None None [] [].

(** A package cache in which, of all the candidate series, only 600 and
    580 resolve. *)
Definition cache_600_580 (i : Invocation) : ProcOutcome :=
  if list_eq_dec string_dec (argv i) ["apt-cache"; "show"; "nvidia-driver-600-open"] then
    Exited 0 (Some "Package: nvidia-driver-600-open
Version: 600.12.03-0ubuntu1
Priority: optional
") (Some "")
  else if list_eq_dec string_dec (argv i) ["apt-cache"; "show"; "nvidia-driver-580-open"] then
    Exited 0 (Some "Package: nvidia-driver-580-open
Version: 580.95.05-0ubuntu1
Priority: optional
") (Some "")
  else Exited 100 (Some "") (Some "E: No packages found").

(** A package cache in which only series 550 resolves. *)
Definition cache_550 (i : Invocation) : ProcOutcome :=
  if list_eq_dec string_dec (argv i) ["apt-cache"; "show"; "nvidia-driver-550-open"] then
    Exited 0 (Some "Package: nvidia-driver-550-open
Version: 550.163.01-0ubuntu1
") (Some "")
  else Exited 100 (Some "") (Some "E: No packages found").

(** The candidate entries of the fabricated directory listing. *)
Definition listing_entries : list string :=
  ["580.10.0/"; "580.95.2/"; "590.44.9/"; "590.50.1/"; "470.10.0/"].

(** The selection the five entries lead to, and the entries of each
    series among them. *)
Definition selected_versions : dict string :=
  [("production", "580.95.2"); ("new_feature", "590.50.1");
   ("beta", "590.44.9"); ("legacy", "470.10.0")].

Definition series_entries : list (string * list string) :=
  [("production", ["580.10.0/"; "580.95.2/"]); ("new_feature", ["590.50.1/"]);
   ("beta", ["590.44.9/"]); ("legacy", ["470.10.0/"])].

(** A listing of the given entries, one per line, and the host that
    serves it to [curl]. *)
Definition listing_of (entries : list string) : string :=
  PyStr.join (String LF "") entries.

Definition serving (listing : string) (i : Invocation) : ProcOutcome :=
  if list_eq_dec string_dec (argv i)
                 ["curl"; "-s"; "https://download.nvidia.com/XFree86/Linux-x86_64/"]
  then Exited 0 (Some listing) (Some "")
  else NotStarted (OSError "No such file or directory").

(** The five entries newest first, and a listing in which the order of
    the texts is not the order of the numbers. *)
Definition listing_newest_first : list string :=
  ["590.50.1/"; "590.44.9/"; "580.95.2/"; "580.10.0/"; "470.10.0/"].

Definition listing_580 : list string := ["580.9.1/"; "580.126.09/"; "580.95.2/"].

(** A text of [n] digits, and a listing with an entry whose last number
    has one digit more than [int] takes. *)
Fixpoint ones (n : nat) : string :=
  match n with
  | 0 => ""
  | S n' => String "1" (ones n')
  end.

Definition long_number_listing : string :=
  "580.95.2/" +:+ String LF ("580.1." +:+ ones (S PyStr.INT_MAX_STR_DIGITS) +:+ "/").

(** The same entries as the vendor's index page shows them, each as a
    link. *)
Definition sample_index_page : string :=
  PyStr.join (String LF "")
    (map (fun e => "<span class='dir'><a href='" +:+ e +:+ "'>" +:+ e +:+ "</a></span>")
         listing_entries).

(** A host on which [sudo -n true] succeeds and nothing else can be
    started. *)
Definition sudo_ready (i : Invocation) : ProcOutcome :=
  if list_eq_dec string_dec (argv i) ["sudo"; "-n"; "true"]
  then Exited 0 (Some "") (Some "")
  else NotStarted (OSError "No such file or directory").

(** The snapshot taken before a vendor-installer request on a host with no
    driver packages: its package list is empty. *)
Definition run_snapshot : json :=
  JObj [("date", JStr "2025-03-14T09:26:53");
        ("backup_id", JStr "backup-20250314-092653");
        ("previous_driver", JStr "nouveau");
        ("packages", JList []);
        ("install_about_to", JStr "run");
        ("target_version", JStr "580.126.09")].

Definition world_with_run_snapshot : World :=
  mkWorld (sample_system "ubuntu") []
          [("backup-20250314-092653.json", Document run_snapshot)]
          sample_time [] None None None [] [].

(** Twelve requests, a minute apart. *)
Definition twelve_requests : list (DateTime * (string * string)) :=
  map (fun m => (mkDateTime 2025 3 14 9 (Z.of_nat m) 0 0, ("repo", "580.95.05")))
      (List.seq 0 12).

(** A world in which a repository install is in flight: its thread is
    running and [_install_thread] refers to it. *)
Definition busy_world : World :=
  mkWorld (sample_system "ubuntu") [EvThreadStart 0] [] sample_time [] None None (Some 0)
          [mkThread "repo" [("version", JStr "580.95.05"); ("sudo_password", JNull)]
                    false true (OnRepoFinished "580.95.05")]
          [].

(** A host with an active proprietary driver: [nvidia-smi] reports
    550.90.07, [dpkg -l] lists two driver packages, none of the program's
    one-shot services exists (so [systemctl stop] and [systemctl disable]
    fail with a missing unit), and every other command succeeds with no
    output. *)
Definition proprietary_host_exec (i : Invocation) : ProcOutcome :=
  if list_eq_dec string_dec (argv i)
       ["nvidia-smi"; "--query-gpu=driver_version"; "--format=csv,noheader"] then
    Exited 0 (Some "550.90.07
") (Some "")
  else if list_eq_dec string_dec (argv i) ["dpkg"; "-l"] then
    Exited 0 (Some "ii  libc6:amd64  2.39-0ubuntu8  amd64  GNU C Library
ii  libnvidia-gl-550:amd64  550.90.07-0ubuntu1  amd64  NVIDIA OpenGL libraries
ii  nvidia-driver-550  550.90.07-0ubuntu1  amd64  NVIDIA driver metapackage
") (Some "")
  else if list_eq_dec string_dec (firstn 2 (argv i)) ["sudo"; "systemctl"] then
    if existsb (String.eqb (nth 2 (argv i) "")) ["stop"; "disable"]
    then Exited 5 (Some "") (Some "Failed: Unit not loaded.")
    else Exited 0 (Some "") (Some "")
  else Exited 0 (Some "") (Some "").

Definition proprietary_host : Env.Host := sample_host proprietary_host_exec.

(** The Uninstall request on that host, from the menu entry to the end of
    its thread. *)
Definition uninstall_request : M unit :=
  uninstall_nvidia_only proprietary_host ;;; thread_body proprietary_host 0.

(** A host on which no program can be started. *)
Definition no_programs (i : Invocation) : ProcOutcome :=
  NotStarted (OSError "No such file or directory").

(** A host on which every child process exceeds its time limit. *)
Definition always_late (i : Invocation) : ProcOutcome := TimedOut.

(* ====================================================================== *)
(** ** Readings of the host, and the backup list *)
(* ====================================================================== *)

Section Readings.

Variable host : Env.Host.

(** The queries behind [get_current_driver] and
    [get_installed_nvidia_packages]. *)
Definition DRIVER_QUERY : list string :=
  ["nvidia-smi"; "--query-gpu=driver_version"; "--format=csv,noheader"].

Definition packages_query (family : string) : list string :=
  if String.eqb family "fedora" then ["rpm"; "-qa"] else ["dpkg"; "-l"].

(** What [get_current_driver] returns outside demo mode, read off the
    host's answers. *)
Definition current_driver_outside_demo : string :=
  let result := command_result host false DRIVER_QUERY false 300 None in
  let out := PyStr.strip (out_of result) in
  if (rc_of result =? 0)%Z && PyStr.truthy out && negb (String.eqb out "N/A") then
    match PyStr.split LF out with
    | first :: _ => first
    | [] => ""
    end
  else
    match Env.proc_modules host with
    | Some content => if PyStr.contains "nouveau" content then "nouveau" else "brak"
    | None => "brak"
    end.

(** What [get_installed_nvidia_packages] returns outside demo mode on a
    distribution of the given family. *)
Definition installed_packages_outside_demo (family : string) : Exc (list string) :=
  let result := command_result host false (packages_query family) false 300 None in
  if negb (rc_of result =? 0)%Z then Val []
  else if String.eqb family "fedora"
       then Val (rpm_nvidia_packages (PyStr.split LF (out_of result)) [])
       else dpkg_nvidia_packages (PyStr.split LF (out_of result)) [].

(** [DriverManagerWindow.list_backups]: the records of [BACKUP_DIR] in
    descending name order, each with its path and file name added. A file
    that holds no JSON document, and one whose JSON value is not an object
    and cannot take the two keys ([TypeError]), is passed over. A missing
    directory lists as an empty one. *)
Definition list_backups : M (list json) :=
  w <- get_world ;;
  ret (flat_map
         (fun name =>
            match dict_get (backup_dir w) name with
            | Some (Document (JObj fields)) =>
                [JObj (dict_set (dict_set fields "_path"
                                          (JStr (path_join (BACKUP_DIR host) name)))
                                "_filename" (JStr name))]
            | _ => []
            end)
         (rev (sorted_strings (glob_backups (backup_dir w))))).

(** The file a snapshot taken at [t] is written to. *)
Definition backup_path (t : DateTime) : string :=
  path_join (BACKUP_DIR host) (backup_name t).

(** [b.get("_filename")] for an entry of the list. *)
Definition filename_of (entry : json) : option string :=
  match entry with
  | JObj fields =>
      match dict_get fields "_filename" with
      | Some (JStr name) => Some name
      | _ => None
      end
  | _ => None
  end.

End Readings.

(** Names that are not among [names]. *)
Definition absent_from (names : list string) (k : string) : bool :=
  negb (existsb (String.eqb k) names).

(** Names in strictly descending order. *)
Definition descending_names (l : list string) : Prop :=
  StronglySorted (fun a b => String.ltb b a = true) l.

(** Whether a name of the directory holds a JSON object. *)
Definition holds_record (d : list (string * Content)) (name : string) : bool :=
  match dict_get d name with
  | Some (Document (JObj _)) => true
  | _ => false
  end.


(** Kinds of events a strategy produces on its way: child processes,
    plain files and progress reports. *)
Definition step_event (e : Event) : Prop :=
  match e with
  | EvProc _ | EvWrite _ | EvUnlink _ | EvProgress _ => True
  | _ => False
  end.

(** The entry points of the install menu; the vendor-installer entry takes
    the version type of the button pressed. *)
Definition entry_points (host : Env.Host) (version_type : string) : list (M unit) :=
  [install_nvk host; install_repo host; install_repo_latest host;
   install_nvidia_run host version_type; uninstall_nvidia_only host;
   upgrade_repo_driver host].

(** The query behind [get_installed_nvidia_driver_package]. *)
Definition driver_package_query (family : string) : list string :=
  if String.eqb family "fedora" then ["rpm"; "-q"; "akmod-nvidia"] else ["dpkg"; "-l"].

(** Events of a kind are added, while the threads and the backup directory
    stay as they are (the window's fields may change). *)
Definition appends (P : Event -> Prop) (w w' : World) : Prop :=
  threads w' = threads w
  /\ backup_dir w' = backup_dir w
  /\ exists added, trace w' = trace w ++ added /\ Forall P added.

(** The [finished] signals emitted, with their codes, in order; and the
    number of times a restart was asked for. *)
Fixpoint finished_codes (t : list Event) : list (nat * Z) :=
  match t with
  | [] => []
  | EvFinished tid code :: t' => (tid, code) :: finished_codes t'
  | _ :: t' => finished_codes t'
  end.

Fixpoint restarts_asked (t : list Event) : nat :=
  match t with
  | [] => 0
  | EvAskRestart :: t' => S (restarts_asked t')
  | _ :: t' => restarts_asked t'
  end.

(** How a strategy ends for the thread [tid], seen from the state [w0] it
    was started in: one [finished] signal with its code, a restart asked
    for at most once and only with code 0, the window's reference to the
    thread and the cached password dropped, [restart_needed] set exactly
    when a restart was asked for, and no other thread touched. *)
Definition finished_with (tid : nat) (w0 : World) (code : Z) (restart : bool)
           (w' : World) : Prop :=
  exists added,
    trace w' = trace w0 ++ added
    /\ finished_codes added = [(tid, code)]
    /\ restarts_asked added = (if restart then 1 else 0)
    /\ threads w'
       = (if restart
          then match nth_error (threads w0) tid with
               | Some t => replace_nth tid (with_restart_needed true t) (threads w0)
               | None => threads w0
               end
          else threads w0)
    /\ _install_thread w' = None
    /\ _sudo_password w' = None
    /\ backup_dir w' = backup_dir w0.

(** The result of a run of the thread [tid] started in [w0]: it raised on
    its way, or it has ended. *)
Definition ended_or_raised (tid : nat) (w0 : World) (r : Exc unit * World) : Prop :=
  match r with
  | (Raise _, w') => extends step_event w0 w'
  | (Val _, w') =>
      exists code restart,
        finished_with tid w0 code restart w'
        /\ (code = 0%Z \/ code = 1%Z)
        /\ (restart = true -> code = 0%Z)
  end.

(** A continuation ends the thread from every state reached by steps. *)
Definition ends (tid : nat) (w0 : World) (m : M unit) : Prop :=
  forall w, extends step_event w0 w -> ended_or_raised tid w0 (m w).


(** The code [run_cmd] returns for the tuple [run_command] gave it. *)
Definition run_cmd_code (result : CommandResult) (ignore_missing_unit : bool)
           (ignore_stderr_contains : option string) : Z :=
  let rc := rc_of result in
  let stderr := err_of result in
  if (rc =? 0)%Z then rc
  else if ignore_missing_unit
          && (PyStr.contains "not loaded" stderr || PyStr.contains "does not exist" stderr)
  then 0%Z
  else if match ignore_stderr_contains with
          | Some p => PyStr.truthy p && PyStr.contains p stderr
          | None => false
          end
  then 0%Z
  else rc.

(** Whether a command the thread runs under sudo exits with code 0, read
    off the host's answer. *)
Definition sudo_succeeds (host : Env.Host) (demo : bool) (self : InstallationThread)
           (cmd : list string) : bool :=
  (rc_of (command_result host demo cmd true 300 (param_sudo_password self)) =? 0)%Z.

(** A continuation that ends the thread with a given code, from every
    state reached by steps. *)
Definition ends_with (tid : nat) (w0 : World) (code : Z) (restart : bool) (m : M unit)
  : Prop :=
  forall w, extends step_event w0 w ->
            exists w', m w = (Val tt, w') /\ finished_with tid w0 code restart w'.

(** The temporary file [configure_nouveau_for_nvk] writes. *)
Definition NOUVEAU_TMP_FILE : string := "/tmp/nouveau_conf.txt".

(* ====================================================================== *)
(** ** More sample surroundings *)
(* ====================================================================== *)

(** A Fedora host without dnf5: the repository offers akmod-nvidia
    570.144, and [rpm -qa] lists two driver packages beside the firmware. *)
Definition fedora_host_exec (i : Invocation) : ProcOutcome :=
  if list_eq_dec string_dec (argv i) ["which"; "dnf5"] then
    Exited 1 (Some "") (Some "which: no dnf5 in PATH")
  else if list_eq_dec string_dec (argv i)
            ["env"; "DNF_FRONTEND=noninteractive"; "dnf"; "list"; "available";
             "akmod-nvidia"; "-q"] then
    Exited 0 (Some "Available Packages
akmod-nvidia.x86_64    570.144-1.fc41    rpmfusion-nonfree-updates
") (Some "")
  else if list_eq_dec string_dec (argv i) ["rpm"; "-qa"] then
    Exited 0 (Some "bash-5.2.32-1.fc41.x86_64
akmod-nvidia-565.77-1.fc41.x86_64
nvidia-gpu-firmware-20250311-1.fc41.noarch
xorg-x11-drv-nvidia-565.77-1.fc41.x86_64
") (Some "")
  else Exited 0 (Some "") (Some "").

Definition fedora_host : Env.Host :=
  sample_host_release "NAME=Fedora Linux
ID=fedora
" fedora_host_exec.

(** A directory past the limit: eleven snapshots, newest first, beside a
    file that is no snapshot. *)
Definition crowded_dir : list (string * Content) :=
  ("notes.txt", Document (JStr "keep"))
  :: map (fun request => (backup_name (fst request), Document run_snapshot))
         (rev (firstn 11 twelve_requests)).

Definition crowded_world : World :=
  mkWorld (sample_system "ubuntu") [] crowded_dir sample_time [] None None None [] [].

(** The host with the proprietary driver, on which no file can be
    deleted. *)
Definition stubborn_host : Env.Host :=
  Env.mkHost proprietary_host_exec (Some "NAME=Ubuntu
ID=ubuntu
") None (Some "6.8.0-45-generic") false true "/opt/nvidia-driver-manager"
    (fun _ => true) (fun _ => false) (fun _ => false) (fun _ => true) (fun _ => None) 480
    (ret false) (fun _ => true) false
    (fun _ => ret tt) (fun _ => ret tt) (fun _ => ret tt) fallback_versions.

(** Two clock readings within one second. *)
Definition sample_time_later : DateTime := mkDateTime 2025 3 14 9 26 53 480000.

(** The sample world in demo mode. *)
Definition demo_world : World :=
  set_system (mkSystemManager true "Windows" "windows" "Linux-x86_64" true
                              "NVIDIA GeForce RTX 3060" "brak" None None)
             (sample_world "windows").

(** A host on which every command fails with exit code 1; nobody answers
    the password dialogue. *)
Definition every_command_fails (i : Invocation) : ProcOutcome :=
  Exited 1 (Some "") (Some "").

(** A host on which [sudo -n true] succeeds, nothing else can be started,
    and every question is answered no. *)
Definition declining_host : Env.Host :=
  Env.mkHost sudo_ready (Some "NAME=Ubuntu
ID=ubuntu
") None (Some "6.8.0-45-generic") false true "/opt/nvidia-driver-manager"
    (fun _ => true) (fun _ => false) (fun _ => true) (fun _ => true) (fun _ => None) 480
    (ret false) (fun _ => false) false
    (fun _ => ret tt) (fun _ => ret tt) (fun _ => ret tt) fallback_versions.

(** A host whose package index cannot be refreshed: [apt-get update]
    fails, [dpkg -l dkms] finds nothing, every other command succeeds. *)
Definition stale_index_exec (i : Invocation) : ProcOutcome :=
  if list_eq_dec string_dec (argv i) ["sudo"; "apt-get"; "update"; "-y"] then
    Exited 100 (Some "") (Some "E: Failed to fetch the package index")
  else if list_eq_dec string_dec (argv i) ["dpkg"; "-l"; "dkms"] then
    Exited 1 (Some "") (Some "dpkg-query: no packages found matching dkms")
  else Exited 0 (Some "") (Some "").

(** The thread of a repository request, of an Uninstall request and of an
    upgrade request, each alone in the window that started it. *)
Definition repo_thread : InstallationThread :=
  mkThread "repo" [("version", JStr "580.95.05"); ("sudo_password", JNull)]
           false true (OnRepoFinished "580.95.05").

Definition world_with_thread (t : InstallationThread) : World :=
  mkWorld (sample_system "ubuntu") [EvThreadStart 0] [] sample_time [] None None (Some 0)
          [t] [].

Definition uninstall_thread : InstallationThread :=
  mkThread "uninstall" [("sudo_password", JNull)] false true OnFinished.

Definition upgrade_thread : InstallationThread :=
  mkThread "upgrade_repo" [("sudo_password", JNull)] false true OnFinished.

(** A host with the open driver from the repository whose upgrade cannot
    be fetched: [apt-get install --only-upgrade] fails, every other command
    succeeds. *)
Definition held_package_exec (i : Invocation) : ProcOutcome :=
  if list_eq_dec string_dec (argv i) ["dpkg"; "-l"] then
    Exited 0 (Some "ii  libc6:amd64  2.39-0ubuntu8  amd64  GNU C Library
ii  nvidia-driver-580-open  580.95.05-0ubuntu1  amd64  NVIDIA driver (open kernel)
") (Some "")
  else if list_eq_dec string_dec (argv i)
            ["sudo"; "apt-get"; "install"; "--only-upgrade"; "-y"; "nvidia-driver-580-open"]
  then Exited 100 (Some "") (Some "E: Unable to fetch some archives")
  else Exited 0 (Some "") (Some "").

(** The host with the proprietary driver, on which no file can be
    written. *)
Definition read_only_host : Env.Host :=
  Env.mkHost proprietary_host_exec (Some "NAME=Ubuntu
ID=ubuntu
") None (Some "6.8.0-45-generic") false true "/opt/nvidia-driver-manager"
    (fun _ => false) (fun _ => false) (fun _ => true) (fun _ => true) (fun _ => None) 480
    (ret false) (fun _ => true) false
    (fun _ => ret tt) (fun _ => ret tt) (fun _ => ret tt) fallback_versions.




(** The host with the proprietary driver and a full disk: a file can be
    opened for writing, which empties it, and nothing can be written to
    it. *)
Definition full_disk_host : Env.Host :=
  Env.mkHost proprietary_host_exec (Some "NAME=Ubuntu
ID=ubuntu
") None (Some "6.8.0-45-generic") false true "/opt/nvidia-driver-manager"
    (fun _ => false) (fun _ => true) (fun _ => true) (fun _ => true) (fun _ => None) 480
    (ret false) (fun _ => true) false
    (fun _ => ret tt) (fun _ => ret tt) (fun _ => ret tt) fallback_versions.
(* ====================================================================== *)
(** * Properties *)
(* ====================================================================== *)

(** ** The command executor *)

Section CommandExecutor.

Variable host : Env.Host.

Lemma run_command_eq (cmd : list string) (sudo : bool) (t : Z)
      (pw : option string) (w : World) :
  run_command host cmd sudo t pw w =
  (Val (command_result host (demo_mode (system w)) cmd sudo t pw),
   if demo_mode (system w) then w
   else add_event (EvProc (invocation_of cmd sudo t pw)) w).
Proof.
  unfold run_command, command_result, bind, get_world.
  destruct (demo_mode (system w)) eqn:D; [reflexivity|].
  unfold try_except, subprocess_run, bind, modify, invocation_of.
  destruct sudo, pw; cbn;
    match goal with
    | |- context [Env.os_exec host ?i] => destruct (Env.os_exec host i) as [rc o e| |e]
    end; cbn; try reflexivity; destruct e; reflexivity.
Qed.

(** C7. [run_command] always returns a tuple, whatever the host does with
    the child process. When the child exceeds its time limit the tuple is
    the sentinel [(124, "", "Timeout")]; when the child cannot be started
    for another reason the tuple carries the ordinary failure code 1; the
    two codes differ. *)
Theorem run_command_never_raises (cmd : list string) (sudo : bool) (t : Z)
        (pw : option string) (w : World) :
  (exists r : CommandResult, fst (run_command host cmd sudo t pw w) = Val r)
  /\ (demo_mode (system w) = false ->
      Env.os_exec host (invocation_of cmd sudo t pw) = TimedOut ->
      fst (run_command host cmd sudo t pw w) = Val (124%Z, "", "Timeout"))
  /\ (forall e, demo_mode (system w) = false ->
      Env.os_exec host (invocation_of cmd sudo t pw) = NotStarted e ->
      e <> TimeoutExpired ->
      fst (run_command host cmd sudo t pw w) = Val (1%Z, "", str_of_exn e))
  /\ (124 <> 1)%Z.
Proof.
  rewrite run_command_eq. cbn [fst].
  split; [eexists; reflexivity|].
  split; [|split; [|lia]].
  - intros D T. unfold command_result. rewrite D, T. reflexivity.
  - intros e D N Ne. unfold command_result. rewrite D, N.
    destruct e; try reflexivity. congruence.
Qed.

End CommandExecutor.

(** ** The repository scan *)

Section RepoScan.
Variable host : Env.Host.

Lemma split_by_nonempty f s : PyStr.split_by f s <> [].
Proof.
  destruct s as [|a s]; cbn; [discriminate|].
  destruct (f a); [discriminate|].
  destruct (PyStr.split_by f s); discriminate.
Qed.

Lemma split_by_cons f a s :
  f a = false ->
  exists p ps, PyStr.split_by f s = p :: ps /\ PyStr.split_by f (String a s) = String a p :: ps.
Proof.
  intros Hf. cbn. rewrite Hf.
  destruct (PyStr.split_by f s) as [|p ps] eqn:E.
  - exfalso. eapply split_by_nonempty; eauto.
  - eauto.
Qed.

Lemma prefix_app p s : String.prefix p s = true -> exists r, s = p +:+ r.
Proof.
  revert s. induction p as [|a p IH]; intros s H.
  - exists s. reflexivity.
  - destruct s as [|b s]; cbn in H; [discriminate|].
    destruct (Ascii.ascii_dec a b) as [->|]; [|discriminate].
    destruct (IH _ H) as [r ->]. exists r. reflexivity.
Qed.

Lemma version_of_line_total line :
  PyStr.startswith line "Version:" = true -> exists v, version_of_line line = Val v.
Proof.
  intros H. apply prefix_app in H. destruct H as [r ->].
  unfold version_of_line, PyStr.split.
  assert (E : exists ps, PyStr.split_by (Ascii.eqb ":") ("Version:" +:+ r)
                     = "Version" :: ps /\ ps <> []).
  { exists (PyStr.split_by (Ascii.eqb ":") r). split; [|apply split_by_nonempty].
    cbn. destruct (PyStr.split_by (Ascii.eqb ":") r) eqn:E; [|reflexivity].
    exfalso; eapply split_by_nonempty; eauto. }
  destruct E as [ps [-> Hps]]. destruct ps as [|f ps]; [congruence|].
  cbn. destruct (PyStr.split_by (Ascii.eqb "-") (PyStr.strip f)) eqn:E.
  - exfalso; eapply split_by_nonempty; eauto.
  - cbn. eauto.
Qed.

Lemma version_line_total out line :
  version_line out = Some line -> exists v, version_of_line line = Val v.
Proof.
  unfold version_line. intros H. apply find_some in H. destruct H as [_ H].
  now apply version_of_line_total.
Qed.

Lemma system_add_event e w : system (add_event e w) = system w.
Proof. reflexivity. Qed.

Lemma scan_available_eq series : forall acc w,
  demo_mode (system w) = false ->
  exists w', scan_available host series acc w = (Val (acc ++ found host series), w')
             /\ system w' = system w.
Proof.
  induction series as [|v rest IH]; intros acc w D.
  - exists w. cbn. rewrite app_nil_r. split; reflexivity.
  - cbn [scan_available found]. unfold bind at 1. rewrite run_command_eq, D.
    unfold series_version.
    set (r := command_result host false (apt_cache_show v) false 300 None).
    set (w1 := add_event _ w).
    assert (D1 : demo_mode (system w1) = false) by exact D.
    destruct (rc_of r =? 0)%Z.
    + destruct (version_line (out_of r)) as [line|] eqn:L.
      * destruct (version_line_total _ L) as [ver Hv].
        unfold bind at 1. unfold bind at 1. unfold lift, ret.
        rewrite !Hv.
        destruct (IH (acc ++ [(v, ver)]) w1 D1) as [w' [E S]].
        exists w'. rewrite E, <- app_assoc. split; [reflexivity|exact S].
      * unfold bind at 1. unfold ret at 1.
        destruct (IH acc w1 D1) as [w' [E S]]. exists w'. rewrite E. split; [reflexivity|exact S].
    + unfold bind at 1. unfold ret at 1.
      destruct (IH acc w1 D1) as [w' [E S]]. exists w'. rewrite E. split; [reflexivity|exact S].
Qed.

Lemma scan_latest_eq series : forall w,
  demo_mode (system w) = false ->
  fst (scan_latest host series w) =
  Val (match found host series with
       | [] => "580"
       | e :: _ => version_or_series e
       end).
Proof.
  induction series as [|v rest IH]; intros w D.
  - reflexivity.
  - cbn [scan_latest found]. unfold bind at 1. rewrite run_command_eq, D.
    unfold series_version.
    set (r := command_result host false (apt_cache_show v) false 300 None).
    set (w1 := add_event _ w).
    assert (D1 : demo_mode (system w1) = false) by exact D.
    destruct (rc_of r =? 0)%Z.
    + destruct (version_line (out_of r)) as [line|] eqn:L.
      * destruct (version_line_total _ L) as [ver Hv].
        unfold bind, lift, ret. rewrite !Hv. reflexivity.
      * apply IH, D1.
    + apply IH, D1.
Qed.

Lemma highest_repo_driver_eq w :
  demo_mode (system w) = false ->
  distro_family (system w) <> "fedora" ->
  fst (highest_repo_driver host w) =
  Val (match found host REPO_SERIES with
       | [] => "580"
       | [e] => version_or_series e
       | _ :: e :: _ => version_or_series e
       end).
Proof.
  intros D F. unfold highest_repo_driver. unfold bind at 1. unfold get_world.
  rewrite D. apply String.eqb_neq in F. rewrite F.
  unfold bind at 1.
  destruct (scan_available_eq REPO_SERIES [] w D) as [w' [E _]]. rewrite E.
  cbn [app]. destruct (found host REPO_SERIES) as [|e1 [|e2 rest]]; reflexivity.
Qed.

Lemma highest_repo_driver_latest_eq w :
  demo_mode (system w) = false ->
  distro_family (system w) <> "fedora" ->
  fst (highest_repo_driver_latest host w) =
  Val (match found host REPO_SERIES with
       | [] => "580"
       | e :: _ => version_or_series e
       end).
Proof.
  intros D F. unfold highest_repo_driver_latest. unfold bind at 1. unfold get_world.
  rewrite D. apply String.eqb_neq in F. rewrite F.
  now apply scan_latest_eq.
Qed.


(** C4. On a distribution that is not of the Fedora family, outside demo
    mode: when the scan of the descending series list finds at least two
    series in the package cache, [highest_repo_driver] returns the version
    of the second one found and [highest_repo_driver_latest] that of the
    first one found (the version text when it contains a dot, else the
    series number). In particular, when 600 and 580 are the only series
    among 610, 600, 590 and 580 that resolve, and their versions are dotted,
    the former returns the 580 version and the latter the 600 version. *)
Theorem repo_previous_is_second_latest_is_first (w : World) :
  demo_mode (system w) = false ->
  distro_family (system w) <> "fedora" ->
  (forall e1 e2 rest,
      found host REPO_SERIES = e1 :: e2 :: rest ->
      fst (highest_repo_driver host w) = Val (version_or_series e2)
      /\ fst (highest_repo_driver_latest host w) = Val (version_or_series e1))
  /\ (forall v600 v580,
         series_version host 610 = None ->
         series_version host 600 = Some v600 ->
         series_version host 590 = None ->
         series_version host 580 = Some v580 ->
         PyStr.contains_char "." v600 = true ->
         PyStr.contains_char "." v580 = true ->
         fst (highest_repo_driver host w) = Val v580
         /\ fst (highest_repo_driver_latest host w) = Val v600).
Proof.
  intros D F.
  rewrite (highest_repo_driver_eq w D F), (highest_repo_driver_latest_eq w D F).
  split.
  - intros e1 e2 rest ->. split; reflexivity.
  - intros v600 v580 H610 H600 H590 H580 D600 D580.
    unfold REPO_SERIES. cbn [found]. rewrite H610, H600, H590, H580.
    unfold version_or_series. cbn [fst snd]. rewrite D600, D580. split; reflexivity.
Qed.

(** C10. On a distribution that is not of the Fedora family, outside demo
    mode: when no candidate series resolves, both [highest_repo_driver]
    and [highest_repo_driver_latest] return the text 580; when exactly one
    resolves, both return the version of that one series. *)
Theorem repo_scan_edge_cases (w : World) :
  demo_mode (system w) = false ->
  distro_family (system w) <> "fedora" ->
  (found host REPO_SERIES = [] ->
   fst (highest_repo_driver host w) = Val "580"
   /\ fst (highest_repo_driver_latest host w) = Val "580")
  /\ (forall e,
         found host REPO_SERIES = [e] ->
         fst (highest_repo_driver host w) = Val (version_or_series e)
         /\ fst (highest_repo_driver_latest host w) = Val (version_or_series e)).
Proof.
  intros D F.
  rewrite (highest_repo_driver_eq w D F), (highest_repo_driver_latest_eq w D F).
  split.
  - intros ->. split; reflexivity.
  - intros e ->. split; reflexivity.
Qed.

End RepoScan.

Lemma repo_previous_is_second_latest_is_first_witness :
  fst (highest_repo_driver (sample_host cache_600_580) (sample_world "ubuntu"))
  = Val "580.95.05"
  /\ fst (highest_repo_driver_latest (sample_host cache_600_580) (sample_world "ubuntu"))
     = Val "600.12.03".
Proof.
  refine (proj2 (repo_previous_is_second_latest_is_first
                   (sample_host cache_600_580) (sample_world "ubuntu") _ _)
                "600.12.03" "580.95.05" _ _ _ _ _ _);
    solve [reflexivity | discriminate].
Defined.

Lemma repo_scan_edge_cases_witness :
  (fst (highest_repo_driver (sample_host no_programs) (sample_world "debian")) = Val "580"
   /\ fst (highest_repo_driver_latest (sample_host no_programs) (sample_world "debian"))
      = Val "580")
  /\ (fst (highest_repo_driver (sample_host cache_550) (sample_world "debian"))
      = Val "550.163.01"
      /\ fst (highest_repo_driver_latest (sample_host cache_550) (sample_world "debian"))
         = Val "550.163.01").
Proof.
  split.
  - refine (proj1 (repo_scan_edge_cases (sample_host no_programs) (sample_world "debian")
                                        _ _) _);
      solve [reflexivity | discriminate].
  - refine (proj2 (repo_scan_edge_cases (sample_host cache_550) (sample_world "debian")
                                        _ _) (550, "550.163.01") _);
      solve [reflexivity | discriminate].
Defined.

(** ** Regular expressions: what [findall] returns is in the language *)

Lemma append_assoc (a b c : string) : (a +:+ b) +:+ c = a +:+ (b +:+ c).
Proof. induction a as [|x a IH]; cbn; [reflexivity|now rewrite IH]. Qed.

Lemma append_nil_r (a : string) : a +:+ "" = a.
Proof. induction a as [|x a IH]; cbn; [reflexivity|now rewrite IH]. Qed.

Lemma rep_matches_sound a s : forall min m rest,
  In (m, rest) (Regex.rep_matches a min s) ->
  s = m +:+ rest
  /\ min <= String.length m
  /\ forall c, In c (list_ascii_of_string m) -> Regex.atom_matches a c = true.
Proof.
  induction s as [|x s IH]; intros min m rest H.
  - cbn in H. destruct (Nat.eqb_spec min 0) as [->|]; [|contradiction].
    destruct H as [H|[]]. inversion H; subst. cbn. repeat split; [lia|contradiction].
  - cbn [Regex.rep_matches] in H.
    assert (Stop : In (m, rest) (if min =? 0 then [("", String x s)] else []) ->
                   String x s = m +:+ rest /\ min <= String.length m
                   /\ forall c, In c (list_ascii_of_string m) ->
                                Regex.atom_matches a c = true).
    { destruct (Nat.eqb_spec min 0) as [->|]; [|contradiction].
      intros [E|[]]. inversion E; subst. cbn. repeat split; [lia|contradiction]. }
    destruct (Regex.atom_matches a x) eqn:Ax; [|now apply Stop].
    apply in_app_or in H. destruct H as [H|H]; [|now apply Stop].
    apply in_map_iff in H. destruct H as [[m' r'] [E H]]. cbn in E. inversion E; subst.
    destruct (IH _ _ _ H) as [-> [L A]]. cbn. repeat split; [lia|].
    intros c [<-|Hc]; [exact Ax|now apply A].
Qed.

Lemma matches_sound r : forall s m rest,
  In (m, rest) (Regex.matches r s) -> lang r m /\ s = m +:+ rest.
Proof.
  induction r as [|a|r1 IH1 r2 IH2|r1 IH1 r2 IH2|min a]; intros s m rest H; cbn in H.
  - destruct H as [H|[]]. inversion H; subst. split; reflexivity.
  - destruct s as [|c s]; [contradiction|].
    destruct (Regex.atom_matches a c) eqn:A; [|contradiction].
    destruct H as [H|[]]. inversion H; subst. split; [|reflexivity].
    exists c. split; [reflexivity|exact A].
  - apply in_flat_map in H. destruct H as [[m1 s1] [H1 H2]].
    apply in_map_iff in H2. destruct H2 as [[m2 s2] [E H2]]. cbn in E. inversion E; subst.
    destruct (IH1 _ _ _ H1) as [L1 ->]. cbn in H2.
    destruct (IH2 _ _ _ H2) as [L2 ->]. split.
    + exists m1, m2. repeat split; assumption.
    + now rewrite append_assoc.
  - apply in_app_or in H. destruct H as [H|H].
    + destruct (IH1 _ _ _ H) as [L ->]. split; [now left|reflexivity].
    + destruct (IH2 _ _ _ H) as [L ->]. split; [now right|reflexivity].
  - destruct (rep_matches_sound _ _ _ _ _ H) as [-> [L A]]. split; [|reflexivity].
    split; assumption.
Qed.

Lemma findall_from_sound r s : forall skip m,
  In m (Regex.findall_from r skip s) -> lang r m.
Proof.
  induction s as [|c s IH]; intros skip m H.
  - destruct skip as [|k]; cbn in H; [|contradiction].
    destruct (Regex.matches r "") as [|[m0 r0] l] eqn:E; [contradiction|].
    destruct H as [<-|[]].
    eapply matches_sound. rewrite E. left. reflexivity.
  - destruct skip as [|k]; cbn [Regex.findall_from] in H; [|now apply IH in H].
    destruct (Regex.matches r (String c s)) as [|[m0 r0] l] eqn:E; [now apply IH in H|].
    destruct H as [<-|H]; [|now apply IH in H].
    eapply matches_sound. rewrite E. left. reflexivity.
Qed.

Lemma findall_sound r s m : In m (Regex.findall r s) -> lang r m.
Proof. apply findall_from_sound. Qed.

(** ** The four patterns only find version entries *)

Lemma digits_single c : PyStr.is_digit c = true -> digits (String c "").
Proof. intros H. split; [discriminate|]. cbn. now rewrite H. Qed.

Lemma digits_cons c s : PyStr.is_digit c = true -> PyStr.all_digits s = true -> digits (String c s).
Proof. intros H A. split; [discriminate|]. cbn. now rewrite H, A. Qed.

Lemma all_digits_of_list m :
  (forall c, In c (list_ascii_of_string m) -> PyStr.is_digit c = true) ->
  PyStr.all_digits m = true.
Proof.
  induction m as [|c m IH]; intros H; cbn; [reflexivity|].
  rewrite (H c (or_introl eq_refl)). cbn. apply IH. intros x Hx. apply H. now right.
Qed.

Lemma lang_rep_digits n m : lang (Regex.Rep (S n) Regex.digit) m -> digits m.
Proof.
  intros [L A]. split.
  - destruct m; [cbn in L; lia|discriminate].
  - apply all_digits_of_list. intros c Hc. exact (A c Hc).
Qed.

Lemma lang_lit_char c x : Regex.atom_matches (Regex.Lit c) x = true -> x = c.
Proof. cbn. intros H. apply Ascii.eqb_eq in H. now subst. Qed.

Lemma range_is_digit lo hi c :
  (48 <=? nat_of_ascii lo) = true ->
  (nat_of_ascii hi <=? 57) = true ->
  Regex.atom_matches (Regex.Range lo hi) c = true ->
  PyStr.is_digit c = true.
Proof.
  unfold Regex.atom_matches, PyStr.is_digit. intros L H A.
  apply andb_true_iff in A. destruct A as [A1 A2].
  apply Nat.leb_le in L, H, A1, A2. apply andb_true_iff.
  split; apply Nat.leb_le; lia.
Qed.

Lemma rep_digits n m :
  S n <= String.length m ->
  (forall c, In c (list_ascii_of_string m) -> Regex.atom_matches Regex.digit c = true) ->
  digits m.
Proof. intros L A. apply (lang_rep_digits (n := n)). split; assumption. Qed.

Ltac break_lang :=
  repeat match goal with
         | H : exists _, _ |- _ => destruct H
         | H : _ /\ _ |- _ => destruct H
         | H : _ \/ _ |- _ => destruct H
         | H : Regex.atom_matches (Regex.Lit _) _ = true |- _ => apply lang_lit_char in H
         | H : Regex.atom_matches (Regex.Range _ _) _ = true |- _ =>
             apply range_is_digit in H; [|reflexivity|reflexivity]
         end; subst; cbn [String.append].

Ltac digits_done :=
  match goal with
  | |- digits (String _ (String _ (String _ ""))) =>
      apply digits_cons; [first [assumption | reflexivity]|];
      cbn [PyStr.all_digits];
      repeat match goal with
             | H : PyStr.is_digit _ = true |- _ => rewrite H
             end; reflexivity
  | |- digits (String _ (String _ "")) =>
      apply digits_cons; [first [assumption | reflexivity]|];
      cbn [PyStr.all_digits];
      repeat match goal with
             | H : PyStr.is_digit _ = true |- _ => rewrite H
             end; reflexivity
  | |- digits _ => eapply rep_digits; eassumption
  end.

Lemma prod_re_shape m : lang prod_re m -> version_entry m.
Proof.
  intros H. unfold prod_re, seq, Regex.range, Regex.plus in H.
  cbn [lang fold_right Regex.lit] in H. break_lang.
  eexists (String _ (String _ (String _ ""))), _, _.
  split; [|split; [|split; [|reflexivity]]]; digits_done.
Qed.

Lemma legacy_re_shape m : lang legacy_re m -> version_entry m.
Proof.
  intros H. unfold legacy_re, seq, Regex.range, Regex.plus in H.
  cbn [lang fold_right Regex.lit] in H. break_lang.
  eexists (String _ (String _ (String _ ""))), _, _.
  split; [|split; [|split; [|reflexivity]]]; digits_done.
Qed.

Lemma beta_re_shape m : lang beta_re m -> version_entry m.
Proof.
  intros H. unfold beta_re, seq, Regex.range, Regex.plus in H.
  cbn [lang fold_right Regex.lit] in H. break_lang;
  (eexists (String _ (String _ (String _ ""))), (String _ (String _ "")), _;
   split; [|split; [|split; [|reflexivity]]]; digits_done).
Qed.

Lemma newf_re_shape m : lang newf_re m -> version_entry m.
Proof.
  intros H. unfold newf_re, seq, Regex.range, Regex.plus in H.
  cbn [lang fold_right Regex.lit] in H. break_lang.
  1,2: (eexists (String _ (String _ (String _ ""))), (String _ (String _ "")), _;
        split; [|split; [|split; [|reflexivity]]]; digits_done).
  eexists (String _ (String _ (String _ ""))), _, _;
    split; [|split; [|split; [|reflexivity]]]; digits_done.
Qed.

Lemma series_patterns_shape key re content m :
  In (key, re) SERIES_PATTERNS -> In m (Regex.findall re content) -> version_entry m.
Proof.
  intros K H. apply findall_sound in H. cbn in K.
  destruct K as [K|[K|[K|[K|[]]]]]; inversion K; subst.
  - now apply prod_re_shape.
  - now apply newf_re_shape.
  - now apply beta_re_shape.
  - now apply legacy_re_shape.
Qed.

(** ** Version entries have a sort key and a non-empty name *)

Lemma rstrip_by_snoc_keep f c s :
  f c = false -> PyStr.rstrip_by f (s +:+ String c "") = s +:+ String c "".
Proof.
  intros Hc. induction s as [|a s IH]; cbn.
  - now rewrite Hc.
  - cbn in IH. rewrite IH. destruct s; reflexivity.
Qed.

Lemma rstrip_by_snoc_drop f c s :
  f c = true -> PyStr.rstrip_by f (s +:+ String c "") = PyStr.rstrip_by f s.
Proof.
  intros Hc. induction s as [|a s IH]; cbn.
  - now rewrite Hc.
  - cbn in IH. now rewrite IH.
Qed.

Lemma digits_snoc d : digits d -> exists d' c, d = d' +:+ String c "" /\ PyStr.is_digit c = true.
Proof.
  intros [N A]. induction d as [|a d IH]; [congruence|].
  cbn in A. apply andb_true_iff in A. destruct A as [Ha Ad].
  destruct d as [|b d].
  - exists "", a. split; [reflexivity|exact Ha].
  - destruct (IH ltac:(discriminate) Ad) as [d' [c [E Hc]]].
    exists (String a d'), c. cbn. rewrite <- E. split; [reflexivity|exact Hc].
Qed.

Lemma digit_not_dot c : PyStr.is_digit c = true -> Ascii.eqb "." c = false.
Proof.
  intros H. destruct (Ascii.eqb_spec "."%char c) as [<-|]; [discriminate H|reflexivity].
Qed.

Lemma digit_not_slash c : PyStr.is_digit c = true -> Ascii.eqb "/" c = false.
Proof.
  intros H. destruct (Ascii.eqb_spec "/"%char c) as [<-|]; [discriminate H|reflexivity].
Qed.

Lemma split_by_no_sep f d :
  (forall c, In c (list_ascii_of_string d) -> f c = false) ->
  PyStr.split_by f d = [d].
Proof.
  induction d as [|a d IH]; intros H; cbn; [reflexivity|].
  rewrite (H a (or_introl eq_refl)). rewrite IH; [reflexivity|].
  intros c Hc. apply H. now right.
Qed.

Lemma split_by_app_sep f d sep rest :
  (forall c, In c (list_ascii_of_string d) -> f c = false) ->
  f sep = true ->
  PyStr.split_by f (d +:+ String sep rest) = d :: PyStr.split_by f rest.
Proof.
  intros H S. induction d as [|a d IH]; cbn.
  - now rewrite S.
  - rewrite (H a (or_introl eq_refl)). rewrite IH; [reflexivity|].
    intros c Hc. apply H. now right.
Qed.

Lemma all_digits_in d c :
  PyStr.all_digits d = true -> In c (list_ascii_of_string d) -> PyStr.is_digit c = true.
Proof.
  induction d as [|a d IH]; cbn; [contradiction|].
  intros A [<-|H]; apply andb_true_iff in A; destruct A as [Ha Ad]; [exact Ha|now apply IH].
Qed.

(** [int] on a text of digits: its value within the limit, a
    [ValueError] beyond it. *)
Lemma digit_plain c :
  PyStr.is_digit c = true ->
  PyStr.int_space c = false /\ Ascii.eqb c "-" = false /\ Ascii.eqb c "+" = false.
Proof.
  destruct c as [[] [] [] [] [] [] [] []]; vm_compute; intros H;
    solve [discriminate H | repeat split; reflexivity].
Qed.

Lemma rstrip_by_digits d :
  PyStr.all_digits d = true -> PyStr.rstrip_by PyStr.int_space d = d.
Proof.
  induction d as [|a d IH]; cbn; [reflexivity|]. intros A.
  apply andb_true_iff in A. destruct A as [Ha Ad]. rewrite (IH Ad).
  destruct d; [|reflexivity]. destruct (digit_plain a Ha) as [-> _]. reflexivity.
Qed.

Lemma grouped_digits_all d : forall b,
  PyStr.all_digits d = true -> d <> "" \/ b = true -> PyStr.grouped_digits b d = Some d.
Proof.
  induction d as [|a d IH]; intros b A H; cbn.
  - destruct H as [H| ->]; [congruence|reflexivity].
  - cbn in A. apply andb_true_iff in A. destruct A as [Ha Ad]. rewrite Ha.
    rewrite (IH true Ad) by now right. reflexivity.
Qed.

Lemma int_digits_digits d : digits d -> PyStr.int_digits d = Some (false, d).
Proof.
  intros [N A]. unfold PyStr.int_digits. destruct d as [|a d]; [congruence|].
  assert (Ha : PyStr.is_digit a = true).
  { cbn in A. apply andb_true_iff in A. apply A. }
  destruct (digit_plain a Ha) as [Sp [Mi Pl]].
  cbn [PyStr.lstrip_by]. rewrite Sp, (@rstrip_by_digits (String a d) A), Mi, Pl.
  cbn [fst snd].
  rewrite grouped_digits_all by (try exact A; left; discriminate). reflexivity.
Qed.

Lemma py_int_digits d :
  digits d -> String.length d <= PyStr.INT_MAX_STR_DIGITS ->
  py_int d = Val (PyStr.digits_value 0 d).
Proof.
  intros D L. unfold py_int, PyStr.int. rewrite (int_digits_digits D).
  destruct (Nat.ltb_spec PyStr.INT_MAX_STR_DIGITS (String.length d)); [lia|reflexivity].
Qed.

Lemma py_int_long d :
  digits d -> PyStr.INT_MAX_STR_DIGITS < String.length d ->
  py_int d = Raise (ValueError (int_limit_message (String.length d))).
Proof.
  intros D L. unfold py_int, PyStr.int. rewrite (int_digits_digits D).
  destruct (Nat.ltb_spec PyStr.INT_MAX_STR_DIGITS (String.length d)); [reflexivity|lia].
Qed.

Lemma version_entry_rstrip m :
  version_entry m ->
  exists d1 d2 d3,
    digits d1 /\ digits d2 /\ digits d3
    /\ PyStr.rstrip_char "/" m = d1 +:+ "." +:+ d2 +:+ "." +:+ d3.
Proof.
  intros [d1 [d2 [d3 [D1 [D2 [D3 ->]]]]]]. exists d1, d2, d3.
  split; [assumption|]. split; [assumption|]. split; [assumption|].
  destruct (digits_snoc D3) as [d' [c [-> Hc]]].
  unfold PyStr.rstrip_char.
  replace (d1 +:+ "." +:+ d2 +:+ "." +:+ (d' +:+ String c "") +:+ "/")
    with ((d1 +:+ "." +:+ d2 +:+ "." +:+ d' +:+ String c "") +:+ "/")
    by (rewrite !append_assoc; reflexivity).
  rewrite rstrip_by_snoc_drop by reflexivity.
  replace (d1 +:+ "." +:+ d2 +:+ "." +:+ d' +:+ String c "")
    with ((d1 +:+ "." +:+ d2 +:+ "." +:+ d') +:+ String c "")
    by (rewrite !append_assoc; reflexivity).
  rewrite rstrip_by_snoc_keep by now apply digit_not_slash.
  rewrite !append_assoc. reflexivity.
Qed.

Lemma entry_pieces d1 d2 d3 :
  digits d1 -> digits d2 -> digits d3 ->
  PyStr.split "." (PyStr.rstrip_char "/" (d1 +:+ "." +:+ d2 +:+ "." +:+ d3 +:+ "/"))
  = [d1; d2; d3].
Proof.
  intros D1 D2 D3.
  assert (ND : forall d, digits d ->
               forall c, In c (list_ascii_of_string d) -> Ascii.eqb "." c = false).
  { intros d [_ A] c Hc. apply digit_not_dot. eapply all_digits_in; eauto. }
  destruct (digits_snoc D3) as [d' [c [E3 Hc]]].
  assert (R : PyStr.rstrip_char "/" (d1 +:+ "." +:+ d2 +:+ "." +:+ d3 +:+ "/")
              = d1 +:+ "." +:+ d2 +:+ "." +:+ d3).
  { rewrite E3. unfold PyStr.rstrip_char.
    replace (d1 +:+ "." +:+ d2 +:+ "." +:+ (d' +:+ String c "") +:+ "/")
      with ((d1 +:+ "." +:+ d2 +:+ "." +:+ d' +:+ String c "") +:+ "/")
      by (rewrite !append_assoc; reflexivity).
    rewrite rstrip_by_snoc_drop by reflexivity.
    replace (d1 +:+ "." +:+ d2 +:+ "." +:+ d' +:+ String c "")
      with ((d1 +:+ "." +:+ d2 +:+ "." +:+ d') +:+ String c "")
      by (rewrite !append_assoc; reflexivity).
    rewrite rstrip_by_snoc_keep by now apply digit_not_slash.
    rewrite !append_assoc. reflexivity. }
  rewrite R. unfold PyStr.split. cbn [String.append].
  rewrite (split_by_app_sep _ d1 "." _ (ND _ D1) eq_refl).
  rewrite (split_by_app_sep _ d2 "." _ (ND _ D2) eq_refl).
  rewrite (split_by_no_sep _ d3 (ND _ D3)). reflexivity.
Qed.

(** The sort key of an entry within the limit of [int] is its integer
    triplet; an entry has one triplet only. *)
Lemma short_entry_key m :
  short_entry m -> exists k, version_key m = Val k /\ entry_triplet m k.
Proof.
  intros [d1 [d2 [d3 [D1 [D2 [D3 [L1 [L2 [L3 ->]]]]]]]]].
  unfold version_key. rewrite entry_pieces by assumption.
  cbn [exc_map]. rewrite !py_int_digits by assumption. cbn [exc_bind].
  eexists. split; [reflexivity|]. exists d1, d2, d3.
  repeat (split; [assumption|]). split; reflexivity.
Qed.

Lemma entry_triplet_unique m k k' : entry_triplet m k -> entry_triplet m k' -> k = k'.
Proof.
  intros [d1 [d2 [d3 [D1 [D2 [D3 [E ->]]]]]]] [e1 [e2 [e3 [E1 [E2 [E3 [E' ->]]]]]]].
  assert (P : [d1; d2; d3] = [e1; e2; e3]).
  { rewrite <- (entry_pieces D1 D2 D3), <- (entry_pieces E1 E2 E3). now rewrite <- E, <- E'. }
  inversion P; subst. reflexivity.
Qed.

Lemma entry_triplet_key m k : short_entry m -> entry_triplet m k -> version_key m = Val k.
Proof.
  intros S T. destruct (short_entry_key S) as [k' [K T']].
  now rewrite (entry_triplet_unique T T').
Qed.

Lemma short_entry_is_entry m : short_entry m -> version_entry m.
Proof.
  intros [d1 [d2 [d3 [D1 [D2 [D3 [_ [_ [_ E]]]]]]]]]. exists d1, d2, d3.
  repeat (split; [assumption|]). exact E.
Qed.

Lemma version_entry_name m : version_entry m -> PyStr.rstrip_char "/" m <> "".
Proof.
  intros H. destruct (version_entry_rstrip H) as [d1 [d2 [d3 [[N _] [_ [_ ->]]]]]].
  destruct d1; [congruence|discriminate].
Qed.

(** ** [sorted] keeps the items; [exc_map] of a total function is total *)

Lemma insert_by_key_in (K V : Type) (lt : K -> K -> bool) (x y : K * V) l :
  In y (insert_by_key lt x l) <-> y = x \/ In y l.
Proof.
  induction l as [|z l IH]; cbn.
  - intuition.
  - destruct (lt (fst z) (fst x)); cbn; rewrite ?IH; intuition.
Qed.

Lemma sort_by_key_in (K V : Type) (lt : K -> K -> bool) (y : K * V) l :
  In y (sort_by_key lt l) <-> In y l.
Proof.
  induction l as [|x l IH]; cbn; [reflexivity|].
  rewrite insert_by_key_in, IH. intuition.
Qed.

Lemma last_in (A : Type) (a : A) l : In (last l a) (a :: l).
Proof.
  induction l as [|b l IH]; [now left|].
  destruct l as [|c l]; [right; now left|].
  change (last (b :: c :: l) a) with (last (c :: l) a).
  destruct IH as [E|I]; [now left|right; now right].
Qed.

Lemma py_last_in (A : Type) (l : list A) :
  l <> [] -> exists x, py_last l = Val x /\ In x l.
Proof.
  destruct l as [|a l]; [congruence|]. intros _. cbn [py_last].
  eexists. split; [reflexivity|]. apply last_in.
Qed.


(** ** [sorted(...)[-1]] is a greatest item *)

Lemma list_lt_irrefl a : list_lt a a = false.
Proof. induction a as [|x a IH]; cbn; [reflexivity|]. now rewrite Z.ltb_irrefl. Qed.

Lemma list_lt_asym a : forall b, list_lt a b = true -> list_lt b a = false.
Proof.
  induction a as [|x a IH]; intros [|y b]; cbn; try congruence.
  destruct (Z.ltb_spec x y), (Z.ltb_spec y x); try congruence; try lia.
  apply IH.
Qed.

(** Not being below is transitive. *)
Lemma list_lt_negtrans a : forall b c,
  list_lt b a = false -> list_lt c b = false -> list_lt c a = false.
Proof.
  induction a as [|x a IH]; intros [|y b] [|z c]; cbn; try congruence.
  destruct (Z.ltb_spec y x), (Z.ltb_spec x y), (Z.ltb_spec z y), (Z.ltb_spec y z),
           (Z.ltb_spec z x), (Z.ltb_spec x z); try congruence; try lia.
  apply IH.
Qed.

Section SortMax.
Variables (K V : Type) (lt : K -> K -> bool).
Hypothesis lt_asym : forall a b, lt a b = true -> lt b a = false.
Hypothesis lt_negtrans : forall a b c, lt b a = false -> lt c b = false -> lt c a = false.

Lemma insert_by_key_ascending (x : K * V) (l : list (K * V)) : ascending lt l -> ascending lt (insert_by_key lt x l).
Proof.
  induction l as [|y l IH]; intros A.
  - cbn. split; [contradiction|exact I].
  - cbn [insert_by_key]. destruct A as [Hy Al].
    destruct (lt (fst y) (fst x)) eqn:E.
    + cbn [ascending]. split; [|now apply IH].
      intros z Hz. apply insert_by_key_in in Hz. destruct Hz as [->|Hz].
      * now apply lt_asym.
      * now apply Hy.
    + cbn [ascending]. split; [|split; assumption].
      intros z [<-|Hz]; [exact E|].
      eapply lt_negtrans; [exact E|now apply Hy].
Qed.

Lemma sort_by_key_ascending (l : list (K * V)) : ascending lt (sort_by_key lt l).
Proof.
  induction l as [|x l IH]; cbn; [exact I|]. now apply insert_by_key_ascending.
Qed.

Lemma last_cons (A : Type) l : forall (a d : A), last (a :: l) d = last l a.
Proof.
  induction l as [|b l IH]; intros a d; [reflexivity|].
  change (last (a :: b :: l) d) with (last (b :: l) d). rewrite !IH. reflexivity.
Qed.

Lemma last_ascending_max (l : list (K * V)) d :
  (forall a, lt a a = false) ->
  ascending lt l -> forall y, In y l -> lt (fst (last l d)) (fst y) = false.
Proof.
  intros irr. induction l as [|x l IH]; intros A y Hy; [contradiction|].
  destruct A as [Hx Al]. destruct l as [|x' l].
  - destruct Hy as [<-|[]]. apply irr.
  - change (last (x :: x' :: l) d) with (last (x' :: l) d).
    destruct Hy as [<-|Hy]; [|now apply IH].
    apply Hx. rewrite last_cons. apply last_in.
Qed.
End SortMax.

Lemma exc_map_total (A B : Type) (f : A -> Exc B) l :
  (forall x, In x l -> exists y, f x = Val y) ->
  exists ys, exc_map f l = Val ys
             /\ (forall y, In y ys -> exists x, In x l /\ f x = Val y)
             /\ (forall x, In x l -> exists y, In y ys /\ f x = Val y).
Proof.
  induction l as [|a l IH]; intros H.
  - exists []. cbn. repeat split; contradiction.
  - destruct (H a (or_introl eq_refl)) as [b Hb].
    destruct IH as [ys [E [I J]]]; [intros x Hx; apply H; now right|].
    exists (b :: ys). cbn. rewrite Hb. cbn. rewrite E. cbn. repeat split.
    + intros y [<-|Hy]; [exists a; split; [now left|exact Hb]|].
      destruct (I y Hy) as [x [Hx Fx]]. exists x. split; [now right|exact Fx].
    + intros x [<-|Hx]; [exists b; split; [now left|exact Hb]|].
      destruct (J x Hx) as [y [Hy Fx]]. exists y. split; [now right|exact Fx].
Qed.

Lemma last_map (A B : Type) (f : A -> B) l : forall d, last (map f l) (f d) = f (last l d).
Proof.
  induction l as [|a l IH]; intros d; [reflexivity|].
  destruct l as [|b l]; [reflexivity|].
  change (last (map f (a :: b :: l)) (f d)) with (last (map f (b :: l)) (f d)).
  now rewrite IH.
Qed.

(** The version [fetch_versions] keeps for a series is the name of an entry
    found, and no entry found has a strictly greater key. *)
Lemma highest_version_max_key ms :
  ms <> [] ->
  (forall m, In m ms -> exists k, version_key m = Val k) ->
  exists x k,
    In x ms /\ version_key x = Val k
    /\ highest_version ms = Val (PyStr.rstrip_char "/" x)
    /\ forall y ky, In y ms -> version_key y = Val ky -> list_lt k ky = false.
Proof.
  intros N H. unfold highest_version.
  destruct (exc_map_total
              (fun x => exc_bind (version_key x) (fun k => Val (k, x))) ms)
    as [dec [E [I J]]].
  { intros x Hx. destruct (H x Hx) as [k Hk].
    exists (k, x). now rewrite Hk. }
  rewrite E. cbn [exc_bind].
  assert (Dec : forall k x, In (k, x) dec -> In x ms /\ version_key x = Val k).
  { intros k x Hkx. destruct (I _ Hkx) as [x0 [Hx0 F]].
    destruct (version_key x0) eqn:Kx0; cbn in F; [|discriminate].
    inversion F; subst. now split. }
  destruct (sort_by_key list_lt dec) as [|s0 rest] eqn:S.
  { exfalso. destruct ms as [|m ms]; [congruence|].
    destruct (J m (or_introl eq_refl)) as [y [Hy _]].
    apply (sort_by_key_in list_lt) in Hy. rewrite S in Hy. contradiction. }
  cbn [map py_last exc_bind]. rewrite last_map.
  set (top := last rest s0).
  assert (Top : top = last (s0 :: rest) s0) by (symmetry; apply last_cons).
  assert (InTop : In top dec).
  { apply (sort_by_key_in list_lt). rewrite S. apply last_in. }
  destruct top as [k x] eqn:T. destruct (Dec _ _ InTop) as [Ix Kx].
  exists x, k. repeat split; try assumption.
  intros y ky Iy Ky. destruct (J y Iy) as [p [Hp F]].
  rewrite Ky in F. cbn in F. inversion F; subst p.
  assert (A := @sort_by_key_ascending _ _ list_lt list_lt_asym list_lt_negtrans dec).
  rewrite S in A.
  assert (M := @last_ascending_max _ _ list_lt (s0 :: rest) s0 list_lt_irrefl A (ky, y)).
  assert (Iy' : In (ky, y) (s0 :: rest)) by (rewrite <- S; now apply sort_by_key_in).
  specialize (M Iy'). rewrite <- Top in M. exact M.
Qed.

(** The same in terms of the integer triplets of the entries, for entries
    within the limit of [int]. *)
Lemma highest_version_max ms :
  ms <> [] ->
  (forall m, In m ms -> short_entry m) ->
  exists x k,
    In x ms /\ entry_triplet x k
    /\ highest_version ms = Val (PyStr.rstrip_char "/" x)
    /\ forall y ky, In y ms -> entry_triplet y ky -> list_lt k ky = false.
Proof.
  intros N H.
  destruct (@highest_version_max_key ms N) as [x [k [Ix [Kx [Hx Mx]]]]].
  { intros m Hm. destruct (short_entry_key (H m Hm)) as [k [K _]]. now exists k. }
  exists x, k. split; [exact Ix|]. split; [|split; [exact Hx|]].
  - destruct (short_entry_key (H x Ix)) as [k' [K T]]. rewrite Kx in K.
    inversion K; subst. exact T.
  - intros y ky Iy Ty. apply (Mx y ky Iy). apply entry_triplet_key; [now apply H|exact Ty].
Qed.

(** When one of the items raises, the whole raises, with what one of
    them raised. *)
Lemma exc_map_raise (A B : Type) (f : A -> Exc B) (P : exn -> Prop) l :
  (forall x, In x l -> (exists y, f x = Val y) \/ exists e, P e /\ f x = Raise e) ->
  (exists x e, In x l /\ f x = Raise e) ->
  exists e, P e /\ exc_map f l = Raise e.
Proof.
  induction l as [|a l IH]; intros H [x [e [Hx Fx]]]; [contradiction|].
  cbn [exc_map]. destruct (H a (or_introl eq_refl)) as [[y Hy]|[e' [Pe Ha]]].
  - rewrite Hy. cbn [exc_bind]. destruct IH as [e' [Pe E]].
    + intros z Hz. apply H. now right.
    + destruct Hx as [<-|Hx]; [congruence|]. now exists x, e.
    + exists e'. split; [exact Pe|]. now rewrite E.
  - exists e'. split; [exact Pe|]. now rewrite Ha.
Qed.

(** ** Dictionaries *)

Lemma dict_get_set (V : Type) (d : dict V) k v k' :
  dict_get (dict_set d k v) k' = if String.eqb k k' then Some v else dict_get d k'.
Proof.
  induction d as [|[k0 v0] d IH]; cbn.
  - destruct (String.eqb_spec k k'); reflexivity.
  - destruct (String.eqb_spec k0 k) as [->|N]; cbn.
    + destruct (String.eqb_spec k k'); reflexivity.
    + rewrite IH. destruct (String.eqb_spec k0 k') as [->|N'].
      * destruct (String.eqb_spec k k'); [congruence|reflexivity].
      * reflexivity.
Qed.

Lemma string_length_append a b : String.length (a +:+ b) = String.length a + String.length b.
Proof. induction a as [|c a IH]; cbn; [reflexivity|now rewrite IH]. Qed.

(** ** What [findall] finds is part of the text *)

Lemma matches_length r s m rest :
  In (m, rest) (Regex.matches r s) -> String.length m <= String.length s.
Proof.
  intros H. destruct (matches_sound _ _ _ _ H) as [_ ->].
  rewrite string_length_append. lia.
Qed.

(** What [findall] finds is no longer than the text. *)
Lemma findall_from_length r s : forall skip m,
  In m (Regex.findall_from r skip s) -> String.length m <= String.length s.
Proof.
  induction s as [|c s IH]; intros skip m H.
  - destruct skip as [|k]; cbn in H; [|contradiction].
    destruct (Regex.matches r "") as [|[m0 r0] l] eqn:E; [contradiction|].
    destruct H as [<-|[]].
    eapply matches_length. rewrite E. left. reflexivity.
  - destruct skip as [|k]; cbn [Regex.findall_from] in H;
      [|apply IH in H; cbn [String.length]; lia].
    destruct (Regex.matches r (String c s)) as [|[m0 r0] l] eqn:E;
      [apply IH in H; cbn [String.length]; lia|].
    destruct H as [<-|H]; [|apply IH in H; cbn [String.length]; lia].
    eapply matches_length. rewrite E. left. reflexivity.
Qed.

(** In a listing no longer than the limit of [int], every entry found is
    within it. *)
Lemma found_within_limit key re content m :
  String.length content <= PyStr.INT_MAX_STR_DIGITS ->
  In (key, re) SERIES_PATTERNS -> In m (Regex.findall re content) -> short_entry m.
Proof.
  intros L K H. assert (Lm := findall_from_length _ _ _ _ H).
  destruct (series_patterns_shape _ _ K H) as [d1 [d2 [d3 [D1 [D2 [D3 E]]]]]].
  rewrite E in Lm. rewrite !string_length_append in Lm.
  exists d1, d2, d3. repeat (split; [assumption|]).
  split; [lia|]. split; [lia|]. split; [lia|exact E].
Qed.

(** ** [fetch_versions] *)

Section FetchVersions.

Variable host : Env.Host.

Lemma refreshed_refl content d : refreshed content d d.
Proof. intros key. now left. Qed.

Lemma refreshed_trans content d1 d2 d3 :
  refreshed content d1 d2 -> refreshed content d2 d3 -> refreshed content d1 d3.
Proof.
  intros R12 R23 key. destruct (R23 key) as [E|H]; [|now right].
  rewrite E. apply R12.
Qed.

Lemma update_series_refreshed key re content d :
  In (key, re) SERIES_PATTERNS ->
  (forall m, In m (Regex.findall re content) -> short_entry m) ->
  exists d', update_series key re content d = Val d' /\ refreshed content d d'.
Proof.
  intros K S. unfold update_series.
  destruct (Regex.findall re content) as [|m ms] eqn:F.
  - exists d. split; [reflexivity|apply refreshed_refl].
  - destruct (@highest_version_max (m :: ms)) as [x [kx [Ix [_ [Hx _]]]]];
      [discriminate|exact S|].
    rewrite Hx. cbn [exc_bind]. eexists. split; [reflexivity|].
    intros k. rewrite dict_get_set. destruct (String.eqb_spec key k) as [<-|N]; [|now left].
    right. exists re, x. rewrite F. repeat split; try assumption.
    apply version_entry_name. now apply short_entry_is_entry, S.
Qed.

Lemma parse_versions_refreshed content d :
  (forall key re m,
      In (key, re) SERIES_PATTERNS -> In m (Regex.findall re content) -> short_entry m) ->
  exists d', parse_versions content d = Val d' /\ refreshed content d d'.
Proof.
  intros S. unfold parse_versions.
  destruct (@update_series_refreshed "production" prod_re content d) as [d1 [E1 R1]];
    [cbn; tauto|intros m; apply (S "production"); cbn; tauto|].
  destruct (@update_series_refreshed "new_feature" newf_re content d1) as [d2 [E2 R2]];
    [cbn; tauto|intros m; apply (S "new_feature"); cbn; tauto|].
  destruct (@update_series_refreshed "beta" beta_re content d2) as [d3 [E3 R3]];
    [cbn; tauto|intros m; apply (S "beta"); cbn; tauto|].
  destruct (@update_series_refreshed "legacy" legacy_re content d3) as [d4 [E4 R4]];
    [cbn; tauto|intros m; apply (S "legacy"); cbn; tauto|].
  rewrite E1. cbn [exc_bind]. rewrite E2. cbn [exc_bind]. rewrite E3. cbn [exc_bind].
  exists d4. split; [exact E4|].
  eauto using refreshed_trans.
Qed.

Lemma fetch_with_eq tools url versions : forall w,
  demo_mode (system w) = false ->
  fst (fetch_with host tools url versions w) =
  match first_usable host tools url with
  | Some content => parse_versions content versions
  | None => Val versions
  end.
Proof.
  induction tools as [|tool rest IH]; intros w D; [reflexivity|].
  cbn [fetch_with first_usable]. unfold bind at 1. rewrite run_command_eq, D.
  set (r := command_result host false [tool; "-s"; url] false 10 None).
  destruct ((rc_of r =? 0)%Z && PyStr.truthy (out_of r)); [reflexivity|].
  apply IH. exact D.
Qed.

Lemma fetch_versions_eq w :
  fst (fetch_versions host w) =
  if demo_mode (system w) then Val fallback_versions
  else match first_usable host ["curl"; "wget"] (listing_url w) with
       | Some content => parse_versions content fallback_versions
       | None => Val fallback_versions
       end.
Proof.
  unfold fetch_versions, bind, get_world.
  destruct (demo_mode (system w)) eqn:D; [reflexivity|].
  now rewrite fetch_with_eq.
Qed.

Lemma series_key_unique key re re' :
  In (key, re) SERIES_PATTERNS -> In (key, re') SERIES_PATTERNS -> re = re'.
Proof.
  cbn. intros H H'.
  repeat match goal with
         | H : _ \/ _ |- _ => destruct H
         | H : False |- _ => contradiction
         | H : (_, _) = (_, _) |- _ => inversion H; clear H
         end; subst; try reflexivity; discriminate.
Qed.

(** As long as no entry found has a number beyond the limit of [int],
    [fetch_versions] returns, and what it returns holds a non-empty version
    for each of the four series. When the fetch fails (demo mode, or
    neither downloader gives a usable answer) the four fallback constants
    are returned; when a listing was fetched, every series whose pattern
    finds nothing in it keeps its fallback constant. *)
Lemma fetch_versions_within_limit (w : World) :
  (forall content key re m,
      first_usable host ["curl"; "wget"] (listing_url w) = Some content ->
      In (key, re) SERIES_PATTERNS -> In m (Regex.findall re content) -> short_entry m) ->
  exists d,
    fst (fetch_versions host w) = Val d
    /\ (forall key fallback,
           In (key, fallback) fallback_versions ->
           exists v, dict_get d key = Some v /\ v <> "")
    /\ (demo_mode (system w) = true
        \/ first_usable host ["curl"; "wget"] (listing_url w) = None ->
        d = fallback_versions)
    /\ (forall content key re,
           demo_mode (system w) = false ->
           first_usable host ["curl"; "wget"] (listing_url w) = Some content ->
           In (key, re) SERIES_PATTERNS ->
           Regex.findall re content = [] ->
           dict_get d key = dict_get fallback_versions key).
Proof.
  intros S. rewrite fetch_versions_eq.
  assert (FB : forall key fallback,
             In (key, fallback) fallback_versions ->
             dict_get fallback_versions key = Some fallback /\ fallback <> "").
  { cbn. intros key fallback H.
    repeat match goal with
           | H : _ \/ _ |- _ => destruct H
           | H : False |- _ => contradiction
           | H : (_, _) = (_, _) |- _ => inversion H; clear H
           end; subst; split; solve [reflexivity | discriminate]. }
  destruct (demo_mode (system w)) eqn:D.
  { exists fallback_versions. split; [reflexivity|]. split; [|split].
    - intros key fallback H. exists fallback. now apply FB.
    - reflexivity.
    - discriminate. }
  destruct (first_usable host ["curl"; "wget"] (listing_url w)) as [content|] eqn:U.
  - destruct (@parse_versions_refreshed content fallback_versions) as [d [E R]].
    { intros key re m. now apply S. }
    exists d. split; [exact E|]. split; [|split].
    + intros key fallback H. destruct (FB _ _ H) as [G N].
      destruct (R key) as [Eq|[re [x [_ [_ [Nx Gx]]]]]].
      * exists fallback. rewrite Eq. now split.
      * eexists. split; [exact Gx|exact Nx].
    + intros [C|C]; discriminate.
    + intros content' key re _ C K F. inversion C; subst content'.
      destruct (R key) as [Eq|[re' [x [K' [Ix _]]]]]; [exact Eq|].
      rewrite (series_key_unique K K') in F. rewrite F in Ix. contradiction.
  - exists fallback_versions. split; [reflexivity|]. split; [|split].
    + intros key fallback H. exists fallback. now apply FB.
    + reflexivity.
    + discriminate.
Qed.

End FetchVersions.

(** The sort key of a version entry is its triplet, or the [ValueError]
    of a number beyond the limit. *)
Lemma version_key_cases m :
  version_entry m ->
  (exists k, version_key m = Val k)
  \/ exists e, over_limit e /\ version_key m = Raise e.
Proof.
  intros [d1 [d2 [d3 [D1 [D2 [D3 ->]]]]]].
  unfold version_key. rewrite entry_pieces by assumption. cbn [exc_map].
  destruct (Nat.le_gt_cases (String.length d1) PyStr.INT_MAX_STR_DIGITS) as [L1|L1];
    [|right; rewrite (py_int_long D1 L1); eexists; split; [eexists; split; eauto|reflexivity]].
  rewrite (py_int_digits D1 L1). cbn [exc_bind].
  destruct (Nat.le_gt_cases (String.length d2) PyStr.INT_MAX_STR_DIGITS) as [L2|L2];
    [|right; rewrite (py_int_long D2 L2); eexists; split; [eexists; split; eauto|reflexivity]].
  rewrite (py_int_digits D2 L2). cbn [exc_bind].
  destruct (Nat.le_gt_cases (String.length d3) PyStr.INT_MAX_STR_DIGITS) as [L3|L3];
    [|right; rewrite (py_int_long D3 L3); eexists; split; [eexists; split; eauto|reflexivity]].
  rewrite (py_int_digits D3 L3). cbn [exc_bind]. left. eexists. reflexivity.
Qed.

Lemma long_entry_key m :
  version_entry m -> ~ short_entry m -> exists e, version_key m = Raise e.
Proof.
  intros V N. destruct (version_key_cases V) as [[k K]|[e [_ R]]]; [|now exists e].
  exfalso. apply N. destruct V as [d1 [d2 [d3 [D1 [D2 [D3 ->]]]]]].
  unfold version_key in K. rewrite entry_pieces in K by assumption. cbn [exc_map] in K.
  destruct (Nat.le_gt_cases (String.length d1) PyStr.INT_MAX_STR_DIGITS) as [L1|L1];
    [|rewrite (py_int_long D1 L1) in K; discriminate K].
  rewrite (py_int_digits D1 L1) in K. cbn [exc_bind] in K.
  destruct (Nat.le_gt_cases (String.length d2) PyStr.INT_MAX_STR_DIGITS) as [L2|L2];
    [|rewrite (py_int_long D2 L2) in K; discriminate K].
  rewrite (py_int_digits D2 L2) in K. cbn [exc_bind] in K.
  destruct (Nat.le_gt_cases (String.length d3) PyStr.INT_MAX_STR_DIGITS) as [L3|L3];
    [|rewrite (py_int_long D3 L3) in K; discriminate K].
  exists d1, d2, d3. repeat (split; [assumption|]). reflexivity.
Qed.

(** One entry with a number beyond the limit among those a pattern finds,
    and the series cannot be sorted: [update_series] raises the
    [ValueError] of a number beyond the limit. *)
Lemma update_series_long key re content d m :
  In (key, re) SERIES_PATTERNS ->
  In m (Regex.findall re content) -> ~ short_entry m ->
  exists e, over_limit e /\ update_series key re content d = Raise e.
Proof.
  intros K I N. unfold update_series.
  assert (R : exists e, over_limit e /\ highest_version (Regex.findall re content) = Raise e).
  { unfold highest_version.
    destruct (@exc_map_raise _ _ (fun x => exc_bind (version_key x) (fun k => Val (k, x)))
                over_limit (Regex.findall re content)) as [e [Pe E]].
    - intros x Hx.
      destruct (version_key_cases (series_patterns_shape _ _ K Hx)) as [[k Hk]|[e [Pe R]]].
      + left. exists (k, x). now rewrite Hk.
      + right. exists e. split; [exact Pe|]. now rewrite R.
    - destruct (long_entry_key (series_patterns_shape _ _ K I) N) as [e R].
      exists m, e. split; [exact I|]. now rewrite R.
    - exists e. split; [exact Pe|]. now rewrite E. }
  destruct R as [e [Pe R]].
  destruct (Regex.findall re content) as [|m0 ms]; [contradiction|].
  exists e. split; [exact Pe|]. now rewrite R.
Qed.

(** C8, on the code. [fetch_versions] does not always return. On a
    listing with an entry one of whose numbers has more digits than [int]
    takes (here 580.1. followed by 4301 digits, beside 580.95.2) the sort
    key [int(i) for i in ...] raises [ValueError], nothing in
    [fetch_versions] catches it, and no version is returned for any
    series. *)
Theorem fetch_versions_raises_on_long_number :
  fst (fetch_versions (sample_host (serving long_number_listing)) (sample_world "ubuntu"))
  = Raise (ValueError
             "Exceeds the limit (4300 digits) for integer string conversion: value has 4301 digits; use sys.set_int_max_str_digits() to increase the limit").
Proof. vm_compute. reflexivity. Qed.

(** ** The orders of a listing *)

Lemma inserts_middle (A : Type) (x : A) a : forall b, In (a ++ x :: b) (inserts x (a ++ b)).
Proof.
  induction a as [|y a IH]; intros b; cbn.
  - destruct b; left; reflexivity.
  - right. apply in_map. apply IH.
Qed.

Lemma permutations_complete (A : Type) (l : list A) : forall l',
  Permutation l l' -> In l' (permutations l).
Proof.
  induction l as [|x l IH]; intros l' P.
  - apply Permutation_nil in P. subst. now left.
  - assert (I : In x l') by (eapply Permutation_in; [exact P|now left]).
    apply in_split in I. destruct I as [a [b ->]].
    apply Permutation_cons_app_inv in P.
    cbn [permutations]. apply in_flat_map. exists (a ++ b).
    split; [now apply IH|apply inserts_middle].
Qed.

Lemma same_entries_spec l l' :
  same_entries l l' = true -> forall m, In m l <-> In m l'.
Proof.
  unfold same_entries. intros H. apply andb_true_iff in H. destruct H as [H1 H2].
  rewrite forallb_forall in H1, H2.
  assert (E : forall a b : list string,
             (forall x, In x a -> existsb (String.eqb x) b = true) ->
             forall x, In x a -> In x b).
  { intros a b Hab x Hx. specialize (Hab x Hx). apply existsb_exists in Hab.
    destruct Hab as [y [Hy Exy]]. apply String.eqb_eq in Exy. now subst. }
  intros m. split; [apply (E l l' H1)|apply (E l' l H2)].
Qed.

(** The triplets of the five entries of the sample listing. *)
Lemma entry_triplet_of d1 d2 d3 :
  digits d1 -> digits d2 -> digits d3 ->
  entry_triplet (d1 +:+ "." +:+ d2 +:+ "." +:+ d3 +:+ "/")
                [PyStr.digits_value 0 d1; PyStr.digits_value 0 d2; PyStr.digits_value 0 d3].
Proof.
  intros D1 D2 D3. exists d1, d2, d3. repeat (split; [assumption|]). split; reflexivity.
Qed.

Section VersionSelection.

Variable host : Env.Host.

(** The rule of selection on any listing whose entries are within the
    limit of [int]: the version kept for a series whose pattern matches is
    the name of an entry found, and no entry found has an integer triplet
    above the triplet of that entry. *)
Lemma highest_triplet_wins key re content d :
  In (key, re) SERIES_PATTERNS ->
  Regex.findall re content <> [] ->
  (forall m, In m (Regex.findall re content) -> short_entry m) ->
  exists x k,
    In x (Regex.findall re content)
    /\ entry_triplet x k
    /\ update_series key re content d = Val (dict_set d key (PyStr.rstrip_char "/" x))
    /\ forall y ky,
        In y (Regex.findall re content) -> entry_triplet y ky -> list_lt k ky = false.
Proof.
  intros K N S.
  destruct (@highest_version_max (Regex.findall re content) N S) as [x [k [Ix [Tx [Hx Mx]]]]].
  exists x, k. repeat split; try assumption.
  unfold update_series. destruct (Regex.findall re content); [congruence|].
  rewrite Hx. reflexivity.
Qed.

(** C3. Given a fetched listing with exactly the entries 580.10.0/,
    580.95.2/, 590.44.9/, 590.50.1/ and 470.10.0/, one per line and in any
    order, [fetch_versions] selects production 580.95.2, new-feature
    590.50.1, beta 590.44.9 and legacy 470.10.0; each of the five candidates
    is found by the pattern of exactly one series; and the version selected
    for a series is the name of an entry found for it whose integer
    triplet is not below the triplet of any other entry found for it. The
    same rule holds of any listing whose numbers [int] takes: a series
    whose pattern finds entries gets the name of one whose integer triplet
    none of the others exceeds. *)
Theorem version_selection (w : World) (order : list string) (err : string) :
  demo_mode (system w) = false ->
  Permutation listing_entries order ->
  command_result host false ["curl"; "-s"; listing_url w] false 10 None
  = (0%Z, listing_of order, err) ->
  fst (fetch_versions host w) = Val selected_versions
  /\ map (series_matching (listing_of order)) listing_entries
     = [["production"]; ["production"]; ["beta"]; ["new_feature"]; ["legacy"]]
  /\ (forall key re,
         In (key, re) SERIES_PATTERNS ->
         exists x k,
           In x (Regex.findall re (listing_of order))
           /\ entry_triplet x k
           /\ dict_get selected_versions key = Some (PyStr.rstrip_char "/" x)
           /\ forall y ky,
               In y (Regex.findall re (listing_of order)) ->
               entry_triplet y ky -> list_lt k ky = false)
  /\ (forall content key re d,
         In (key, re) SERIES_PATTERNS ->
         Regex.findall re content <> [] ->
         (forall m, In m (Regex.findall re content) -> short_entry m) ->
         exists x k,
           In x (Regex.findall re content)
           /\ entry_triplet x k
           /\ update_series key re content d
              = Val (dict_set d key (PyStr.rstrip_char "/" x))
           /\ forall y ky,
               In y (Regex.findall re content) ->
               entry_triplet y ky -> list_lt k ky = false).
Proof.
  intros D P C.
  assert (B : forallb
                (fun o : list string =>
                   PyStr.truthy (listing_of o)
                   && match parse_versions (listing_of o) fallback_versions with
                      | Val d =>
                          if list_eq_dec
                               (fun a b : string * string =>
                                  match string_dec (fst a) (fst b),
                                        string_dec (snd a) (snd b) with
                                  | left E1, left E2 =>
                                      left (match a, b return
                                                  fst a = fst b -> snd a = snd b -> a = b
                                            with
                                            | (a1, a2), (b1, b2) =>
                                                fun H1 H2 => f_equal2 pair H1 H2
                                            end E1 E2)
                                  | right N, _ => right (fun H => N (f_equal fst H))
                                  | _, right N => right (fun H => N (f_equal snd H))
                                  end) d selected_versions
                          then true else false
                      | Raise _ => false
                      end
                   && (if list_eq_dec (list_eq_dec string_dec)
                            (map (series_matching (listing_of o)) listing_entries)
                            [["production"]; ["production"]; ["beta"]; ["new_feature"];
                             ["legacy"]]
                       then true else false)
                   && forallb
                        (fun kr : string * Regex.regex =>
                           match dict_get series_entries (fst kr) with
                           | Some expected =>
                               same_entries (Regex.findall (snd kr) (listing_of o)) expected
                           | None => false
                           end) SERIES_PATTERNS)
                (permutations listing_entries) = true).
  { vm_compute. reflexivity. }
  rewrite forallb_forall in B. specialize (B order (permutations_complete P)).
  apply andb_true_iff in B. destruct B as [B B4].
  apply andb_true_iff in B. destruct B as [B B3].
  apply andb_true_iff in B. destruct B as [B1 B2].
  destruct (parse_versions (listing_of order) fallback_versions) as [d|e] eqn:PV;
    [|discriminate B2].
  destruct (list_eq_dec _ d selected_versions) as [->|_] in B2; [|discriminate B2].
  destruct (list_eq_dec _ _ _) as [M|_] in B3; [|discriminate B3].
  rewrite forallb_forall in B4.
  split; [|split; [exact M|split; [|intros; now apply highest_triplet_wins]]].
  - rewrite fetch_versions_eq, D. cbn [first_usable]. rewrite C.
    cbn [rc_of out_of fst snd]. rewrite B1. cbn [Z.eqb andb]. exact PV.
  - intros key re K. specialize (B4 _ K). cbn [fst snd] in B4.
    assert (T1 : entry_triplet "580.10.0/" [580; 10; 0]%Z).
    { apply (@entry_triplet_of "580" "10" "0"); split; solve [discriminate|reflexivity]. }
    assert (T2 : entry_triplet "580.95.2/" [580; 95; 2]%Z).
    { apply (@entry_triplet_of "580" "95" "2"); split; solve [discriminate|reflexivity]. }
    assert (T3 : entry_triplet "590.44.9/" [590; 44; 9]%Z).
    { apply (@entry_triplet_of "590" "44" "9"); split; solve [discriminate|reflexivity]. }
    assert (T4 : entry_triplet "590.50.1/" [590; 50; 1]%Z).
    { apply (@entry_triplet_of "590" "50" "1"); split; solve [discriminate|reflexivity]. }
    assert (T5 : entry_triplet "470.10.0/" [470; 10; 0]%Z).
    { apply (@entry_triplet_of "470" "10" "0"); split; solve [discriminate|reflexivity]. }
    cbn in K. destruct K as [K|[K|[K|[K|[]]]]]; inversion K; subst key re; clear K;
      cbn [dict_get series_entries String.eqb Ascii.eqb Bool.eqb] in B4;
      assert (S := same_entries_spec _ _ B4).
    + exists "580.95.2/", [580; 95; 2]%Z. split; [apply S; cbn; tauto|].
      split; [exact T2|]. split; [reflexivity|].
      intros y ky Iy Ty. apply S in Iy. cbn in Iy. destruct Iy as [<-|[<-|[]]].
      * now rewrite (entry_triplet_unique Ty T1).
      * now rewrite (entry_triplet_unique Ty T2).
    + exists "590.50.1/", [590; 50; 1]%Z. split; [apply S; cbn; tauto|].
      split; [exact T4|]. split; [reflexivity|].
      intros y ky Iy Ty. apply S in Iy. cbn in Iy. destruct Iy as [<-|[]].
      now rewrite (entry_triplet_unique Ty T4).
    + exists "590.44.9/", [590; 44; 9]%Z. split; [apply S; cbn; tauto|].
      split; [exact T3|]. split; [reflexivity|].
      intros y ky Iy Ty. apply S in Iy. cbn in Iy. destruct Iy as [<-|[]].
      now rewrite (entry_triplet_unique Ty T3).
    + exists "470.10.0/", [470; 10; 0]%Z. split; [apply S; cbn; tauto|].
      split; [exact T5|]. split; [reflexivity|].
      intros y ky Iy Ty. apply S in Iy. cbn in Iy. destruct Iy as [<-|[]].
      now rewrite (entry_triplet_unique Ty T5).
Qed.

End VersionSelection.

Lemma version_selection_witness :
  fst (fetch_versions (sample_host (serving (listing_of listing_newest_first)))
                      (sample_world "ubuntu"))
  = Val selected_versions.
Proof.
  refine (proj1 (@version_selection (sample_host (serving (listing_of listing_newest_first)))
                                    (sample_world "ubuntu") listing_newest_first "" _ _ _)).
  - reflexivity.
  - apply (Permutation_cons_app ["590.50.1/"; "590.44.9/"; "580.95.2/"] ["470.10.0/"]).
    apply (Permutation_cons_app ["590.50.1/"; "590.44.9/"] ["470.10.0/"]).
    apply perm_swap.
  - vm_compute. reflexivity.
Defined.

(** The same selection on the listing as the vendor's index page prints
    it, where every entry occurs twice. *)
Example version_selection_index_page :
  parse_versions sample_index_page fallback_versions = Val selected_versions.
Proof. vm_compute. reflexivity. Qed.

(** The comparison is of numbers, not of texts: among 580.9.1, 580.126.09
    and 580.95.2 the text 580.95.2 sorts last and 580.126.09 is selected. *)
Example version_selection_by_number :
  highest_version listing_580 = Val "580.126.09"
  /\ parse_versions (listing_of listing_580) fallback_versions
     = Val (dict_set fallback_versions "production" "580.126.09").
Proof. vm_compute. split; reflexivity. Qed.

(** Without a downloader the four fallback constants are returned. *)
Example fetch_versions_without_downloader :
  fst (fetch_versions (sample_host no_programs) (sample_world "ubuntu"))
  = Val fallback_versions.
Proof. vm_compute. reflexivity. Qed.

Lemma run_command_never_raises_witness :
  fst (run_command (sample_host always_late) ["curl"; "-s"; "https://example.org/"]
                   false 10 None (sample_world "ubuntu"))
  = Val (124%Z, "", "Timeout")
  /\ fst (run_command (sample_host no_programs) ["curl"; "-s"; "https://example.org/"]
                      false 10 None (sample_world "ubuntu"))
     = Val (1%Z, "", "No such file or directory").
Proof.
  split.
  - refine (proj1 (proj2 (run_command_never_raises
                            (sample_host always_late) ["curl"; "-s"; "https://example.org/"]
                            false 10 None (sample_world "ubuntu"))) _ _);
      reflexivity.
  - refine (proj1 (proj2 (proj2 (run_command_never_raises
                            (sample_host no_programs) ["curl"; "-s"; "https://example.org/"]
                            false 10 None (sample_world "ubuntu"))))
                  (OSError "No such file or directory") _ _ _);
      solve [reflexivity | discriminate].
Defined.

(** ** Distribution family and dependency checks *)

Section Distro.

Variable host : Env.Host.

Lemma os_release_value_total line key :
  PyStr.startswith line (key +:+ "=") = true ->
  (forall c, In c (list_ascii_of_string key) -> Ascii.eqb "=" c = false) ->
  exists v, os_release_value line = Val v.
Proof.
  intros H K. apply prefix_app in H. destruct H as [r ->].
  unfold os_release_value, PyStr.split. rewrite append_assoc. cbn [String.append].
  rewrite (split_by_app_sep _ key "=" r K eq_refl).
  destruct (PyStr.split_by (Ascii.eqb "=") r) as [|f ps] eqn:E.
  - exfalso. eapply split_by_nonempty; eauto.
  - cbn. eauto.
Qed.

Lemma id_line_total line :
  PyStr.startswith line "ID=" = true -> exists v, os_release_value line = Val v.
Proof.
  intros H. apply (os_release_value_total line "ID" H).
  intros c [<-|[<-|[]]]; reflexivity.
Qed.

Lemma name_line_total line :
  PyStr.startswith line "NAME=" = true -> exists v, os_release_value line = Val v.
Proof.
  intros H. apply (os_release_value_total line "NAME" H).
  intros c [<-|[<-|[<-|[<-|[]]]]]; reflexivity.
Qed.

Lemma release_id_fold_some lines : forall x,
  fold_left release_id_step lines (Some x) <> None.
Proof.
  induction lines as [|line lines IH]; intros x; cbn; [discriminate|].
  unfold release_id_step at 2.
  destruct (PyStr.startswith line "ID="); [|apply IH].
  destruct (os_release_value line); apply IH.
Qed.

(** The loop of [detect_distro] never raises, runs no child process, and
    the family it leaves is that of the last [ID=] line. *)
Lemma detect_loop lines : forall w acc,
  (forall x, acc = Some x -> distro_family (system w) = family_of_id x) ->
  exists w',
    for_each lines detect_line w = (Val tt, w')
    /\ trace w' = trace w
    /\ distro_family (system w') =
       match fold_left release_id_step lines acc with
       | Some distro_id => family_of_id distro_id
       | None => distro_family (system w)
       end.
Proof.
  induction lines as [|line lines IH]; intros w acc P.
  - exists w. cbn. repeat split. destruct acc as [x|]; [now apply P|reflexivity].
  - cbn [for_each fold_left]. unfold bind at 1. unfold detect_line at 1.
    destruct (PyStr.startswith line "ID=") eqn:I.
    + destruct (id_line_total line I) as [v Hv].
      assert (S1 : release_id_step acc line = Some v)
        by (unfold release_id_step; now rewrite I, Hv).
      rewrite S1.
      unfold bind at 1. unfold lift. rewrite Hv. unfold update_system, modify.
      set (w1 := set_system _ w).
      destruct (IH w1 (Some v)) as [w' [E [T F]]].
      { intros x X. inversion X; subst. reflexivity. }
      exists w'. rewrite E. repeat split; [exact T|]. rewrite F.
      destruct (fold_left release_id_step lines (Some v)) eqn:G; [reflexivity|].
      exfalso. eapply release_id_fold_some; eauto.
    + assert (S1 : release_id_step acc line = acc)
        by (unfold release_id_step; now rewrite I).
      rewrite S1.
      destruct (PyStr.startswith line "NAME=") eqn:N.
      * destruct (name_line_total line N) as [v Hv].
        unfold bind at 1. unfold lift. rewrite Hv. unfold update_system, modify.
        set (w1 := set_system _ w).
        destruct (IH w1 acc) as [w' [E [T F]]]; [exact P|].
        exists w'. rewrite E. repeat split; [exact T|exact F].
      * unfold ret at 1.
        destruct (IH w acc P) as [w' [E [T F]]].
        exists w'. rewrite E. repeat split; [exact T|exact F].
Qed.

Lemma family_of_unmapped_id distro_id :
  ~ In distro_id MAPPED_IDS -> family_of_id distro_id = "other".
Proof.
  intros N. unfold family_of_id.
  assert (E : forall l, (forall x, In x l -> In x MAPPED_IDS) ->
                        existsb (String.eqb distro_id) l = false).
  { intros l Hl. destruct (existsb (String.eqb distro_id) l) eqn:X; [|reflexivity].
    apply existsb_exists in X. destruct X as [x [Hx Ex]].
    apply String.eqb_eq in Ex. subst x. exfalso. apply N, Hl, Hx. }
  rewrite E by (intros x Hx; cbn in *; tauto).
  destruct (String.eqb_spec distro_id "debian") as [->|_]; [exfalso; apply N; cbn; tauto|].
  rewrite E by (intros x Hx; cbn in *; tauto).
  reflexivity.
Qed.

Lemma procs_app t1 t2 : procs (t1 ++ t2) = procs t1 ++ procs t2.
Proof.
  induction t1 as [|e t1 IH]; [reflexivity|].
  destruct e; cbn; rewrite IH; reflexivity.
Qed.

Lemma probe_missing_eq query pkg missing w :
  demo_mode (system w) = false ->
  probe_missing host query pkg missing w =
  (Val (if query_fails host query then missing ++ [pkg] else missing),
   add_event (EvProc (invocation_of query false 300 None)) w).
Proof.
  intros D. unfold probe_missing, bind. rewrite run_command_eq, D. reflexivity.
Qed.

(** C9, as the code has it. An identifier outside the static mapping gives
    the family "other". For that family [get_missing_dependency_packages]
    is the Debian check: outside demo mode, for the install types repo and
    run it runs the three [dpkg -l] queries and reports every package whose
    query fails; for any other install type it runs nothing and reports
    nothing. *)
Theorem other_family_runs_debian_checks (w : World) :
  demo_mode (system w) = false ->
  (forall content distro_id,
      Env.etc_os_release host = Some content ->
      release_id content = Some distro_id ->
      ~ In distro_id MAPPED_IDS ->
      exists w',
        detect_distro host w = (Val tt, w')
        /\ distro_family (system w') = "other")
  /\ (distro_family (system w) = "other" ->
      forall install_type,
        (In install_type ["repo"; "run"] ->
         exists w',
           get_missing_dependency_packages host install_type w
           = (Val (map snd (filter (fun d => query_fails host (fst d))
                                   (DEBIAN_DEPENDENCIES host))), w')
           /\ procs (trace w') = procs (trace w) ++ map fst (DEBIAN_DEPENDENCIES host))
        /\ (~ In install_type ["repo"; "run"] ->
            get_missing_dependency_packages host install_type w = (Val [], w))).
Proof.
  intros D. split.
  - intros content distro_id C R N.
    unfold detect_distro, bind, get_world. rewrite D. unfold try_except. rewrite C.
    destruct (detect_loop (PyStr.split LF content) w (acc := None)) as [w' [E [_ F]]];
      [discriminate|].
    rewrite E. exists w'. split; [reflexivity|].
    rewrite F. unfold release_id in R. rewrite R. now apply family_of_unmapped_id.
  - intros O install_type. split.
    + intros I.
      unfold get_missing_dependency_packages, bind at 1, get_world. rewrite D, O.
      assert (X : existsb (String.eqb install_type) ["repo"; "run"] = true).
      { apply existsb_exists. exists install_type. split; [exact I|apply String.eqb_refl]. }
      rewrite X. cbn [orb negb String.eqb Ascii.eqb Bool.eqb].
      unfold bind. rewrite !probe_missing_eq by exact D.
      eexists. split.
      * unfold ret. f_equal. f_equal. unfold DEBIAN_DEPENDENCIES. cbn [filter map fst snd].
        destruct (query_fails host _), (query_fails host _), (query_fails host _);
          reflexivity.
      * cbn [snd trace add_event]. rewrite !procs_app. cbn. rewrite <- !app_assoc.
        reflexivity.
    + intros N.
      unfold get_missing_dependency_packages, bind, get_world. rewrite D.
      destruct (existsb (String.eqb install_type) ["repo"; "run"]) eqn:X; [|reflexivity].
      exfalso. apply N. apply existsb_exists in X. destruct X as [x [Hx Ex]].
      apply String.eqb_eq in Ex. now subst.
Qed.

End Distro.

(** C9 fails as stated: on a distribution of family "other" without dpkg,
    the check for the install type repo runs three package-manager queries
    and reports all three packages missing. *)
Lemma other_family_counterexample :
  distro_family (system (sample_world "other")) = "other"
  /\ fst (get_missing_dependency_packages (sample_host no_programs) "repo"
                                          (sample_world "other"))
     = Val ["linux-headers-6.8.0-45-generic"; "dkms"; "build-essential"]
  /\ procs (trace (snd (get_missing_dependency_packages (sample_host no_programs) "repo"
                                                        (sample_world "other"))))
     = [["dpkg"; "-l"; "linux-headers-6.8.0-45-generic"]; ["dpkg"; "-l"; "dkms"];
        ["dpkg"; "-l"; "build-essential"]].
Proof. repeat split; reflexivity. Qed.

(** An [os-release] text with an identifier outside the mapping. *)
Lemma other_family_runs_debian_checks_witness :
  (exists w',
      detect_distro (sample_host_release "NAME=Arch Linux
ID=arch
" no_programs) (sample_world "unknown") = (Val tt, w')
      /\ distro_family (system w') = "other")
  /\ get_missing_dependency_packages (sample_host no_programs) "nvk" (sample_world "other")
     = (Val [], sample_world "other").
Proof.
  split.
  - refine (proj1 (@other_family_runs_debian_checks
                     (sample_host_release _ no_programs) (sample_world "unknown") _)
                  _ "arch" _ _ _); try reflexivity.
    cbn. intuition discriminate.
  - refine (proj2 (proj2 (@other_family_runs_debian_checks
                     (sample_host no_programs) (sample_world "other") _) _ "nvk") _);
      try reflexivity.
    cbn. intuition discriminate.
Defined.



(** ** Frame rules *)

Section FrameRules.

Variable R : World -> World -> Prop.
Context {F : Frame R}.

Lemma runs_weaken (R' : World -> World -> Prop) A (m : M A) :
  (forall w w', R w w' -> R' w w') -> runs R m -> runs R' m.
Proof.
  intros I Rm w. destruct (Rm w) as [a [w' [E X]]]. exists a, w'. split; [exact E|now apply I].
Qed.

Lemma framed_weaken (R' : World -> World -> Prop) A (m : M A) :
  (forall w w', R w w' -> R' w w') -> framed R m -> framed R' m.
Proof. intros I Fm w. apply I, Fm. Qed.

Lemma runs_ret A (a : A) : runs R (ret a).
Proof. intros w. exists a, w. split; [reflexivity|apply frame_refl]. Qed.

Lemma runs_get_world : runs R get_world.
Proof. intros w. exists w, w. split; [reflexivity|apply frame_refl]. Qed.

Lemma runs_modify (f : World -> World) : (forall w, R w (f w)) -> runs R (modify f).
Proof. intros H w. exists tt, (f w). split; [reflexivity|apply H]. Qed.

Lemma runs_bind A B (m : M A) (k : A -> M B) :
  runs R m -> (forall a, runs R (k a)) -> runs R (bind m k).
Proof.
  intros Rm Rk w. destruct (Rm w) as [a [w1 [E1 X1]]].
  destruct (Rk a w1) as [b [w2 [E2 X2]]].
  exists b, w2. unfold bind. rewrite E1. split; [exact E2|eapply frame_trans; eauto].
Qed.

Lemma runs_for_each A (l : list A) (body : A -> M unit) :
  (forall x, runs R (body x)) -> runs R (for_each l body).
Proof.
  intros H. induction l as [|x l IH]; cbn [for_each]; [apply runs_ret|].
  apply runs_bind; [apply H|]. intros _. exact IH.
Qed.

Lemma runs_if A (b : bool) (m1 m2 : M A) :
  runs R m1 -> runs R m2 -> runs R (if b then m1 else m2).
Proof. destruct b; auto. Qed.

Lemma framed_of_runs A (m : M A) : runs R m -> framed R m.
Proof. intros Rm w. destruct (Rm w) as [a [w' [E X]]]. now rewrite E. Qed.

Lemma framed_raise A e : framed R (@raise A e).
Proof. intros w. apply frame_refl. Qed.

Lemma framed_lift A (x : Exc A) : framed R (lift x).
Proof. intros w. apply frame_refl. Qed.

Lemma framed_bind A B (m : M A) (k : A -> M B) :
  framed R m -> (forall a, framed R (k a)) -> framed R (bind m k).
Proof.
  intros Fm Fk w. unfold bind. specialize (Fm w). destruct (m w) as [[a|e] w1]; cbn in *.
  - eapply frame_trans; [exact Fm|apply Fk].
  - exact Fm.
Qed.

Lemma framed_for_each A (l : list A) (body : A -> M unit) :
  (forall x, framed R (body x)) -> framed R (for_each l body).
Proof.
  intros H. induction l as [|x l IH]; cbn [for_each]; [apply framed_of_runs, runs_ret|].
  apply framed_bind; [apply H|]. intros _. exact IH.
Qed.

Lemma framed_if A (b : bool) (m1 m2 : M A) :
  framed R m1 -> framed R m2 -> framed R (if b then m1 else m2).
Proof. destruct b; auto. Qed.

Lemma framed_try A (m : M A) (h : exn -> M A) :
  framed R m -> (forall e, framed R (h e)) -> framed R (try_except m h).
Proof.
  intros Fm Fh w. unfold try_except. specialize (Fm w).
  destruct (m w) as [[a|e] w1]; cbn in *; [exact Fm|].
  eapply frame_trans; [exact Fm|apply Fh].
Qed.

(** A [try] whose handler always returns always returns. *)
Lemma runs_try A (m : M A) (h : exn -> M A) :
  framed R m -> (forall e, runs R (h e)) -> runs R (try_except m h).
Proof.
  intros Fm Rh w. unfold try_except. specialize (Fm w).
  destruct (m w) as [[a|e] w1]; cbn in *.
  - exists a, w1. split; [reflexivity|exact Fm].
  - destruct (Rh e w1) as [a [w2 [E X]]]. exists a, w2. split; [exact E|].
    eapply frame_trans; eauto.
Qed.

(** A value that is there can be lifted. *)
Lemma runs_lift A (x : Exc A) a : x = Val a -> runs R (lift x).
Proof. intros ->. intros w. exists a, w. split; [reflexivity|apply frame_refl]. Qed.

End FrameRules.

Lemma same_session_refl w : same_session w w.
Proof. repeat split. Qed.

Lemma same_session_trans w1 w2 w3 :
  same_session w1 w2 -> same_session w2 w3 -> same_session w1 w3.
Proof.
  unfold same_session. intros H1 H2.
  destruct H1 as (a1 & a2 & a3 & a4 & a5 & a6 & a7).
  destruct H2 as (b1 & b2 & b3 & b4 & b5 & b6 & b7).
  repeat split; congruence.
Qed.

#[export] Instance same_session_frame : Frame same_session.
Proof. split; [apply same_session_refl|apply same_session_trans]. Qed.

Lemma extends_refl P w : extends P w w.
Proof.
  split; [apply same_session_refl|]. split; [reflexivity|].
  exists []. split; [now rewrite app_nil_r|constructor].
Qed.

Lemma extends_trans P w1 w2 w3 : extends P w1 w2 -> extends P w2 w3 -> extends P w1 w3.
Proof.
  intros [S1 [B1 [a1 [T1 F1]]]] [S2 [B2 [a2 [T2 F2]]]].
  split; [eapply same_session_trans; eauto|]. split; [congruence|].
  exists (a1 ++ a2). split; [rewrite T2, T1; now rewrite app_assoc|].
  apply Forall_app. now split.
Qed.

#[export] Instance extends_frame P : Frame (extends P).
Proof. split; [apply extends_refl|apply extends_trans]. Qed.

Lemma extends_weaken (P Q : Event -> Prop) w w' :
  (forall e, P e -> Q e) -> extends P w w' -> extends Q w w'.
Proof.
  intros I [S [B [a [T H]]]]. split; [exact S|]. split; [exact B|]. exists a.
  split; [exact T|]. eapply Forall_impl; eauto.
Qed.

Lemma extends_session P w w' : extends P w w' -> same_session w w'.
Proof. now intros [S _]. Qed.

Lemma extends_event (P : Event -> Prop) e w : P e -> extends P w (add_event e w).
Proof.
  intros H. split; [repeat split|]. split; [reflexivity|].
  exists [e]. split; [reflexivity|]. now constructor.
Qed.

Lemma extends_log P msg level w : extends P w (add_log msg level w).
Proof.
  split; [repeat split|]. split; [reflexivity|].
  exists []. split; [cbn; now rewrite app_nil_r|constructor].
Qed.

Lemma runs_event (P : Event -> Prop) e : P e -> runs (extends P) (modify (add_event e)).
Proof. intros H w. exists tt, (add_event e w). split; [reflexivity|now apply extends_event]. Qed.

Lemma runs_add_log P msg level : runs (extends P) (modify (add_log msg level)).
Proof. intros w. exists tt, (add_log msg level w). split; [reflexivity|apply extends_log]. Qed.

(** Steps of a frame proof; the relation is read off the goal. *)
Ltac fr lem := apply lem; try exact _.
Ltac r_bind := fr runs_bind; [|intros ?].
Tactic Notation "r_bind" "as" ident(x) := fr runs_bind; [|intros x].
Ltac r_if := apply runs_if.
Ltac r_ret := fr runs_ret.
Ltac r_world := fr runs_get_world.
Ltac f_bind := fr framed_bind; [|intros ?].
Tactic Notation "f_bind" "as" ident(x) := fr framed_bind; [|intros x].
Ltac f_if := apply framed_if.
Ltac f_runs := apply framed_of_runs.

Section Frames.

Variable host : Env.Host.

Lemma runs_run_command (P : Event -> Prop) cmd sudo t pw :
  (forall i, P (EvProc i)) -> runs (extends P) (run_command host cmd sudo t pw).
Proof.
  intros H w. rewrite run_command_eq. eexists _, _. split; [reflexivity|].
  destruct (demo_mode (system w)); [apply extends_refl|now apply extends_event].
Qed.

Lemma runs_log_line (P : Event -> Prop) msg level :
  (forall f, P (EvWrite f)) -> runs (extends P) (log_line host msg level).
Proof.
  intros H. unfold log_line. r_bind; [apply runs_add_log|].
  r_bind as w0; [r_world|].
  destruct (current_log_file w0); [|r_ret].
  r_if; [now apply runs_event|r_ret].
Qed.

Lemma framed_collect_error_report (P : Event -> Prop) :
  (forall i, P (EvProc i)) -> framed (extends P) (collect_error_report host).
Proof.
  intros Hp. unfold collect_error_report.
  f_bind as w0; [f_runs; r_world|].
  f_bind.
  { f_if; [f_runs; r_ret|].
    destruct (Env.uname_release host); [f_runs; r_ret|fr framed_raise]. }
  f_runs. r_if; [|r_ret].
  r_bind; [now apply runs_run_command|].
  r_bind; [now apply runs_run_command|]. r_ret.
Qed.

Lemma framed_save_error_report_with (P : Event -> Prop) nested :
  (forall f, P (EvWrite f)) ->
  (forall msg level, framed (extends P) (nested msg level)) ->
  framed (extends P) (save_error_report_with host nested).
Proof.
  intros Hw Hn. unfold save_error_report_with.
  f_bind; [f_if; [f_runs; r_ret|fr framed_raise]|].
  f_bind as w0; [f_runs; r_world|].
  fr framed_try.
  - f_bind; [f_if; [f_runs; now apply runs_event|fr framed_raise]|].
    f_bind; [apply Hn|]. f_runs. r_ret.
  - intros e. f_bind; [apply Hn|]. f_runs. r_ret.
Qed.

(** Whatever [log] calls from inside, the call returns. *)
Lemma runs_log_with (P : Event -> Prop) nested msg level :
  (forall i, P (EvProc i)) -> (forall f, P (EvWrite f)) ->
  (forall msg' level', framed (extends P) (nested msg' level')) ->
  runs (extends P) (log_with host nested msg level).
Proof.
  intros Hp Hw Hn. unfold log_with.
  r_bind; [now apply runs_log_line|].
  r_if; [|r_ret].
  fr runs_try; [|intros e; r_ret].
  f_bind; [now apply framed_collect_error_report|].
  f_bind; [now apply framed_save_error_report_with|]. f_runs. r_ret.
Qed.

Lemma framed_log_nested (P : Event -> Prop) :
  (forall i, P (EvProc i)) -> (forall f, P (EvWrite f)) ->
  forall room msg level, framed (extends P) (log_nested host room msg level).
Proof.
  intros Hp Hw. induction room as [|room IH]; intros msg level; cbn [log_nested].
  - fr framed_raise.
  - f_runs. now apply runs_log_with.
Qed.

Lemma runs_log msg level : runs (extends probe_event) (log host msg level).
Proof.
  unfold log. apply runs_log_with; try (intros; exact I).
  apply framed_log_nested; intros; exact I.
Qed.

Lemma framed_save_error_report :
  framed (extends probe_event) (save_error_report host).
Proof.
  unfold save_error_report. apply framed_save_error_report_with; [intros; exact I|].
  intros msg level. f_runs. apply runs_log.
Qed.

(** Below the level ERROR a log line runs no child process. *)
Lemma runs_log_quiet msg level :
  level <> "ERROR" -> runs (extends file_event) (log host msg level).
Proof.
  intros N. unfold log, log_with.
  r_bind; [apply runs_log_line; intros; exact I|].
  apply String.eqb_neq in N. rewrite N. r_ret.
Qed.

End Frames.

(** ** Restore *)

Lemma procs_file_events added : Forall file_event added -> procs added = [].
Proof.
  induction 1 as [|e l He _ IH]; [reflexivity|].
  destruct e; cbn in He; try contradiction. exact IH.
Qed.

Lemma extends_file_procs w w' : extends file_event w w' -> procs (trace w') = procs (trace w).
Proof.
  intros [_ [_ [added [T F]]]]. rewrite T, procs_app, (procs_file_events F).
  now rewrite app_nil_r.
Qed.

Section Restore.

Variable host : Env.Host.

(** Once the sudo check has returned, restoring a backup whose record
    holds an empty package list (or none) returns [False]; from the check
    on no child process is run, so no package is installed, and the backup
    directory is as it was. [_run_install_restore] itself does nothing on
    an empty list. *)
Lemma restore_empty_backup_after_check (w w1 : World) (path : string) (ok : bool)
        (fields : list (string * json)) :
  check_sudo host w = (Val ok, w1) ->
  read_json host path w1 = (Val (JObj fields), w1) ->
  dict_get fields "packages" = Some (JList []) \/ dict_get fields "packages" = None ->
  (exists w',
      restore_backup host path w = (Val false, w')
      /\ procs (trace w') = procs (trace w1)
      /\ backup_dir w' = backup_dir w1)
  /\ (forall w0, _run_install_restore host (JList []) w0 = (Val (0%Z, ""), w0)).
Proof.
  intros C R P. split; [|reflexivity].
  unfold restore_backup. unfold bind at 1. rewrite C.
  destruct ok; cbn [negb].
  - unfold try_except. unfold bind at 1. rewrite R.
    unfold bind at 1. unfold lift, json_get.
    assert (G : match dict_get fields "packages" with
                | Some v => Val v
                | None => Val (JList [])
                end = Val (JList [])) by (destruct P as [-> | ->]; reflexivity).
    rewrite G. cbn [json_truthy negb].
    destruct (@runs_log_quiet host (_tr "log_backup_no_pkgs" []) "WARN" ltac:(discriminate) w1)
      as [[] [w2 [E X]]].
    unfold bind. rewrite E. exists w2. split; [reflexivity|]. split.
    + now apply extends_file_procs.
    + apply X.
  - exists w1. repeat split.
Qed.

(** When the probe [sudo -n true] cannot be started, what it raises leaves
    [check_sudo], and with it [restore_backup], whatever the backup holds. *)
Lemma check_sudo_raises (w : World) (e : exn) :
  Env.IS_LINUX host = true ->
  Env.os_exec host (mkInvocation ["sudo"; "-n"; "true"] None None) = NotStarted e ->
  fst (check_sudo host w) = Raise e.
Proof.
  intros L X. unfold check_sudo. rewrite L. cbn [negb].
  unfold bind at 1. unfold subprocess_run. unfold bind at 1. cbn [modify].
  rewrite X. reflexivity.
Qed.

Lemma restore_backup_raises (w : World) (path : string) (e : exn) :
  Env.IS_LINUX host = true ->
  Env.os_exec host (mkInvocation ["sudo"; "-n"; "true"] None None) = NotStarted e ->
  fst (restore_backup host path w) = Raise e.
Proof.
  intros L X. unfold restore_backup. unfold bind at 1.
  assert (C := check_sudo_raises w L X).
  destruct (check_sudo host w) as [[ok|e'] w1]; cbn [fst] in C; [discriminate C|].
  inversion C. reflexivity.
Qed.

End Restore.

(** C6, on the code. Restoring a backup whose package list is empty does
    not always return [False]. On a host where [sudo] cannot be started
    the probe [sudo -n true] of [check_sudo] raises; [restore_backup]
    calls [check_sudo] before its [try], so the exception leaves
    [restore_backup] and nothing is reported. The probe is the only child
    process started. *)
Theorem restore_backup_raises_without_sudo :
  let r := restore_backup (sample_host no_programs)
             "/opt/nvidia-driver-manager/cache/backups/backup-20250314-092653.json"
             world_with_run_snapshot in
  fst r = Raise (OSError "No such file or directory")
  /\ procs (trace (snd r)) = [["sudo"; "-n"; "true"]]
  /\ log_text (snd r) = [].
Proof. vm_compute. repeat split. Qed.

Lemma restore_empty_backup_after_check_sample :
  exists w',
    restore_backup (sample_host sudo_ready)
                   "/opt/nvidia-driver-manager/cache/backups/backup-20250314-092653.json"
                   world_with_run_snapshot = (Val false, w')
    /\ procs (trace w') = [["sudo"; "-n"; "true"]]
    /\ backup_dir w' = backup_dir world_with_run_snapshot.
Proof.
  refine (proj1 (@restore_empty_backup_after_check
                   (sample_host sudo_ready) world_with_run_snapshot
                   (snd (check_sudo (sample_host sudo_ready) world_with_run_snapshot))
                   _ true _ _ _ _));
    [reflexivity | reflexivity | left; reflexivity].
Qed.

(** ** The order of texts and the names of backup records *)

Lemma ascii_compare_refl c : Ascii.compare c c = Eq.
Proof. unfold Ascii.compare. apply N.compare_refl. Qed.

Lemma compare_cons_same c a b : String.compare (String c a) (String c b) = String.compare a b.
Proof. cbn. now rewrite ascii_compare_refl. Qed.

Lemma compare_refl a : String.compare a a = Eq.
Proof. induction a as [|c a IH]; [reflexivity|]. now rewrite compare_cons_same. Qed.



Lemma ltb_asym a b : String.ltb a b = true -> String.ltb b a = false.
Proof.
  unfold String.ltb. rewrite (String.compare_antisym b a).
  destruct (String.compare a b); cbn; congruence.
Qed.










(** ** Snapshots and retention *)

Lemma unlinked_app t1 t2 : unlinked (t1 ++ t2) = unlinked t1 ++ unlinked t2.
Proof.
  induction t1 as [|e t1 IH]; [reflexivity|].
  destruct e; cbn; rewrite IH; reflexivity.
Qed.

Lemma unlinked_probe_events added : Forall probe_event added -> unlinked added = [].
Proof.
  induction 1 as [|e l He _ IH]; [reflexivity|].
  destruct e; cbn in He; try contradiction; exact IH.
Qed.

Lemma extends_probe_unlinked w w' :
  extends probe_event w w' -> unlinked (trace w') = unlinked (trace w).
Proof.
  intros [_ [_ [added [T F]]]]. rewrite T, unlinked_app, (unlinked_probe_events F).
  now rewrite app_nil_r.
Qed.

Lemma dict_get_in (V : Type) (d : dict V) k : In k (map fst d) -> dict_get d k <> None.
Proof.
  induction d as [|[k0 v0] d IH]; cbn; [contradiction|].
  intros [->|H]; [rewrite String.eqb_refl; discriminate|].
  destruct (String.eqb k0 k); [discriminate|now apply IH].
Qed.

Lemma dict_get_not_in (V : Type) (d : dict V) k : ~ In k (map fst d) -> dict_get d k = None.
Proof.
  induction d as [|[k0 v0] d IH]; cbn; [reflexivity|].
  intros N. destruct (String.eqb_spec k0 k) as [->|_]; [exfalso; apply N; now left|].
  apply IH. intros H. apply N. now right.
Qed.

Lemma dict_set_new (V : Type) (d : dict V) k v :
  ~ In k (map fst d) -> dict_set d k v = d ++ [(k, v)].
Proof.
  induction d as [|[k0 v0] d IH]; cbn; [reflexivity|].
  intros N. destruct (String.eqb_spec k0 k) as [->|_]; [exfalso; apply N; now left|].
  rewrite IH; [reflexivity|]. intros H. apply N. now right.
Qed.

Lemma dict_remove_keys (V : Type) (d : dict V) k :
  map fst (dict_remove d k) = filter (fun x => negb (String.eqb x k)) (map fst d).
Proof.
  unfold dict_remove. induction d as [|[k0 v0] d IH]; cbn; [reflexivity|].
  destruct (String.eqb k0 k); cbn; now rewrite IH.
Qed.



Lemma insert_by_key_perm (K V : Type) (lt : K -> K -> bool) (x : K * V) l :
  Permutation (insert_by_key lt x l) (x :: l).
Proof.
  induction l as [|y l IH]; cbn; [reflexivity|].
  destruct (lt (fst y) (fst x)); [|reflexivity].
  rewrite IH. apply perm_swap.
Qed.

Lemma sort_by_key_perm (K V : Type) (lt : K -> K -> bool) (l : list (K * V)) :
  Permutation (sort_by_key lt l) l.
Proof.
  induction l as [|x l IH]; cbn; [reflexivity|].
  rewrite insert_by_key_perm. now constructor.
Qed.

Lemma sorted_strings_perm l : Permutation (sorted_strings l) l.
Proof.
  unfold sorted_strings.
  rewrite (sort_by_key_perm String.ltb (map (fun s => (s, s)) l)).
  rewrite map_map. cbn. now rewrite map_id.
Qed.






Lemma in_firstn (A : Type) n (l : list A) x : In x (firstn n l) -> In x l.
Proof. intros H. rewrite <- (firstn_skipn n l). apply in_or_app. now left. Qed.


Lemma substring_all s : String.substring 0 (String.length s) s = s.
Proof. induction s as [|c s IH]; cbn; [reflexivity|now rewrite IH]. Qed.

Lemma substring_suffix a suffix :
  String.substring (String.length a) (String.length suffix) (a +:+ suffix) = suffix.
Proof. induction a as [|c a IH]; cbn; [apply substring_all|exact IH]. Qed.


Lemma prefix_app_refl p x : String.prefix p (p +:+ x) = true.
Proof.
  induction p as [|c p IH]; cbn.
  - destruct x; reflexivity.
  - destruct (ascii_dec c c); [exact IH|congruence].
Qed.





Section Snapshots.

Variable host : Env.Host.

(** Writing a record: all of it or, when the write fails, nothing or an
    emptied file. *)
Lemma write_backup_ok name data w :
  Env.can_write host (path_join (BACKUP_DIR host) name) = true ->
  write_backup host name data w
  = (Val tt, add_event (EvBackupWrite name)
                       (set_backup_dir (dict_set (backup_dir w) name (Document data)) w)).
Proof. intros C. unfold write_backup. rewrite C. reflexivity. Qed.

Lemma write_backup_fails name data w :
  Env.can_write host (path_join (BACKUP_DIR host) name) = false ->
  exists w',
    write_backup host name data w = (Raise (OSError (path_join (BACKUP_DIR host) name)), w')
    /\ same_session w w'
    /\ trace w' = trace w
    /\ log_text w' = log_text w
    /\ backup_dir w'
       = if Env.write_truncates host (path_join (BACKUP_DIR host) name)
         then dict_set (backup_dir w) name Broken
         else backup_dir w.
Proof.
  intros C. unfold write_backup. rewrite C.
  destruct (Env.write_truncates host (path_join (BACKUP_DIR host) name));
    eexists; (split; [reflexivity|]); repeat split.
Qed.

Lemma runs_get_current_driver :
  runs (extends probe_event) (get_current_driver host).
Proof.
  unfold get_current_driver. r_bind; [r_world|].
  r_if; [r_ret|].
  r_bind as result; [apply runs_run_command; intros; exact I|].
  r_if.
  - destruct (PyStr.split LF (PyStr.strip (out_of result))) as [|x l] eqn:E.
    + exfalso. eapply split_by_nonempty. exact E.
    + fr (@runs_lift (extends probe_event) _ _ (py_nth (x :: l) 0) x). reflexivity.
  - destruct (Env.proc_modules host) as [c|]; [|r_ret].
    destruct (PyStr.contains "nouveau" c); r_ret.
Qed.

Lemma framed_get_installed_nvidia_packages :
  framed (extends probe_event) (get_installed_nvidia_packages host).
Proof.
  unfold get_installed_nvidia_packages. f_bind; [f_runs; r_world|].
  f_if; [f_runs; r_ret|]. f_if.
  - f_bind; [f_runs; apply runs_run_command; intros; exact I|].
    f_if; f_runs; r_ret.
  - f_bind; [f_runs; apply runs_run_command; intros; exact I|].
    f_if; [f_runs; r_ret|]. fr framed_lift.
Qed.

Section Deletions.

(** What follows is about a host on which every deletion succeeds. *)
Hypothesis can_unlink_all : forall p, Env.can_unlink host p = true.

Lemma remove_old_backup_spec name w :
  In name (map fst (backup_dir w)) ->
  exists w',
    remove_old_backup host name w = (Val tt, w')
    /\ same_session w w'
    /\ backup_dir w' = dict_remove (backup_dir w) name
    /\ unlinked (trace w') = unlinked (trace w) ++ [name].
Proof.
  intros I. unfold remove_old_backup, try_except, unlink_backup.
  unfold bind at 1. unfold bind at 1. unfold get_world.
  destruct (dict_get (backup_dir w) name) eqn:G;
    [|exfalso; eapply dict_get_in; eauto].
  rewrite can_unlink_all. unfold bind at 1. unfold modify.
  set (w1 := add_event _ _).
  destruct (runs_log host (_tr "log_backup_removed_old" [name]) "INFO" w1)
    as [[] [w2 [E X]]].
  rewrite E. exists w2. split; [reflexivity|].
  destruct X as [S [B T]]. split; [|split].
  - eapply same_session_trans; [|exact S]. repeat split.
  - rewrite B. reflexivity.
  - rewrite (extends_probe_unlinked (conj S (conj B T))).
    unfold w1. cbn [trace add_event set_backup_dir]. rewrite unlinked_app. reflexivity.
Qed.

Lemma retention_loop names : forall w,
  NoDup names ->
  (forall n, In n names -> In n (map fst (backup_dir w))) ->
  exists w',
    for_each names (remove_old_backup host) w = (Val tt, w')
    /\ same_session w w'
    /\ backup_dir w' = fold_left (fun d n => dict_remove d n) names (backup_dir w)
    /\ unlinked (trace w') = unlinked (trace w) ++ names.
Proof.
  induction names as [|n names IH]; intros w N P.
  - exists w. cbn. rewrite app_nil_r. repeat split.
  - inversion N as [|? ? Nn Nr]; subst.
    destruct (remove_old_backup_spec n w (P n (or_introl eq_refl))) as [w1 [E1 [S1 [B1 U1]]]].
    destruct (IH w1 Nr) as [w2 [E2 [S2 [B2 U2]]]].
    { intros m Hm. rewrite B1, dict_remove_keys. apply filter_In. split.
      - apply P. now right.
      - destruct (String.eqb_spec m n) as [->|]; [contradiction|reflexivity]. }
    exists w2. cbn [for_each fold_left]. unfold bind. rewrite E1, E2.
    split; [reflexivity|]. split; [eapply same_session_trans; eauto|].
    split; [now rewrite B2, B1|]. rewrite U2, U1, <- app_assoc. reflexivity.
Qed.

Lemma expired_in d n : In n (expired d) -> In n (map fst d).
Proof.
  unfold expired. destruct (MAX_BACKUPS <? _); [|contradiction].
  intros H. apply in_firstn in H.
  apply (Permutation_in _ (sorted_strings_perm _)) in H.
  unfold glob_backups in H. now apply filter_In in H.
Qed.

Lemma enforce_retention_spec w :
  NoDup (expired (backup_dir w)) ->
  exists w',
    enforce_retention host w = (Val tt, w')
    /\ same_session w w'
    /\ backup_dir w' = retained (backup_dir w)
    /\ unlinked (trace w') = unlinked (trace w) ++ expired (backup_dir w).
Proof.
  intros N. unfold enforce_retention, bind, get_world, retained.
  unfold expired in *.
  destruct (MAX_BACKUPS <? List.length (sorted_strings (glob_backups (backup_dir w)))) eqn:C.
  - apply retention_loop; [exact N|]. intros n Hn. apply expired_in. unfold expired.
    now rewrite C.
  - exists w. cbn. rewrite app_nil_r. repeat split.
Qed.

Lemma dict_set_keys_nodup (V : Type) (d : dict V) k v :
  NoDup (map fst d) -> NoDup (map fst (dict_set d k v)).
Proof.
  intros N. destruct (in_dec string_dec k (map fst d)) as [I|I].
  - assert (E : map fst (dict_set d k v) = map fst d).
    { clear N. induction d as [|[k0 v0] d IH]; cbn in *; [contradiction|].
      destruct (String.eqb_spec k0 k) as [->|Ne]; [reflexivity|].
      cbn. rewrite IH; [reflexivity|]. destruct I; [congruence|assumption]. }
    now rewrite E.
  - rewrite dict_set_new by exact I. rewrite map_app. cbn.
    apply NoDup_app; [exact N|repeat constructor; intros []|].
    intros x Hx [<-|[]]. contradiction.
Qed.

Lemma expired_nodup d : NoDup (map fst d) -> NoDup (expired d).
Proof.
  intros N. unfold expired. destruct (MAX_BACKUPS <? _); [|constructor].
  assert (S : NoDup (sorted_strings (glob_backups d))).
  { eapply Permutation_NoDup; [symmetry; apply sorted_strings_perm|].
    unfold glob_backups. now apply NoDup_filter. }
  rewrite <- (firstn_skipn (List.length (sorted_strings (glob_backups d)) - MAX_BACKUPS)
                           (sorted_strings (glob_backups d))) in S.
  now apply NoDup_app_remove_r in S.
Qed.

(** [create_backup] always returns; when it returns a path, the directory
    holds the new record and has been through retention. *)
Lemma create_backup_spec install_type target_version w :
  demo_mode (system w) = false ->
  NoDup (map fst (backup_dir w)) ->
  exists r w',
    create_backup host install_type target_version w = (Val r, w')
    /\ same_session w w'
    /\ (r <> None ->
        exists data,
          backup_dir w'
          = retained (dict_set (backup_dir w) (backup_name (now w)) (Document data))
          /\ unlinked (trace w')
             = unlinked (trace w)
               ++ expired (dict_set (backup_dir w) (backup_name (now w)) (Document data))).
Proof.
  intros D N. unfold create_backup. unfold bind at 1. unfold get_world at 1. rewrite D.
  unfold try_except.
  unfold bind at 1.
  destruct (runs_get_current_driver w) as [cd [w1 [E1 X1]]]. rewrite E1.
  unfold bind at 1.
  assert (X2 := framed_get_installed_nvidia_packages w1).
  destruct (get_installed_nvidia_packages host w1) as [[pk|e] w2]; cbn [snd] in X2.
  2:{ destruct (runs_log host (_tr "log_backup_create_failed" [str_of_exn e]) "WARN" w2)
        as [[] [w3 [E3 X3]]].
      unfold bind. rewrite E3. exists None, w3. split; [reflexivity|].
      split; [|congruence].
      eapply extends_session. eapply extends_trans; [exact X1|].
      eapply extends_trans; [exact X2|exact X3]. }
  assert (X12 : extends probe_event w w2) by (eapply extends_trans; eauto).
  destruct X12 as [S12 [B12 T12]].
  unfold bind at 1. unfold get_world at 1.
  assert (Nw : now w2 = now w) by apply S12.
  rewrite Nw.
  set (data := backup_record (now w) cd pk install_type target_version).
  set (name := backup_name (now w)).
  unfold bind at 1.
  destruct (Env.can_write host (path_join (BACKUP_DIR host) name)) eqn:CW.
  2:{ destruct (write_backup_fails name data w2 CW) as [wm [Em [Sm _]]]. rewrite Em.
      destruct (runs_log host (_tr "log_backup_create_failed"
                                   [str_of_exn (OSError (path_join (BACKUP_DIR host) name))])
                         "WARN" wm) as [[] [w3 [E3 X3]]].
      unfold bind. rewrite E3. exists None, w3. split; [reflexivity|].
      split; [|congruence].
      eapply same_session_trans; [exact S12|].
      eapply same_session_trans; [exact Sm|]. eapply extends_session; eauto. }
  rewrite (write_backup_ok name data w2 CW).
  set (w3 := add_event _ _).
  unfold bind at 1.
  destruct (runs_log host (_tr "log_backup_created" [name]) "INFO" w3)
    as [[] [w4 [E4 X4]]].
  rewrite E4. unfold bind at 1.
  assert (B4 : backup_dir w4 = dict_set (backup_dir w) name (Document data)).
  { destruct X4 as [_ [B4 _]]. rewrite B4. unfold w3. cbn. now rewrite B12. }
  destruct (enforce_retention_spec w4) as [w5 [E5 [S5 [B5 U5]]]].
  { rewrite B4. now apply expired_nodup, dict_set_keys_nodup. }
  rewrite E5. unfold ret. eexists _, w5. split; [reflexivity|]. split.
  - eapply same_session_trans; [exact S12|].
    eapply same_session_trans; [|exact S5].
    eapply same_session_trans; [|eapply extends_session; exact X4]. repeat split.
  - intros _. exists data. rewrite B5, U5, B4. split; [reflexivity|]. f_equal.
    rewrite (extends_probe_unlinked X4). unfold w3.
    cbn [trace add_event set_backup_dir]. rewrite unlinked_app. cbn.
    rewrite app_nil_r.
    destruct T12 as [added [T F]]. rewrite T, unlinked_app, (unlinked_probe_events F).
    now rewrite app_nil_r.
Qed.


End Deletions.




End Snapshots.




(** The names that remain after the twelve sample snapshots. *)
Example backup_retention_sample_names :
  map backup_name (skipn 2 (map fst twelve_requests))
  = ["backup-20250314-090200.json"; "backup-20250314-090300.json";
     "backup-20250314-090400.json"; "backup-20250314-090500.json";
     "backup-20250314-090600.json"; "backup-20250314-090700.json";
     "backup-20250314-090800.json"; "backup-20250314-090900.json";
     "backup-20250314-091000.json"; "backup-20250314-091100.json"].
Proof. vm_compute. reflexivity. Qed.

(** ** What the entry points of the install menu do before the thread starts *)

Section Session.

Variable host : Env.Host.

Lemma runs_session A (P : Event -> Prop) (m : M A) :
  runs (extends P) m -> runs same_session m.
Proof. apply runs_weaken. intros w w'. apply extends_session. Qed.

Lemma runs_run_command_s cmd sudo t pw : runs same_session (run_command host cmd sudo t pw).
Proof. apply (@runs_session _ probe_event). apply runs_run_command. intros; exact I. Qed.

Lemma runs_log_s msg level : runs same_session (log host msg level).
Proof. apply (@runs_session _ probe_event). apply runs_log. Qed.

Lemma runs_update_system (f : SystemManager -> SystemManager) :
  (forall s, demo_mode (f s) = demo_mode s /\ distro_family (f s) = distro_family s) ->
  runs same_session (update_system f).
Proof.
  intros H w. exists tt, (set_system (f (system w)) w). split; [reflexivity|].
  destruct (H (system w)) as [Hd Hf]. repeat split; assumption.
Qed.

Lemma runs_get_dnf_cmd : runs same_session (get_dnf_cmd host).
Proof.
  unfold get_dnf_cmd. r_bind as w0; [r_world|]. r_if; [r_ret|].
  destruct (_dnf_cmd (system w0)); [r_ret|]. r_if.
  - r_bind; [apply runs_update_system; intros; split; reflexivity|]. r_ret.
  - r_bind; [apply runs_run_command_s|].
    r_bind; [apply runs_update_system; intros; split; reflexivity|]. r_ret.
Qed.

Lemma runs_add_issue query issue issues : runs same_session (add_issue host query issue issues).
Proof. unfold add_issue. r_bind; [apply runs_run_command_s|]. r_ret. Qed.

Lemma runs_check_requirements install_type :
  runs same_session (check_requirements host install_type).
Proof.
  unfold check_requirements. r_bind; [|r_ret].
  r_if; [apply runs_add_issue|]. r_if; [|r_ret].
  r_bind; [r_world|]. r_if; [r_ret|].
  r_bind; [apply runs_add_issue|]. r_bind; [apply runs_add_issue|]. apply runs_add_issue.
Qed.

Lemma runs_offer_install_dnf5 : runs same_session (_offer_install_dnf5 host).
Proof.
  unfold _offer_install_dnf5. r_bind; [r_world|]. r_if; [r_ret|].
  r_bind; [apply runs_get_dnf_cmd|]. r_if; [r_ret|]. r_if; [r_ret|].
  r_bind; [apply runs_log_s|]. r_bind; [r_world|].
  r_bind; [apply runs_run_command_s|].
  r_bind; [|r_ret]. r_if; [|apply runs_log_s].
  r_bind; [apply runs_update_system; intros; split; reflexivity|]. apply runs_log_s.
Qed.

Lemma py_nth_split_0 f s : exists x, py_nth (PyStr.split_by f s) 0 = Val x.
Proof.
  destruct (PyStr.split_by f s) as [|x l] eqn:E.
  - exfalso. eapply split_by_nonempty; eauto.
  - exists x. reflexivity.
Qed.

Lemma runs_fedora_repo_driver_version : runs same_session (_fedora_repo_driver_version host).
Proof.
  unfold _fedora_repo_driver_version. r_bind as w0; [r_world|].
  destruct (_fedora_repo_version_cache (system w0)); [r_ret|].
  r_bind; [apply runs_get_dnf_cmd|]. r_bind; [apply runs_run_command_s|].
  r_bind.
  - r_if; [|r_ret].
    destruct (find _ _) as [line|]; [|r_ret].
    destruct (Nat.leb_spec 2 (List.length (PyStr.split_ws line))) as [L|L]; [|r_ret].
    destruct (PyStr.split_ws line) as [|p0 [|p1 ps]] eqn:E; cbn in L; try lia.
    r_bind as p; [fr (@runs_lift same_session _ _ (py_nth (p0 :: p1 :: ps) 1) p1);
                  reflexivity|].
    destruct (py_nth_split_0 (Ascii.eqb "-") p) as [x Hx].
    r_bind; [fr (@runs_lift same_session _ _ _ x Hx)|]. r_ret.
  - r_bind; [apply runs_update_system; intros; split; reflexivity|]. r_ret.
Qed.

Lemma runs_scan_available series : forall available,
  runs same_session (scan_available host series available).
Proof.
  induction series as [|v rest IH]; intros available; cbn [scan_available]; [r_ret|].
  r_bind as result; [apply runs_run_command_s|].
  r_bind; [|apply IH].
  r_if; [|r_ret].
  destruct (version_line (out_of result)) as [line|] eqn:L; [|r_ret].
  destruct (version_line_total _ L) as [ver Hv].
  r_bind; [fr (@runs_lift same_session _ _ _ ver Hv)|]. r_ret.
Qed.

Lemma runs_scan_latest series : runs same_session (scan_latest host series).
Proof.
  induction series as [|v rest IH]; cbn [scan_latest]; [r_ret|].
  r_bind as result; [apply runs_run_command_s|].
  r_if; [|exact IH].
  destruct (version_line (out_of result)) as [line|] eqn:L; [|exact IH].
  destruct (version_line_total _ L) as [ver Hv].
  r_bind; [fr (@runs_lift same_session _ _ _ ver Hv)|]. r_ret.
Qed.

Lemma runs_highest_repo_driver : runs same_session (highest_repo_driver host).
Proof.
  unfold highest_repo_driver. r_bind; [r_world|]. r_if; [r_ret|]. r_if.
  - r_bind; [apply runs_fedora_repo_driver_version|]. r_ret.
  - r_bind as available; [apply runs_scan_available|].
    destruct available as [|e0 [|e1 es]]; cbn [List.length Nat.leb Nat.eqb].
    + r_ret.
    + r_bind; [fr (@runs_lift same_session _ _ (py_nth [e0] 0) e0); reflexivity|]. r_ret.
    + r_bind; [fr (@runs_lift same_session _ _ (py_nth (e0 :: e1 :: es) 1) e1);
               reflexivity|]. r_ret.
Qed.

Lemma runs_highest_repo_driver_latest : runs same_session (highest_repo_driver_latest host).
Proof.
  unfold highest_repo_driver_latest. r_bind; [r_world|]. r_if; [r_ret|]. r_if.
  - r_bind; [apply runs_fedora_repo_driver_version|]. r_ret.
  - apply runs_scan_latest.
Qed.

Lemma series_of_total ver : exists s, series_of ver = Val s.
Proof.
  unfold series_of. destruct (PyStr.contains_char "." ver); [|eauto].
  apply py_nth_split_0.
Qed.

Lemma runs_remove_old_backup name : runs same_session (remove_old_backup host name).
Proof.
  intros w. unfold remove_old_backup, try_except, unlink_backup.
  unfold bind at 1. unfold bind at 1. unfold get_world.
  destruct (dict_get (backup_dir w) name).
  - destruct (Env.can_unlink host (path_join (BACKUP_DIR host) name)).
    + unfold bind at 1. unfold modify. set (w1 := add_event _ _).
      destruct (runs_log_s (_tr "log_backup_removed_old" [name]) "INFO" w1)
        as [[] [w2 [E X]]].
      rewrite E. exists tt, w2. split; [reflexivity|].
      eapply same_session_trans; [|exact X]. repeat split.
    + exists tt, w. split; [reflexivity|apply same_session_refl].
  - exists tt, w. split; [reflexivity|apply same_session_refl].
Qed.

Lemma runs_enforce_retention : runs same_session (enforce_retention host).
Proof.
  unfold enforce_retention. r_bind; [r_world|]. r_if; [|r_ret].
  fr runs_for_each. apply runs_remove_old_backup.
Qed.

Lemma framed_write_backup name data : framed same_session (write_backup host name data).
Proof.
  intros w. unfold write_backup.
  destruct (Env.can_write host (path_join (BACKUP_DIR host) name)); cbn.
  - repeat split.
  - destruct (Env.write_truncates host (path_join (BACKUP_DIR host) name)); cbn;
      repeat split.
Qed.

(** [create_backup] always returns and leaves the session as it was. *)
Lemma runs_create_backup install_type target_version :
  runs same_session (create_backup host install_type target_version).
Proof.
  unfold create_backup. r_bind; [r_world|]. r_if; [r_ret|].
  fr runs_try.
  - f_bind; [f_runs; apply (@runs_session _ probe_event), runs_get_current_driver|].
    f_bind.
    { apply (@framed_weaken (extends probe_event)); [intros ? ?; apply extends_session|].
      apply framed_get_installed_nvidia_packages. }
    f_bind; [f_runs; r_world|].
    f_bind; [apply framed_write_backup|].
    f_bind; [f_runs; apply runs_log_s|].
    f_bind; [f_runs; apply runs_enforce_retention|].
    f_runs. r_ret.
  - intros e. r_bind; [apply runs_log_s|]. r_ret.
Qed.

Lemma runs_start_log name : runs same_session (start_log host name).
Proof.
  unfold start_log. r_bind; [r_world|].
  r_bind.
  - intros w. eexists tt, _. split; [reflexivity|]. repeat split.
  - r_if; [|r_ret]. intros w. eexists tt, _. split; [reflexivity|]. repeat split.
Qed.

Lemma nth_error_snoc (A : Type) (l : list A) x : nth_error (l ++ [x]) (List.length l) = Some x.
Proof. induction l as [|y l IH]; [reflexivity|exact IH]. Qed.

Lemma replace_nth_snoc (A : Type) (l : list A) x y :
  replace_nth (List.length l) y (l ++ [x]) = l ++ [y].
Proof. induction l as [|z l IH]; cbn; [reflexivity|now rewrite IH]. Qed.

(** What [start_thread] does: one more thread, running, referred to by
    [_install_thread]; the earlier threads are as they were. *)
Lemma start_thread_eq install_type params slot w :
  start_thread install_type params slot w =
  (Val tt,
   add_event (EvThreadStart (List.length (threads w)))
     (set_threads (threads w ++ [mkThread install_type params false true slot])
        (set_install_thread (Some (List.length (threads w))) w))).
Proof.
  unfold start_thread. unfold bind at 1. unfold get_world at 1.
  unfold bind at 1. unfold modify at 1. unfold bind at 1. unfold modify at 1.
  unfold bind at 1. unfold update_thread, get_thread. unfold bind at 1. unfold bind at 1.
  unfold get_world. cbn [threads set_threads set_install_thread].
  rewrite nth_error_snoc. unfold ret, modify. cbn [threads set_threads set_install_thread].
  rewrite replace_nth_snoc. reflexivity.
Qed.

End Session.

(** ** Requests made while another one is in flight *)

Section SingleFlight.

Variable host : Env.Host.

(** A step of a computation that always returns. *)
Lemma bind_runs A B (m : M A) (k : A -> M B) w :
  runs same_session m ->
  exists a w1, same_session w w1 /\ bind m k w = k a w1.
Proof.
  intros R. destruct (R w) as [a [w1 [E X]]]. exists a, w1. split; [exact X|].
  unfold bind. now rewrite E.
Qed.

Ltac step lem :=
  match goal with
  | |- context [bind ?m ?k ?w] =>
      let a := fresh "a" in
      let w1 := fresh "w" in
      let S := fresh "S" in
      let E := fresh "E" in
      destruct (@bind_runs _ _ m k w lem) as [a [w1 [S E]]]; rewrite E; clear E
  end.

(** The tail shared by the entry points: the thread is started whatever
    [_install_thread] holds. *)
Lemma started install_type params slot (w0 w : World) :
  same_session w0 w ->
  exists w',
    start_thread install_type params slot w = (Val tt, w')
    /\ threads w' = threads w0 ++ [mkThread install_type params false true slot]
    /\ _install_thread w' = Some (List.length (threads w0))
    /\ In (EvThreadStart (List.length (threads w0))) (trace w').
Proof.
  intros S. rewrite start_thread_eq. eexists. split; [reflexivity|].
  assert (T : threads w = threads w0) by apply S.
  cbn. rewrite T. repeat split. apply in_or_app. right. now left.
Qed.

(** C1, as the code has it. Outside demo mode, once the sudo check has
    passed, [install_repo] accepts the request whatever [_install_thread]
    holds: it returns, a new thread is created and started next to the
    earlier ones, which are left as they were, and [_install_thread] now
    refers to the new one. The same holds for [install_nvk] when the
    questions it asks are answered yes. *)
Theorem second_request_is_accepted (w w1 : World) :
  demo_mode (system w) = false ->
  check_sudo host w = (Val true, w1) ->
  (exists w' params ver,
      install_repo host w = (Val tt, w')
      /\ threads w' = threads w1 ++ [mkThread "repo" params false true (OnRepoFinished ver)]
      /\ _install_thread w' = Some (List.length (threads w1))
      /\ In (EvThreadStart (List.length (threads w1))) (trace w'))
  /\ ((forall question, Env.user_confirms host question = true) ->
      exists w' params,
        install_nvk host w = (Val tt, w')
        /\ threads w' = threads w1 ++ [mkThread "nvk" params false true OnNvkFinished]
        /\ _install_thread w' = Some (List.length (threads w1))
        /\ In (EvThreadStart (List.length (threads w1))) (trace w')).
Proof.
  intros D C. split.
  - unfold install_repo. unfold bind at 1. unfold get_world at 1. rewrite D.
    unfold bind at 1. rewrite C. cbn [negb].
    step (runs_log_s host (_tr "log_checking_requirements" []) "INFO").
    step (runs_check_requirements host "repo").
    match goal with
    | |- context [bind (if ?b then ?m1 else ?m2) ?k ?w] =>
        destruct (@bind_runs _ _ (if b then m1 else m2) k w) as [u [w5 [S5 E5]]];
          [r_if; [apply runs_log_s|r_ret]|rewrite E5; clear E5]
    end.
    step (runs_offer_install_dnf5 host).
    step (runs_highest_repo_driver host).
    destruct (series_of_total a2) as [ser Hser].
    unfold bind at 1. unfold lift. rewrite Hser.
    step (runs_log_s host (_tr "log_starting_repo" [a2]) "INFO").
    step (runs_create_backup host "repo" a2).
    step (runs_start_log host "repo").
    unfold bind at 1. unfold get_world at 1.
    match goal with
    | |- context [start_thread ?it ?ps ?sl ?wx] =>
        destruct (@started it ps sl w1 wx) as [w' [E' [T' [I' V']]]]
    end.
    { repeat (eapply same_session_trans; [eassumption|]). apply same_session_refl. }
    exists w'. eexists _, _. split; [exact E'|]. split; [exact T'|]. split; assumption.
  - intros Y. unfold install_nvk. unfold bind at 1. unfold get_world at 1. rewrite D.
    unfold bind at 1. rewrite C. cbn [negb].
    assert (K : match kernel_major host with
                | Val major =>
                    (major <? 6)%Z
                    && negb (Env.user_confirms host (_tr "msg_nvk_kernel" [kernel_release host]))
                | Raise _ => false
                end = false).
    { destruct (kernel_major host); [|reflexivity]. rewrite Y. apply andb_false_r. }
    rewrite K.
    step (runs_log_s host (_tr "log_checking_requirements" []) "INFO").
    step (runs_check_requirements host "nvk").
    assert (R : exists w5, same_session w2 w5 /\
                forall k : bool -> M unit,
                  bind (if negb (fst a0) then
                          log host (_tr "log_requirements_issues" []) "WARN" ;;;
                          for_each (snd a0)
                            (fun issue => log host (_tr "log_requirement_item" [issue]) "WARN") ;;;
                          ret (negb (Env.user_confirms host
                                       (_tr "msg_requirements_continue" (snd a0))))
                        else ret false) k w2 = k false w5).
    { destruct (negb (fst a0)).
      - destruct (runs_log_s host (_tr "log_requirements_issues" []) "WARN" w2)
          as [u1 [w3 [E3 S3]]].
        assert (L : runs same_session
                      (for_each (snd a0)
                         (fun issue => log host (_tr "log_requirement_item" [issue]) "WARN"))).
        { fr runs_for_each. intros. apply runs_log_s. }
        destruct (L w3) as [u2 [w4 [E4 S4]]].
        exists w4. split; [eapply same_session_trans; eassumption|].
        intros k. unfold bind. rewrite E3, E4. unfold ret. now rewrite Y.
      - exists w2. split; [apply same_session_refl|]. reflexivity. }
    destruct R as [w5 [S5 E5]]. rewrite E5. clear E5.
    step (runs_offer_install_dnf5 host).
    step (runs_log_s host (_tr "log_starting_nvk" []) "INFO").
    step (runs_create_backup host "nvk" "NVK").
    step (runs_start_log host "nvk").
    unfold bind at 1. unfold get_world at 1.
    match goal with
    | |- context [start_thread ?it ?ps ?sl ?wx] =>
        destruct (@started it ps sl w1 wx) as [w' [E' [T' [I' V']]]]
    end.
    { repeat (eapply same_session_trans; [eassumption|]). apply same_session_refl. }
    exists w'. eexists _. split; [exact E'|]. split; [exact T'|]. split; assumption.
Qed.

End SingleFlight.

(** C1 fails as stated: on an Ubuntu host where [sudo -n true] succeeds, a
    repository install requested while another one is running is not
    rejected: a second thread is started next to the first, a snapshot is
    written for it, and [_install_thread] no longer refers to the thread
    that was in flight. *)
Lemma single_flight_counterexample :
  in_flight busy_world = true
  /\ fst (install_repo (sample_host sudo_ready) busy_world) = Val tt
  /\ (let w' := snd (install_repo (sample_host sudo_ready) busy_world) in
      map is_running (threads w') = [true; true]
      /\ map install_type (threads w') = ["repo"; "repo"]
      /\ _install_thread w' = Some 1
      /\ in_flight w' = true
      /\ map fst (backup_dir w') = ["backup-20250314-092653.json"]
      /\ milestones (trace w')
         = [EvThreadStart 0; EvBackupWrite "backup-20250314-092653.json"; EvThreadStart 1]).
Proof.
  vm_compute. repeat split; reflexivity.
Qed.

(** A second repository install and a second NVK install, each requested
    while thread 0 is still running. *)
Lemma second_request_is_accepted_witness :
  in_flight busy_world = true
  /\ (exists w' params ver,
         install_repo (sample_host sudo_ready) busy_world = (Val tt, w')
         /\ threads w' = threads busy_world
                           ++ [mkThread "repo" params false true (OnRepoFinished ver)]
         /\ _install_thread w' = Some 1
         /\ In (EvThreadStart 1) (trace w'))
  /\ (exists w' params,
         install_nvk (sample_host sudo_ready) busy_world = (Val tt, w')
         /\ threads w' = threads busy_world ++ [mkThread "nvk" params false true OnNvkFinished]
         /\ _install_thread w' = Some 1
         /\ In (EvThreadStart 1) (trace w')).
Proof.
  split; [reflexivity|].
  assert (D : demo_mode (system busy_world) = false) by reflexivity.
  assert (C : check_sudo (sample_host sudo_ready) busy_world
              = (Val true, snd (check_sudo (sample_host sudo_ready) busy_world)))
    by (vm_compute; reflexivity).
  destruct (@second_request_is_accepted (sample_host sudo_ready) _ _ D C) as [R N].
  split; [exact R|]. apply N. intros question. reflexivity.
Defined.

(** ** Requests that clean up without a snapshot *)

Lemma backups_written_app t u :
  backups_written (t ++ u) = backups_written t ++ backups_written u.
Proof.
  induction t as [|e t IH]; [reflexivity|].
  destruct e; cbn; rewrite IH; reflexivity.
Qed.

Lemma backups_written_probe l : Forall probe_event l -> backups_written l = [].
Proof.
  induction 1 as [|e l He _ IH]; [reflexivity|].
  destruct e; cbn in *; (exact IH || contradiction).
Qed.

#[export] Instance keeps_backups_frame : Frame keeps_backups.
Proof.
  split.
  - intros w. split; reflexivity.
  - intros w1 w2 w3 [B1 T1] [B2 T2]. split; congruence.
Qed.

Lemma extends_keeps w w' : extends probe_event w w' -> keeps_backups w w'.
Proof.
  intros [_ [B [added [T Fa]]]]. split; [exact B|].
  rewrite T, backups_written_app, (backups_written_probe Fa). apply app_nil_r.
Qed.

Lemma kb_probe A (m : M A) : runs (extends probe_event) m -> runs keeps_backups m.
Proof. apply runs_weaken. exact extends_keeps. Qed.

Lemma kb_modify (f : World -> World) :
  (forall w, backup_dir (f w) = backup_dir w) ->
  (forall w, backups_written (trace (f w)) = backups_written (trace w)) ->
  runs keeps_backups (modify f).
Proof. intros B T. fr runs_modify. intros w. split; [apply B|apply T]. Qed.

Lemma kb_event e :
  match e with EvBackupWrite _ => False | _ => True end ->
  runs keeps_backups (modify (add_event e)).
Proof.
  intros H. apply kb_modify; intros w; [reflexivity|].
  cbn. rewrite backups_written_app. destruct e; cbn; try apply app_nil_r. contradiction.
Qed.

Section NoSnapshot.

Variable host : Env.Host.

Lemma kb_run_command cmd sudo t pw : runs keeps_backups (run_command host cmd sudo t pw).
Proof. apply kb_probe, runs_run_command. intros; exact I. Qed.

Lemma kb_log msg level : runs keeps_backups (log host msg level).
Proof. apply kb_probe, runs_log. Qed.

Lemma kb_run_cmd self cmd sudo t u s : runs keeps_backups (run_cmd host self cmd sudo t u s).
Proof.
  unfold run_cmd. r_bind as r; [apply kb_run_command|].
  r_if; [r_ret|]. r_if; [r_ret|]. r_if; [r_ret|].
  r_bind; [apply kb_log|]. r_bind; [|r_ret].
  r_if; [|r_ret]. fr runs_for_each. intros line. r_if; [apply kb_log|r_ret].
Qed.

Lemma kb_sudo_cmd self cmd : runs keeps_backups (sudo_cmd host self cmd).
Proof. unfold sudo_cmd. r_bind; [apply kb_run_cmd|r_ret]. Qed.

Lemma kb_clean_nvidia_artifacts self : runs keeps_backups (clean_nvidia_artifacts host self).
Proof.
  unfold clean_nvidia_artifacts.
  r_bind; [fr runs_for_each; intros; apply kb_sudo_cmd|].
  do 3 (r_bind; [apply kb_sudo_cmd|]).
  r_bind; [fr runs_for_each; intros svc|].
  { do 2 (r_bind; [apply kb_run_cmd|]). apply kb_sudo_cmd. }
  r_bind; apply kb_sudo_cmd.
Qed.

Lemma kb_get_dnf_cmd : runs keeps_backups (get_dnf_cmd host).
Proof.
  assert (U : forall f, runs keeps_backups (update_system f)).
  { intros f. apply kb_modify; reflexivity. }
  unfold get_dnf_cmd. r_bind as w0; [r_world|]. r_if; [r_ret|].
  destruct (_dnf_cmd (system w0)); [r_ret|]. r_if.
  - r_bind; [apply U|]. r_ret.
  - r_bind; [apply kb_run_command|]. r_bind; [apply U|]. r_ret.
Qed.

Lemma kb_get_installed_nvidia_packages :
  framed keeps_backups (get_installed_nvidia_packages host).
Proof.
  intros w. apply extends_keeps. apply framed_get_installed_nvidia_packages.
Qed.

Lemma kb_purge_nvidia_packages self : framed keeps_backups (purge_nvidia_packages host self).
Proof.
  unfold purge_nvidia_packages. f_bind; [f_runs; r_world|]. f_if.
  - f_bind as packages; [apply kb_get_installed_nvidia_packages|].
    destruct packages; [f_runs; r_ret|].
    f_bind; [f_runs; apply kb_get_dnf_cmd|]. f_runs. apply kb_sudo_cmd.
  - f_bind; [f_runs; apply kb_run_cmd|]. f_if; [|f_runs; r_ret].
    f_bind as packages; [fr framed_lift|].
    destruct packages; [f_runs; r_ret|].
    f_runs. r_bind; apply kb_sudo_cmd.
Qed.

Lemma kb_remove_dkms_modules self : framed keeps_backups (remove_dkms_modules host self).
Proof.
  unfold remove_dkms_modules. f_bind; [f_runs; r_world|]. f_if.
  - f_runs. r_bind; apply kb_sudo_cmd.
  - f_bind; [f_runs; apply kb_run_cmd|].
    f_bind; [|f_runs; r_bind; [apply kb_sudo_cmd|]; r_bind; apply kb_sudo_cmd].
    f_if; [|f_runs; r_ret]. fr framed_for_each. intros line.
    f_if; [|f_runs; r_ret]. f_bind; [fr framed_lift|].
    f_if; [|f_runs; r_ret]. f_runs. r_bind; [apply kb_run_cmd|r_ret].
Qed.

Lemma kb_remove_nvidia_configs self : runs keeps_backups (remove_nvidia_configs host self).
Proof.
  unfold remove_nvidia_configs.
  r_bind; [fr runs_for_each; intros; apply kb_sudo_cmd|].
  do 2 (r_bind; [apply kb_sudo_cmd|]). apply kb_sudo_cmd.
Qed.

Lemma kb_remove_nvidia_libraries self : runs keeps_backups (remove_nvidia_libraries host self).
Proof.
  unfold remove_nvidia_libraries. r_bind; [r_world|].
  r_bind; [fr runs_for_each; intros; apply kb_sudo_cmd|].
  r_bind; [fr runs_for_each; intros; apply kb_sudo_cmd|]. apply kb_sudo_cmd.
Qed.

Lemma kb_verify_nvidia_removal self : runs keeps_backups (verify_nvidia_removal host self).
Proof.
  unfold verify_nvidia_removal. r_bind; [apply kb_sudo_cmd|].
  r_bind; [apply kb_run_cmd|]. r_if; [|r_ret]. r_bind; [apply kb_log|r_ret].
Qed.

Lemma kb_rebuild_initramfs self : runs keeps_backups (rebuild_initramfs host self).
Proof.
  unfold rebuild_initramfs. r_bind; [apply kb_log|]. r_bind; [r_world|].
  r_if; apply kb_sudo_cmd.
Qed.

Lemma kb_configure_nouveau_for_nvk self :
  framed keeps_backups (configure_nouveau_for_nvk host self).
Proof.
  unfold configure_nouveau_for_nvk. f_bind; [f_runs; apply kb_sudo_cmd|].
  f_bind; [unfold write_file; f_if; [f_runs; apply kb_event; exact I|fr framed_raise]|].
  f_bind; [f_runs; apply kb_sudo_cmd|].
  f_bind; [unfold unlink_file; f_if; [f_runs; apply kb_event; exact I|fr framed_raise]|].
  f_bind.
  { f_if; [|f_runs; r_ret]. f_bind; [f_runs; apply kb_run_command|].
    f_if; f_runs; [apply kb_sudo_cmd|r_ret]. }
  f_bind; [f_runs; r_world|]. f_if; f_runs; [apply kb_rebuild_initramfs|r_ret].
Qed.

Lemma kb_get_thread tid : framed keeps_backups (get_thread tid).
Proof.
  unfold get_thread. f_bind as w0; [f_runs; r_world|].
  destruct (nth_error (threads w0) tid); [f_runs; r_ret|fr framed_raise].
Qed.

Lemma kb_update_thread tid f : framed keeps_backups (update_thread tid f).
Proof.
  unfold update_thread. f_bind; [apply kb_get_thread|]. f_runs.
  apply kb_modify; reflexivity.
Qed.

Lemma kb_append_install_history install_type version success :
  runs keeps_backups (append_install_history host install_type version success).
Proof.
  unfold append_install_history. r_bind; [r_world|]. r_if; [|r_ret].
  r_bind; [apply kb_modify; reflexivity|]. apply kb_event. exact I.
Qed.

Lemma kb_emit_finished tid code : framed keeps_backups (emit_finished host tid code).
Proof.
  unfold emit_finished. f_bind as t; [apply kb_get_thread|].
  f_bind; [f_runs; apply kb_event; exact I|]. f_runs.
  unfold run_finished_slot. r_bind.
  - destruct (finished_slot t); try r_ret;
      (r_bind; [r_if; [apply kb_append_install_history|r_ret]|apply kb_log]).
  - r_bind; apply kb_modify; reflexivity.
Qed.

(** The Uninstall thread writes nothing into [BACKUP_DIR], on any host and
    from any state, whether it ends or raises. *)
Lemma install_uninstall_keeps_backups tid : framed keeps_backups (install_uninstall host tid).
Proof.
  unfold install_uninstall. f_bind as self; [apply kb_get_thread|].
  f_bind; [f_runs; r_world|]. f_if.
  { f_bind; [f_runs; apply kb_log|apply kb_emit_finished]. }
  f_bind; [f_runs; apply kb_log|].
  f_bind; [f_runs; apply kb_event; exact I|].
  f_bind; [f_runs; apply kb_log|].
  f_bind; [f_runs; apply kb_clean_nvidia_artifacts|].
  f_bind; [apply kb_purge_nvidia_packages|].
  f_bind; [apply kb_remove_dkms_modules|].
  f_bind; [f_runs; apply kb_remove_nvidia_configs|].
  f_bind; [f_runs; apply kb_remove_nvidia_libraries|].
  f_bind; [f_runs; apply kb_event; exact I|].
  f_bind; [f_runs; apply kb_verify_nvidia_removal|].
  f_bind; [f_if; f_runs; [apply kb_log|r_ret]|].
  f_bind; [f_runs; apply kb_log|].
  f_bind; [apply kb_configure_nouveau_for_nvk|].
  f_bind; [f_runs; apply kb_rebuild_initramfs|].
  f_bind; [f_runs; apply kb_event; exact I|].
  f_bind; [f_runs; apply kb_log|].
  f_bind; [apply kb_update_thread|].
  f_bind; [f_runs; apply kb_event; exact I|].
  apply kb_emit_finished.
Qed.

Lemma kb_start_log name : runs keeps_backups (start_log host name).
Proof.
  unfold start_log. r_bind; [r_world|].
  r_bind; [apply kb_modify; reflexivity|]. r_if; [apply kb_event; exact I|r_ret].
Qed.

Lemma kb_start_thread install_type params slot :
  runs keeps_backups (start_thread install_type params slot).
Proof.
  intros w. rewrite start_thread_eq. do 2 eexists. split; [reflexivity|].
  split; [reflexivity|]. cbn. rewrite backups_written_app. apply app_nil_r.
Qed.

(** The menu entry of the Uninstall request: from the sudo check on,
    nothing is written into [BACKUP_DIR] before the thread is started. *)
Lemma uninstall_nvidia_only_keeps_backups (w w1 : World) (r : Exc bool) :
  demo_mode (system w) = false ->
  check_sudo host w = (r, w1) ->
  keeps_backups w1 (snd (uninstall_nvidia_only host w)).
Proof.
  intros D C. unfold uninstall_nvidia_only. unfold bind at 1. unfold get_world at 1.
  rewrite D. unfold bind at 1. rewrite C.
  destruct r as [ok|e]; [|apply frame_refl].
  destruct ok; cbn [negb]; [|apply frame_refl].
  destruct (Env.user_confirms host _); cbn [negb]; [|apply frame_refl].
  assert (Fm : framed keeps_backups
                 (log host (_tr "log_removing_nvidia" []) "INFO" ;;;
                  start_log host "uninstall-nvidia" ;;;
                  w <- get_world ;;
                  start_thread "uninstall"
                    [("sudo_password", json_of_password (_sudo_password w))] OnFinished)).
  { f_runs. r_bind; [apply kb_log|]. r_bind; [apply kb_start_log|].
    r_bind; [r_world|]. apply kb_start_thread. }
  apply Fm.
Qed.

End NoSnapshot.

(** C2, on the code. An Uninstall request on an Ubuntu host with an active
    proprietary driver (550.90.07, two driver packages installed) and no
    earlier backups, confirmed by the user, runs from the menu entry to the
    end of its thread: the configuration files are removed and the
    packages purged, the thread finishes with code 0 and asks for a
    restart, and at no point is a backup record written; [BACKUP_DIR] is
    still empty at the end. On the same host a repository install writes
    its record before its thread is started. *)
Theorem uninstall_cleans_up_without_backup :
  let w0 := sample_world "ubuntu" in
  let w2 := snd (uninstall_request w0) in
  fst (get_current_driver proprietary_host w0) = Val "550.90.07"
  /\ backup_dir w0 = []
  /\ fst (uninstall_request w0) = Val tt
  /\ firstn 3 (procs (trace w2))
     = [["sudo"; "-n"; "true"];
        ["sudo"; "rm"; "-f"; "/etc/modprobe.d/blacklist-nouveau.conf"];
        ["sudo"; "rm"; "-f"; "/etc/modprobe.d/nvidia*.conf"]]
  /\ In ["sudo"; "apt-get"; "remove"; "--purge"; "-y"; "libnvidia-gl-550:amd64";
         "nvidia-driver-550"] (procs (trace w2))
  /\ milestones (trace w2)
     = [EvThreadStart 0; EvProgress 15; EvProgress 50; EvProgress 100; EvAskRestart;
        EvFinished 0 0]
  /\ map restart_needed (threads w2) = [true]
  /\ backups_written (trace w2) = []
  /\ backup_dir w2 = []
  /\ milestones (trace (snd (install_repo proprietary_host w0)))
     = [EvBackupWrite "backup-20250314-092653.json"; EvThreadStart 0].
Proof.
  vm_compute. repeat split.
  repeat (try (left; reflexivity); right).
Qed.

(** * Further properties of the code *)
(** ** The probes of [SystemManager] *)

Lemma lstrip_by_head f s a r : PyStr.lstrip_by f s = String a r -> f a = false.
Proof.
  induction s as [|b s IH]; cbn; [discriminate|].
  destruct (f b) eqn:B; [exact IH|]. intros E. inversion E; subst. exact B.
Qed.

Lemma rstrip_by_cons f a r :
  f a = false -> exists r', PyStr.rstrip_by f (String a r) = String a r'.
Proof.
  intros A. cbn. destruct (PyStr.rstrip_by f r); rewrite ?A; eauto.
Qed.

Lemma strip_head s :
  PyStr.truthy (PyStr.strip s) = true ->
  exists a r, PyStr.strip s = String a r /\ PyStr.isspace a = false.
Proof.
  unfold PyStr.strip. destruct (PyStr.lstrip_by PyStr.isspace s) as [|a r] eqn:E.
  - discriminate.
  - intros _. apply lstrip_by_head in E.
    destruct (@rstrip_by_cons PyStr.isspace a r E) as [r' R]. rewrite R. eauto.
Qed.

Lemma split_by_head f a r :
  f a = false -> exists p ps, PyStr.split_by f (String a r) = String a p :: ps.
Proof.
  intros A. cbn. rewrite A. destruct (PyStr.split_by f r); eauto.
Qed.

Lemma split_by_pieces f s p c :
  In p (PyStr.split_by f s) -> In c (list_ascii_of_string p) -> f c = false.
Proof.
  revert p. induction s as [|a s IH]; intros p; cbn.
  - intros [<-|[]] [].
  - destruct (f a) eqn:A.
    + intros [<-|H]; [intros []|now apply IH].
    + destruct (PyStr.split_by f s) as [|q qs] eqn:E.
      * intros [<-|[]] [<-|[]]. exact A.
      * intros [<-|H].
        -- intros [<-|H]; [exact A|]. apply (IH q); [now left|exact H].
        -- apply IH. now right.
Qed.

Lemma contains_char_false c s :
  (forall x, In x (list_ascii_of_string s) -> Ascii.eqb c x = false) ->
  PyStr.contains_char c s = false.
Proof.
  induction s as [|a s IH]; intros H; cbn; [reflexivity|].
  rewrite Ascii.eqb_sym, (H a) by (now left). apply IH. intros x Hx. apply H. now right.
Qed.

Section Probes.

Variable host : Env.Host.

Lemma family_of_id_range distro_id :
  In (family_of_id distro_id) ["ubuntu"; "debian"; "fedora"; "other"].
Proof.
  unfold family_of_id.
  destruct (existsb _ _); [cbn; tauto|].
  destruct (String.eqb _ _); [cbn; tauto|].
  destruct (existsb _ _); cbn; tauto.
Qed.

(** X1. [detect_distro] always returns and starts no child process. In
    demo mode it records the family windows; when [/etc/os-release] cannot
    be read it records unknown and Unknown; when the file is read, the
    family is left as it was if no line starts with ID=, and is otherwise
    one of ubuntu, debian, fedora and other. *)
Theorem detect_distro_always_returns (w : World) :
  exists w',
    detect_distro host w = (Val tt, w')
    /\ trace w' = trace w
    /\ (demo_mode (system w) = true ->
        distro_family (system w') = "windows" /\ distro_name (system w') = "Windows")
    /\ (demo_mode (system w) = false ->
        match Env.etc_os_release host with
        | None =>
            distro_family (system w') = "unknown" /\ distro_name (system w') = "Unknown"
        | Some content =>
            match release_id content with
            | None => distro_family (system w') = distro_family (system w)
            | Some _ =>
                In (distro_family (system w')) ["ubuntu"; "debian"; "fedora"; "other"]
            end
        end).
Proof.
  unfold detect_distro, bind at 1, get_world.
  destruct (demo_mode (system w)) eqn:D.
  - eexists. split; [reflexivity|]. cbn. repeat split; discriminate.
  - unfold try_except. destruct (Env.etc_os_release host) as [content|].
    + destruct (detect_loop (PyStr.split LF content) w (acc := None)) as [w' [E [T F]]];
        [discriminate|].
      rewrite E. exists w'. split; [reflexivity|]. split; [exact T|].
      split; [discriminate|]. intros _. unfold release_id.
      rewrite F. destruct (fold_left release_id_step _ None); [|reflexivity].
      apply family_of_id_range.
    + eexists. split; [reflexivity|]. cbn. repeat split; discriminate.
Qed.

(** X2. [get_current_driver] always returns, and what it returns is never
    the empty text and never holds a line break: it is the first line of
    what [nvidia-smi] printed, or one of the texts nouveau and brak, or (in
    demo mode) a fixed version. Outside demo mode exactly one child process
    is started, the [nvidia-smi] query. *)
Theorem get_current_driver_is_one_line (w : World) :
  exists v,
    get_current_driver host w
    = (Val v,
       if demo_mode (system w) then w
       else add_event
              (EvProc (invocation_of ["nvidia-smi"; "--query-gpu=driver_version";
                                      "--format=csv,noheader"] false 300 None)) w)
    /\ PyStr.truthy v = true
    /\ PyStr.contains_char LF v = false.
Proof.
  unfold get_current_driver, bind at 1, get_world.
  destruct (demo_mode (system w)) eqn:D.
  { eexists. split; [reflexivity|]. split; reflexivity. }
  unfold bind. rewrite run_command_eq, D.
  set (r := command_result host false _ false 300 None).
  destruct ((rc_of r =? 0)%Z && PyStr.truthy (PyStr.strip (out_of r))
            && negb (String.eqb (PyStr.strip (out_of r)) "N/A")) eqn:C.
  - apply andb_prop in C. destruct C as [C _]. apply andb_prop in C. destruct C as [_ C].
    destruct (strip_head _ C) as [a [s [E A]]]. rewrite E.
    assert (L : Ascii.eqb LF a = false).
    { destruct (Ascii.eqb_spec LF a) as [<-|]; [discriminate A|reflexivity]. }
    unfold PyStr.split.
    destruct (@split_by_head (Ascii.eqb LF) a s L) as [p [ps P]]. rewrite P.
    exists (String a p). split; [reflexivity|]. split; [reflexivity|].
    apply contains_char_false. intros x Hx.
    apply (@split_by_pieces (Ascii.eqb LF) (String a s) (String a p)); [|exact Hx].
    rewrite P. now left.
  - destruct (Env.proc_modules host) as [c|].
    + destruct (PyStr.contains "nouveau" c); eexists; (split; [reflexivity|]);
        split; reflexivity.
    + eexists. split; [reflexivity|]. split; reflexivity.
Qed.

End Probes.

(** ** Fedora: the package manager and the repository version *)

Lemma split_ws_nth line :
  (2 <=? List.length (PyStr.split_ws line)) = true ->
  exists p, py_nth (PyStr.split_ws line) 1 = Val p.
Proof.
  intros H. apply Nat.leb_le in H. unfold py_nth.
  destruct (PyStr.split_ws line) as [|a [|b l]]; cbn in *; try lia. eauto.
Qed.

Lemma split_first c s : exists x, py_nth (PyStr.split c s) 0 = Val x.
Proof.
  unfold PyStr.split. destruct (PyStr.split_by (Ascii.eqb c) s) as [|x l] eqn:E.
  - exfalso. eapply split_by_nonempty; eauto.
  - exists x. reflexivity.
Qed.

Section Fedora.

Variable host : Env.Host.

(** X4. [get_dnf_cmd] always returns, and asks the host at most once:
    whatever the first call answered, a second call gives the same answer
    and changes nothing, so it starts no child process. Off Fedora the
    answer is dnf and nothing is started or remembered at all. *)
Theorem get_dnf_cmd_is_cached (w : World) :
  exists d w1,
    get_dnf_cmd host w = (Val d, w1)
    /\ get_dnf_cmd host w1 = (Val d, w1)
    /\ (distro_family (system w) <> "fedora" -> d = "dnf" /\ w1 = w)
    /\ (_dnf_cmd (system w) = None -> distro_family (system w) = "fedora" ->
        d = "dnf" \/ d = "dnf5").
Proof.
  unfold get_dnf_cmd at 1. unfold bind at 1. unfold get_world at 1.
  destruct (String.eqb (distro_family (system w)) "fedora") eqn:Fam; cbn [negb].
  2:{ exists "dnf", w. split; [reflexivity|].
      split; [unfold get_dnf_cmd, bind, get_world; now rewrite Fam|].
      split; [now split|]. intros _ Ff. rewrite Ff in Fam. discriminate. }
  assert (Nf : ~ distro_family (system w) <> "fedora").
  { intros N. apply N. now apply String.eqb_eq. }
  destruct (_dnf_cmd (system w)) as [d|] eqn:Dc.
  { exists d, w. split; [reflexivity|].
    split; [unfold get_dnf_cmd, bind, get_world; now rewrite Fam, Dc|].
    split; [intros N; now destruct Nf|discriminate]. }
  destruct (demo_mode (system w)) eqn:D.
  - eexists _, _. split; [reflexivity|].
    split; [unfold get_dnf_cmd, bind, get_world; cbn; now rewrite Fam|].
    split; [intros N; now destruct Nf|]. intros _ _. now left.
  - unfold bind. rewrite run_command_eq, D. unfold update_system, modify, ret.
    eexists _, _. split; [reflexivity|].
    split; [unfold get_dnf_cmd, bind, get_world; cbn; now rewrite Fam|].
    split; [intros N; now destruct Nf|]. intros _ _.
    destruct (rc_of _ =? 0)%Z; [now right|now left].
Qed.

Lemma fedora_version_cached w v :
  _fedora_repo_version_cache (system w) = Some v ->
  _fedora_repo_driver_version host w = (Val v, w).
Proof.
  intros C. unfold _fedora_repo_driver_version, bind, get_world. now rewrite C.
Qed.

(** A first call: the answer is stored, and is empty or holds a dot. *)
Lemma fedora_version_first_call w :
  _fedora_repo_version_cache (system w) = None ->
  exists v w1,
    _fedora_repo_driver_version host w = (Val v, w1)
    /\ _fedora_repo_version_cache (system w1) = Some v
    /\ (v = "" \/ PyStr.contains_char "." v = true).
Proof.
  intros C. unfold _fedora_repo_driver_version at 1. unfold bind at 1.
  unfold get_world at 1. rewrite C.
  destruct (runs_get_dnf_cmd host w) as [dnf [w1 [E1 _]]].
  unfold bind at 1. rewrite E1. unfold bind at 1. rewrite run_command_eq.
  set (r := command_result host _ _ false 60 None).
  set (w2 := if demo_mode (system w1) then w1 else _).
  assert (K : forall ver : string,
             (ver = "" \/ PyStr.contains_char "." ver = true) ->
             exists v w3,
               (update_system (with_repo_cache (Some ver)) ;;; ret ver) w2 = (Val v, w3)
               /\ _fedora_repo_version_cache (system w3) = Some v
               /\ (v = "" \/ PyStr.contains_char "." v = true)).
  { intros ver Hv. eexists _, _. split; [reflexivity|].
    split; [reflexivity|exact Hv]. }
  destruct ((rc_of r =? 0)%Z && PyStr.truthy (out_of r)).
  2:{ unfold bind at 1. unfold ret at 1. apply K. now left. }
  destruct (find _ _) as [line|].
  2:{ unfold bind at 1. unfold ret at 1. apply K. now left. }
  destruct (2 <=? List.length (PyStr.split_ws line)) eqn:L.
  2:{ unfold bind at 1. unfold ret at 1. apply K. now left. }
  destruct (split_ws_nth line L) as [p P].
  destruct (split_first "-" p) as [ver V].
  unfold bind at 1. unfold bind at 1. unfold lift at 1. rewrite P.
  unfold bind at 1. unfold lift at 1. rewrite V. unfold ret at 1.
  apply K. destruct (PyStr.contains_char "." ver) eqn:X; [now right|now left].
Qed.

(** X5. [_fedora_repo_driver_version] always returns and queries the
    package manager at most once: a second call gives the same answer and
    changes nothing. What a first call (empty cache) answers is either the
    empty text or a version that holds a dot. *)
Theorem fedora_repo_version_is_cached (w : World) :
  exists v w1,
    _fedora_repo_driver_version host w = (Val v, w1)
    /\ _fedora_repo_driver_version host w1 = (Val v, w1)
    /\ (_fedora_repo_version_cache (system w) = None ->
        v = "" \/ PyStr.contains_char "." v = true).
Proof.
  destruct (_fedora_repo_version_cache (system w)) as [c|] eqn:C.
  - exists c, w. rewrite (fedora_version_cached w C).
    split; [reflexivity|]. split; [reflexivity|discriminate].
  - destruct (fedora_version_first_call w C) as [v [w1 [E [C1 V]]]].
    exists v, w1. split; [exact E|]. split; [now apply fedora_version_cached|].
    intros _. exact V.
Qed.

(** X6. On a distribution of the Fedora family, outside demo mode, the two
    repository entries offer the same version, whatever the version cache
    holds: [highest_repo_driver] and [highest_repo_driver_latest] return
    the same text. With the cache empty that text is 580 or a version that
    holds a dot; with the cache filled it is the cached version, or 580
    when the cached version is empty. *)
Theorem fedora_previous_equals_latest (w : World) :
  demo_mode (system w) = false ->
  distro_family (system w) = "fedora" ->
  exists v,
    fst (highest_repo_driver host w) = Val v
    /\ fst (highest_repo_driver_latest host w) = Val v
    /\ (_fedora_repo_version_cache (system w) = None ->
        v = "580" \/ PyStr.contains_char "." v = true)
    /\ (forall c, _fedora_repo_version_cache (system w) = Some c ->
                  v = if PyStr.truthy c then c else "580").
Proof.
  intros D F.
  assert (E : exists v w1,
             _fedora_repo_driver_version host w = (Val v, w1)
             /\ (_fedora_repo_version_cache (system w) = None ->
                 v = "" \/ PyStr.contains_char "." v = true)
             /\ (forall c, _fedora_repo_version_cache (system w) = Some c -> v = c)).
  { destruct (_fedora_repo_version_cache (system w)) as [c|] eqn:C.
    - exists c, w. split; [now apply fedora_version_cached|].
      split; [discriminate|]. intros c' H. now inversion H.
    - destruct (fedora_version_first_call w C) as [v [w1 [E [_ V]]]].
      exists v, w1. split; [exact E|]. split; [intros _; exact V|discriminate]. }
  destruct E as [v [w1 [E [V K]]]].
  exists (if PyStr.truthy v then v else "580").
  unfold highest_repo_driver, highest_repo_driver_latest, bind, get_world.
  rewrite D, F. cbn [String.eqb Ascii.eqb Bool.eqb]. rewrite E. cbn.
  split; [reflexivity|]. split; [reflexivity|]. split.
  - intros N. destruct (V N) as [->|X]; [now left|]. destruct v; [discriminate|]. now right.
  - intros c H. now rewrite (K c H).
Qed.

Lemma rpm_nvidia_packages_no_firmware lines : forall acc p,
  (forall q, In q acc -> PyStr.contains "nvidia-gpu-firmware" q = false) ->
  In p (rpm_nvidia_packages lines acc) ->
  PyStr.contains "nvidia-gpu-firmware" p = false.
Proof.
  induction lines as [|line lines IH]; intros acc p A; cbn [rpm_nvidia_packages].
  - apply A.
  - destruct (PyStr.truthy line && _); [|now apply IH].
    destruct (PyStr.contains "nvidia-gpu-firmware" (PyStr.strip line)) eqn:X;
      [now apply IH|].
    apply IH. intros q Hq. apply in_app_or in Hq. destruct Hq as [Hq|[<-|[]]]; auto.
Qed.

(** X7. On a distribution of the Fedora family the list of installed
    NVIDIA packages never names the firmware package: whatever [rpm -qa]
    prints, no package reported holds the text nvidia-gpu-firmware. The
    call always returns. *)
Theorem fedora_packages_exclude_firmware (w : World) :
  distro_family (system w) = "fedora" ->
  exists packages w',
    get_installed_nvidia_packages host w = (Val packages, w')
    /\ forall p, In p packages -> PyStr.contains "nvidia-gpu-firmware" p = false.
Proof.
  intros F. unfold get_installed_nvidia_packages, bind at 1, get_world.
  destruct (demo_mode (system w)) eqn:D.
  { eexists _, _. split; [reflexivity|]. intros p []. }
  rewrite F. cbn [String.eqb Ascii.eqb Bool.eqb]. unfold bind. rewrite run_command_eq, D.
  destruct (negb _).
  - eexists _, _. split; [reflexivity|]. intros p [].
  - eexists _, _. split; [reflexivity|]. intros p.
    apply rpm_nvidia_packages_no_firmware. intros q [].
Qed.

End Fedora.
(* ==PROPS== *)
(** ** Retention on any directory *)

Lemma permutation_filter (A : Type) (f : A -> bool) l l' :
  Permutation l l' -> Permutation (filter f l) (filter f l').
Proof.
  induction 1 as [|x l l' _ IH|x y l|l l' l'' _ IH1 _ IH2]; cbn.
  - constructor.
  - destruct (f x); [now constructor|exact IH].
  - destruct (f x), (f y); try apply Permutation_refl. constructor.
  - eapply Permutation_trans; eauto.
Qed.

Lemma fold_remove_keys names : forall (d : list (string * Content)),
  map fst (fold_left (fun d n => dict_remove d n) names d)
  = filter (absent_from names) (map fst d).
Proof.
  induction names as [|n names IH]; intros d; cbn [fold_left].
  - symmetry. apply forallb_filter_id. apply forallb_forall. reflexivity.
  - rewrite IH, dict_remove_keys.
    induction (map fst d) as [|k ks IHk]; [reflexivity|].
    cbn [filter]. unfold absent_from at 2. cbn [existsb].
    destruct (String.eqb k n); cbn [negb orb]; [exact IHk|].
    cbn [filter]. fold (absent_from names k).
    destruct (absent_from names k); [now rewrite IHk|exact IHk].
Qed.

Lemma filter_comm (A : Type) (f g : A -> bool) l :
  filter f (filter g l) = filter g (filter f l).
Proof.
  induction l as [|x l IH]; [reflexivity|]. cbn.
  destruct (f x) eqn:F, (g x) eqn:G; cbn; rewrite ?F, ?G, IH; reflexivity.
Qed.

Lemma absent_prefix (s : list string) : forall k,
  NoDup s -> filter (absent_from (firstn k s)) s = skipn k s.
Proof.
  induction s as [|x s IH]; intros k N; [now destruct k|].
  inversion N as [|? ? Nx Ns]; subst. destruct k as [|k].
  - cbn [firstn skipn]. apply forallb_filter_id. apply forallb_forall. reflexivity.
  - cbn [firstn skipn filter]. unfold absent_from at 1. cbn [existsb].
    rewrite String.eqb_refl. cbn [orb negb]. rewrite <- (IH k Ns).
    apply filter_ext_in. intros y Hy. unfold absent_from. cbn [existsb].
    destruct (String.eqb_spec y x) as [->|_]; [contradiction|reflexivity].
Qed.

Lemma glob_retained d :
  glob_backups (retained d) = filter (absent_from (expired d)) (glob_backups d).
Proof.
  unfold retained, glob_backups. rewrite fold_remove_keys. apply filter_comm.
Qed.

Lemma compare_lt_trans a : forall b c,
  String.compare a b = Lt -> String.compare b c = Lt -> String.compare a c = Lt.
Proof.
  induction a as [|x a IH]; intros [|y b] [|z c]; cbn; try discriminate; try reflexivity.
  unfold Ascii.compare.
  destruct (N.compare_spec (N_of_ascii x) (N_of_ascii y)) as [E1|L1|G1]; try discriminate;
    destruct (N.compare_spec (N_of_ascii y) (N_of_ascii z)) as [E2|L2|G2]; try discriminate;
    intros H1 H2.
  - rewrite E1, E2, N.compare_refl. eapply IH; eauto.
  - rewrite E1. apply N.compare_lt_iff in L2. now rewrite L2.
  - rewrite <- E2. apply N.compare_lt_iff in L1. now rewrite L1.
  - assert (L : (N_of_ascii x < N_of_ascii z)%N) by (eapply N.lt_trans; eauto).
    apply N.compare_lt_iff in L. now rewrite L.
Qed.

Lemma ltb_negtrans a b c :
  String.ltb b a = false -> String.ltb c b = false -> String.ltb c a = false.
Proof.
  unfold String.ltb. intros H1 H2.
  destruct (String.compare c a) eqn:CA; try reflexivity. exfalso.
  destruct (String.compare b a) eqn:BA; try discriminate;
    destruct (String.compare c b) eqn:CB; try discriminate.
  - apply String.compare_eq_iff in BA, CB. subst. rewrite compare_refl in CA. discriminate.
  - apply String.compare_eq_iff in BA. subst. congruence.
  - apply String.compare_eq_iff in CB. subst. congruence.
  - rewrite String.compare_antisym in BA, CB.
    destruct (String.compare a b) eqn:AB; try discriminate.
    destruct (String.compare b c) eqn:BC; try discriminate.
    assert (AC := compare_lt_trans _ _ _ AB BC).
    rewrite String.compare_antisym, AC in CA. discriminate.
Qed.

Lemma ascending_sorted_strings l :
  ascending String.ltb (sort_by_key String.ltb (map (fun s : string => (s, s)) l)).
Proof.
  apply sort_by_key_ascending.
  - intros a b. apply ltb_asym.
  - intros a b c. apply ltb_negtrans.
Qed.

Lemma ascending_split (l1 : list (string * string)) : forall l2 a b,
  ascending String.ltb (l1 ++ l2) -> In a l1 -> In b l2 ->
  String.ltb (fst b) (fst a) = false.
Proof.
  induction l1 as [|x l1 IH]; intros l2 a b A Ha Hb; [contradiction|].
  cbn in A. destruct A as [Hx A]. destruct Ha as [<-|Ha].
  - apply Hx. apply in_or_app. now right.
  - eapply IH; eauto.
Qed.

(** What retention leaves of a directory: at most [MAX_BACKUPS] records
    with a backup name, every file with another name, and of the records
    only the ones whose names sort last. *)
Lemma retained_spec d :
  NoDup (map fst d) ->
  List.length (glob_backups (retained d)) <= MAX_BACKUPS
  /\ (forall k, In k (map fst d) -> glob_backup k = false -> In k (map fst (retained d)))
  /\ (forall a b, In a (expired d) -> In b (glob_backups (retained d)) ->
                  String.ltb a b = true).
Proof.
  intros N.
  set (G := glob_backups d).
  set (S := sorted_strings G).
  assert (NG : NoDup G) by (unfold G, glob_backups; now apply NoDup_filter).
  assert (PS : Permutation S G) by apply sorted_strings_perm.
  assert (NS : NoDup S) by (eapply Permutation_NoDup; [symmetry; exact PS|exact NG]).
  set (k := List.length S - MAX_BACKUPS).
  assert (X : expired d = firstn k S).
  { unfold expired. fold G. fold S. fold k.
    destruct (Nat.ltb_spec MAX_BACKUPS (List.length S)); [reflexivity|].
    unfold k. replace (List.length S - MAX_BACKUPS) with 0 by lia. reflexivity. }
  assert (PK : Permutation (glob_backups (retained d)) (skipn k S)).
  { rewrite glob_retained. fold G. rewrite X, <- (absent_prefix k NS).
    apply permutation_filter. symmetry. exact PS. }
  split; [|split].
  - rewrite (Permutation_length PK), length_skipn. unfold k. lia.
  - intros key I F. unfold retained. rewrite fold_remove_keys. apply filter_In.
    split; [exact I|]. unfold absent_from.
    destruct (existsb (String.eqb key) (expired d)) eqn:E; [|reflexivity].
    apply existsb_exists in E. destruct E as [x [Hx Ex]].
    apply String.eqb_eq in Ex. subst x. rewrite X in Hx. apply in_firstn in Hx.
    apply (Permutation_in _ PS) in Hx. unfold G, glob_backups in Hx.
    apply filter_In in Hx. destruct Hx as [_ Hx]. congruence.
  - intros a b Ha Hb. rewrite X in Ha. apply (Permutation_in _ PK) in Hb.
    assert (As := ascending_sorted_strings G).
    set (T := sort_by_key String.ltb (map (fun s : string => (s, s)) G)) in *.
    assert (ST : S = map snd T) by reflexivity.
    assert (FS : map fst T = map snd T).
    { unfold T. clear. 
      assert (P : forall x, In x (sort_by_key String.ltb (map (fun s : string => (s, s)) G))
                            -> fst x = snd x).
      { intros x Hx. apply sort_by_key_in in Hx. apply in_map_iff in Hx.
        destruct Hx as [s [<- _]]. reflexivity. }
      induction (sort_by_key String.ltb (map (fun s : string => (s, s)) G)) as [|x t IH];
        [reflexivity|]. cbn. rewrite (P x) by now left. f_equal. apply IH.
      intros y Hy. apply P. now right. }
    rewrite <- (firstn_skipn k T) in As.
    rewrite ST, firstn_map in Ha. rewrite ST, skipn_map in Hb.
    apply in_map_iff in Ha, Hb. destruct Ha as [pa [Ea Ha]]. destruct Hb as [pb [Eb Hb]].
    assert (Fa : fst pa = a).
    { apply in_firstn in Ha. 
      assert (Q : In pa T) by exact Ha. unfold T in Q. apply sort_by_key_in in Q.
      apply in_map_iff in Q. destruct Q as [s [<- _]]. exact Ea. }
    assert (Fb : fst pb = b).
    { assert (Q : In pb T).
      { rewrite <- (firstn_skipn k T). apply in_or_app. now right. }
      unfold T in Q. apply sort_by_key_in in Q.
      apply in_map_iff in Q. destruct Q as [s [<- _]]. exact Eb. }
    assert (NL := ascending_split _ _ _ _ As Ha Hb). rewrite Fa, Fb in NL.
    unfold String.ltb in *. destruct (String.compare b a) eqn:BA; try discriminate.
    + apply String.compare_eq_iff in BA. subst b. exfalso.
      rewrite <- (firstn_skipn k S) in NS. apply NoDup_app_remove_r in NS as N1.
      assert (Ia : In a (firstn k S)).
      { rewrite ST, firstn_map. apply in_map_iff. exists pa. split; assumption. }
      assert (Ib : In a (skipn k S)).
      { rewrite ST, skipn_map. apply in_map_iff. exists pb. split; assumption. }
      clear - NS Ia Ib. induction (firstn k S) as [|x l IH]; [contradiction|].
      cbn in NS. inversion NS as [|? ? Nx Nl]; subst. destruct Ia as [->|Ia].
      * apply Nx. apply in_or_app. now right.
      * now apply IH.
    + rewrite String.compare_antisym, BA. reflexivity.
Qed.

Section Backups.

Variable host : Env.Host.

Lemma get_current_driver_eq w :
  demo_mode (system w) = false ->
  get_current_driver host w
  = (Val (current_driver_outside_demo host),
     add_event (EvProc (invocation_of DRIVER_QUERY false 300 None)) w).
Proof.
  intros D. unfold get_current_driver, bind at 1, get_world. rewrite D.
  unfold bind. rewrite run_command_eq, D. unfold current_driver_outside_demo.
  fold DRIVER_QUERY.
  set (r := command_result host false DRIVER_QUERY false 300 None).
  destruct ((rc_of r =? 0)%Z && PyStr.truthy (PyStr.strip (out_of r))
            && negb (String.eqb (PyStr.strip (out_of r)) "N/A")).
  - destruct (PyStr.split LF (PyStr.strip (out_of r))) as [|x l] eqn:E.
    + exfalso. eapply split_by_nonempty. exact E.
    + reflexivity.
  - destruct (Env.proc_modules host) as [c|]; [|reflexivity].
    destruct (PyStr.contains "nouveau" c); reflexivity.
Qed.

Lemma get_installed_nvidia_packages_eq w :
  demo_mode (system w) = false ->
  get_installed_nvidia_packages host w
  = (installed_packages_outside_demo host (distro_family (system w)),
     add_event (EvProc (invocation_of (packages_query (distro_family (system w)))
                                      false 300 None)) w).
Proof.
  intros D. unfold get_installed_nvidia_packages, bind at 1, get_world. rewrite D.
  unfold installed_packages_outside_demo, packages_query.
  destruct (String.eqb (distro_family (system w)) "fedora");
    unfold bind; rewrite run_command_eq, D;
    destruct (negb _); reflexivity.
Qed.


Lemma extends_probe_step e w w' :
  probe_event e -> extends probe_event (add_event e w) w' -> extends probe_event w w'.
Proof.
  intros P X. eapply extends_trans; [|exact X]. now apply extends_event.
Qed.

(** [create_backup] step by step, outside demo mode. *)
Lemma create_backup_cases install_type target_version w :
  demo_mode (system w) = false ->
  match installed_packages_outside_demo host (distro_family (system w)) with
  | Raise _ =>
      exists w', create_backup host install_type target_version w = (Val None, w')
                 /\ extends probe_event w w'
  | Val pk =>
      let data := backup_record (now w) (current_driver_outside_demo host) pk
                                install_type target_version in
      if Env.can_write host (backup_path host (now w)) then
        exists w3 w4 w',
          extends probe_event w w3
          /\ extends probe_event
               (add_event (EvBackupWrite (backup_name (now w)))
                          (set_backup_dir (dict_set (backup_dir w) (backup_name (now w))
                                                    (Document data)) w3)) w4
          /\ enforce_retention host w4 = (Val tt, w')
          /\ create_backup host install_type target_version w = (Val (Some (backup_path host (now w))), w')
      else
        exists w2 w',
          extends probe_event w w2
          /\ extends probe_event
               (if Env.write_truncates host (backup_path host (now w))
                then set_backup_dir (dict_set (backup_dir w) (backup_name (now w)) Broken) w2
                else w2) w'
          /\ create_backup host install_type target_version w = (Val None, w')
  end.
Proof.
  intros D.
  set (w1 := add_event (EvProc (invocation_of DRIVER_QUERY false 300 None)) w).
  set (w2 := add_event (EvProc (invocation_of (packages_query (distro_family (system w)))
                                              false 300 None)) w1).
  assert (X2 : extends probe_event w w2).
  { eapply extends_trans; apply extends_event; exact I. }
  assert (P : forall k : string -> list string -> M (option string),
             (cd <- get_current_driver host ;;
              pk <- get_installed_nvidia_packages host ;; k cd pk) w
             = match installed_packages_outside_demo host (distro_family (system w)) with
               | Val pk => k (current_driver_outside_demo host) pk w2
               | Raise e => (Raise e, w2)
               end).
  { intros k. unfold bind at 1. rewrite get_current_driver_eq by exact D.
    unfold bind at 1. rewrite get_installed_nvidia_packages_eq by exact D.
    reflexivity. }
  remember (create_backup host install_type target_version w) as cb eqn:Ecb.
  unfold create_backup in Ecb. unfold bind at 1 in Ecb. unfold get_world at 1 in Ecb.
  rewrite D in Ecb. unfold try_except in Ecb. rewrite P in Ecb. clear P.
  revert Ecb.
  destruct (installed_packages_outside_demo host (distro_family (system w))) as [pk|e];
    intros Ecb.
  2:{ destruct (runs_log host (_tr "log_backup_create_failed" [str_of_exn e]) "WARN" w2)
        as [[] [w3 [E3 X3]]].
      unfold bind in Ecb. rewrite E3 in Ecb. exists w3. split; [exact Ecb|].
      eapply extends_trans; eauto. }
  unfold bind at 1 in Ecb. unfold get_world at 1 in Ecb.
  change (now w2) with (now w) in Ecb. unfold bind at 1 in Ecb. unfold write_backup in Ecb.
  unfold backup_path. cbv zeta.
  destruct (Env.can_write host (path_join (BACKUP_DIR host) (backup_name (now w)))).
  2:{ set (wm := if Env.write_truncates host
                      (path_join (BACKUP_DIR host) (backup_name (now w)))
                 then set_backup_dir (dict_set (backup_dir w) (backup_name (now w)) Broken) w2
                 else w2).
      destruct (runs_log host
                  (_tr "log_backup_create_failed"
                       [str_of_exn (OSError (path_join (BACKUP_DIR host)
                                                       (backup_name (now w))))])
                  "WARN" wm) as [[] [w3 [E3 X3]]].
      exists w2, w3. split; [exact X2|]. split; [exact X3|].
      rewrite Ecb. unfold wm in E3. unfold bind, modify, ret, raise.
      destruct (Env.write_truncates host _); cbn [fst snd];
        change (backup_dir w2) with (backup_dir w); rewrite E3; reflexivity. }
  unfold bind at 1 in Ecb. unfold modify in Ecb.
  set (w3 := add_event (EvBackupWrite _) _) in *.
  unfold bind at 1 in Ecb.
  destruct (runs_log host (_tr "log_backup_created" [backup_name (now w)]) "INFO" w3)
    as [[] [w4 [E4 X4]]].
  rewrite E4 in Ecb. unfold bind at 1 in Ecb.
  destruct (runs_enforce_retention host w4) as [[] [w5 [E5 _]]].
  rewrite E5 in Ecb. unfold ret in Ecb. exists w2, w4, w5. split; [exact X2|].
  split; [exact X4|]. split; [exact E5|exact Ecb].
Qed.

Lemma written_step e w w' :
  backups_written (trace w') = backups_written (trace (add_event e w)) ->
  match e with EvBackupWrite _ => False | _ => True end ->
  backups_written (trace w') = backups_written (trace w).
Proof.
  intros H P. rewrite H. cbn. rewrite backups_written_app.
  destruct e; cbn; try apply app_nil_r. contradiction.
Qed.

Lemma kb_remove_old_backup name w w' :
  remove_old_backup host name w = (Val tt, w') ->
  backups_written (trace w') = backups_written (trace w).
Proof.
  unfold remove_old_backup, try_except, unlink_backup.
  unfold bind at 1. unfold bind at 1. unfold get_world.
  destruct (dict_get (backup_dir w) name); [|intros E; now inversion E].
  destruct (Env.can_unlink host _); [|intros E; now inversion E].
  unfold bind at 1. unfold modify. set (w1 := add_event _ _).
  destruct (runs_log host (_tr "log_backup_removed_old" [name]) "INFO" w1)
    as [[] [w2 [E X]]].
  rewrite E. intros H. inversion H; subst w'.
  apply extends_keeps in X. destruct X as [_ X]. rewrite X. unfold w1. cbn.
  rewrite backups_written_app. apply app_nil_r.
Qed.

Lemma kb_retention_loop names : forall w w',
  for_each names (remove_old_backup host) w = (Val tt, w') ->
  backups_written (trace w') = backups_written (trace w).
Proof.
  induction names as [|n names IH]; intros w w'; cbn [for_each].
  - intros E. now inversion E.
  - unfold bind. destruct (runs_remove_old_backup host n w) as [[] [w1 [E1 _]]].
    rewrite E1. intros E. rewrite (IH _ _ E). now apply kb_remove_old_backup with n.
Qed.

Lemma kb_enforce_retention w w' :
  enforce_retention host w = (Val tt, w') ->
  backups_written (trace w') = backups_written (trace w).
Proof.
  unfold enforce_retention, bind, get_world.
  destruct (MAX_BACKUPS <? _); [apply kb_retention_loop|].
  intros E. now inversion E.
Qed.

(** X8. [create_backup] never raises. In demo mode it returns [None] and
    changes nothing. Outside demo mode, when the snapshot file cannot be
    written it returns [None] and no record counts as written; the
    content of [BACKUP_DIR] is unchanged when the file could not be opened
    or the package query had failed before, and when the file was opened
    and the write failed after that, the directory holds an emptied file
    of the snapshot's name in place of whatever that name held. Whenever
    [create_backup] returns a path, that path is the file named after the
    clock reading, and exactly one record, of that name, has been
    written. *)
Theorem create_backup_never_raises (install_type target_version : string) (w : World) :
  exists r w',
    create_backup host install_type target_version w = (Val r, w')
    /\ (demo_mode (system w) = true -> r = None /\ w' = w)
    /\ (demo_mode (system w) = false -> Env.can_write host (backup_path host (now w)) = false ->
        r = None
        /\ backups_written (trace w') = backups_written (trace w)
        /\ backup_dir w'
           = match installed_packages_outside_demo host (distro_family (system w)) with
             | Val _ =>
                 if Env.write_truncates host (backup_path host (now w))
                 then dict_set (backup_dir w) (backup_name (now w)) Broken
                 else backup_dir w
             | Raise _ => backup_dir w
             end)
    /\ (forall p, r = Some p ->
        p = backup_path host (now w)
        /\ backups_written (trace w') = backups_written (trace w) ++ [backup_name (now w)]).
Proof.
  destruct (demo_mode (system w)) eqn:D.
  { exists None, w. unfold create_backup, bind, get_world. rewrite D.
    split; [reflexivity|]. split; [now split|]. split; discriminate. }
  assert (C := create_backup_cases install_type target_version w D).
  destruct (installed_packages_outside_demo host (distro_family (system w))) as [pk|e].
  - cbv zeta in C. destruct (Env.can_write host (backup_path host (now w))) eqn:Wr.
    + destruct C as [w3 [w4 [w' [X3 [X4 [E5 E]]]]]].
      exists (Some (backup_path host (now w))), w'. split; [exact E|].
      split; [discriminate|]. split; [discriminate|].
      intros p Hp. inversion Hp; subst p. split; [reflexivity|].
      rewrite (kb_enforce_retention _ E5).
      apply extends_keeps in X3, X4. destruct X3 as [_ X3]. destruct X4 as [_ X4].
      rewrite X4. cbn. rewrite backups_written_app, X3. reflexivity.
    + destruct C as [w2 [w' [X2 [X3 E]]]]. exists None, w'. split; [exact E|].
      split; [discriminate|]. split; [|discriminate].
      intros _ _. split; [reflexivity|].
      apply extends_keeps in X2, X3. destruct X2 as [B2 T2]. destruct X3 as [B3 T3].
      rewrite T3, B3.
      destruct (Env.write_truncates host (backup_path host (now w)));
        cbn [trace backup_dir set_backup_dir]; split; solve [assumption|reflexivity].
  - destruct C as [w' [E X]]. exists None, w'. split; [exact E|].
    split; [discriminate|]. split; [|discriminate].
    intros _ _. split; [reflexivity|]. apply extends_keeps in X. destruct X as [B T].
    split; assumption.
Qed.

(** X9. Retention on any directory. When every record can be deleted and
    [create_backup] returns a path, at most [MAX_BACKUPS] files named
    backup-*.json are left in [BACKUP_DIR], whatever it held before; files
    with other names are never deleted; and every record that is gone
    sorts before every record that is left. *)
Theorem retention_keeps_the_ten_newest (install_type target_version : string)
        (w w' : World) (p : string) :
  (forall path, Env.can_unlink host path = true) ->
  demo_mode (system w) = false ->
  NoDup (map fst (backup_dir w)) ->
  create_backup host install_type target_version w = (Val (Some p), w') ->
  List.length (glob_backups (backup_dir w')) <= MAX_BACKUPS
  /\ (forall k, In k (map fst (backup_dir w)) -> glob_backup k = false ->
                In k (map fst (backup_dir w')))
  /\ (forall a b,
         In a (map fst (backup_dir w)) \/ a = backup_name (now w) ->
         ~ In a (map fst (backup_dir w')) ->
         In b (glob_backups (backup_dir w')) ->
         String.ltb a b = true).
Proof.
  intros U D N E.
  destruct (@create_backup_spec host U install_type target_version w D N)
    as [r [w1 [E1 [_ S]]]].
  rewrite E in E1. inversion E1; subst r w1.
  destruct S as [data [B _]]; [discriminate|].
  set (d := dict_set (backup_dir w) (backup_name (now w)) (Document data)) in *.
  assert (Nd : NoDup (map fst d)) by now apply dict_set_keys_nodup.
  assert (Kd : forall k, In k (map fst (backup_dir w)) \/ k = backup_name (now w) -> In k (map fst d)).
  { intros k Hk. unfold d.
    destruct (in_dec string_dec (backup_name (now w)) (map fst (backup_dir w))) as [I|I].
    - assert (X : dict_get (dict_set (backup_dir w) (backup_name (now w)) (Document data)) k
                  <> None).
      { rewrite dict_get_set. destruct (String.eqb _ _); [discriminate|].
        apply dict_get_in. destruct Hk as [Hk| ->]; assumption. }
      destruct (in_dec string_dec k
                  (map fst (dict_set (backup_dir w) (backup_name (now w)) (Document data))));
        [assumption|]. exfalso. apply X. now apply dict_get_not_in.
    - rewrite dict_set_new by exact I. rewrite map_app. apply in_or_app.
      destruct Hk as [Hk| ->]; [now left|right; now left]. }
  destruct (@retained_spec d Nd) as [L [O R]]. rewrite B.
  split; [exact L|]. split.
  - intros k Hk G. apply O; [|exact G]. apply Kd. now left.
  - intros a b Ha Na Hb. apply R; [|exact Hb].
    apply Kd in Ha. unfold retained in Na. rewrite fold_remove_keys in Na.
    destruct (existsb (String.eqb a) (expired d)) eqn:X.
    + apply existsb_exists in X. destruct X as [x [Hx Ex]].
      apply String.eqb_eq in Ex. now subst x.
    + exfalso. apply Na. apply filter_In. split; [exact Ha|].
      unfold absent_from. now rewrite X.
Qed.

Lemma retention_loop_stuck names : forall w,
  (forall path, Env.can_unlink host path = false) ->
  for_each names (remove_old_backup host) w = (Val tt, w).
Proof.
  intros w U. induction names as [|n names IH]; [reflexivity|].
  cbn [for_each]. unfold bind.
  assert (E : remove_old_backup host n w = (Val tt, w)).
  { unfold remove_old_backup, try_except, unlink_backup.
    unfold bind at 1. unfold bind at 1. unfold get_world.
    destruct (dict_get (backup_dir w) n); [rewrite U|]; reflexivity. }
  rewrite E. exact IH.
Qed.

(** X10. A record that cannot be deleted is passed over in silence. When
    no file of [BACKUP_DIR] can be deleted and [create_backup] returns a
    path, every record that was there is still there beside the new one:
    the directory grows past [MAX_BACKUPS], and no deletion is recorded. *)
Theorem retention_passes_over_failed_deletions (install_type target_version : string)
        (w w' : World) (p : string) :
  (forall path, Env.can_unlink host path = false) ->
  demo_mode (system w) = false ->
  create_backup host install_type target_version w = (Val (Some p), w') ->
  (exists data,
      backup_dir w' = dict_set (backup_dir w) (backup_name (now w)) (Document data))
  /\ unlinked (trace w') = unlinked (trace w).
Proof.
  intros U D E.
  assert (C := create_backup_cases install_type target_version w D).
  destruct (installed_packages_outside_demo host (distro_family (system w))) as [pk|e].
  - cbv zeta in C. destruct (Env.can_write host (backup_path host (now w))).
    + destruct C as [w3 [w4 [w5 [X3 [X4 [E5 E']]]]]].
      rewrite E in E'. inversion E'; subst w5.
      unfold enforce_retention, bind, get_world in E5.
      destruct (MAX_BACKUPS <? _).
      * rewrite retention_loop_stuck in E5 by exact U. inversion E5; subst w'.
        split.
        -- eexists. destruct X4 as [_ [B4 _]]. rewrite B4. reflexivity.
        -- rewrite (extends_probe_unlinked X4). cbn. rewrite unlinked_app. cbn.
           rewrite app_nil_r. apply (extends_probe_unlinked X3).
      * inversion E5; subst w'. split.
        -- eexists. destruct X4 as [_ [B4 _]]. rewrite B4. reflexivity.
        -- rewrite (extends_probe_unlinked X4). cbn. rewrite unlinked_app. cbn.
           rewrite app_nil_r. apply (extends_probe_unlinked X3).
    + destruct C as [w1 [w2 [_ [_ E']]]]. rewrite E in E'. discriminate.
  - destruct C as [w1 [E' _]]. rewrite E in E'. discriminate.
Qed.

End Backups.

(** ** The backup list *)

Lemma sorted_strings_strict l : NoDup l -> ascending_names (sorted_strings l).
Proof.
  intros N.
  assert (NS : NoDup (sorted_strings l)).
  { eapply Permutation_NoDup; [symmetry; apply sorted_strings_perm|exact N]. }
  assert (As := ascending_sorted_strings l).
  unfold sorted_strings in *.
  assert (P : forall x, In x (sort_by_key String.ltb (map (fun s : string => (s, s)) l))
                        -> fst x = snd x).
  { intros x Hx. apply sort_by_key_in in Hx. apply in_map_iff in Hx.
    destruct Hx as [s [<- _]]. reflexivity. }
  induction (sort_by_key String.ltb (map (fun s : string => (s, s)) l)) as [|x t IH];
    [constructor|].
  cbn [map] in *. inversion NS as [|? ? Nx Nt]; subst. destruct As as [Hx At].
  constructor.
  - apply IH; [exact Nt|exact At|]. intros y Hy. apply P. now right.
  - apply Forall_forall. intros b Hb. apply in_map_iff in Hb. destruct Hb as [y [<- Hy]].
    specialize (Hx y Hy). rewrite (P x) in Hx by now left.
    rewrite (P y) in Hx by now right.
    unfold String.ltb in *. destruct (String.compare (snd y) (snd x)) eqn:C;
      try discriminate.
    + apply String.compare_eq_iff in C. exfalso. apply Nx. rewrite <- C.
      apply in_map. exact Hy.
    + rewrite String.compare_antisym, C. reflexivity.
Qed.

Lemma descending_rev l : ascending_names l -> descending_names (rev l).
Proof.
  induction 1 as [|x l S IH F]; [constructor|]. cbn [rev].
  assert (G : forall l1 : list string,
             descending_names l1 -> Forall (fun a => String.ltb x a = true) l1 ->
             descending_names (l1 ++ [x])).
  { induction 1 as [|y l1 S1 IH1 F1]; intros Fx; cbn.
    - repeat constructor.
    - inversion Fx; subst. constructor; [now apply IH1|].
      apply Forall_app. split; [exact F1|]. repeat constructor. assumption. }
  apply G; [exact IH|]. apply Forall_forall. intros a Ha. apply in_rev in Ha.
  rewrite Forall_forall in F. now apply F.
Qed.

Lemma descending_filter f l : descending_names l -> descending_names (filter f l).
Proof.
  induction 1 as [|x l S IH F]; [constructor|]. cbn.
  destruct (f x); [|exact IH]. constructor; [exact IH|].
  apply Forall_forall. intros a Ha. apply filter_In in Ha.
  rewrite Forall_forall in F. now apply F.
Qed.

Section BackupList.

Variable host : Env.Host.

(** X11. [list_backups] returns and changes nothing. It lists, newest
    first (file names in strictly descending order), exactly the files of
    [BACKUP_DIR] that are named backup-*.json and hold a JSON object; each
    entry carries its file name. *)
Theorem list_backups_newest_first (w : World) :
  NoDup (map fst (backup_dir w)) ->
  exists entries names,
    list_backups host w = (Val entries, w)
    /\ map filename_of entries = map Some names
    /\ descending_names names
    /\ (forall n, In n names <->
                  In n (map fst (backup_dir w)) /\ glob_backup n = true
                  /\ holds_record (backup_dir w) n = true).
Proof.
  intros N.
  set (S := sorted_strings (glob_backups (backup_dir w))).
  exists (flat_map
            (fun name =>
               match dict_get (backup_dir w) name with
               | Some (Document (JObj fields)) =>
                   [JObj (dict_set (dict_set fields "_path"
                                             (JStr (path_join (BACKUP_DIR host) name)))
                                   "_filename" (JStr name))]
               | _ => []
               end) (rev S)),
         (filter (holds_record (backup_dir w)) (rev S)).
  split; [reflexivity|]. split; [|split].
  - induction (rev S) as [|n l IH]; [reflexivity|]. cbn [flat_map filter].
    unfold holds_record at 1.
    destruct (dict_get (backup_dir w) n) as [[[| | | | |fields]|]|]; try exact IH.
    cbn [app map]. rewrite IH. f_equal. unfold filename_of.
    rewrite dict_get_set. reflexivity.
  - apply descending_filter, descending_rev, sorted_strings_strict.
    unfold glob_backups. now apply NoDup_filter.
  - intros n. rewrite filter_In, <- in_rev. unfold S.
    split.
    + intros [I H]. apply (Permutation_in _ (sorted_strings_perm _)) in I.
      unfold glob_backups in I. apply filter_In in I. tauto.
    + intros [I [G H]]. split; [|exact H].
      apply (Permutation_in _ (Permutation_sym (sorted_strings_perm _))).
      unfold glob_backups. apply filter_In. tauto.
Qed.

End BackupList.

(** ** Snapshots within one second, and the way back *)

Lemma backup_name_fields t1 t2 : dt_fields t1 = dt_fields t2 -> backup_name t1 = backup_name t2.
Proof.
  unfold dt_fields. intros E. inversion E as [[Y Mo Da H Mi S]].
  unfold backup_name, strftime_stamp. now rewrite Y, Mo, Da, H, Mi, S.
Qed.

Lemma glob_backups_set (d : list (string * Content)) n data :
  List.length (glob_backups (dict_set d n data)) <= S (List.length (glob_backups d)).
Proof.
  unfold glob_backups.
  induction d as [|[k v] d IH]; cbn.
  - destruct (glob_backup n); cbn; lia.
  - destruct (String.eqb k n); cbn; destruct (glob_backup k); cbn; lia.
Qed.

Lemma dict_set_twice (V : Type) (d : dict V) k v v' :
  dict_set (dict_set d k v) k v' = dict_set d k v'.
Proof.
  induction d as [|[k0 v0] d IH]; cbn.
  - now rewrite String.eqb_refl.
  - destruct (String.eqb k0 k) eqn:E; cbn; rewrite E; [reflexivity|now rewrite IH].
Qed.

Section SameSecond.

Variable host : Env.Host.

Lemma enforce_retention_idle w :
  List.length (glob_backups (backup_dir w)) <= MAX_BACKUPS ->
  enforce_retention host w = (Val tt, w).
Proof.
  intros L. unfold enforce_retention, bind, get_world.
  rewrite (Permutation_length (sorted_strings_perm _)).
  destruct (Nat.ltb_spec MAX_BACKUPS (List.length (glob_backups (backup_dir w))));
    [lia|reflexivity].
Qed.

(** One snapshot that succeeds and deletes nothing. *)
Lemma create_backup_small install_type target_version pk w :
  demo_mode (system w) = false ->
  installed_packages_outside_demo host (distro_family (system w)) = Val pk ->
  Env.can_write host (backup_path host (now w)) = true ->
  (forall data,
      List.length (glob_backups (dict_set (backup_dir w) (backup_name (now w)) data))
      <= MAX_BACKUPS) ->
  exists w',
    create_backup host install_type target_version w
    = (Val (Some (backup_path host (now w))), w')
    /\ same_session w w'
    /\ backup_dir w'
       = dict_set (backup_dir w) (backup_name (now w))
                  (Document (backup_record (now w) (current_driver_outside_demo host) pk
                                           install_type target_version)).
Proof.
  intros D P Wr L.
  assert (C := create_backup_cases host install_type target_version w D).
  rewrite P in C. cbv zeta in C. rewrite Wr in C.
  destruct C as [w3 [w4 [w' [X3 [X4 [E5 E]]]]]].
  assert (B4 : backup_dir w4
               = dict_set (backup_dir w) (backup_name (now w))
                   (Document (backup_record (now w) (current_driver_outside_demo host) pk
                                            install_type target_version))).
  { destruct X4 as [_ [B4 _]]. rewrite B4. reflexivity. }
  rewrite enforce_retention_idle in E5 by (rewrite B4; apply L).
  inversion E5; subst w'. exists w4. split; [exact E|]. split; [|exact B4].
  eapply same_session_trans; [apply (extends_session X3)|].
  eapply same_session_trans; [|apply (extends_session X4)]. repeat split.
Qed.

(** X12. Two snapshots whose clock readings agree to the second share one
    file. Outside demo mode, in a directory that holds fewer than
    [MAX_BACKUPS] records, when the package query answers and the file of
    that second can be written, both calls return the same path, the
    directory gains a single record, and that record is the second
    snapshot: the first one is overwritten. *)
Theorem same_second_snapshots_share_a_file (w : World) (t1 t2 : DateTime)
        (type1 target1 type2 target2 : string) (pk : list string) :
  demo_mode (system w) = false ->
  installed_packages_outside_demo host (distro_family (system w)) = Val pk ->
  dt_fields t1 = dt_fields t2 ->
  Env.can_write host (backup_path host t1) = true ->
  List.length (glob_backups (backup_dir w)) < MAX_BACKUPS ->
  exists w',
    take_snapshots host [(t1, (type1, target1)); (t2, (type2, target2))] w
    = (Val [Some (backup_path host t1); Some (backup_path host t1)], w')
    /\ backup_dir w'
       = dict_set (backup_dir w) (backup_name t1)
                  (Document (backup_record t2 (current_driver_outside_demo host) pk
                                           type2 target2)).
Proof.
  intros D P T Wr L.
  assert (Nm : backup_name t2 = backup_name t1) by (symmetry; now apply backup_name_fields).
  cbn [take_snapshots]. unfold bind at 1. unfold modify at 1. cbv beta iota.
  set (wa := set_now t1 w).
  assert (La : forall data,
             List.length (glob_backups (dict_set (backup_dir w) (backup_name t1) data))
             <= MAX_BACKUPS).
  { intros data. eapply Nat.le_trans; [apply glob_backups_set|]. lia. }
  destruct (@create_backup_small type1 target1 pk wa D P Wr La) as [w1 [E1 [S1 B1]]].
  unfold bind at 1. rewrite E1.
  unfold bind at 1. unfold bind at 1. unfold modify at 1. cbv beta iota.
  set (wb := set_now t2 w1).
  assert (Db : demo_mode (system wb) = false).
  { destruct S1 as [Dm _]. cbn. rewrite Dm. exact D. }
  assert (Fb : distro_family (system wb) = distro_family (system w)).
  { destruct S1 as [_ [Fm _]]. cbn. rewrite Fm. reflexivity. }
  assert (Pb : installed_packages_outside_demo host (distro_family (system wb)) = Val pk)
    by now rewrite Fb.
  assert (Wb : Env.can_write host (backup_path host (now wb)) = true).
  { cbn. unfold backup_path in *. now rewrite Nm. }
  assert (Lb : forall data,
             List.length (glob_backups (dict_set (backup_dir wb) (backup_name (now wb)) data))
             <= MAX_BACKUPS).
  { intros data. change (backup_dir wb) with (backup_dir w1). rewrite B1.
    cbn [now wa wb set_now]. rewrite Nm, dict_set_twice. apply La. }
  destruct (@create_backup_small type2 target2 pk wb Db Pb Wb Lb) as [w2 [E2 [S2 B2]]].
  unfold bind at 1. rewrite E2. unfold bind. unfold ret. exists w2. split.
  - cbn [now wb set_now]. unfold backup_path. rewrite Nm. reflexivity.
  - rewrite B2. change (backup_dir wb) with (backup_dir w1). rewrite B1.
    cbn [now wa wb set_now]. rewrite Nm. apply dict_set_twice.
Qed.

End SameSecond.

Lemma json_strings_map pkgs : json_strings (map JStr pkgs) = Some pkgs.
Proof. induction pkgs as [|p l IH]; cbn; [reflexivity|now rewrite IH]. Qed.

Section RestorePackages.

Variable host : Env.Host.

(** X13. Restoring a backup that records packages installs exactly those
    packages. Once the sudo check has passed, outside demo mode, for a
    record whose package list is a non-empty list of texts,
    [restore_backup] starts one child process, [apt-get install -y] with
    the recorded packages in their order, under sudo, and returns whether
    it exited with code 0; the backup directory is left as it was. *)
Theorem restore_installs_recorded_packages (w w1 : World) (path : string)
        (fields : list (string * json)) (pkgs : list string) :
  check_sudo host w = (Val true, w1) ->
  demo_mode (system w1) = false ->
  read_json host path w1 = (Val (JObj fields), w1) ->
  dict_get fields "packages" = Some (JList (map JStr pkgs)) ->
  pkgs <> [] ->
  exists w',
    restore_backup host path w
    = (Val (rc_of (command_result host false (["apt-get"; "install"; "-y"] ++ pkgs)
                                  true 300 (_sudo_password w1)) =? 0)%Z, w')
    /\ procs (trace w')
       = procs (trace w1)
         ++ [argv (invocation_of (["apt-get"; "install"; "-y"] ++ pkgs) true 300
                                 (_sudo_password w1))]
    /\ backup_dir w' = backup_dir w1.
Proof.
  intros C D R P Ne.
  unfold restore_backup. unfold bind at 1. rewrite C. cbn [negb].
  unfold try_except. unfold bind at 1. rewrite R.
  unfold bind at 1. unfold lift, json_get. rewrite P.
  assert (T : json_truthy (JList (map JStr pkgs)) = true).
  { destruct pkgs; [congruence|reflexivity]. }
  rewrite T. cbn [negb].
  destruct (@runs_log_quiet host (_tr "log_restoring_backup" []) "INFO"
              ltac:(discriminate) w1) as [[] [w2 [E2 X2]]].
  unfold bind at 1. rewrite E2. unfold bind at 1.
  unfold _run_install_restore. rewrite T. cbn [negb]. rewrite json_strings_map.
  unfold bind at 1. unfold get_world at 1. unfold bind at 1. rewrite run_command_eq.
  assert (S2 := extends_session X2).
  assert (D2 : demo_mode (system w2) = false) by (destruct S2 as [Dm _]; congruence).
  assert (P2 : _sudo_password w2 = _sudo_password w1) by apply S2.
  rewrite D2, P2. unfold ret at 1. cbn [fst snd rc_of].
  set (cmd := ["apt-get"; "install"; "-y"] ++ pkgs).
  set (w3 := add_event _ w2).
  assert (T3 : procs (trace w3)
               = procs (trace w1) ++ [argv (invocation_of cmd true 300 (_sudo_password w1))]).
  { unfold w3. cbn [trace add_event]. rewrite procs_app.
    rewrite (extends_file_procs X2). reflexivity. }
  assert (B3 : backup_dir w3 = backup_dir w1) by (destruct X2 as [_ [B _]]; exact B).
  destruct (rc_of (command_result host false cmd true 300 (_sudo_password w1)) =? 0)%Z.
  - destruct (@runs_log_quiet host (_tr "log_restored" []) "SUCCESS"
                ltac:(discriminate) w3) as [[] [w4 [E4 X4]]].
    unfold bind. rewrite E4. exists w4. split; [reflexivity|]. split.
    + now rewrite (extends_file_procs X4).
    + destruct X4 as [_ [B4 _]]. congruence.
  - exists w3. split; [reflexivity|]. split; assumption.
Qed.

End RestorePackages.

(** ** The properties above on the sample hosts *)

Lemma fedora_previous_equals_latest_witness :
  exists v,
    fst (highest_repo_driver fedora_host (sample_world "fedora")) = Val v
    /\ fst (highest_repo_driver_latest fedora_host (sample_world "fedora")) = Val v
    /\ (v = "580" \/ PyStr.contains_char "." v = true).
Proof.
  destruct (@fedora_previous_equals_latest fedora_host (sample_world "fedora")
              eq_refl eq_refl) as [v [E1 [E2 [V _]]]].
  exists v. split; [exact E1|]. split; [exact E2|]. apply V. reflexivity.
Defined.

Example fedora_sample_version :
  fst (highest_repo_driver fedora_host (sample_world "fedora")) = Val "570.144".
Proof. vm_compute. reflexivity. Qed.

Lemma fedora_packages_exclude_firmware_witness :
  exists packages w',
    get_installed_nvidia_packages fedora_host (sample_world "fedora") = (Val packages, w')
    /\ forall p, In p packages -> PyStr.contains "nvidia-gpu-firmware" p = false.
Proof.
  apply (@fedora_packages_exclude_firmware fedora_host (sample_world "fedora")).
  reflexivity.
Defined.

Example fedora_sample_packages :
  fst (get_installed_nvidia_packages fedora_host (sample_world "fedora"))
  = Val ["akmod-nvidia-565.77-1.fc41.x86_64"; "xorg-x11-drv-nvidia-565.77-1.fc41.x86_64"].
Proof. vm_compute. reflexivity. Qed.

Lemma crowded_dir_nodup : NoDup (map fst (backup_dir crowded_world)).
Proof.
  vm_compute.
  repeat (constructor;
          [intros H; repeat (destruct H as [H|H]; [discriminate H|]); exact H|]).
  constructor.
Qed.

Lemma retention_keeps_the_ten_newest_witness :
  let w := crowded_world in
  let w' := snd (create_backup (sample_host proprietary_host_exec) "repo" "580.95.05" w) in
  List.length (glob_backups (backup_dir w)) = 11
  /\ List.length (glob_backups (backup_dir w')) <= MAX_BACKUPS
  /\ (forall k, In k (map fst (backup_dir w)) -> glob_backup k = false ->
                In k (map fst (backup_dir w')))
  /\ (forall a b,
         In a (map fst (backup_dir w)) \/ a = backup_name (now w) ->
         ~ In a (map fst (backup_dir w')) ->
         In b (glob_backups (backup_dir w')) ->
         String.ltb a b = true).
Proof.
  intros w w'. split; [reflexivity|].
  apply (@retention_keeps_the_ten_newest
           (sample_host proprietary_host_exec) "repo" "580.95.05" w w'
           "/opt/nvidia-driver-manager/cache/backups/backup-20250314-092653.json"
           (fun _ => eq_refl) eq_refl crowded_dir_nodup).
  vm_compute. reflexivity.
Defined.

Example retention_sample_directory :
  map fst (backup_dir (snd (create_backup (sample_host proprietary_host_exec)
                                          "repo" "580.95.05" crowded_world)))
  = ["notes.txt"; "backup-20250314-091000.json"; "backup-20250314-090900.json";
     "backup-20250314-090800.json"; "backup-20250314-090700.json";
     "backup-20250314-090600.json"; "backup-20250314-090500.json";
     "backup-20250314-090400.json"; "backup-20250314-090300.json";
     "backup-20250314-090200.json"; "backup-20250314-092653.json"].
Proof. vm_compute. reflexivity. Qed.

Lemma retention_passes_over_failed_deletions_witness :
  let w := crowded_world in
  let w' := snd (create_backup stubborn_host "repo" "580.95.05" w) in
  List.length (backup_dir w') = 13
  /\ (exists data,
         backup_dir w' = dict_set (backup_dir w) (backup_name (now w)) (Document data))
  /\ unlinked (trace w') = unlinked (trace w).
Proof.
  intros w w'. split; [reflexivity|].
  apply (@retention_passes_over_failed_deletions
           stubborn_host "repo" "580.95.05" w w'
           "/opt/nvidia-driver-manager/cache/backups/backup-20250314-092653.json"
           (fun _ => eq_refl) eq_refl).
  vm_compute. reflexivity.
Defined.

Lemma list_backups_newest_first_witness :
  exists entries names,
    list_backups (sample_host no_programs) crowded_world = (Val entries, crowded_world)
    /\ map filename_of entries = map Some names
    /\ descending_names names
    /\ (forall n, In n names <->
                  In n (map fst (backup_dir crowded_world)) /\ glob_backup n = true
                  /\ holds_record (backup_dir crowded_world) n = true).
Proof.
  exact (@list_backups_newest_first (sample_host no_programs) crowded_world
           crowded_dir_nodup).
Defined.

Example list_backups_sample :
  map filename_of (match fst (list_backups (sample_host no_programs) crowded_world) with
                   | Val entries => firstn 2 entries
                   | Raise _ => []
                   end)
  = [Some "backup-20250314-091000.json"; Some "backup-20250314-090900.json"].
Proof. vm_compute. reflexivity. Qed.

Lemma same_second_snapshots_share_a_file_witness :
  let host := sample_host proprietary_host_exec in
  exists w',
    take_snapshots host [(sample_time, ("nvk", "NVK"));
                         (sample_time_later, ("repo", "580.95.05"))]
                   (sample_world "ubuntu")
    = (Val [Some (backup_path host sample_time); Some (backup_path host sample_time)], w')
    /\ backup_dir w'
       = dict_set (backup_dir (sample_world "ubuntu")) (backup_name sample_time)
                  (Document
                     (backup_record sample_time_later (current_driver_outside_demo host)
                                    ["libnvidia-gl-550:amd64"; "nvidia-driver-550"]
                                    "repo" "580.95.05")).
Proof.
  intros host.
  apply (@same_second_snapshots_share_a_file host (sample_world "ubuntu")
           sample_time sample_time_later "nvk" "NVK" "repo" "580.95.05"
           ["libnvidia-gl-550:amd64"; "nvidia-driver-550"]).
  - reflexivity.
  - vm_compute. reflexivity.
  - reflexivity.
  - reflexivity.
  - vm_compute. lia.
Defined.

(** A snapshot taken on the host with the proprietary driver, then
    restored: the two packages it recorded are installed again. *)
Lemma restore_installs_recorded_packages_witness :
  let host := sample_host proprietary_host_exec in
  let w := snd (create_backup host "repo" "580.95.05" (sample_world "ubuntu")) in
  exists w',
    restore_backup host (backup_path host sample_time) w = (Val true, w')
    /\ procs (trace w')
       = procs (trace (snd (check_sudo host w)))
         ++ [["sudo"; "apt-get"; "install"; "-y"; "libnvidia-gl-550:amd64";
              "nvidia-driver-550"]]
    /\ backup_dir w' = backup_dir w.
Proof.
  intros host w.
  apply (@restore_installs_recorded_packages host w (snd (check_sudo host w))
           (backup_path host sample_time)
           [("date", JStr "2025-03-14T09:26:53");
            ("backup_id", JStr "backup-20250314-092653");
            ("previous_driver", JStr "550.90.07");
            ("packages", JList [JStr "libnvidia-gl-550:amd64"; JStr "nvidia-driver-550"]);
            ("install_about_to", JStr "repo"); ("target_version", JStr "580.95.05")]
           ["libnvidia-gl-550:amd64"; "nvidia-driver-550"]).
  - vm_compute. reflexivity.
  - reflexivity.
  - vm_compute. reflexivity.
  - reflexivity.
  - discriminate.
Defined.

(** A snapshot on a full disk: nothing is returned, and an emptied file is
    left under the snapshot's name. *)
Example create_backup_on_full_disk :
  let outcome := create_backup full_disk_host "repo" "580.95.05" (sample_world "ubuntu") in
  fst outcome = Val None
  /\ backup_dir (snd outcome) = [("backup-20250314-092653.json", Broken)]
  /\ backups_written (trace (snd outcome)) = [].
Proof. vm_compute. repeat split. Qed.

(** ** The steps of the thread, whatever the host answers *)

Section Steps.

Variable host : Env.Host.
Variable P : Event -> Prop.
Hypothesis probes_allowed : forall e, probe_event e -> P e.

Lemma probes_runs A (m : M A) : runs (extends probe_event) m -> runs (extends P) m.
Proof. apply runs_weaken. intros w w'. now apply extends_weaken. Qed.

Lemma probes_framed A (m : M A) : framed (extends probe_event) m -> framed (extends P) m.
Proof. apply framed_weaken. intros w w'. now apply extends_weaken. Qed.

Lemma sx_run_command cmd sudo t pw : runs (extends P) (run_command host cmd sudo t pw).
Proof. apply probes_runs, runs_run_command. intros; exact I. Qed.

Lemma sx_log msg level : runs (extends P) (log host msg level).
Proof. apply probes_runs, runs_log. Qed.

(** The error report of the thread: it may raise, which its caller passes
    over. *)
Lemma sx_error_report :
  framed (extends P)
         (collect_error_report host ;;;
          saved <- save_error_report host ;;
          match saved with
          | Some error_file => log host (_tr "log_error_report_saved" [error_file]) "INFO"
          | None => ret tt
          end).
Proof.
  f_bind; [apply probes_framed, framed_collect_error_report; intros; exact I|].
  f_bind as saved; [apply probes_framed, framed_save_error_report|].
  f_runs. destruct saved; [apply sx_log|r_ret].
Qed.

Lemma sx_update_system (f : SystemManager -> SystemManager) :
  (forall s, demo_mode (f s) = demo_mode s /\ distro_family (f s) = distro_family s) ->
  runs (extends P) (update_system f).
Proof.
  intros H w. exists tt, (set_system (f (system w)) w). split; [reflexivity|].
  destruct (H (system w)) as [Hd Hf].
  split; [repeat split; assumption|]. split; [reflexivity|].
  exists []. split; [cbn; now rewrite app_nil_r|constructor].
Qed.

Lemma sx_get_dnf_cmd : runs (extends P) (get_dnf_cmd host).
Proof.
  unfold get_dnf_cmd. r_bind as w0; [r_world|]. r_if; [r_ret|].
  destruct (_dnf_cmd (system w0)); [r_ret|]. r_if.
  - r_bind; [apply sx_update_system; intros; split; reflexivity|]. r_ret.
  - r_bind; [apply sx_run_command|].
    r_bind; [apply sx_update_system; intros; split; reflexivity|]. r_ret.
Qed.

Lemma sx_run_cmd self cmd sudo t u s : runs (extends P) (run_cmd host self cmd sudo t u s).
Proof.
  unfold run_cmd. r_bind as r; [apply sx_run_command|].
  r_if; [r_ret|]. r_if; [r_ret|]. r_if; [r_ret|].
  r_bind; [apply sx_log|]. r_bind; [|r_ret].
  r_if; [|r_ret]. fr runs_for_each. intros line. r_if; [apply sx_log|r_ret].
Qed.

Lemma sx_sudo_cmd self cmd : runs (extends P) (sudo_cmd host self cmd).
Proof. unfold sudo_cmd. r_bind; [apply sx_run_cmd|r_ret]. Qed.

Lemma sx_clean_nvidia_artifacts self : runs (extends P) (clean_nvidia_artifacts host self).
Proof.
  unfold clean_nvidia_artifacts.
  r_bind; [fr runs_for_each; intros; apply sx_sudo_cmd|].
  do 3 (r_bind; [apply sx_sudo_cmd|]).
  r_bind; [fr runs_for_each; intros svc|].
  { do 2 (r_bind; [apply sx_run_cmd|]). apply sx_sudo_cmd. }
  r_bind; apply sx_sudo_cmd.
Qed.

Lemma sx_get_installed_nvidia_packages :
  framed (extends P) (get_installed_nvidia_packages host).
Proof. apply probes_framed, framed_get_installed_nvidia_packages. Qed.

Lemma sx_purge_nvidia_packages self : framed (extends P) (purge_nvidia_packages host self).
Proof.
  unfold purge_nvidia_packages. f_bind; [f_runs; r_world|]. f_if.
  - f_bind as packages; [apply sx_get_installed_nvidia_packages|].
    destruct packages; [f_runs; r_ret|].
    f_bind; [f_runs; apply sx_get_dnf_cmd|]. f_runs. apply sx_sudo_cmd.
  - f_bind; [f_runs; apply sx_run_cmd|]. f_if; [|f_runs; r_ret].
    f_bind as packages; [fr framed_lift|].
    destruct packages; [f_runs; r_ret|].
    f_runs. r_bind; apply sx_sudo_cmd.
Qed.

Lemma sx_remove_dkms_modules self : framed (extends P) (remove_dkms_modules host self).
Proof.
  unfold remove_dkms_modules. f_bind; [f_runs; r_world|]. f_if.
  - f_runs. r_bind; apply sx_sudo_cmd.
  - f_bind; [f_runs; apply sx_run_cmd|].
    f_bind; [|f_runs; r_bind; [apply sx_sudo_cmd|]; r_bind; apply sx_sudo_cmd].
    f_if; [|f_runs; r_ret]. fr framed_for_each. intros line.
    f_if; [|f_runs; r_ret]. f_bind; [fr framed_lift|].
    f_if; [|f_runs; r_ret]. f_runs. r_bind; [apply sx_run_cmd|r_ret].
Qed.

Lemma sx_remove_nvidia_configs self : runs (extends P) (remove_nvidia_configs host self).
Proof.
  unfold remove_nvidia_configs.
  r_bind; [fr runs_for_each; intros; apply sx_sudo_cmd|].
  do 2 (r_bind; [apply sx_sudo_cmd|]). apply sx_sudo_cmd.
Qed.

Lemma sx_remove_nvidia_libraries self : runs (extends P) (remove_nvidia_libraries host self).
Proof.
  unfold remove_nvidia_libraries. r_bind; [r_world|].
  r_bind; [fr runs_for_each; intros; apply sx_sudo_cmd|].
  r_bind; [fr runs_for_each; intros; apply sx_sudo_cmd|]. apply sx_sudo_cmd.
Qed.

Lemma sx_verify_nvidia_removal self : runs (extends P) (verify_nvidia_removal host self).
Proof.
  unfold verify_nvidia_removal. r_bind; [apply sx_sudo_cmd|].
  r_bind; [apply sx_run_cmd|]. r_if; [|r_ret]. r_bind; [apply sx_log|r_ret].
Qed.

Lemma sx_rebuild_initramfs self : runs (extends P) (rebuild_initramfs host self).
Proof.
  unfold rebuild_initramfs. r_bind; [apply sx_log|]. r_bind; [r_world|].
  r_if; apply sx_sudo_cmd.
Qed.

Lemma sx_probe_event e : probe_event e -> runs (extends P) (modify (add_event e)).
Proof. intros H. apply runs_event. now apply probes_allowed. Qed.

Lemma sx_configure_nouveau_for_nvk self :
  framed (extends P) (configure_nouveau_for_nvk host self).
Proof.
  unfold configure_nouveau_for_nvk. f_bind; [f_runs; apply sx_sudo_cmd|].
  f_bind; [unfold write_file; f_if; [f_runs; apply sx_probe_event; exact I|fr framed_raise]|].
  f_bind; [f_runs; apply sx_sudo_cmd|].
  f_bind; [unfold unlink_file; f_if; [f_runs; apply sx_probe_event; exact I|fr framed_raise]|].
  f_bind.
  { f_if; [|f_runs; r_ret]. f_bind; [f_runs; apply sx_run_command|].
    f_if; f_runs; [apply sx_sudo_cmd|r_ret]. }
  f_bind; [f_runs; r_world|]. f_if; f_runs; [apply sx_rebuild_initramfs|r_ret].
Qed.

Lemma sx_get_installed_nvidia_driver_package :
  framed (extends P) (get_installed_nvidia_driver_package host).
Proof.
  unfold get_installed_nvidia_driver_package. f_bind; [f_runs; r_world|].
  f_if; [f_runs; r_ret|]. f_if.
  - f_bind; [f_runs; apply sx_run_command|]. f_if; f_runs; r_ret.
  - f_bind; [f_runs; apply sx_run_command|]. f_if; [f_runs; r_ret|].
    destruct (find _ _); [|f_runs; r_ret].
    f_bind; [fr framed_lift|]. f_runs. r_ret.
Qed.

Lemma sx_probe_missing query pkg missing : runs (extends P) (probe_missing host query pkg missing).
Proof. unfold probe_missing. r_bind; [apply sx_run_command|r_ret]. Qed.

Lemma sx_get_missing_dependency_packages install_type :
  runs (extends P) (get_missing_dependency_packages host install_type).
Proof.
  unfold get_missing_dependency_packages. r_bind; [r_world|]. r_if; [r_ret|]. r_if.
  - r_bind; [apply sx_probe_missing|]. r_bind; [apply sx_probe_missing|]. r_ret.
  - do 3 (r_bind; [apply sx_probe_missing|]). r_ret.
Qed.

Lemma sx_ensure_network self : runs (extends P) (_ensure_network host self).
Proof.
  unfold _ensure_network. r_bind; [apply sx_run_cmd|]. r_if; [apply sx_log|r_ret].
Qed.

Lemma sx_ensure_dependencies self : runs (extends P) (_ensure_dependencies host self).
Proof.
  unfold _ensure_dependencies. r_bind as missing; [apply sx_get_missing_dependency_packages|].
  destruct missing; [r_ret|].
  r_bind; [apply sx_log|]. r_bind; [r_world|].
  r_bind.
  - r_if.
    + r_bind; [apply sx_get_dnf_cmd|]. apply sx_run_cmd.
    + r_bind; [apply sx_run_cmd|]. r_bind; [r_if; [apply sx_log|r_ret]|]. apply sx_run_cmd.
  - r_if; (r_bind; [apply sx_log|r_ret]).
Qed.

Lemma sx_add_issue query issue issues : runs (extends P) (add_issue host query issue issues).
Proof. unfold add_issue. r_bind; [apply sx_run_command|]. r_ret. Qed.

Lemma sx_check_requirements install_type :
  runs (extends P) (check_requirements host install_type).
Proof.
  unfold check_requirements. r_bind; [|r_ret].
  r_if; [apply sx_add_issue|]. r_if; [|r_ret].
  r_bind; [r_world|]. r_if; [r_ret|].
  r_bind; [apply sx_add_issue|]. r_bind; [apply sx_add_issue|]. apply sx_add_issue.
Qed.

Lemma sx_offer_install_dnf5 : runs (extends P) (_offer_install_dnf5 host).
Proof.
  unfold _offer_install_dnf5. r_bind; [r_world|]. r_if; [r_ret|].
  r_bind; [apply sx_get_dnf_cmd|]. r_if; [r_ret|]. r_if; [r_ret|].
  r_bind; [apply sx_log|]. r_bind; [r_world|].
  r_bind; [apply sx_run_command|].
  r_bind; [|r_ret]. r_if; [|apply sx_log].
  r_bind; [apply sx_update_system; intros; split; reflexivity|]. apply sx_log.
Qed.

Lemma sx_fedora_repo_driver_version : runs (extends P) (_fedora_repo_driver_version host).
Proof.
  unfold _fedora_repo_driver_version. r_bind as w0; [r_world|].
  destruct (_fedora_repo_version_cache (system w0)); [r_ret|].
  r_bind; [apply sx_get_dnf_cmd|]. r_bind; [apply sx_run_command|].
  r_bind.
  - r_if; [|r_ret].
    destruct (find _ _) as [line|]; [|r_ret].
    destruct (Nat.leb_spec 2 (List.length (PyStr.split_ws line))) as [L|L]; [|r_ret].
    destruct (PyStr.split_ws line) as [|p0 [|p1 ps]] eqn:E; cbn in L; try lia.
    r_bind as p; [fr (@runs_lift (extends P) _ _ (py_nth (p0 :: p1 :: ps) 1) p1);
                  reflexivity|].
    destruct (py_nth_split_0 (Ascii.eqb "-") p) as [x Hx].
    r_bind; [fr (@runs_lift (extends P) _ _ _ x Hx)|]. r_ret.
  - r_bind; [apply sx_update_system; intros; split; reflexivity|]. r_ret.
Qed.

Lemma sx_scan_available series : forall available,
  runs (extends P) (scan_available host series available).
Proof.
  induction series as [|v rest IH]; intros available; cbn [scan_available]; [r_ret|].
  r_bind as result; [apply sx_run_command|].
  r_bind; [|apply IH].
  r_if; [|r_ret].
  destruct (version_line (out_of result)) as [line|] eqn:L; [|r_ret].
  destruct (version_line_total _ L) as [ver Hv].
  r_bind; [fr (@runs_lift (extends P) _ _ _ ver Hv)|]. r_ret.
Qed.

Lemma sx_scan_latest series : runs (extends P) (scan_latest host series).
Proof.
  induction series as [|v rest IH]; cbn [scan_latest]; [r_ret|].
  r_bind as result; [apply sx_run_command|].
  r_if; [|exact IH].
  destruct (version_line (out_of result)) as [line|] eqn:L; [|exact IH].
  destruct (version_line_total _ L) as [ver Hv].
  r_bind; [fr (@runs_lift (extends P) _ _ _ ver Hv)|]. r_ret.
Qed.

Lemma sx_highest_repo_driver : runs (extends P) (highest_repo_driver host).
Proof.
  unfold highest_repo_driver. r_bind; [r_world|]. r_if; [r_ret|]. r_if.
  - r_bind; [apply sx_fedora_repo_driver_version|]. r_ret.
  - r_bind as available; [apply sx_scan_available|].
    destruct available as [|e0 [|e1 es]]; cbn [List.length Nat.leb Nat.eqb].
    + r_ret.
    + r_bind; [fr (@runs_lift (extends P) _ _ (py_nth [e0] 0) e0); reflexivity|]. r_ret.
    + r_bind; [fr (@runs_lift (extends P) _ _ (py_nth (e0 :: e1 :: es) 1) e1);
               reflexivity|]. r_ret.
Qed.

Lemma sx_highest_repo_driver_latest : runs (extends P) (highest_repo_driver_latest host).
Proof.
  unfold highest_repo_driver_latest. r_bind; [r_world|]. r_if; [r_ret|]. r_if.
  - r_bind; [apply sx_fedora_repo_driver_version|]. r_ret.
  - apply sx_scan_latest.
Qed.

End Steps.

(** ** Requests that end before a thread is started *)

Lemma probe_refl e : probe_event e -> probe_event e.
Proof. exact (fun H => H). Qed.

Section Refusals.

Variable host : Env.Host.

(** X14. In demo mode no entry point of the install menu does anything but
    log a warning: each returns, starts no child process and no thread,
    writes no backup, and leaves the threads, the thread in flight and the
    cached password as they were. *)
Theorem demo_mode_requests_do_nothing (w : World) (version_type : string)
        (request : M unit) :
  demo_mode (system w) = true ->
  In request (entry_points host version_type) ->
  exists w',
    request w = (Val tt, w')
    /\ procs (trace w') = procs (trace w)
    /\ threads w' = threads w
    /\ _install_thread w' = _install_thread w
    /\ _sudo_password w' = _sudo_password w
    /\ backup_dir w' = backup_dir w.
Proof.
  intros D I.
  assert (K : forall key,
             exists w', log host (_tr key []) "WARN" w = (Val tt, w')
                        /\ procs (trace w') = procs (trace w)
                        /\ threads w' = threads w
                        /\ _install_thread w' = _install_thread w
                        /\ _sudo_password w' = _sudo_password w
                        /\ backup_dir w' = backup_dir w).
  { intros key.
    destruct (@runs_log_quiet host (_tr key []) "WARN" ltac:(discriminate) w)
      as [[] [w' [E X]]].
    exists w'. split; [exact E|]. split; [now apply extends_file_procs|].
    destruct X as [[_ [_ [_ [Pw [It [Th _]]]]]] [B _]]. repeat split; assumption. }
  cbn in I.
  destruct I as [<-|[<-|[<-|[<-|[<-|[<-|[]]]]]]];
    unfold install_nvk, install_repo, install_repo_latest, install_nvidia_run,
      uninstall_nvidia_only, upgrade_repo_driver;
    unfold bind at 1; unfold get_world at 1; rewrite D; apply K.
Qed.

Lemma get_installed_nvidia_driver_package_eq w :
  demo_mode (system w) = false ->
  exists r,
    get_installed_nvidia_driver_package host w
    = (r, add_event (EvProc (invocation_of (driver_package_query (distro_family (system w)))
                                           false 300 None)) w).
Proof.
  intros D. unfold get_installed_nvidia_driver_package, bind at 1, get_world. rewrite D.
  unfold driver_package_query.
  destruct (String.eqb (distro_family (system w)) "fedora");
    unfold bind at 1; rewrite run_command_eq, D.
  - destruct (_ && _); eexists; reflexivity.
  - destruct (negb _); [eexists; reflexivity|].
    destruct (find _ _); [|eexists; reflexivity].
    unfold bind, lift. destruct (py_nth _ 1); eexists; reflexivity.
Qed.

(** X16. Without a repository driver package there is nothing to upgrade:
    outside demo mode, when [get_installed_nvidia_driver_package] finds no
    package, [upgrade_repo_driver] logs a warning and returns. The only
    child process started is the package query; sudo is not asked for, and
    no thread is created. *)
Theorem upgrade_without_driver_package (w : World) :
  demo_mode (system w) = false ->
  (fst (get_installed_nvidia_driver_package host w) = Val None
   \/ fst (get_installed_nvidia_driver_package host w) = Val (Some "")) ->
  exists w',
    upgrade_repo_driver host w = (Val tt, w')
    /\ procs (trace w')
       = procs (trace w) ++ [driver_package_query (distro_family (system w))]
    /\ threads w' = threads w
    /\ _install_thread w' = _install_thread w.
Proof.
  intros D N.
  destruct (get_installed_nvidia_driver_package_eq w D) as [r E].
  rewrite E in N. cbn [fst] in N.
  unfold upgrade_repo_driver. unfold bind at 1. unfold get_world at 1. rewrite D.
  unfold bind at 1. rewrite E. set (w1 := add_event _ w).
  assert (K : exists w',
             log host (_tr "log_no_driver_repo_short" []) "WARN" w1 = (Val tt, w')
             /\ procs (trace w')
                = procs (trace w) ++ [driver_package_query (distro_family (system w))]
             /\ threads w' = threads w
             /\ _install_thread w' = _install_thread w).
  { destruct (@runs_log_quiet host (_tr "log_no_driver_repo_short" []) "WARN"
                ltac:(discriminate) w1) as [[] [w' [E' X]]].
    exists w'. split; [exact E'|]. split.
    - rewrite (extends_file_procs X). unfold w1. cbn. now rewrite procs_app.
    - destruct X as [[_ [_ [_ [_ [It [Th _]]]]]] _]. split; assumption. }
  destruct N as [-> | ->]; exact K.
Qed.

End Refusals.

(** ** The snapshot and the thread *)

Lemma bind_step (R : World -> World -> Prop) A B (m : M A) (k : A -> M B) w :
  runs R m -> exists a w1, R w w1 /\ bind m k w = k a w1.
Proof.
  intros Rm. destruct (Rm w) as [a [w1 [E X]]]. exists a, w1. split; [exact X|].
  unfold bind. now rewrite E.
Qed.

Ltac probe_step lem :=
  match goal with
  | |- context [bind ?m ?k ?w] =>
      let a := fresh "a" in
      let w1 := fresh "w" in
      let X := fresh "X" in
      let E := fresh "E" in
      destruct (@bind_step (extends probe_event) _ _ m k w lem) as [a [w1 [X E]]];
      rewrite E; clear E
  end.

Ltac chain :=
  repeat (eapply extends_trans; [eassumption|]); apply extends_refl.

Section SnapshotFirst.

Variable host : Env.Host.

Let px_log := @sx_log host probe_event probe_refl.

(** A snapshot that succeeds is one record written, whatever retention
    does afterwards. *)
Lemma create_backup_written install_type target_version pk w :
  demo_mode (system w) = false ->
  installed_packages_outside_demo host (distro_family (system w)) = Val pk ->
  Env.can_write host (backup_path host (now w)) = true ->
  exists w',
    create_backup host install_type target_version w
    = (Val (Some (backup_path host (now w))), w')
    /\ same_session w w'
    /\ backups_written (trace w') = backups_written (trace w) ++ [backup_name (now w)].
Proof.
  intros D Pk Wr.
  assert (C := create_backup_cases host install_type target_version w D).
  rewrite Pk in C. cbv zeta in C. rewrite Wr in C.
  destruct C as [w3 [w4 [w' [X3 [X4 [E5 E]]]]]].
  exists w'. split; [exact E|]. split.
  - destruct (runs_create_backup host install_type target_version w) as [r [w'' [E' S]]].
    rewrite E in E'. inversion E'; subst. exact S.
  - rewrite (kb_enforce_retention host _ E5).
    apply extends_keeps in X3, X4. destruct X3 as [_ X3]. destruct X4 as [_ X4].
    rewrite X4. cbn. rewrite backups_written_app, X3. reflexivity.
Qed.

(** The lines every install entry point ends with: the snapshot, the log
    file, the thread. *)
Lemma snapshot_then_start install_type target_version log_name thread_type
      (params : World -> list (string * json)) slot pk w :
  demo_mode (system w) = false ->
  installed_packages_outside_demo host (distro_family (system w)) = Val pk ->
  Env.can_write host (backup_path host (now w)) = true ->
  exists w' before,
    (create_backup host install_type target_version ;;;
     start_log host log_name ;;;
     w2 <- get_world ;; start_thread thread_type (params w2) slot) w = (Val tt, w')
    /\ trace w' = before ++ [EvThreadStart (List.length (threads w))]
    /\ backups_written before = backups_written (trace w) ++ [backup_name (now w)].
Proof.
  intros D Pk Wr.
  destruct (@create_backup_written install_type target_version pk w D Pk Wr)
    as [w1 [E1 [S1 B1]]].
  unfold bind at 1. rewrite E1. unfold bind at 1.
  destruct (kb_start_log host log_name w1) as [[] [w2 [E2 [_ B2]]]].
  destruct (runs_start_log host log_name w1) as [[] [w2' [E2' S2]]].
  rewrite E2 in E2'. inversion E2'; subst w2'. rewrite E2.
  unfold bind at 1. unfold get_world at 1. rewrite start_thread_eq.
  eexists _, (trace w2). split; [reflexivity|]. split.
  - cbn. do 2 f_equal. f_equal.
    assert (T : threads w2 = threads w).
    { destruct S1 as [_ [_ [_ [_ [_ [T1 _]]]]]]. destruct S2 as [_ [_ [_ [_ [_ [T2 _]]]]]].
      congruence. }
    now rewrite T.
  - now rewrite B2, B1.
Qed.

(** What a run of probes leaves as it was. *)
Lemma probes_keep w w' :
  extends probe_event w w' ->
  demo_mode (system w') = demo_mode (system w)
  /\ distro_family (system w') = distro_family (system w)
  /\ now w' = now w
  /\ threads w' = threads w
  /\ backups_written (trace w') = backups_written (trace w).
Proof.
  intros X. assert (K := extends_keeps X).
  destruct X as [[Dm [Fm [Nw [_ [_ [Th _]]]]]] _]. destruct K as [_ K].
  repeat split; assumption.
Qed.

(** Up to the snapshot each install entry point only asks and probes:
    what is left to run then is the snapshot, the log file and the
    thread. *)
Lemma requests_reach_the_snapshot (w w1 : World) (version_type : string)
      (request : M unit) :
  demo_mode (system w) = false ->
  check_sudo host w = (Val true, w1) ->
  (forall question, Env.user_confirms host question = true) ->
  In request [install_nvk host; install_repo host; install_repo_latest host;
              install_nvidia_run host version_type] ->
  exists install_type target_version log_name thread_type
         (params : World -> list (string * json)) slot w5,
    extends probe_event w1 w5
    /\ request w
       = (create_backup host install_type target_version ;;;
          start_log host log_name ;;;
          w2 <- get_world ;; start_thread thread_type (params w2) slot) w5.
Proof.
  intros D C Y I.
  cbn in I. destruct I as [<-|[<-|[<-|[<-|[]]]]].
  - unfold install_nvk. unfold bind at 1. unfold get_world at 1. rewrite D.
    unfold bind at 1. rewrite C. cbn [negb].
    assert (K : match kernel_major host with
                | Val major =>
                    (major <? 6)%Z
                    && negb (Env.user_confirms host (_tr "msg_nvk_kernel" [kernel_release host]))
                | Raise _ => false
                end = false).
    { destruct (kernel_major host); [|reflexivity]. rewrite Y. apply andb_false_r. }
    rewrite K.
    probe_step (px_log (_tr "log_checking_requirements" []) "INFO").
    probe_step (@sx_check_requirements host probe_event probe_refl "nvk").
    assert (R : exists w5, extends probe_event w2 w5 /\
                forall k : bool -> M unit,
                  bind (if negb (fst a0) then
                          log host (_tr "log_requirements_issues" []) "WARN" ;;;
                          for_each (snd a0)
                            (fun issue => log host (_tr "log_requirement_item" [issue]) "WARN") ;;;
                          ret (negb (Env.user_confirms host
                                       (_tr "msg_requirements_continue" (snd a0))))
                        else ret false) k w2 = k false w5).
    { destruct (negb (fst a0)).
      - destruct (px_log (_tr "log_requirements_issues" []) "WARN" w2)
          as [u1 [w3 [E3 S3]]].
        assert (L : runs (extends probe_event)
                      (for_each (snd a0)
                         (fun issue => log host (_tr "log_requirement_item" [issue]) "WARN"))).
        { fr runs_for_each. intros. apply px_log. }
        destruct (L w3) as [u2 [w4 [E4 S4]]].
        exists w4. split; [eapply extends_trans; eassumption|].
        intros k. unfold bind. rewrite E3, E4. unfold ret. now rewrite Y.
      - exists w2. split; [apply extends_refl|]. reflexivity. }
    destruct R as [w5 [X5 E5]]. rewrite E5. clear E5.
    probe_step (@sx_offer_install_dnf5 host probe_event probe_refl).
    probe_step (px_log (_tr "log_starting_nvk" []) "INFO").
    eexists _, _, _, _, (fun w => [("sudo_password", json_of_password (_sudo_password w))]), _, _.
    split; [|reflexivity]. chain.
  - unfold install_repo. unfold bind at 1. unfold get_world at 1. rewrite D.
    unfold bind at 1. rewrite C. cbn [negb].
    probe_step (px_log (_tr "log_checking_requirements" []) "INFO").
    probe_step (@sx_check_requirements host probe_event probe_refl "repo").
    match goal with
    | |- context [bind (if ?b then ?m1 else ?m2) ?k ?w] =>
        destruct (@bind_step (extends probe_event) _ _ (if b then m1 else m2) k w)
          as [u [w5 [X5 E5]]]; [r_if; [apply px_log|r_ret]|rewrite E5; clear E5]
    end.
    probe_step (@sx_offer_install_dnf5 host probe_event probe_refl).
    probe_step (@sx_highest_repo_driver host probe_event probe_refl).
    destruct (series_of_total a2) as [ser Hser].
    unfold bind at 1. unfold lift. rewrite Hser.
    probe_step (px_log (_tr "log_starting_repo" [a2]) "INFO").
    eexists _, _, _, _, (fun w => [("version", JStr a2);
                           ("package", JStr ("nvidia-driver-" +:+ ser +:+ "-open"));
                           ("latest", JBool false);
                           ("sudo_password", json_of_password (_sudo_password w))]), _, _.
    split; [|reflexivity]. chain.
  - unfold install_repo_latest. unfold bind at 1. unfold get_world at 1. rewrite D.
    unfold bind at 1. rewrite C. cbn [negb].
    probe_step (px_log (_tr "log_checking_requirements" []) "INFO").
    probe_step (@sx_check_requirements host probe_event probe_refl "repo").
    match goal with
    | |- context [bind (if ?b then ?m1 else ?m2) ?k ?w] =>
        destruct (@bind_step (extends probe_event) _ _ (if b then m1 else m2) k w)
          as [u [w5 [X5 E5]]]; [r_if; [apply px_log|r_ret]|rewrite E5; clear E5]
    end.
    probe_step (@sx_offer_install_dnf5 host probe_event probe_refl).
    probe_step (@sx_highest_repo_driver_latest host probe_event probe_refl).
    destruct (series_of_total a2) as [ser Hser].
    unfold bind at 1. unfold lift. rewrite Hser.
    probe_step (px_log (_tr "log_starting_repo" [a2]) "INFO").
    eexists _, _, _, _, (fun w => [("version", JStr a2);
                           ("package", JStr ("nvidia-driver-" +:+ ser +:+ "-open"));
                           ("latest", JBool true);
                           ("sudo_password", json_of_password (_sudo_password w))]), _, _.
    split; [|reflexivity]. chain.
  - unfold install_nvidia_run. unfold bind at 1. unfold get_world at 1. rewrite D.
    unfold bind at 1. rewrite C. cbn [negb].
    probe_step (px_log (_tr "log_checking_requirements" []) "INFO").
    probe_step (@sx_check_requirements host probe_event probe_refl "run").
    match goal with
    | |- context [bind (if ?b then ?m1 else ?m2) ?k ?w] =>
        destruct (@bind_step (extends probe_event) _ _ (if b then m1 else m2) k w)
          as [u [w5 [X5 E5]]]; [r_if; [apply px_log|r_ret]|rewrite E5; clear E5]
    end.
    cbv zeta.
    probe_step (px_log (_tr "log_starting_run"
                            [get_or VERSION_LABELS version_type "Production";
                             get_or (Env.window_versions host) version_type
                                    PRODUCTION_VERSION]) "INFO").
    eexists _, _, _, _, (fun w =>
         [("version", JStr (get_or (Env.window_versions host) version_type
                                   PRODUCTION_VERSION));
          ("label", JStr (get_or VERSION_LABELS version_type "Production"));
          ("version_type", JStr version_type);
          ("sudo_password", json_of_password (_sudo_password w))]), _, _.
    split; [|reflexivity]. chain.
Qed.


(** X17. The snapshot comes first. Outside demo mode, once the sudo check
    has passed and the questions asked are answered yes, when the package
    list can be read and the snapshot file can be written, each of the four
    install entry points (NVK, repository, latest repository, vendor
    installer) writes exactly one backup record, named after the clock
    reading, and only then starts its thread: the start of the thread is
    the last thing it does. *)
Theorem snapshot_precedes_thread_start (w w1 : World) (pk : list string)
        (version_type : string) (request : M unit) :
  demo_mode (system w) = false ->
  check_sudo host w = (Val true, w1) ->
  demo_mode (system w1) = false ->
  (forall question, Env.user_confirms host question = true) ->
  installed_packages_outside_demo host (distro_family (system w1)) = Val pk ->
  Env.can_write host (backup_path host (now w1)) = true ->
  In request [install_nvk host; install_repo host; install_repo_latest host;
              install_nvidia_run host version_type] ->
  exists w' before,
    request w = (Val tt, w')
    /\ trace w' = before ++ [EvThreadStart (List.length (threads w1))]
    /\ backups_written before = backups_written (trace w1) ++ [backup_name (now w1)].
Proof.
  intros D C D1 Y Pk Wr I.
  destruct (@requests_reach_the_snapshot w w1 version_type request D C Y I)
    as [install_type [target_version [log_name [thread_type [params [slot [w5 [X E]]]]]]]].
  rewrite E. destruct (probes_keep X) as [Dm [Fm [Nw [Th Bw]]]].
  rewrite <- Th, <- Bw, <- Nw.
  apply snapshot_then_start with pk; [congruence|congruence|now rewrite Nw].
Qed.

End SnapshotFirst.

Section NvkGate.

Variable host : Env.Host.

Lemma quiet_log_step A msg level (k : unit -> M A) w :
  level <> "ERROR" ->
  exists w1, extends file_event w w1 /\ bind (log host msg level) k w = k tt w1.
Proof.
  intros N. destruct (@runs_log_quiet host msg level N w) as [[] [w1 [E X]]].
  exists w1. split; [exact X|]. unfold bind. now rewrite E.
Qed.

Ltac quiet_step :=
  match goal with
  | |- context [bind (log host ?msg ?level) ?k ?w] =>
      let w1 := fresh "w" in
      let X := fresh "X" in
      let E := fresh "E" in
      destruct (@quiet_log_step _ msg level k w ltac:(discriminate)) as [w1 [X E]];
      rewrite E; clear E
  end.

(** X18. The NVK entry asks before going on with unmet requirements. On a
    kernel of version 6 or newer, when [modinfo nouveau] fails and the
    user declines to continue, [install_nvk] returns after the check: the
    only child process started past the sudo check is that query, no
    backup is written and no thread is created. *)
Theorem nvk_requirements_gate (w w1 : World) (major : Z) :
  demo_mode (system w) = false ->
  check_sudo host w = (Val true, w1) ->
  demo_mode (system w1) = false ->
  kernel_major host = Val major ->
  (6 <= major)%Z ->
  rc_of (command_result host false ["modinfo"; "nouveau"] false 300 None) <> 0%Z ->
  Env.user_confirms host (_tr "msg_requirements_continue"
                              ["Modul nouveau nie jest dostepny"]) = false ->
  exists w',
    install_nvk host w = (Val tt, w')
    /\ procs (trace w') = procs (trace w1) ++ [["modinfo"; "nouveau"]]
    /\ threads w' = threads w1
    /\ _install_thread w' = _install_thread w1
    /\ backup_dir w' = backup_dir w1.
Proof.
  intros D C D1 K L F U.
  assert (Lt : (major <? 6)%Z = false) by (apply Z.ltb_ge; exact L).
  unfold install_nvk. unfold bind at 1. unfold get_world at 1. rewrite D.
  unfold bind at 1. rewrite C. cbn [negb]. rewrite K, Lt. cbn [andb].
  quiet_step. rename w0 into w2. rename X into X2.
  assert (D2 : demo_mode (system w2) = false).
  { destruct X2 as [[Dm _] _]. congruence. }
  unfold bind at 1. unfold check_requirements.
  cbn [String.eqb Ascii.eqb Bool.eqb]. rewrite K, Lt.
  unfold bind at 1. unfold add_issue. unfold bind at 1. rewrite run_command_eq, D2.
  apply Z.eqb_neq in F. rewrite F. cbn [negb app]. unfold ret at 1. unfold ret at 1.
  cbn [fst snd negb].
  set (w3 := add_event _ w2).
  unfold bind at 1.
  quiet_step. rename w0 into w4. rename X into X4. cbn [for_each].
  unfold bind at 1.
  quiet_step. rename w0 into w5. rename X into X5.
  unfold ret at 1. unfold bind at 1. unfold ret at 1.
  rewrite U. cbn [negb]. unfold ret.
  exists w5. split; [reflexivity|].
  assert (P3 : procs (trace w3) = procs (trace w1) ++ [["modinfo"; "nouveau"]]).
  { unfold w3. cbn. rewrite procs_app, (extends_file_procs X2). reflexivity. }
  split.
  - now rewrite (extends_file_procs X5), (extends_file_procs X4).
  - destruct X2 as [[_ [_ [_ [_ [I2 [T2 _]]]]]] [B2 _]].
    destruct X4 as [[_ [_ [_ [_ [I4 [T4 _]]]]]] [B4 _]].
    destruct X5 as [[_ [_ [_ [_ [I5 [T5 _]]]]]] [B5 _]].
    unfold w3 in *. cbn in *. repeat split; congruence.
Qed.

End NvkGate.

(** ** How a thread ends *)

Lemma finished_codes_app t u : finished_codes (t ++ u) = finished_codes t ++ finished_codes u.
Proof.
  induction t as [|e t IH]; [reflexivity|]. destruct e; cbn; rewrite IH; reflexivity.
Qed.

Lemma restarts_asked_app t u : restarts_asked (t ++ u) = restarts_asked t + restarts_asked u.
Proof.
  induction t as [|e t IH]; [reflexivity|]. destruct e; cbn; rewrite IH; reflexivity.
Qed.

Lemma step_events_silent added :
  Forall step_event added -> finished_codes added = [] /\ restarts_asked added = 0.
Proof.
  induction 1 as [|e l He _ [IH1 IH2]]; [split; reflexivity|].
  destruct e; cbn in *; try contradiction; split; assumption.
Qed.

Lemma probe_is_step e : probe_event e -> step_event e.
Proof. destruct e; cbn; tauto. Qed.

Lemma file_is_step e : file_event e -> step_event e.
Proof. destruct e; cbn; tauto. Qed.

#[export] Instance appends_frame P : Frame (appends P).
Proof.
  split.
  - intros w. split; [reflexivity|]. split; [reflexivity|].
    exists []. split; [now rewrite app_nil_r|constructor].
  - intros x y z [H1 [B1 [a1 [T1 F1]]]] [H2 [B2 [a2 [T2 F2]]]].
    split; [congruence|]. split; [congruence|].
    exists (a1 ++ a2). split; [now rewrite T2, T1, app_assoc|].
    apply Forall_app. now split.
Qed.

Lemma extends_appends P w w' : extends P w w' -> appends P w w'.
Proof.
  intros [[_ [_ [_ [_ [_ [Th _]]]]]] [B X]]. split; [exact Th|]. split; assumption.
Qed.

Section Finishing.

Variable host : Env.Host.
Variable tid : nat.
Variable t : InstallationThread.
Variable w0 : World.
Hypothesis thread_there : nth_error (threads w0) tid = Some t.

Lemma ends_bind_framed A (m : M A) (k : A -> M unit) :
  framed (extends step_event) m -> (forall a, ends tid w0 (k a)) -> ends tid w0 (bind m k).
Proof.
  intros Fm Ek w X. unfold bind. specialize (Fm w).
  destruct (m w) as [[a|e] w1]; cbn [snd] in Fm.
  - apply Ek. eapply extends_trans; eauto.
  - cbn. eapply extends_trans; eauto.
Qed.

Lemma ends_bind_runs A (m : M A) (k : A -> M unit) :
  runs (extends step_event) m -> (forall a, ends tid w0 (k a)) -> ends tid w0 (bind m k).
Proof. intros Rm. apply ends_bind_framed. now apply framed_of_runs. Qed.

Lemma ends_if (b : bool) (m1 m2 : M unit) :
  ends tid w0 m1 -> ends tid w0 m2 -> ends tid w0 (if b then m1 else m2).
Proof. destruct b; auto. Qed.

Lemma slot_runs slot code w :
  exists w',
    run_finished_slot host slot code w = (Val tt, w')
    /\ appends step_event w w'
    /\ _install_thread w' = None
    /\ _sudo_password w' = None.
Proof.
  assert (L : forall msg, runs (appends step_event) (log host msg "SUCCESS")).
  { intros msg. eapply runs_weaken; [|apply (@runs_log_quiet host msg "SUCCESS");
                                       discriminate].
    intros x y X. apply extends_appends. eapply extends_weaken; [|exact X].
    apply file_is_step. }
  assert (Hs : forall ty ver,
             runs (appends step_event)
                  (if (code =? 0)%Z then append_install_history host ty ver true
                   else ret tt)).
  { intros ty ver. destruct (code =? 0)%Z; [|fr runs_ret].
    intros x. unfold append_install_history, bind, get_world.
    destruct (Env.can_write host _).
    - eexists tt, _. split; [reflexivity|]. cbn.
      split; [reflexivity|]. split; [reflexivity|].
      eexists. split; [reflexivity|]. repeat constructor.
    - exists tt, x. split; [reflexivity|]. apply frame_refl. }
  assert (H : runs (appends step_event)
                   (match slot with
                    | OnNvkFinished =>
                        (if (code =? 0)%Z then append_install_history host "nvk" "NVK" true
                         else ret tt) ;;;
                        log host (_tr "log_nvk_done" []) "SUCCESS"
                    | OnRepoFinished ver | OnRepoLatestFinished ver =>
                        (if (code =? 0)%Z then append_install_history host "repo" ver true
                         else ret tt) ;;;
                        log host (_tr "log_install_done_restart" []) "SUCCESS"
                    | OnRunFinished version =>
                        (if (code =? 0)%Z then append_install_history host "run" version true
                         else ret tt) ;;;
                        log host (_tr "log_prepare_done" []) "SUCCESS"
                    | OnFinished => ret tt
                    end)).
  { destruct slot; try (fr runs_bind; [apply Hs|intros; apply L]). fr runs_ret. }
  destruct (H w) as [[] [w1 [E [Th [B [added [T Fa]]]]]]].
  unfold run_finished_slot. unfold bind at 1. rewrite E.
  eexists. split; [reflexivity|]. cbn. split; [|split; reflexivity].
  split; [exact Th|]. split; [exact B|]. exists added. split; assumption.
Qed.

Lemma nth_error_replace (A : Type) (l : list A) : forall n x y,
  nth_error l n = Some y -> nth_error (replace_nth n x l) n = Some x.
Proof.
  induction l as [|a l IH]; intros [|n] x y; cbn; try discriminate; [reflexivity|].
  apply IH.
Qed.

Lemma replace_nth_twice (A : Type) (l : list A) : forall n x y,
  replace_nth n y (replace_nth n x l) = replace_nth n y l.
Proof.
  induction l as [|a l IH]; intros [|n] x y; cbn; try reflexivity. now rewrite IH.
Qed.

Lemma thread_kept w : extends step_event w0 w -> nth_error (threads w) tid = Some t.
Proof.
  intros [[_ [_ [_ [_ [_ [Th _]]]]]] _]. now rewrite Th.
Qed.

(** [finished.emit(code)] from a state reached by steps: the signal, then
    the slot. *)
Lemma finish_total code w :
  extends step_event w0 w ->
  exists w',
    emit_finished host tid code w = (Val tt, w')
    /\ finished_with tid w0 code false w'.
Proof.
  intros X. unfold emit_finished. unfold bind at 1. unfold get_thread.
  unfold bind at 1. unfold get_world at 1. rewrite (thread_kept X). unfold ret at 1.
  unfold bind at 1. unfold modify at 1.
  destruct (slot_runs (finished_slot t) code (add_event (EvFinished tid code) w))
    as [w' [E [[Th [B [a1 [T1 F1]]]] [I Pw]]]].
  rewrite E. exists w'. split; [reflexivity|].
  destruct X as [[_ [_ [_ [_ [_ [Th0 _]]]]]] [B0 [a0 [T0 F0]]]].
  exists (a0 ++ EvFinished tid code :: a1).
  destruct (step_events_silent F0) as [C0 R0]. destruct (step_events_silent F1) as [C1 R1].
  split; [rewrite T1; cbn; rewrite T0, <- !app_assoc; reflexivity|].
  split; [rewrite finished_codes_app; cbn; now rewrite C0, C1|].
  split; [rewrite restarts_asked_app; cbn; now rewrite R0, R1|].
  split; [cbn in Th; congruence|]. split; [exact I|]. split; [exact Pw|].
  cbn in B. congruence.
Qed.

Lemma ends_finish code : code = 0%Z \/ code = 1%Z -> ends tid w0 (emit_finished host tid code).
Proof.
  intros C w X. destruct (finish_total code X) as [w' [E F]]. rewrite E.
  exists code, false. split; [exact F|]. split; [exact C|discriminate].
Qed.

(** The last three steps of a strategy that went well: [restart_needed]
    is set, the restart asked for, the signal emitted. *)
Lemma restart_finish_total w :
  extends step_event w0 w ->
  exists w',
    (update_thread tid (with_restart_needed true) ;;;
     emit_ask_restart ;;; emit_finished host tid 0) w = (Val tt, w')
    /\ finished_with tid w0 0 true w'.
Proof.
  intros X. assert (K := thread_kept X).
  unfold update_thread. unfold bind at 1. unfold bind at 1. unfold get_thread.
  unfold bind at 1. unfold get_world at 1. rewrite K. unfold ret at 1.
  unfold modify at 1. unfold bind at 1. unfold emit_ask_restart, modify at 1.
  set (w2 := add_event EvAskRestart _).
  unfold emit_finished. unfold bind at 1. unfold get_thread.
  unfold bind at 1. unfold get_world at 1.
  assert (K2 : nth_error (threads w2) tid = Some (with_restart_needed true t)).
  { unfold w2. cbn. eapply nth_error_replace. exact K. }
  rewrite K2. unfold ret at 1. unfold bind at 1. unfold modify at 1.
  cbn [finished_slot with_restart_needed].
  destruct (slot_runs (finished_slot t) 0 (add_event (EvFinished tid 0) w2))
    as [w' [E [[Th [B [a1 [T1 F1]]]] [I Pw]]]].
  rewrite E. exists w'. split; [reflexivity|].
  destruct X as [[_ [_ [_ [_ [_ [Th0 _]]]]]] [B0 [a0 [T0 F0]]]].
  exists (a0 ++ EvAskRestart :: EvFinished tid 0 :: a1).
  destruct (step_events_silent F0) as [C0 R0]. destruct (step_events_silent F1) as [C1 R1].
  split; [rewrite T1; unfold w2; cbn; rewrite T0, <- !app_assoc; reflexivity|].
  split; [rewrite finished_codes_app; cbn; now rewrite C0, C1|].
  split; [rewrite restarts_asked_app; cbn; rewrite R0, R1; reflexivity|].
  split; [rewrite Th; unfold w2; cbn; rewrite thread_there, Th0; reflexivity|].
  split; [exact I|]. split; [exact Pw|]. rewrite B. unfold w2. cbn. exact B0.
Qed.

Lemma ends_restart_finish :
  ends tid w0 (update_thread tid (with_restart_needed true) ;;;
               emit_ask_restart ;;; emit_finished host tid 0).
Proof.
  intros w X. destruct (restart_finish_total X) as [w' [E F]]. rewrite E.
  exists 0%Z, true. split; [exact F|]. split; [now left|reflexivity].
Qed.

Let sx := fun e (H : probe_event e) => probe_is_step e H.

Lemma ends_log_then msg level (m : M unit) :
  ends tid w0 m -> ends tid w0 (log host msg level ;;; m).
Proof.
  intros E. apply ends_bind_runs; [apply (@sx_log host step_event sx)|]. intros _. exact E.
Qed.

Lemma ends_progress_then n (m : M unit) :
  ends tid w0 m -> ends tid w0 (emit_progress n ;;; m).
Proof.
  intros E. apply ends_bind_runs; [|intros _; exact E].
  unfold emit_progress. apply runs_event. exact I.
Qed.

Lemma ends_install_uninstall : ends tid w0 (install_uninstall host tid).
Proof.
  unfold install_uninstall.
  apply ends_bind_framed.
  { unfold get_thread. f_bind as w1; [f_runs; r_world|].
    destruct (nth_error (threads w1) tid); [f_runs; r_ret|fr framed_raise]. }
  intros self. apply ends_bind_runs; [r_world|]. intros w1. apply ends_if.
  { apply ends_log_then. apply ends_finish. now left. }
  apply ends_log_then, ends_progress_then, ends_log_then.
  apply ends_bind_runs; [apply (@sx_clean_nvidia_artifacts host step_event sx)|]. intros _.
  apply ends_bind_framed; [apply (@sx_purge_nvidia_packages host step_event sx)|]. intros _.
  apply ends_bind_framed; [apply (@sx_remove_dkms_modules host step_event sx)|]. intros _.
  apply ends_bind_runs; [apply (@sx_remove_nvidia_configs host step_event sx)|]. intros _.
  apply ends_bind_runs; [apply (@sx_remove_nvidia_libraries host step_event sx)|]. intros _.
  apply ends_progress_then.
  apply ends_bind_runs; [apply (@sx_verify_nvidia_removal host step_event sx)|]. intros ok.
  apply ends_bind_runs.
  { r_if; [apply (@sx_log host step_event sx)|r_ret]. }
  intros _. apply ends_log_then.
  apply ends_bind_framed; [apply (@sx_configure_nouveau_for_nvk host step_event sx)|].
  intros _.
  apply ends_bind_runs; [apply (@sx_rebuild_initramfs host step_event sx)|]. intros _.
  apply ends_progress_then, ends_log_then. apply ends_restart_finish.
Qed.

Lemma ends_install_upgrade_repo : ends tid w0 (install_upgrade_repo host tid).
Proof.
  unfold install_upgrade_repo.
  apply ends_bind_framed.
  { unfold get_thread. f_bind as w1; [f_runs; r_world|].
    destruct (nth_error (threads w1) tid); [f_runs; r_ret|fr framed_raise]. }
  intros self. apply ends_bind_runs; [r_world|]. intros w1. apply ends_if.
  { apply ends_log_then. apply ends_finish. now left. }
  apply ends_bind_framed;
    [apply (@sx_get_installed_nvidia_driver_package host step_event sx)|].
  assert (None_case : ends tid w0 (log host (_tr "log_no_driver_repo" []) "WARN" ;;;
                            emit_finished host tid 0)).
  { apply ends_log_then, ends_finish. now left. }
  intros [pkg|]; [|exact None_case].
  apply ends_if; [exact None_case|].
  apply ends_log_then, ends_progress_then.
  apply ends_bind_runs; [apply (@sx_ensure_network host step_event sx)|]. intros _.
  apply ends_bind_runs; [r_world|]. intros w2.
  assert (Up : forall r : Z * string,
             ends tid w0 (if (fst r =? 0)%Z then
                     emit_progress 100 ;;;
                     log host (_tr "log_driver_updated" [pkg]) "SUCCESS" ;;;
                     update_thread tid (with_restart_needed true) ;;;
                     emit_ask_restart ;;; emit_finished host tid 0
                   else log host (_tr "log_update_failed" []) "ERROR" ;;;
                        emit_finished host tid 1)).
  { intros r. apply ends_if.
    - apply ends_progress_then, ends_log_then, ends_restart_finish.
    - apply ends_log_then, ends_finish. now right. }
  apply ends_if.
  - apply ends_bind_runs; [apply (@sx_get_dnf_cmd host step_event sx)|]. intros dnf.
    apply ends_bind_runs; [apply (@sx_run_cmd host step_event sx)|]. intros r. apply Up.
  - apply ends_bind_runs; [apply (@sx_run_cmd host step_event sx)|]. intros r.
    apply ends_if.
    + apply ends_log_then, ends_finish. now right.
    + apply ends_bind_runs; [apply (@sx_run_cmd host step_event sx)|]. intros r2. apply Up.
Qed.

(** The [except] branch of [run], from a state reached by steps: the
    error is logged, a report attempted, and the thread ends with code 1. *)
Lemma rescue_total (e : exn) w :
  extends step_event w0 w ->
  exists w',
    (log host (_tr "log_error_exception" [str_of_exn e]) "ERROR" ;;;
     try_except
       (collect_error_report host ;;;
        saved <- save_error_report host ;;
        match saved with
        | Some error_file => log host (_tr "log_error_report_saved" [error_file]) "INFO"
        | None => ret tt
        end)
       (fun _ => ret tt) ;;;
     emit_finished host tid 1) w = (Val tt, w')
    /\ finished_with tid w0 1 false w'.
Proof.
  intros B.
  match goal with
  | |- context [bind (log host ?msg ?level) ?k ?w] =>
      destruct (@bind_step (extends step_event) _ _ (log host msg level) k w
                  (@sx_log host step_event sx _ _)) as [u [w2 [X2 E2]]]
  end.
  rewrite E2. clear E2.
  match goal with
  | |- context [bind (try_except ?m ?h) ?k ?w] =>
      destruct (@bind_step (extends step_event) _ _ (try_except m h) k w)
        as [u3 [w3 [X3 E3]]]
  end.
  { fr runs_try; [apply (@sx_error_report host step_event sx)|]. intros e'. r_ret. }
  rewrite E3. clear E3.
  assert (X : extends step_event w0 w3).
  { eapply extends_trans; [exact B|]. eapply extends_trans; eauto. }
  destruct (finish_total 1 X) as [w' [E F]]. rewrite E.
  exists w'. split; [reflexivity|exact F].
Qed.

(** [run] for the strategies modelled here: it never raises, and it ends
    the thread. *)
Lemma thread_run_ends :
  ~ In (install_type t) ["nvk"; "repo"; "run"] ->
  exists w' code restart,
    thread_run host tid w0 = (Val tt, w')
    /\ finished_with tid w0 code restart w'
    /\ (code = 0%Z \/ code = 1%Z)
    /\ (restart = true -> code = 0%Z).
Proof.
  intros N.
  assert (N1 : String.eqb (install_type t) "nvk" = false).
  { apply String.eqb_neq. intros H. apply N. rewrite H. cbn. tauto. }
  assert (N2 : String.eqb (install_type t) "repo" = false).
  { apply String.eqb_neq. intros H. apply N. rewrite H. cbn. tauto. }
  assert (N3 : String.eqb (install_type t) "run" = false).
  { apply String.eqb_neq. intros H. apply N. rewrite H. cbn. tauto. }
  unfold thread_run. unfold bind at 1. unfold get_thread.
  unfold bind at 1. unfold get_world at 1. rewrite thread_there. unfold ret at 1.
  rewrite N1, N2, N3.
  assert (B : ends tid w0 (if String.eqb (install_type t) "uninstall"
                    then install_uninstall host tid
                    else if String.eqb (install_type t) "upgrade_repo"
                         then install_upgrade_repo host tid
                         else log host (_tr "log_unknown_install" []) "ERROR" ;;;
                              emit_finished host tid 1)).
  { apply ends_if; [apply ends_install_uninstall|].
    apply ends_if; [apply ends_install_upgrade_repo|].
    apply ends_log_then, ends_finish. now right. }
  set (body := if String.eqb (install_type t) "uninstall"
               then install_uninstall host tid
               else if String.eqb (install_type t) "upgrade_repo"
                    then install_upgrade_repo host tid
                    else log host (_tr "log_unknown_install" []) "ERROR" ;;;
                         emit_finished host tid 1) in *.
  specialize (B w0 (extends_refl _ _)). unfold try_except at 1.
  destruct (body w0) as [[[]|e] w1].
  - destruct B as [code [restart [F [C R]]]]. exists w1, code, restart. repeat split; assumption.
  - cbn in B. cbv beta.
    destruct (rescue_total e B) as [w' [E F]]. rewrite E.
    exists w', 1%Z, false. split; [reflexivity|]. split; [exact F|].
    split; [now right|discriminate].
Qed.

End Finishing.

Section ThreadEnds.

Variable host : Env.Host.

(** X19. A thread of the Uninstall or the repository-upgrade strategy (or
    of an unknown type) always ends in order. Its run never raises; it
    emits the [finished] signal exactly once, with code 0 or 1; a restart
    is asked for at most once, and only when the code is 0, which is also
    the only case in which [restart_needed] is set; afterwards the thread
    is no longer running, the window holds no thread in flight and no
    cached password, no other thread was touched and nothing was written
    to the backup directory. *)
Theorem thread_always_finishes (w : World) (tid : nat) (t : InstallationThread) :
  nth_error (threads w) tid = Some t ->
  ~ In (install_type t) ["nvk"; "repo"; "run"] ->
  exists w' code (restart : bool) added,
    thread_body host tid w = (Val tt, w')
    /\ trace w' = trace w ++ added
    /\ finished_codes added = [(tid, code)]
    /\ (code = 0%Z \/ code = 1%Z)
    /\ restarts_asked added = (if restart then 1 else 0)
    /\ (restart = true -> code = 0%Z)
    /\ threads w'
       = replace_nth tid
           (with_running false (if restart then with_restart_needed true t else t))
           (threads w)
    /\ in_flight w' = false
    /\ _sudo_password w' = None
    /\ backup_dir w' = backup_dir w.
Proof.
  intros Ht N.
  destruct (@thread_run_ends host tid t w Ht N) as [w1 [code [restart [E [F [C R]]]]]].
  destruct F as [added [T [Fc [Ra [Th [I [Pw B]]]]]]].
  rewrite Ht in Th.
  set (t1 := if restart then with_restart_needed true t else t).
  assert (K1 : nth_error (threads w1) tid = Some t1).
  { rewrite Th. unfold t1. destruct restart; [|exact Ht].
    eapply nth_error_replace. exact Ht. }
  unfold thread_body. unfold bind at 1. rewrite E.
  unfold update_thread. unfold bind at 1. unfold get_thread.
  unfold bind at 1. unfold get_world at 1. rewrite K1. unfold ret at 1. unfold modify.
  eexists. exists code, restart, added. split; [reflexivity|]. cbn.
  split; [exact T|]. split; [exact Fc|]. split; [exact C|]. split; [exact Ra|].
  split; [exact R|]. split.
  - rewrite Th. unfold t1. destruct restart; [|reflexivity]. apply replace_nth_twice.
  - split; [unfold in_flight; cbn; now rewrite I|]. split; assumption.
Qed.

(** X20. Missing build dependencies stop a repository or vendor-installer
    thread before its strategy is entered. When [_ensure_dependencies]
    answers no, [run] emits [finished] with code 1 and returns: no restart
    is asked for, [restart_needed] stays as it was, and the strategy's
    body is not run. *)
Theorem failed_dependencies_end_the_thread (w w1 : World) (tid : nat)
        (t : InstallationThread) :
  nth_error (threads w) tid = Some t ->
  In (install_type t) ["repo"; "run"] ->
  _ensure_dependencies host t w = (Val false, w1) ->
  exists w',
    thread_run host tid w = (Val tt, w')
    /\ finished_with tid w 1 false w'.
Proof.
  intros Ht I E.
  assert (X : extends step_event w w1).
  { destruct (@sx_ensure_dependencies host step_event probe_is_step t w)
      as [b [w1' [E' X]]]. rewrite E in E'. inversion E'; subst. exact X. }
  destruct (@finish_total host tid t w Ht 1 w1 X) as [w' [Ef F]].
  exists w'. split; [|exact F].
  unfold thread_run. unfold bind at 1. unfold get_thread.
  unfold bind at 1. unfold get_world at 1. rewrite Ht. unfold ret at 1.
  unfold try_except at 1.
  cbn in I. destruct I as [<-|[<-|[]]]; cbn [String.eqb Ascii.eqb Bool.eqb];
    unfold bind at 1; rewrite E; cbn [negb]; rewrite Ef; reflexivity.
Qed.

End ThreadEnds.

(** ** The requests and the threads on the sample hosts *)

Lemma demo_mode_requests_do_nothing_witness :
  exists w',
    uninstall_nvidia_only (sample_host no_programs) demo_world = (Val tt, w')
    /\ procs (trace w') = procs (trace demo_world)
    /\ threads w' = threads demo_world
    /\ _install_thread w' = _install_thread demo_world
    /\ _sudo_password w' = _sudo_password demo_world
    /\ backup_dir w' = backup_dir demo_world.
Proof.
  apply (@demo_mode_requests_do_nothing (sample_host no_programs) demo_world "production"
           (uninstall_nvidia_only (sample_host no_programs)) eq_refl).
  cbn. tauto.
Defined.

Lemma upgrade_without_driver_package_witness :
  let host := sample_host no_programs in
  let w := sample_world "ubuntu" in
  exists w',
    upgrade_repo_driver host w = (Val tt, w')
    /\ procs (trace w') = procs (trace w) ++ [["dpkg"; "-l"]]
    /\ threads w' = threads w
    /\ _install_thread w' = _install_thread w.
Proof.
  intros host w.
  apply (@upgrade_without_driver_package host w eq_refl). left. reflexivity.
Defined.

Lemma snapshot_precedes_thread_start_witness :
  let host := sample_host proprietary_host_exec in
  let w := sample_world "ubuntu" in
  exists w' before,
    install_repo host w = (Val tt, w')
    /\ trace w' = before ++ [EvThreadStart 0]
    /\ backups_written before = [backup_name sample_time].
Proof.
  intros host w.
  apply (@snapshot_precedes_thread_start host w (snd (check_sudo host w))
           ["libnvidia-gl-550:amd64"; "nvidia-driver-550"] "production"
           (install_repo host)).
  - reflexivity.
  - vm_compute. reflexivity.
  - reflexivity.
  - reflexivity.
  - vm_compute. reflexivity.
  - reflexivity.
  - cbn. tauto.
Defined.

Lemma nvk_requirements_gate_witness :
  let w := sample_world "ubuntu" in
  let w1 := snd (check_sudo declining_host w) in
  exists w',
    install_nvk declining_host w = (Val tt, w')
    /\ procs (trace w') = procs (trace w1) ++ [["modinfo"; "nouveau"]]
    /\ threads w' = threads w1
    /\ _install_thread w' = _install_thread w1
    /\ backup_dir w' = backup_dir w1.
Proof.
  intros w w1.
  apply (@nvk_requirements_gate declining_host w w1 6%Z).
  - reflexivity.
  - vm_compute. reflexivity.
  - reflexivity.
  - vm_compute. reflexivity.
  - lia.
  - vm_compute. discriminate.
  - reflexivity.
Defined.

Lemma thread_always_finishes_witness :
  let w := snd (uninstall_nvidia_only proprietary_host (sample_world "ubuntu")) in
  exists w' code (restart : bool) added,
    thread_body proprietary_host 0 w = (Val tt, w')
    /\ trace w' = trace w ++ added
    /\ finished_codes added = [(0, code)]
    /\ (code = 0%Z \/ code = 1%Z)
    /\ restarts_asked added = (if restart then 1 else 0)
    /\ (restart = true -> code = 0%Z)
    /\ threads w'
       = replace_nth 0
           (with_running false
              (if restart
               then with_restart_needed true
                      (mkThread "uninstall" [("sudo_password", JNull)] false true OnFinished)
               else mkThread "uninstall" [("sudo_password", JNull)] false true OnFinished))
           (threads w)
    /\ in_flight w' = false
    /\ _sudo_password w' = None
    /\ backup_dir w' = backup_dir w.
Proof.
  intros w.
  apply (@thread_always_finishes proprietary_host w 0
           (mkThread "uninstall" [("sudo_password", JNull)] false true OnFinished)).
  - vm_compute. reflexivity.
  - cbn. intros [H|[H|[H|[]]]]; discriminate H.
Defined.

Lemma failed_dependencies_end_the_thread_witness :
  let host := sample_host every_command_fails in
  exists w',
    thread_run host 0 busy_world = (Val tt, w')
    /\ finished_with 0 busy_world 1 false w'.
Proof.
  intros host.
  apply (@failed_dependencies_end_the_thread host busy_world
           (snd (_ensure_dependencies host
                   (mkThread "repo" [("version", JStr "580.95.05"); ("sudo_password", JNull)]
                             false true (OnRepoFinished "580.95.05")) busy_world))
           0
           (mkThread "repo" [("version", JStr "580.95.05"); ("sudo_password", JNull)]
                     false true (OnRepoFinished "580.95.05"))).
  - reflexivity.
  - cbn. tauto.
  - vm_compute. reflexivity.
Defined.

(** ** What the thread reports, as a function of the host's answers *)

Lemma command_result_no_sudo host demo cmd t pw :
  command_result host demo cmd false t pw = command_result host demo cmd false t None.
Proof. unfold command_result, invocation_of. destruct pw; reflexivity. Qed.

Lemma run_cmd_code_plain r : (run_cmd_code r false None =? 0)%Z = (rc_of r =? 0)%Z.
Proof.
  unfold run_cmd_code. cbn [andb]. destruct (rc_of r =? 0)%Z eqn:E; [exact E|exact E].
Qed.

Section Outcomes.

Variable host : Env.Host.

(** [run_cmd] never raises; its value is read off the host's answer. *)
Lemma run_cmd_value self cmd sudo t u s w :
  exists w',
    run_cmd host self cmd sudo t u s w
    = (Val (run_cmd_code (command_result host (demo_mode (system w)) cmd sudo t
                                         (param_sudo_password self)) u s,
            out_of (command_result host (demo_mode (system w)) cmd sudo t
                                   (param_sudo_password self))), w')
    /\ extends probe_event w w'.
Proof.
  unfold run_cmd. unfold bind at 1. rewrite run_command_eq.
  set (r := command_result _ _ _ _ _ _).
  set (w1 := if demo_mode (system w) then w else _).
  assert (X1 : extends probe_event w w1).
  { unfold w1. destruct (demo_mode (system w)); [apply extends_refl|].
    apply extends_event. exact I. }
  unfold run_cmd_code. cbv zeta.
  destruct (rc_of r =? 0)%Z; [exists w1; split; [reflexivity|exact X1]|].
  destruct (u && _); [exists w1; split; [reflexivity|exact X1]|].
  destruct (match s with Some _ => _ | None => _ end);
    [exists w1; split; [reflexivity|exact X1]|].
  probe_step (@sx_log host probe_event probe_refl
                      (_tr "log_error_code" [PyStr.str_of_Z (rc_of r)]) "ERROR").
  match goal with
  | |- context [bind ?m ?k ?w] =>
      destruct (@bind_step (extends probe_event) _ _ m k w) as [a1 [w3 [X3 E3]]]
  end.
  { r_if; [|r_ret]. fr runs_for_each. intros line.
    r_if; [apply (@sx_log host probe_event probe_refl)|r_ret]. }
  rewrite E3. exists w3. split; [reflexivity|]. chain.
Qed.

(** A step whose value is known. *)
Lemma ends_with_bind_val tid w0 code restart A (m : M A) (k : A -> M unit) (a : A) :
  (forall w, extends step_event w0 w ->
             exists w', m w = (Val a, w') /\ extends step_event w w') ->
  ends_with tid w0 code restart (k a) ->
  ends_with tid w0 code restart (bind m k).
Proof.
  intros Hm Hk w X. destruct (Hm w X) as [w1 [E X1]]. unfold bind. rewrite E.
  apply Hk. eapply extends_trans; eauto.
Qed.

Lemma ends_with_bind_runs tid w0 code restart A (m : M A) (k : A -> M unit) :
  runs (extends step_event) m ->
  (forall a, ends_with tid w0 code restart (k a)) ->
  ends_with tid w0 code restart (bind m k).
Proof.
  intros Hm Hk w X. destruct (Hm w) as [a [w1 [E X1]]]. unfold bind. rewrite E.
  apply Hk. eapply extends_trans; eauto.
Qed.

Lemma extends_demo P w w' : extends P w w' -> demo_mode (system w') = demo_mode (system w).
Proof. intros [[D _] _]. exact D. Qed.

Lemma extends_family P w w' :
  extends P w w' -> distro_family (system w') = distro_family (system w).
Proof. intros [[_ [F _]] _]. exact F. Qed.

Lemma probes_step w w' : extends probe_event w w' -> extends step_event w w'.
Proof. apply extends_weaken. exact probe_is_step. Qed.

End Outcomes.

Section Dependencies.

Variable host : Env.Host.

(** X21. Off the Fedora family the answer of [_ensure_dependencies] hinges
    on [apt-get install] alone. It never raises; with nothing missing it
    answers yes at once; otherwise it answers yes exactly when
    [apt-get install -y] of the missing packages exits with code 0,
    whatever [apt-get update] returned before it. On its way it starts
    child processes and writes log files, nothing else. *)
Theorem dependencies_hinge_on_the_install (w : World) (self : InstallationThread)
        (missing : list string) :
  String.eqb (distro_family (system w)) "fedora" = false ->
  fst (get_missing_dependency_packages host (install_type self) w) = Val missing ->
  exists w',
    _ensure_dependencies host self w
    = (Val (match missing with
            | [] => true
            | _ => sudo_succeeds host (demo_mode (system w)) self
                                 (["apt-get"; "install"; "-y"] ++ missing)
            end), w')
    /\ extends probe_event w w'.
Proof.
  intros F H.
  destruct (@sx_get_missing_dependency_packages host probe_event probe_refl
              (install_type self) w) as [a [w1 [E X1]]].
  rewrite E in H. cbn in H. inversion H; subst a. clear H.
  unfold _ensure_dependencies. unfold bind at 1. rewrite E.
  destruct missing as [|m ms]; [exists w1; split; [reflexivity|exact X1]|].
  probe_step (@sx_log host probe_event probe_refl
                (_tr "log_installing_deps" [PyStr.join ", " (m :: ms)]) "INFO").
  unfold bind at 1. unfold get_world at 1.
  assert (X2 : extends probe_event w w0) by chain.
  rewrite (extends_family X2), F.
  unfold bind at 1. unfold bind at 1.
  destruct (run_cmd_value host self ["apt-get"; "update"; "-y"] true 300 false None w0)
    as [w3 [E3 X3]].
  rewrite E3. clear E3.
  match goal with
  | |- context [bind ?m ?k ?w] =>
      destruct (@bind_step (extends probe_event) _ _ m k w) as [a1 [w4 [X4 E4]]]
  end.
  { r_if; [apply (@sx_log host probe_event probe_refl)|r_ret]. }
  rewrite E4. clear E4.
  assert (X6 : extends probe_event w w4) by chain.
  destruct (run_cmd_value host self (["apt-get"; "install"; "-y"] ++ m :: ms)
                          true 300 false None w4) as [w5 [E5 X5]].
  rewrite E5. clear E5. cbn [fst].
  rewrite run_cmd_code_plain, (extends_demo X6).
  unfold sudo_succeeds.
  destruct (rc_of _ =? 0)%Z; cbn [negb].
  - probe_step (@sx_log host probe_event probe_refl
                        (_tr "log_deps_installed" []) "SUCCESS").
    exists w2. split; [reflexivity|]. chain.
  - probe_step (@sx_log host probe_event probe_refl
                        (_tr "log_install_deps_failed" []) "ERROR").
    exists w2. split; [reflexivity|]. chain.
Qed.

End Dependencies.

(** ** Strategies that go through, step by step *)

Tactic Notation "step_by" constr(lem) "as" ident(w1) ident(X) :=
  match goal with
  | |- context [bind ?m ?k ?w] =>
      let a := fresh "a" in
      let E := fresh "E" in
      destruct (@bind_step (extends step_event) _ _ m k w lem) as [a [w1 [X E]]];
      rewrite E; clear E
  end.

Section Through.

Variable host : Env.Host.

Let sq := fun e (H : probe_event e) => probe_is_step e H.

Lemma purge_nvidia_packages_runs self pkgs w :
  demo_mode (system w) = false ->
  installed_packages_outside_demo host (distro_family (system w)) = Val pkgs ->
  exists w', purge_nvidia_packages host self w = (Val tt, w') /\ extends step_event w w'.
Proof.
  intros D H. unfold purge_nvidia_packages. unfold bind at 1. unfold get_world at 1.
  destruct (String.eqb (distro_family (system w)) "fedora") eqn:F.
  - unfold bind at 1. rewrite (@get_installed_nvidia_packages_eq host w D), H.
    set (w1 := add_event _ w).
    assert (X1 : extends step_event w w1) by (apply extends_event; exact I).
    destruct pkgs as [|p ps]; [exists w1; split; [reflexivity|exact X1]|].
    step_by (@sx_get_dnf_cmd host step_event sq) as v1 V1.
    destruct (@sx_sudo_cmd host step_event sq self ([a; "remove"; "-y"] ++ p :: ps) v1)
      as [[] [w2 [E2 X2]]].
    rewrite E2. exists w2. split; [reflexivity|]. chain.
  - destruct (run_cmd_value host self ["dpkg"; "-l"] false 300 false None w)
      as [w1 [E1 X1]].
    apply probes_step in X1.
    unfold bind at 1. rewrite E1. clear E1. cbn [fst snd].
    rewrite run_cmd_code_plain, D, command_result_no_sudo.
    unfold installed_packages_outside_demo, packages_query in H. rewrite F in H.
    destruct (rc_of _ =? 0)%Z; cbn [negb] in H;
      [|exists w1; split; [reflexivity|exact X1]].
    unfold bind at 1, lift at 1. rewrite H.
    destruct pkgs as [|p ps]; [exists w1; split; [reflexivity|exact X1]|].
    step_by (@sx_sudo_cmd host step_event sq self
               (["apt-get"; "remove"; "--purge"; "-y"] ++ p :: ps)) as v1 V1.
    destruct (@sx_sudo_cmd host step_event sq self
                ["apt-get"; "autoremove"; "--purge"; "-y"] v1) as [[] [w2 [E2 X2]]].
    rewrite E2. exists w2. split; [reflexivity|]. chain.
Qed.

Lemma remove_dkms_modules_runs self :
  runs (extends step_event) (remove_dkms_modules host self).
Proof.
  unfold remove_dkms_modules. r_bind as w; [r_world|]. r_if.
  - r_bind; apply (@sx_sudo_cmd host step_event sq).
  - r_bind as r; [apply (@sx_run_cmd host step_event sq)|].
    r_bind; [|r_bind; [apply (@sx_sudo_cmd host step_event sq)|];
              r_bind; apply (@sx_sudo_cmd host step_event sq)].
    r_if; [|r_ret]. fr runs_for_each. intros line. r_if; [|r_ret].
    assert (N := @split_by_nonempty (Ascii.eqb ",") line).
    destruct (PyStr.split_by (Ascii.eqb ",") line) as [|first rest] eqn:S;
      [contradiction|].
    r_bind as entry; [eapply runs_lift; try exact _; unfold py_nth, PyStr.split;
                      rewrite S; reflexivity|].
    r_if; [|r_ret]. r_bind; [apply (@sx_run_cmd host step_event sq)|r_ret].
Qed.

Lemma configure_nouveau_for_nvk_runs self :
  Env.can_write host NOUVEAU_TMP_FILE = true ->
  Env.can_unlink host NOUVEAU_TMP_FILE = true ->
  runs (extends step_event) (configure_nouveau_for_nvk host self).
Proof.
  intros Wr Un. unfold configure_nouveau_for_nvk.
  r_bind; [apply (@sx_sudo_cmd host step_event sq)|].
  r_bind; [unfold write_file; unfold NOUVEAU_TMP_FILE in Wr; rewrite Wr;
           apply runs_event; exact I|].
  r_bind; [apply (@sx_sudo_cmd host step_event sq)|].
  r_bind; [unfold unlink_file; unfold NOUVEAU_TMP_FILE in Un; rewrite Un;
           apply runs_event; exact I|].
  r_bind.
  { r_if; [|r_ret]. r_bind; [apply (@sx_run_command host step_event sq)|].
    r_if; [apply (@sx_sudo_cmd host step_event sq)|r_ret]. }
  r_bind; [r_world|]. r_if; [apply (@sx_rebuild_initramfs host step_event sq)|r_ret].
Qed.

Lemma purge_nvidia_packages_raises self e w :
  demo_mode (system w) = false ->
  installed_packages_outside_demo host (distro_family (system w)) = Raise e ->
  exists w', purge_nvidia_packages host self w = (Raise e, w') /\ extends step_event w w'.
Proof.
  intros D H. unfold purge_nvidia_packages. unfold bind at 1. unfold get_world at 1.
  unfold installed_packages_outside_demo, packages_query in H.
  destruct (String.eqb (distro_family (system w)) "fedora") eqn:F.
  { destruct (negb _) in H; discriminate H. }
  destruct (run_cmd_value host self ["dpkg"; "-l"] false 300 false None w)
    as [w1 [E1 X1]].
  apply probes_step in X1.
  unfold bind at 1. rewrite E1. clear E1. cbn [fst snd].
  rewrite run_cmd_code_plain, D, command_result_no_sudo.
  destruct (rc_of _ =? 0)%Z; cbn [negb] in H; [|discriminate H].
  unfold bind at 1, lift at 1. rewrite H. exists w1. split; [reflexivity|exact X1].
Qed.

Lemma configure_nouveau_for_nvk_raises self w :
  Env.can_write host NOUVEAU_TMP_FILE = false
  \/ Env.can_unlink host NOUVEAU_TMP_FILE = false ->
  exists e w',
    configure_nouveau_for_nvk host self w = (Raise e, w') /\ extends step_event w w'.
Proof.
  intros H. unfold configure_nouveau_for_nvk. unfold NOUVEAU_TMP_FILE in H.
  step_by (@sx_sudo_cmd host step_event sq self
             ["rm"; "-f"; "/etc/modprobe.d/blacklist-nouveau.conf"]) as v1 V1.
  cbv zeta. unfold bind at 1. unfold write_file at 1.
  destruct (Env.can_write host "/tmp/nouveau_conf.txt") eqn:Wr.
  - destruct H as [H|Un]; [discriminate H|].
    unfold modify at 1. cbv beta iota.
    set (v2 := add_event _ v1).
    assert (V2 : extends step_event v1 v2) by (apply extends_event; exact I).
    step_by (@sx_sudo_cmd host step_event sq self
               ["cp"; "/tmp/nouveau_conf.txt"; "/etc/modprobe.d/nouveau.conf"]) as v3 V3.
    unfold bind at 1. unfold unlink_file at 1. rewrite Un. unfold raise at 1.
    eexists _, v3. split; [reflexivity|]. chain.
  - unfold raise at 1. eexists _, v1. split; [reflexivity|exact V1].
Qed.

End Through.

Section Reports.

Variable host : Env.Host.

Let sq := fun e (H : probe_event e) => probe_is_step e H.

(** The Uninstall strategy either goes through and ends with code 0, or
    raises at one of three places: the package list, the temporary file
    written, the temporary file deleted. *)
Lemma install_uninstall_outcome (w : World) (tid : nat) (t : InstallationThread) :
  nth_error (threads w) tid = Some t ->
  demo_mode (system w) = false ->
  exists r w',
    install_uninstall host tid w = (r, w')
    /\ ((r = Val tt
         /\ finished_with tid w 0 true w'
         /\ (exists pkgs,
                installed_packages_outside_demo host (distro_family (system w))
                = Val pkgs)
         /\ Env.can_write host NOUVEAU_TMP_FILE = true
         /\ Env.can_unlink host NOUVEAU_TMP_FILE = true)
        \/ ((exists e, r = Raise e)
            /\ extends step_event w w'
            /\ ((exists e', installed_packages_outside_demo host
                              (distro_family (system w)) = Raise e')
                \/ Env.can_write host NOUVEAU_TMP_FILE = false
                \/ Env.can_unlink host NOUVEAU_TMP_FILE = false))).
Proof.
  intros Ht D.
  unfold install_uninstall. unfold bind at 1. unfold get_thread.
  unfold bind at 1. unfold get_world at 1. rewrite Ht. unfold ret at 1.
  unfold bind at 1. unfold get_world at 1. rewrite D.
  step_by (@sx_log host step_event sq (_tr "log_remove_nvidia_header" []) "INFO") as v1 V1.
  step_by (@runs_event step_event (EvProgress 15) I) as v2 V2.
  step_by (@sx_log host step_event sq (_tr "log_cleaning_nvidia" []) "INFO") as v3 V3.
  step_by (@sx_clean_nvidia_artifacts host step_event sq t) as v4 V4.
  assert (X3 : extends step_event w v4) by chain.
  destruct (installed_packages_outside_demo host (distro_family (system w)))
    as [pkgs|e] eqn:Hp.
  2:{ destruct (@purge_nvidia_packages_raises host t e v4) as [w4 [E4 X4]];
        [now rewrite (extends_demo X3)|now rewrite (extends_family X3), Hp|].
      unfold bind at 1. rewrite E4. eexists _, w4. split; [reflexivity|]. right.
      split; [now exists e|]. split; [chain|]. left. now exists e. }
  destruct (@purge_nvidia_packages_runs host t pkgs v4) as [w4 [E4 X4]];
    [now rewrite (extends_demo X3)|now rewrite (extends_family X3), Hp|].
  unfold bind at 1. rewrite E4. clear E4.
  step_by (@remove_dkms_modules_runs host t) as v5 V5.
  step_by (@sx_remove_nvidia_configs host step_event sq t) as v6 V6.
  step_by (@sx_remove_nvidia_libraries host step_event sq t) as v7 V7.
  step_by (@runs_event step_event (EvProgress 50) I) as v8 V8.
  step_by (@sx_verify_nvidia_removal host step_event sq t) as v9 V9.
  match goal with
  | |- context [bind ?m ?k ?w] =>
      destruct (@bind_step (extends step_event) _ _ m k w) as [u [w10 [X10 E10]]]
  end.
  { r_if; [apply (@sx_log host step_event sq)|r_ret]. }
  rewrite E10. clear E10.
  step_by (@sx_log host step_event sq (_tr "log_config_nouveau" []) "INFO") as v10 V10.
  destruct (Env.can_write host NOUVEAU_TMP_FILE) eqn:Wr;
    [destruct (Env.can_unlink host NOUVEAU_TMP_FILE) eqn:Un|].
  - step_by (@configure_nouveau_for_nvk_runs host t Wr Un) as v11 V11.
    step_by (@sx_rebuild_initramfs host step_event sq t) as v12 V12.
    step_by (@runs_event step_event (EvProgress 100) I) as v13 V13.
    step_by (@sx_log host step_event sq (_tr "log_nvidia_removed" []) "SUCCESS")
      as v14 V14.
    assert (X : extends step_event w v14) by chain.
    destruct (@restart_finish_total host tid t w Ht v14 X) as [w' [E F]].
    rewrite E. exists (Val tt), w'. split; [reflexivity|]. left.
    split; [reflexivity|]. split; [exact F|].
    split; [now exists pkgs|]. split; reflexivity.
  - destruct (@configure_nouveau_for_nvk_raises host t v10 (or_intror Un))
      as [e [w11 [E11 X11]]].
    unfold bind at 1. rewrite E11. eexists _, w11. split; [reflexivity|]. right.
    split; [now exists e|]. split; [chain|]. right. right. reflexivity.
  - destruct (@configure_nouveau_for_nvk_raises host t v10 (or_introl Wr))
      as [e [w11 [E11 X11]]].
    unfold bind at 1. rewrite E11. eexists _, w11. split; [reflexivity|]. right.
    split; [now exists e|]. split; [chain|]. right. left. reflexivity.
Qed.

(** X22. The Uninstall strategy reports success whatever its commands
    return. Outside demo mode, when the package list can be read and the
    temporary file of the nouveau configuration can be written and
    deleted, a thread of type uninstall never raises and ends with code 0:
    [restart_needed] is set and a restart is asked for, on any host, also
    one on which every command fails. *)
Theorem uninstall_reports_success (w : World) (tid : nat) (t : InstallationThread)
        (pkgs : list string) :
  nth_error (threads w) tid = Some t ->
  install_type t = "uninstall" ->
  demo_mode (system w) = false ->
  installed_packages_outside_demo host (distro_family (system w)) = Val pkgs ->
  Env.can_write host NOUVEAU_TMP_FILE = true ->
  Env.can_unlink host NOUVEAU_TMP_FILE = true ->
  exists w',
    thread_run host tid w = (Val tt, w')
    /\ finished_with tid w 0 true w'.
Proof.
  intros Ht Ty D Hp Wr Un.
  unfold thread_run. unfold bind at 1. unfold get_thread.
  unfold bind at 1. unfold get_world at 1. rewrite Ht. unfold ret at 1.
  rewrite Ty. cbn [String.eqb Ascii.eqb Bool.eqb]. unfold try_except at 1.
  destruct (@install_uninstall_outcome w tid t Ht D)
    as [r [w' [E [[-> [F _]]|[_ [_ [[e' He]|[H|H]]]]]]]]; try congruence.
  rewrite E. exists w'. split; [reflexivity|exact F].
Qed.

(** X23. An exception inside the Uninstall strategy ends the thread with
    code 1. Outside demo mode, when the package list cannot be read, or
    the temporary file of the nouveau configuration cannot be written or
    cannot be deleted, a thread of type uninstall still does not raise:
    [finished] is emitted once, with code 1, no restart is asked for and
    [restart_needed] is left as it was. *)
Theorem uninstall_reports_failure (w : World) (tid : nat) (t : InstallationThread) :
  nth_error (threads w) tid = Some t ->
  install_type t = "uninstall" ->
  demo_mode (system w) = false ->
  ((exists e, installed_packages_outside_demo host (distro_family (system w)) = Raise e)
   \/ Env.can_write host NOUVEAU_TMP_FILE = false
   \/ Env.can_unlink host NOUVEAU_TMP_FILE = false) ->
  exists w',
    thread_run host tid w = (Val tt, w')
    /\ finished_with tid w 1 false w'.
Proof.
  intros Ht Ty D H.
  unfold thread_run. unfold bind at 1. unfold get_thread.
  unfold bind at 1. unfold get_world at 1. rewrite Ht. unfold ret at 1.
  rewrite Ty. cbn [String.eqb Ascii.eqb Bool.eqb]. unfold try_except at 1.
  destruct (@install_uninstall_outcome w tid t Ht D)
    as [r [w1 [E [[_ [_ [[pkgs Hp] [Wr Un]]]]|[[e ->] [X _]]]]]].
  { exfalso. destruct H as [[e He]|[H|H]]; congruence. }
  rewrite E. cbv beta iota.
  destruct (@rescue_total host tid t w Ht e w1 X) as [w' [E' F]].
  rewrite E'. exists w'. split; [reflexivity|exact F].
Qed.

(** X24. Off the Fedora family the repository upgrade ends with the code
    of its two commands. Outside demo mode, for a thread of type
    upgrade_repo and a driver package found, the thread never raises and
    ends with code 0, asking for a restart, exactly when both
    [apt-get update] and [apt-get install --only-upgrade] of the package
    exit with code 0; otherwise it ends with code 1 and asks for none. *)
Theorem upgrade_result_follows_apt (w : World) (tid : nat) (t : InstallationThread)
        (pkg : string) :
  nth_error (threads w) tid = Some t ->
  install_type t = "upgrade_repo" ->
  demo_mode (system w) = false ->
  String.eqb (distro_family (system w)) "fedora" = false ->
  fst (get_installed_nvidia_driver_package host w) = Val (Some pkg) ->
  PyStr.truthy pkg = true ->
  exists w',
    thread_run host tid w = (Val tt, w')
    /\ finished_with tid w
         (if sudo_succeeds host false t ["apt-get"; "update"; "-y"]
             && sudo_succeeds host false t
                              ["apt-get"; "install"; "--only-upgrade"; "-y"; pkg]
          then 0%Z else 1%Z)
         (sudo_succeeds host false t ["apt-get"; "update"; "-y"]
          && sudo_succeeds host false t
                           ["apt-get"; "install"; "--only-upgrade"; "-y"; pkg])
         w'.
Proof.
  intros Ht Ty D F Hp Tr.
  unfold thread_run. unfold bind at 1. unfold get_thread.
  unfold bind at 1. unfold get_world at 1. rewrite Ht. unfold ret at 1.
  rewrite Ty. cbn [String.eqb Ascii.eqb Bool.eqb]. unfold try_except at 1.
  unfold install_upgrade_repo. unfold bind at 1. unfold get_thread.
  unfold bind at 1. unfold get_world at 1. rewrite Ht. unfold ret at 1.
  unfold bind at 1. unfold get_world at 1. rewrite D.
  assert (X0 := @sx_get_installed_nvidia_driver_package host step_event sq w).
  unfold bind at 1.
  destruct (get_installed_nvidia_driver_package host w) as [r w1].
  cbn [fst] in Hp. cbn [snd] in X0. subst r. rewrite Tr. cbn [negb].
  step_by (@sx_log host step_event sq (_tr "log_updating_repo_pkg" [pkg]) "INFO")
    as v15 V15.
  step_by (@runs_event step_event (EvProgress 20) I) as v16 V16.
  step_by (@sx_ensure_network host step_event sq t) as v17 V17.
  assert (X3 : extends step_event w v17) by chain.
  unfold bind at 1. unfold get_world at 1.
  rewrite (extends_family X3), F.
  destruct (run_cmd_value host t ["apt-get"; "update"; "-y"] true 300 false None v17)
    as [w4 [E4 X4]].
  apply probes_step in X4.
  unfold bind at 1. rewrite E4. clear E4. cbn [fst].
  rewrite run_cmd_code_plain, (extends_demo X3), D.
  unfold sudo_succeeds.
  destruct (rc_of (command_result host false ["apt-get"; "update"; "-y"] true 300
                                  (param_sudo_password t)) =? 0)%Z;
    cbn [negb andb].
  - assert (X5 : extends step_event w w4) by chain.
    destruct (run_cmd_value host t ["apt-get"; "install"; "--only-upgrade"; "-y"; pkg]
                            true 300 false None w4) as [w6 [E6 X6]].
    apply probes_step in X6.
    unfold bind at 1. rewrite E6. clear E6. cbn [fst].
    rewrite run_cmd_code_plain, (extends_demo X5), D.
    destruct (rc_of _ =? 0)%Z.
    + step_by (@runs_event step_event (EvProgress 100) I) as v18 V18.
      step_by (@sx_log host step_event sq (_tr "log_driver_updated" [pkg]) "SUCCESS")
        as v19 V19.
      assert (X : extends step_event w v19) by chain.
      destruct (@restart_finish_total host tid t w Ht v19 X) as [w' [E F']].
      rewrite E. exists w'. split; [reflexivity|exact F'].
    + step_by (@sx_log host step_event sq (_tr "log_update_failed" []) "ERROR") as v20 V20.
      assert (X : extends step_event w v20) by chain.
      destruct (@finish_total host tid t w Ht 1 v20 X) as [w' [E F']].
      rewrite E. exists w'. split; [reflexivity|exact F'].
  - step_by (@sx_log host step_event sq (_tr "log_update_repo_failed" []) "ERROR") as v21 V21.
    assert (X : extends step_event w v21) by chain.
    destruct (@finish_total host tid t w Ht 1 v21 X) as [w' [E F']].
    rewrite E. exists w'. split; [reflexivity|exact F'].
Qed.

End Reports.

Section Requirements.

Variable host : Env.Host.

Lemma add_issue_eq query issue issues w :
  add_issue host query issue issues w
  = (Val (if negb (rc_of (command_result host (demo_mode (system w)) query false 300 None)
                   =? 0)%Z
          then (issues ++ [issue])%list else issues),
     if demo_mode (system w) then w
     else add_event (EvProc (invocation_of query false 300 None)) w).
Proof. unfold add_issue, bind. rewrite run_command_eq. reflexivity. Qed.

Lemma add_issue_step query issue issues w :
  exists added w',
    add_issue host query issue issues w = (Val ((issues ++ added)%list), w')
    /\ List.length added <= 1
    /\ extends probe_event w w'.
Proof.
  rewrite add_issue_eq.
  exists (if negb (rc_of (command_result host (demo_mode (system w)) query false 300 None)
                   =? 0)%Z then [issue] else []).
  eexists. split; [|split].
  - destruct (negb _); [reflexivity|now rewrite app_nil_r].
  - destruct (negb _); cbn; lia.
  - destruct (demo_mode (system w)); [apply extends_refl|apply extends_event; exact I].
Qed.

(** X25. [check_requirements] always returns, and its verdict is yes
    exactly when it lists no issue; it lists at most three. On its way it
    starts child processes only. For an install type other than nvk, repo
    and run, and for repo and run on the Fedora family, it lists no issue
    and touches nothing. *)
Theorem check_requirements_verdict (install_type : string) (w : World) :
  exists ok issues w',
    check_requirements host install_type w = (Val (ok, issues), w')
    /\ (ok = true <-> issues = [])
    /\ List.length issues <= 3
    /\ extends probe_event w w'
    /\ ((~ In install_type ["nvk"; "repo"; "run"]
         \/ (In install_type ["repo"; "run"]
             /\ String.eqb (distro_family (system w)) "fedora" = true))
        -> issues = [] /\ w' = w).
Proof.
  assert (V : forall issues : list string,
             (match issues with [] => true | _ => false end) = true <-> issues = []).
  { intros [|i l]; split; intros H; try reflexivity; discriminate. }
  unfold check_requirements. unfold bind at 1.
  destruct (String.eqb_spec install_type "nvk") as [->|N1].
  { match goal with
    | |- context [add_issue host ?q ?i ?l w] =>
        destruct (add_issue_step q i l w) as [added [w1 [E [L X]]]]
    end.
    rewrite E. eexists _, _, w1. split; [reflexivity|].
    split; [apply V|]. split.
    - rewrite length_app. destruct kernel_major as [major|e]; [|cbn; lia].
      destruct (major <? 6)%Z; cbn; lia.
    - split; [exact X|]. intros [H|[H _]]; exfalso.
      + apply H. cbn. tauto.
      + cbn in H. destruct H as [H|[H|[]]]; discriminate H. }
  cbn [existsb orb].
  destruct (String.eqb install_type "repo" || String.eqb install_type "run") eqn:T.
  - rewrite orb_false_r, T.
    unfold bind at 1. unfold get_world at 1.
    destruct (String.eqb (distro_family (system w)) "fedora") eqn:F.
    + exists true, [], w. split; [reflexivity|]. split; [apply (V [])|].
      split; [cbn; lia|]. split; [apply extends_refl|]. intros _. split; reflexivity.
    + match goal with
      | |- context [bind (add_issue host ?q ?i ?l) ?k w] =>
          destruct (add_issue_step q i l w) as [a1 [w1 [E1 [L1 X1]]]]
      end.
      unfold bind at 1. rewrite E1. clear E1.
      match goal with
      | |- context [bind (add_issue host ?q ?i ?l) ?k w1] =>
          destruct (add_issue_step q i l w1) as [a2 [w2 [E2 [L2 X2]]]]
      end.
      unfold bind at 1. rewrite E2. clear E2.
      match goal with
      | |- context [add_issue host ?q ?i ?l w2] =>
          destruct (add_issue_step q i l w2) as [a3 [w3 [E3 [L3 X3]]]]
      end.
      rewrite E3. clear E3.
      eexists _, _, w3. split; [reflexivity|]. split; [apply V|].
      split; [rewrite !length_app; cbn; lia|]. split; [chain|].
      intros [H|[_ H]]; [|discriminate H]. exfalso. apply H.
      apply orb_true_iff in T. destruct T as [T|T]; apply String.eqb_eq in T;
        subst; cbn; tauto.
  - rewrite orb_false_r, T.
    exists true, [], w. split; [reflexivity|]. split; [apply (V [])|].
    split; [cbn; lia|]. split; [apply extends_refl|]. intros _. split; reflexivity.
Qed.

End Requirements.

Section ReadBack.

Variable host : Env.Host.

(** A record of [BACKUP_DIR] is read under its path. *)
Lemma read_json_backup name v w :
  dict_get (backup_dir w) name = Some (Document v) ->
  read_json host (path_join (BACKUP_DIR host) name) w = (Val v, w).
Proof.
  intros G. unfold read_json, bind, get_world, path_join.
  rewrite <- append_assoc. unfold PyStr.startswith. rewrite prefix_app_refl.
  rewrite string_length_append with (b := name).
  replace (String.length (BACKUP_DIR host +:+ "/") + String.length name
           - String.length (BACKUP_DIR host +:+ "/")) with (String.length name) by lia.
  rewrite substring_suffix, G. reflexivity.
Qed.

(** X26. A snapshot can be read back. Outside demo mode, in a directory
    with room left, when the package list can be read and the file
    written, [create_backup] returns a path under which [read_json] finds
    the record just written: it holds the packages installed at the time,
    in their order, the install type and the target version. *)
Theorem snapshot_reads_back (w : World) (install_type target_version : string)
        (pk : list string) :
  demo_mode (system w) = false ->
  installed_packages_outside_demo host (distro_family (system w)) = Val pk ->
  Env.can_write host (backup_path host (now w)) = true ->
  List.length (glob_backups (backup_dir w)) < MAX_BACKUPS ->
  exists w' path record,
    create_backup host install_type target_version w = (Val (Some path), w')
    /\ read_json host path w' = (Val record, w')
    /\ json_get record "packages" (JList []) = Val (JList (map JStr pk))
    /\ json_get record "install_about_to" JNull = Val (JStr install_type)
    /\ json_get record "target_version" JNull = Val (JStr target_version)
    /\ json_get record "previous_driver" JNull
       = Val (JStr (current_driver_outside_demo host)).
Proof.
  intros D P Wr L.
  destruct (@create_backup_small host install_type target_version pk w D P Wr)
    as [w' [E [_ B]]].
  { intros data. assert (G := glob_backups_set (backup_dir w) (backup_name (now w)) data).
    lia. }
  exists w', (backup_path host (now w)),
    (backup_record (now w) (current_driver_outside_demo host) pk install_type
                   target_version).
  split; [exact E|]. split; [|repeat split].
  apply read_json_backup. rewrite B, dict_get_set, String.eqb_refl. reflexivity.
Qed.

End ReadBack.

Section NoSnapshotNoStop.

Variable host : Env.Host.

(** What a snapshot that fails leaves: no record, and the directory as it
    was unless the file was opened before the write failed. *)
Lemma create_backup_fails install_type target_version w :
  demo_mode (system w) = false ->
  ((exists e, installed_packages_outside_demo host (distro_family (system w)) = Raise e)
   \/ Env.can_write host (backup_path host (now w)) = false) ->
  exists w',
    create_backup host install_type target_version w = (Val None, w')
    /\ same_session w w'
    /\ backups_written (trace w') = backups_written (trace w)
    /\ backup_dir w'
       = match installed_packages_outside_demo host (distro_family (system w)) with
         | Val _ =>
             if Env.write_truncates host (backup_path host (now w))
             then dict_set (backup_dir w) (backup_name (now w)) Broken
             else backup_dir w
         | Raise _ => backup_dir w
         end.
Proof.
  intros D H.
  assert (C := create_backup_cases host install_type target_version w D).
  destruct (installed_packages_outside_demo host (distro_family (system w))) as [pk|e].
  - destruct H as [[e He]|Wr]; [discriminate He|].
    cbv zeta in C. rewrite Wr in C. destruct C as [w2 [w' [X2 [X3 E]]]].
    exists w'. split; [exact E|].
    assert (S2 := extends_session X2). assert (S3 := extends_session X3).
    apply extends_keeps in X2, X3. destruct X2 as [B2 T2]. destruct X3 as [B3 T3].
    rewrite T3, B3.
    destruct (Env.write_truncates host (backup_path host (now w)));
      cbn [trace backup_dir set_backup_dir]; (split; [|split; [exact T2|]]);
      try solve [assumption|reflexivity];
      (eapply same_session_trans; [exact S2|]);
      (eapply same_session_trans; [|exact S3]); repeat split.
  - destruct C as [w' [E X]]. exists w'. split; [exact E|].
    split; [exact (extends_session X)|]. apply extends_keeps in X. exact (conj (proj2 X) (proj1 X)).
Qed.

(** A snapshot that fails, then the log file and the thread. *)
Lemma failed_snapshot_then_start install_type target_version log_name thread_type
      (params : World -> list (string * json)) slot w :
  demo_mode (system w) = false ->
  ((exists e, installed_packages_outside_demo host (distro_family (system w)) = Raise e)
   \/ Env.can_write host (backup_path host (now w)) = false) ->
  exists w' before,
    (create_backup host install_type target_version ;;;
     start_log host log_name ;;;
     w2 <- get_world ;; start_thread thread_type (params w2) slot) w = (Val tt, w')
    /\ trace w' = before ++ [EvThreadStart (List.length (threads w))]
    /\ backups_written (trace w') = backups_written (trace w)
    /\ backup_dir w'
       = match installed_packages_outside_demo host (distro_family (system w)) with
         | Val _ =>
             if Env.write_truncates host (backup_path host (now w))
             then dict_set (backup_dir w) (backup_name (now w)) Broken
             else backup_dir w
         | Raise _ => backup_dir w
         end.
Proof.
  intros D H.
  destruct (create_backup_fails install_type target_version w D H) as [w1 [E1 [S1 [W1 B1]]]].
  unfold bind at 1. rewrite E1. unfold bind at 1.
  destruct (kb_start_log host log_name w1) as [[] [w2 [E2 K2]]].
  destruct (runs_start_log host log_name w1) as [[] [w2' [E2' S2]]].
  rewrite E2 in E2'. inversion E2'; subst w2'. rewrite E2.
  unfold bind at 1. unfold get_world at 1. rewrite start_thread_eq.
  eexists _, (trace w2). split; [reflexivity|]. split; [|split].
  - cbn. do 2 f_equal. f_equal.
    destruct S1 as [_ [_ [_ [_ [_ [T1 _]]]]]].
    destruct S2 as [_ [_ [_ [_ [_ [T2 _]]]]]]. congruence.
  - destruct K2 as [B2 W2]. cbn. rewrite backups_written_app. cbn. rewrite app_nil_r.
    congruence.
  - destruct K2 as [B2 W2]. cbn. rewrite B2. exact B1.
Qed.

(** X27. A snapshot that fails does not stop the install. Outside demo
    mode, once the sudo check has passed and the questions asked are
    answered yes, when the package list cannot be read or the snapshot
    file cannot be written, each of the four install entry points still
    starts its thread as its last step, and no record is written.
    [BACKUP_DIR] stays as it was when the package list could not be read
    or the file could not be opened; when the file was opened and the
    write failed after that, the directory holds an emptied file of the
    snapshot's name. *)
Theorem failed_snapshot_does_not_stop_the_install (w w1 : World)
        (version_type : string) (request : M unit) :
  demo_mode (system w) = false ->
  check_sudo host w = (Val true, w1) ->
  demo_mode (system w1) = false ->
  (forall question, Env.user_confirms host question = true) ->
  ((exists e, installed_packages_outside_demo host (distro_family (system w1)) = Raise e)
   \/ Env.can_write host (backup_path host (now w1)) = false) ->
  In request [install_nvk host; install_repo host; install_repo_latest host;
              install_nvidia_run host version_type] ->
  exists w' before,
    request w = (Val tt, w')
    /\ trace w' = before ++ [EvThreadStart (List.length (threads w1))]
    /\ backups_written (trace w') = backups_written (trace w1)
    /\ backup_dir w'
       = match installed_packages_outside_demo host (distro_family (system w1)) with
         | Val _ =>
             if Env.write_truncates host (backup_path host (now w1))
             then dict_set (backup_dir w1) (backup_name (now w1)) Broken
             else backup_dir w1
         | Raise _ => backup_dir w1
         end.
Proof.
  intros D C D1 Y H I.
  destruct (@requests_reach_the_snapshot host w w1 version_type request D C Y I)
    as [install_type [target_version [log_name [thread_type [params [slot [w5 [X E]]]]]]]].
  rewrite E. destruct (probes_keep X) as [Dm [Fm [Nw [Th Bw]]]].
  destruct (@failed_snapshot_then_start install_type target_version log_name thread_type
              params slot w5) as [w' [before [E' [T [W B]]]]].
  - congruence.
  - rewrite Fm, Nw. exact H.
  - exists w', before. split; [exact E'|]. split; [now rewrite <- Th|].
    split; [congruence|]. destruct X as [_ [B5 _]]. rewrite B, Fm, Nw, B5. reflexivity.
Qed.

End NoSnapshotNoStop.

(** ** The reports on the sample hosts *)

Lemma dependencies_hinge_on_the_install_witness :
  let host := sample_host stale_index_exec in
  let w := sample_world "ubuntu" in
  exists w',
    _ensure_dependencies host repo_thread w = (Val true, w')
    /\ extends probe_event w w'.
Proof.
  intros host w.
  apply (@dependencies_hinge_on_the_install host w repo_thread ["dkms"]).
  - reflexivity.
  - vm_compute. reflexivity.
Defined.

Lemma uninstall_reports_success_witness :
  let host := sample_host every_command_fails in
  let w := world_with_thread uninstall_thread in
  exists w',
    thread_run host 0 w = (Val tt, w')
    /\ finished_with 0 w 0 true w'.
Proof.
  intros host w.
  apply (@uninstall_reports_success host w 0 uninstall_thread []).
  - reflexivity.
  - reflexivity.
  - reflexivity.
  - vm_compute. reflexivity.
  - reflexivity.
  - reflexivity.
Defined.

Lemma upgrade_result_follows_apt_witness :
  let host := sample_host held_package_exec in
  let w := world_with_thread upgrade_thread in
  exists w',
    thread_run host 0 w = (Val tt, w')
    /\ finished_with 0 w 1 false w'.
Proof.
  intros host w.
  apply (@upgrade_result_follows_apt host w 0 upgrade_thread "nvidia-driver-580-open").
  - reflexivity.
  - reflexivity.
  - reflexivity.
  - reflexivity.
  - vm_compute. reflexivity.
  - reflexivity.
Defined.

Lemma snapshot_reads_back_witness :
  let w := sample_world "ubuntu" in
  exists w' path record,
    create_backup proprietary_host "repo" "580.95.05" w = (Val (Some path), w')
    /\ read_json proprietary_host path w' = (Val record, w')
    /\ json_get record "packages" (JList [])
       = Val (JList [JStr "libnvidia-gl-550:amd64"; JStr "nvidia-driver-550"])
    /\ json_get record "install_about_to" JNull = Val (JStr "repo")
    /\ json_get record "target_version" JNull = Val (JStr "580.95.05")
    /\ json_get record "previous_driver" JNull = Val (JStr "550.90.07").
Proof.
  intros w.
  apply (@snapshot_reads_back proprietary_host w "repo" "580.95.05"
           ["libnvidia-gl-550:amd64"; "nvidia-driver-550"]).
  - reflexivity.
  - vm_compute. reflexivity.
  - reflexivity.
  - vm_compute. lia.
Defined.

Lemma uninstall_reports_failure_witness :
  let w := world_with_thread uninstall_thread in
  exists w',
    thread_run read_only_host 0 w = (Val tt, w')
    /\ finished_with 0 w 1 false w'.
Proof.
  intros w.
  apply (@uninstall_reports_failure read_only_host w 0 uninstall_thread).
  - reflexivity.
  - reflexivity.
  - reflexivity.
  - right. left. reflexivity.
Defined.

Lemma failed_snapshot_does_not_stop_the_install_witness :
  let w := sample_world "ubuntu" in
  (exists w' before,
      install_repo read_only_host w = (Val tt, w')
      /\ trace w' = before ++ [EvThreadStart 0]
      /\ backups_written (trace w') = []
      /\ backup_dir w' = [])
  /\ (exists w' before,
         install_repo full_disk_host w = (Val tt, w')
         /\ trace w' = before ++ [EvThreadStart 0]
         /\ backups_written (trace w') = []
         /\ backup_dir w' = [("backup-20250314-092653.json", Broken)]).
Proof.
  intros w. split.
  - apply (@failed_snapshot_does_not_stop_the_install read_only_host w
             (snd (check_sudo read_only_host w)) "production" (install_repo read_only_host)).
    + reflexivity.
    + vm_compute. reflexivity.
    + reflexivity.
    + reflexivity.
    + right. reflexivity.
    + cbn. tauto.
  - apply (@failed_snapshot_does_not_stop_the_install full_disk_host w
             (snd (check_sudo full_disk_host w)) "production" (install_repo full_disk_host)).
    + reflexivity.
    + vm_compute. reflexivity.
    + reflexivity.
    + reflexivity.
    + right. reflexivity.
    + cbn. tauto.
Defined.
